(** * Agent memory and pattern miner: a shallow embedding

    The development follows [agent_memory.py] (class [AgentMemory]) and
    [pattern_miner.py] ([mine_agent]).

    - A store is the three SQLite tables of [_init_db], each a list of rows
      in rowid (insertion) order.
    - Python [float] is IEEE binary64: Rocq's primitive [float].
    - Python [str] and SQLite [TEXT] are kept as the UTF-8 encoding of the
      text, a [string] of bytes. [len] and the slice [s[:n]] count code
      points ([Text.len], [Text.take]), and so does the [_] of [LIKE].
    - SQLite's [LOWER] and [LIKE] fold the ASCII letters only, on every
      text ([Text.lower], [Like.like]). The [str.lower] and [str.split]
      that [get_relevant_context] applies to the situation are embedded
      for ASCII text, by [Text.lower] and [Text.split]: the theorems on a
      situation are stated for a situation with [Text.ascii_text]. The
      [str.lower] of the miner's keywords is [Text.str_lower], which is
      exact on the ASCII characters of the result, the only ones its
      pattern reads, on every text.
    - [datetime.now(ET).isoformat()] strings are compared by SQLite as text.
      At a fixed UTC offset that order is the order of the wall-clock
      instants, so a timestamp is kept as its instant, in microseconds
      from a local midnight ([timestamp := Z]); the empty [expires_at] is
      [None].
    - Python [int] is [Z]; counts turned into floats are below 2^53.
    - [uuid.uuid4().hex[:10]] and the clock are inputs of the operations.
    - The [tags] column holds [json.dumps] of a list of strings and is read
      back with [json.loads]; the model keeps the list.
    - Every method runs in the monad [M]: it returns or raises, and the
      store it leaves behind is kept in both cases (each method commits
      statement by statement). *)

From Stdlib Require Import ZArith List String Ascii Bool Lia Floats Uint63.
From Stdlib Require Import Permutation Sorted DecimalString.
Import ListNotations.

#[local] Set Warnings "-inexact-float".
#[local] Open Scope string_scope.
#[local] Open Scope Z_scope.
#[local] Open Scope list_scope.

(** ** Text *)

Module Text.

Infix "^^" := String.append (at level 60, right associativity).

(** A [str] is kept as its UTF-8 encoding, one [ascii] per byte. A byte
    from 128 to 191 continues the code point begun before it; every other
    byte begins one. *)
Definition is_continuation (c : ascii) : bool :=
  let n := nat_of_ascii c in (Nat.leb 128 n && Nat.leb n 191)%bool.

(** [len(s)]: the number of code points. *)
Fixpoint len (s : string) : nat :=
  match s with
  | EmptyString => O
  | String c s' => if is_continuation c then len s' else S (len s')
  end.

(** [s[:n]], and SQLite's view of the same text: the first [n] code
    points, each with all its bytes. *)
Fixpoint take (n : nat) (s : string) {struct s} : string :=
  match s with
  | EmptyString => EmptyString
  | String c s' =>
      if is_continuation c then String c (take n s')
      else match n with
           | O => EmptyString
           | S n' => String c (take n' s')
           end
  end.

(** [s.isascii()]: every code point is below 128. *)
Fixpoint ascii_text (s : string) : bool :=
  match s with
  | EmptyString => true
  | String c s' => (Nat.ltb (nat_of_ascii c) 128 && ascii_text s')%bool
  end.

Definition is_upper (c : ascii) : bool :=
  let n := nat_of_ascii c in (Nat.leb 65 n && Nat.leb n 90)%bool.

(** [str.lower] and SQLite's [LOWER] on one ASCII character. *)
Definition lower_ascii (c : ascii) : ascii :=
  if is_upper c then ascii_of_nat (nat_of_ascii c + 32) else c.

(** SQLite's [LOWER] and the case folding of its [LIKE]: the letters [A]
    to [Z] are folded and every other byte is kept. On a text for which
    [ascii_text] holds this is [str.lower]; Python folds the letters
    beyond ASCII too, which this function leaves alone. *)
Fixpoint lower (s : string) : string :=
  match s with
  | EmptyString => EmptyString
  | String c s' => String (lower_ascii c) (lower s')
  end.

(** The ASCII characters for which [str.isspace] holds:
    TAB, LF, VT, FF, CR, FS, GS, RS, US and SPACE. Python also splits at
    the spaces beyond ASCII (U+0085, U+00A0, U+2000 and the like), which
    no text with [ascii_text] holds. *)
Definition is_space (c : ascii) : bool :=
  let n := nat_of_ascii c in
  ((Nat.leb 9 n && Nat.leb n 13) || (Nat.leb 28 n && Nat.leb n 32))%bool.

(** [s.split()] on an ASCII text: the maximal runs of non-space
    characters. [cur] is the word being read, in reverse. *)
Fixpoint split_aux (cur : list ascii) (s : string) : list string :=
  let flush (rest : list string) :=
    match cur with
    | [] => rest
    | _ => string_of_list_ascii (rev cur) :: rest
    end in
  match s with
  | EmptyString => flush []
  | String c s' =>
      if is_space c then flush (split_aux [] s')
      else split_aux (c :: cur) s'
  end.

Definition split (s : string) : list string := split_aux [] s.

(** [str(n)] for a Python int. *)
Definition str_of_Z (n : Z) : string := NilZero.string_of_int (Z.to_int n).

(** [needle in hay], case-sensitive. *)
Fixpoint prefix_of (p s : string) : bool :=
  match p, s with
  | EmptyString, _ => true
  | String a p', String b s' => (Ascii.eqb a b && prefix_of p' s')%bool
  | String _ _, EmptyString => false
  end.

Fixpoint contains (needle hay : string) : bool :=
  (prefix_of needle hay ||
   match hay with
   | EmptyString => false
   | String _ hay' => contains needle hay'
   end)%bool.

(** U+212A, the Kelvin sign, and U+0130, capital I with a dot above, in
    UTF-8; U+0307, the combining dot above. *)
Definition kelvin_sign : string :=
  String (ascii_of_nat 226) (String (ascii_of_nat 132) (String (ascii_of_nat 170) "")).

Definition dotted_capital_i : string :=
  String (ascii_of_nat 196) (String (ascii_of_nat 176) "").

Definition combining_dot : string :=
  String (ascii_of_nat 204) (String (ascii_of_nat 135) "").

(** [str.lower], as far as the ASCII characters of the result go. The
    letters [A] to [Z] are folded. Beyond ASCII, two characters have an
    ASCII letter in their lower case: the Kelvin sign gives [k], and the
    capital I with a dot gives [i] and a combining dot. Every other
    character beyond ASCII is kept as it is, where Python may put another
    character, which is beyond ASCII as well. [skip] counts the bytes
    still to drop of a character that has been replaced. *)
Fixpoint lower_from (skip : nat) (s : string) : string :=
  match s with
  | EmptyString => EmptyString
  | String c s' =>
      match skip with
      | S k => lower_from k s'
      | O =>
          if prefix_of kelvin_sign s then String "k"%char (lower_from 2 s')
          else if prefix_of dotted_capital_i s
          then String "i"%char (combining_dot ^^ lower_from 1 s')
          else String (lower_ascii c) (lower_from 0 s')
      end
  end.

Definition str_lower (s : string) : string := lower_from 0 s.

End Text.
Import Text.

(** ** SQLite's LIKE

    The default [LIKE] of SQLite, without ESCAPE: [%] stands for any run
    of characters, [_] for exactly one character (a code point with all
    its bytes), and any other character stands for itself up to ASCII
    case. *)

Module Like.

Definition percent : ascii := "%"%char.
Definition underscore : ascii := "_"%char.

Definition same_nocase (a b : ascii) : bool :=
  Ascii.eqb (lower_ascii a) (lower_ascii b).

(** The rest of a text after the bytes that continue a code point. *)
Fixpoint skip_continuation (s : string) : string :=
  match s with
  | EmptyString => EmptyString
  | String c s' => if is_continuation c then skip_continuation s' else s
  end.

Fixpoint like (pat : string) : string -> bool :=
  match pat with
  | EmptyString =>
      fun s => match s with EmptyString => true | _ => false end
  | String p pat' =>
      if Ascii.eqb p percent then
        fix skip (s : string) : bool :=
          (like pat' s ||
           match s with
           | EmptyString => false
           | String _ s' => skip s'
           end)%bool
      else if Ascii.eqb p underscore then
        fun s => match s with
                 | EmptyString => false
                 | String _ s' => like pat' (skip_continuation s')
                 end
      else
        fun s => match s with
                 | EmptyString => false
                 | String c s' => (same_nocase p c && like pat' s')%bool
                 end
  end.

(** The pattern bound by [f"%{w}%"]. *)
Definition around (w : string) : string := "%" ^^ w ^^ "%".

End Like.

(** ** Python floats *)

Module Py.

#[local] Open Scope float_scope.

(** [min(a, b)] and [max(a, b)] keep the first argument unless the second
    is strictly smaller (greater). *)
Definition min (a b : float) : float := if PrimFloat.ltb b a then b else a.
Definition max (a b : float) : float := if PrimFloat.ltb a b then b else a.

(** [max(lo, min(hi, x))] *)
Definition clamp (lo hi x : float) : float := max lo (min hi x).

(** [float(n)] for an int with [0 <= n < 2^53]. *)
Definition float_of_Z (n : Z) : float := PrimFloat.of_uint63 (Uint63.of_Z n).

(** [a / b] on ints (true division); the callers guard [b <> 0]. *)
Definition truediv (a b : Z) : float := float_of_Z a / float_of_Z b.

(** The integer nearest to [m * 2^e], ties to even. *)
Definition round_half_even (m : positive) (e : Z) : Z :=
  if (0 <=? e)%Z then (Zpos m * 2 ^ e)%Z
  else
    let d := (2 ^ (- e))%Z in
    let q := (Zpos m / d)%Z in
    let r := (Zpos m mod d)%Z in
    match (2 * r ?= d)%Z with
    | Lt => q
    | Gt => (q + 1)%Z
    | Eq => if Z.even q then q else (q + 1)%Z
    end.

(** [f"{x:.0%}"]: [x * 100] in fixed notation with no decimals. *)
Definition format_pct0 (x : float) : string :=
  match Prim2SF (x * 100) with
  | S754_zero s => if s then "-0%" else "0%"
  | S754_infinity s => if s then "-inf%" else "inf%"
  | S754_nan => "nan%"
  | S754_finite s m e =>
      (if s then "-" else "") ^^ str_of_Z (round_half_even m e) ^^ "%"
  end%string.

End Py.

(** ** The tables *)

Definition timestamp := Z.

Record decision := mk_decision {
  d_id : string;
  d_timestamp : timestamp;
  d_context : string;
  d_decision : string;
  d_reasoning : string;
  d_confidence : float;
  d_outcome : string;
  d_outcome_score : float;
  d_resolved : bool;
  d_tags : list string
}.

Record pattern := mk_pattern {
  p_id : string;
  p_pattern_type : string;
  p_description : string;
  p_evidence_count : Z;
  p_confidence : float;
  p_active : bool;
  p_created_at : timestamp;
  p_updated_at : timestamp;
  p_tags : list string
}.

Record knowledge := mk_knowledge {
  k_id : string;
  k_category : string;
  k_key : string;
  k_value : string;
  k_source : string;
  k_ttl_hours : Z;
  k_created_at : timestamp;
  k_expires_at : option timestamp
}.

Record db := mk_db {
  decisions : list decision;
  patterns : list pattern;
  knowledges : list knowledge
}.

Definition empty_db : db := mk_db [] [] [].

Definition with_decisions (ds : list decision) (w : db) : db :=
  mk_db ds (patterns w) (knowledges w).
Definition with_patterns (ps : list pattern) (w : db) : db :=
  mk_db (decisions w) ps (knowledges w).
Definition with_knowledges (ks : list knowledge) (w : db) : db :=
  mk_db (decisions w) (patterns w) ks.

(** ** Calls that return or raise *)

Inductive error :=
| IntegrityError     (* a PRIMARY KEY is inserted twice *)
| ProgrammingError.  (* "Incorrect number of bindings supplied" *)

Inductive outcome (A : Type) :=
| Return (a : A)
| Raise (e : error).
Arguments Return {A} a.
Arguments Raise {A} e.

Definition M (A : Type) : Type := db -> outcome A * db.

Definition ret {A} (a : A) : M A := fun w => (Return a, w).
Definition raise {A} (e : error) : M A := fun w => (Raise e, w).
Definition bind {A B} (m : M A) (k : A -> M B) : M B :=
  fun w =>
    match m w with
    | (Return a, w') => k a w'
    | (Raise e, w') => (Raise e, w')
    end.
Definition get_db : M db := fun w => (Return w, w).

Notation "x <- m ;; k" := (bind m (fun x => k))
  (at level 61, m at next level, right associativity).
Notation "m ;;; k" := (bind m (fun _ => k))
  (at level 61, right associativity).

(** [for x in l: s = body(x, s)] *)
Fixpoint for_each {A S} (body : A -> S -> M S) (l : list A) (s : S) : M S :=
  match l with
  | [] => ret s
  | x :: l' => s' <- body x s ;; for_each body l' s'
  end.

(** ** SQL fragments *)

Module Sql.

(** [ORDER BY]: [before y x] says that [y] sorts strictly before [x].
    SQLite leaves the order of ties open; the model keeps them in rowid
    order (a stable insertion sort). *)
Fixpoint insert_by {A} (before : A -> A -> bool) (x : A) (l : list A) : list A :=
  match l with
  | [] => [x]
  | y :: l' => if before y x then y :: insert_by before x l' else x :: l
  end.

Definition sort_by {A} (before : A -> A -> bool) (l : list A) : list A :=
  fold_right (insert_by before) [] l.

(** [ORDER BY key DESC] *)
Definition order_by_desc {A} (key : A -> Z) : list A -> list A :=
  sort_by (fun y x => key x <? key y).

(** [LIMIT n]: a negative [n] puts no bound on the result. *)
Definition limit {A} (n : Z) (l : list A) : list A :=
  if n <? 0 then l else firstn (Z.to_nat n) l.

(** [cur.rowcount] of an UPDATE with the given [WHERE] clause. *)
Definition rowcount {A} (where_ : A -> bool) (l : list A) : Z :=
  Z.of_nat (List.length (filter where_ l)).

Definition update {A} (where_ : A -> bool) (set : A -> A) (l : list A) : list A :=
  map (fun r => if where_ r then set r else r) l.

End Sql.


(** ** [agent_memory.py]: class [AgentMemory] *)

Module AgentMemory.

#[local] Open Scope bool_scope.

Definition usec_per_hour : Z := 3600000000.

(** *** Decisions *)

(** [INSERT INTO decisions]: [id] is the PRIMARY KEY. *)
Definition insert_decision (d : decision) : M unit := fun w =>
  if existsb (fun r => String.eqb (d_id r) (d_id d)) (decisions w)
  then (Raise IntegrityError, w)
  else (Return tt, with_decisions (decisions w ++ [d]) w).

(** [now] is [datetime.now(ET)] and [hex] is [uuid.uuid4().hex[:10]].
    The columns left out of the INSERT take the defaults of the schema. *)
Definition record_decision (now : timestamp) (hex : string)
    (context decision reasoning : string) (confidence : float)
    (tags : list string) : M string :=
  let did := "dec_" ^^ hex in
  insert_decision
    {| d_id := did;
       d_timestamp := now;
       d_context := take 2000 context;
       d_decision := take 2000 decision;
       d_reasoning := take 2000 reasoning;
       d_confidence := Py.clamp 0 1 confidence;
       d_outcome := "";
       d_outcome_score := 0;
       d_resolved := false;
       d_tags := tags |} ;;;
  ret did.

Definition set_outcome (outcome : string) (score : float) (r : decision) : decision :=
  {| d_id := d_id r;
     d_timestamp := d_timestamp r;
     d_context := d_context r;
     d_decision := d_decision r;
     d_reasoning := d_reasoning r;
     d_confidence := d_confidence r;
     d_outcome := outcome;
     d_outcome_score := score;
     d_resolved := true;
     d_tags := d_tags r |}.

Definition record_outcome (decision_id outcome : string) (score : float) : M bool :=
  fun w =>
    let where_ r := String.eqb (d_id r) decision_id in
    let set := set_outcome (take 2000 outcome) (Py.clamp (-1) 1 score) in
    (Return (0 <? Sql.rowcount where_ (decisions w)),
     with_decisions (Sql.update where_ set (decisions w)) w).

Definition get_recent_decisions (limit : Z) (resolved_only : bool) : M (list decision) :=
  w <- get_db ;;
  let rows := if resolved_only then filter d_resolved (decisions w) else decisions w in
  ret (Sql.limit limit (Sql.order_by_desc d_timestamp rows)).

(** [conn.execute(sql, params)] raises when the statement has another
    number of [?] than there are parameters. *)
Definition check_bindings (placeholders supplied : nat) : M unit :=
  if Nat.eqb placeholders supplied then ret tt else raise ProgrammingError.

(** The rows come with the extra column [relevance], which counts the
    rows of [SELECT 1 WHERE conditions]: 1 on every row selected. *)
Definition get_relevant_context (situation : string) (limit : Z)
    : M (list (decision * Z)) :=
  let words := map lower (filter (fun w => Nat.leb 3 (len w)) (split situation)) in
  match words with
  | [] => ret []
  | _ =>
      (* one "LOWER(context) LIKE ?" per word, the clause used twice *)
      let conditions := List.length words in
      let params := map Like.around (firstn 10 words) in
      check_bindings (conditions + conditions + 1)
                     (List.length params + List.length params + 1) ;;;
      w <- get_db ;;
      let where_ r := existsb (fun p => Like.like p (lower (d_context r))) params in
      let rows := Sql.limit limit (Sql.order_by_desc d_timestamp (filter where_ (decisions w))) in
      ret (map (fun r => (r, if where_ r then 1 else 0)) rows)
  end.

Definition search_decisions (query : string) (limit : Z) : M (list decision) :=
  w <- get_db ;;
  let pattern := Like.around query in
  let where_ r := Like.like pattern (d_context r) || Like.like pattern (d_decision r) in
  ret (Sql.limit limit (Sql.order_by_desc d_timestamp (filter where_ (decisions w)))).

(** *** Patterns *)

Definition insert_pattern (p : pattern) : M unit := fun w =>
  if existsb (fun r => String.eqb (p_id r) (p_id p)) (patterns w)
  then (Raise IntegrityError, w)
  else (Return tt, with_patterns (patterns w ++ [p]) w).

Definition update_patterns (where_ : pattern -> bool) (set : pattern -> pattern)
    : M Z := fun w =>
  (Return (Sql.rowcount where_ (patterns w)),
   with_patterns (Sql.update where_ set (patterns w)) w).

Definition reinforce (new_count : Z) (new_conf : float) (now : timestamp)
    (r : pattern) : pattern :=
  {| p_id := p_id r;
     p_pattern_type := p_pattern_type r;
     p_description := p_description r;
     p_evidence_count := new_count;
     p_confidence := new_conf;
     p_active := p_active r;
     p_created_at := p_created_at r;
     p_updated_at := now;
     p_tags := p_tags r |}.

(** The WHERE clause of the lookup in [add_pattern]. *)
Definition same_pattern (pattern_type description : string) (r : pattern) : bool :=
  String.eqb (p_pattern_type r) pattern_type
  && String.eqb (p_description r) description
  && p_active r.

Definition add_pattern (now : timestamp) (hex : string)
    (pattern_type description : string) (evidence_count : Z)
    (confidence : float) (tags : list string) : M string :=
  w <- get_db ;;
  match find (same_pattern pattern_type description) (patterns w) with
  | Some existing =>
      let new_count := p_evidence_count existing + evidence_count in
      let new_conf := Py.min 0.99 (p_confidence existing + 0.05)%float in
      update_patterns (fun r => String.eqb (p_id r) (p_id existing))
                      (reinforce new_count new_conf now) ;;;
      ret (p_id existing)
  | None =>
      let pid := "pat_" ^^ hex in
      insert_pattern
        {| p_id := pid;
           p_pattern_type := take 100 pattern_type;
           p_description := take 1000 description;
           p_evidence_count := evidence_count;
           p_confidence := Py.clamp 0 1 confidence;
           p_active := true;
           p_created_at := now;
           p_updated_at := now;
           p_tags := tags |} ;;;
      ret pid
  end.

(** [ORDER BY confidence DESC, evidence_count DESC] *)
Definition pattern_before (y x : pattern) : bool :=
  PrimFloat.ltb (p_confidence x) (p_confidence y)
  || (PrimFloat.eqb (p_confidence x) (p_confidence y)
      && (p_evidence_count x <? p_evidence_count y)).

(** [if pattern_type:] holds for a non-empty string only. *)
Definition given (s : option string) : option string :=
  match s with
  | Some EmptyString => None
  | _ => s
  end.

Definition get_active_patterns (pattern_type : option string)
    (min_confidence : float) : M (list pattern) :=
  w <- get_db ;;
  let where_ r :=
    p_active r
    && match given pattern_type with
       | Some t => String.eqb (p_pattern_type r) t
       | None => true
       end
    && (if PrimFloat.ltb 0 min_confidence
        then PrimFloat.leb min_confidence (p_confidence r)
        else true) in
  ret (Sql.sort_by pattern_before (filter where_ (patterns w))).

Definition deactivate (r : pattern) : pattern :=
  {| p_id := p_id r;
     p_pattern_type := p_pattern_type r;
     p_description := p_description r;
     p_evidence_count := p_evidence_count r;
     p_confidence := p_confidence r;
     p_active := false;
     p_created_at := p_created_at r;
     p_updated_at := p_updated_at r;
     p_tags := p_tags r |}.

Definition deactivate_pattern (pattern_id : string) : M bool :=
  n <- update_patterns (fun r => String.eqb (p_id r) pattern_id) deactivate ;;
  ret (0 <? n).

(** *** Knowledge *)

Definition insert_knowledge (k : knowledge) : M unit := fun w =>
  if existsb (fun r => String.eqb (k_id r) (k_id k)) (knowledges w)
  then (Raise IntegrityError, w)
  else (Return tt, with_knowledges (knowledges w ++ [k]) w).

Definition update_knowledge (where_ : knowledge -> bool)
    (set : knowledge -> knowledge) : M Z := fun w =>
  (Return (Sql.rowcount where_ (knowledges w)),
   with_knowledges (Sql.update where_ set (knowledges w)) w).

Definition overwrite (value source : string) (ttl_hours : Z)
    (now : timestamp) (expires : option timestamp) (r : knowledge) : knowledge :=
  {| k_id := k_id r;
     k_category := k_category r;
     k_key := k_key r;
     k_value := value;
     k_source := source;
     k_ttl_hours := ttl_hours;
     k_created_at := now;
     k_expires_at := expires |}.

(** The WHERE clause of the lookup in [set_knowledge]. *)
Definition same_fact (category key : string) (r : knowledge) : bool :=
  String.eqb (k_category r) category && String.eqb (k_key r) key.

Definition set_knowledge (now : timestamp) (hex : string)
    (category key value source : string) (ttl_hours : Z) : M string :=
  let expires :=
    if 0 <? ttl_hours then Some (now + ttl_hours * usec_per_hour) else None in
  w <- get_db ;;
  match find (same_fact category key) (knowledges w) with
  | Some existing =>
      update_knowledge (fun r => String.eqb (k_id r) (k_id existing))
                       (overwrite (take 5000 value) (take 200 source)
                                  ttl_hours now expires) ;;;
      ret (k_id existing)
  | None =>
      let kid := "kn_" ^^ hex in
      insert_knowledge
        {| k_id := kid;
           k_category := take 100 category;
           k_key := take 200 key;
           k_value := take 5000 value;
           k_source := take 200 source;
           k_ttl_hours := ttl_hours;
           k_created_at := now;
           k_expires_at := expires |} ;;;
      ret kid
  end.

(** [expires_at != '' AND expires_at < now] *)
Definition expired (now : timestamp) (r : knowledge) : bool :=
  match k_expires_at r with
  | Some e => e <? now
  | None => false
  end.

Definition prune_expired (now : timestamp) : M unit := fun w =>
  (Return tt,
   with_knowledges (filter (fun r => negb (expired now r)) (knowledges w)) w).

Definition get_knowledge (now : timestamp) (category key : option string)
    : M (list knowledge) :=
  prune_expired now ;;;
  w <- get_db ;;
  let where_ r :=
    match given category with
    | Some c => String.eqb (k_category r) c
    | None => true
    end
    && match given key with
       | Some k => String.eqb (k_key r) k
       | None => true
       end in
  ret (Sql.order_by_desc k_created_at (filter where_ (knowledges w))).

(** *** Stats

    The counters of [get_stats]; the rounded rates, the 7-day count and
    the file size, which [mine_agent] does not read, are left out. *)

Record stats := mk_stats {
  total_decisions : Z;
  resolved_decisions : Z;
  unresolved_decisions : Z;
  active_patterns : Z;
  total_knowledge : Z;
  win_count : Z;
  loss_count : Z
}.

Definition count {A} (f : A -> bool) (l : list A) : Z :=
  Z.of_nat (List.length (filter f l)).

Definition get_stats : M stats :=
  w <- get_db ;;
  let total := Z.of_nat (List.length (decisions w)) in
  let resolved := count d_resolved (decisions w) in
  ret {| total_decisions := total;
         resolved_decisions := resolved;
         unresolved_decisions := total - resolved;
         active_patterns := count p_active (patterns w);
         total_knowledge := Z.of_nat (List.length (knowledges w));
         win_count :=
           count (fun r => d_resolved r && PrimFloat.ltb 0 (d_outcome_score r))
                 (decisions w);
         loss_count :=
           count (fun r => d_resolved r && PrimFloat.ltb (d_outcome_score r) 0)
                 (decisions w) |}.

End AgentMemory.

(** ** [pattern_miner.py] *)

Module PatternMiner.

#[local] Open Scope bool_scope.

Definition MIN_EVIDENCE : Z := 3.
Definition MIN_CONFIDENCE : float := 0.55%float.

(** [score > 0] and [score < 0] *)
Definition is_win (score : float) : bool := PrimFloat.ltb 0 score.
Definition is_loss (score : float) : bool := PrimFloat.ltb score 0.

(** *** Dictionaries

    A [dict] keeps its keys in insertion order; [defaultdict] and
    [Counter] create a key on first access. *)

Section Dict.
Context {K V : Type} (eqb : K -> K -> bool) (default : V).

(** [d[k] = f(d[k])] on a [defaultdict] *)
Fixpoint dict_update (k : K) (f : V -> V) (d : list (K * V)) : list (K * V) :=
  match d with
  | [] => [(k, f default)]
  | (k', v) :: d' =>
      if eqb k' k then (k', f v) :: d' else (k', v) :: dict_update k f d'
  end.

(** [d.get(k, default)] *)
Fixpoint dict_get (k : K) (d : list (K * V)) : V :=
  match d with
  | [] => default
  | (k', v) :: d' => if eqb k' k then v else dict_get k d'
  end.

Definition dict_has (k : K) (d : list (K * V)) : bool :=
  existsb (fun kv => eqb (fst kv) k) d.
End Dict.

(** *** Strategy 1: tags *)

Record tally := mk_tally { wins : Z; losses : Z; total : Z }.

Definition no_tally : tally := mk_tally 0 0 0.

(** The body of [for tag in tags]. *)
Definition count_tag (score : float) (c : tally) : tally :=
  let c := mk_tally (wins c) (losses c) (total c + 1) in
  if is_win score then mk_tally (wins c + 1) (losses c) (total c)
  else if is_loss score then mk_tally (wins c) (losses c + 1) (total c)
  else c.

Definition tag_outcomes (resolved : list decision) : list (string * tally) :=
  fold_left
    (fun acc dec =>
       fold_left
         (fun acc tag =>
            dict_update String.eqb no_tally tag (count_tag (d_outcome_score dec)) acc)
         (d_tags dec) acc)
    resolved [].

(** [wr = counts["wins"] / max(1, counts["wins"] + counts["losses"])] *)
Definition tag_win_rate (c : tally) : float :=
  Py.truediv (wins c) (Z.max 1 (wins c + losses c)).

Definition tag_description (tag : string) (c : tally) : string :=
  let wr := tag_win_rate c in
  let result := if PrimFloat.leb 0.5 wr then "wins" else "loses" in
  "Tag '" ^^ tag ^^ "': " ^^ result ^^ " " ^^ Py.format_pct0 wr
    ^^ " of the time (" ^^ str_of_Z (wins c) ^^ "W/" ^^ str_of_Z (losses c)
    ^^ "L over " ^^ str_of_Z (total c) ^^ " decisions)".

(** *** Strategy 2: keywords *)

Definition is_lower_letter (c : ascii) : bool :=
  let n := nat_of_ascii c in Nat.leb 97 n && Nat.leb n 122.

Definition is_digit (c : ascii) : bool :=
  let n := nat_of_ascii c in Nat.leb 48 n && Nat.leb n 57.

(** The class [[a-z0-9_]]. *)
Definition is_word_char (c : ascii) : bool :=
  is_lower_letter c || is_digit c || Ascii.eqb c "_"%char.

(** [re.findall(r'[a-z][a-z0-9_]+', text)]: [cur] is the match being
    read, in reverse, once its first letter is seen; a match of one
    character is no match. *)
Fixpoint findall_words (cur : option (list ascii)) (text : string) : list string :=
  let flush (rest : list string) :=
    match cur with
    | Some (a :: b :: acc) => string_of_list_ascii (rev (a :: b :: acc)) :: rest
    | _ => rest
    end in
  match text with
  | EmptyString => flush []
  | String c text' =>
      match cur with
      | Some acc =>
          if is_word_char c then findall_words (Some (c :: acc)) text'
          else flush (findall_words None text')
      | None =>
          if is_lower_letter c then findall_words (Some [c]) text'
          else findall_words None text'
      end
  end.

Definition noise : list string :=
  ["the"; "and"; "for"; "with"; "from"; "this"; "that"; "was"; "are";
   "has"; "had"; "but"; "not"; "you"; "all"; "can"; "her"; "his";
   "one"; "our"; "out"; "day"; "get"; "got"; "let"; "may"; "say";
   "she"; "too"; "use"; "way"; "who"; "how"; "its"; "did"; "now"].

Definition _extract_keywords (text : string) : list string :=
  let text := str_lower text in
  let words := findall_words None text in
  filter (fun w => negb (existsb (String.eqb w) noise)
                   && Nat.leb 3 (len w)) words.

(** [Counter.update(words)] *)
Definition counter_update (words : list string) (c : list (string * Z))
    : list (string * Z) :=
  fold_left (fun c w => dict_update String.eqb 0 w (fun n => n + 1) c) words c.

(** The two counters after the loop over [resolved]. *)
Definition word_counts (resolved : list decision)
    : list (string * Z) * list (string * Z) :=
  fold_left
    (fun '(win_words, loss_words) dec =>
       let words := _extract_keywords (d_context dec) in
       let score := d_outcome_score dec in
       if is_win score then (counter_update words win_words, loss_words)
       else if is_loss score then (win_words, counter_update words loss_words)
       else (win_words, loss_words))
    resolved ([], []).

(** [set(win_words.keys()) | set(loss_words.keys())]. A Python set has no
    specified iteration order; the model takes the keys of [win_words]
    and then the keys found in [loss_words] only. *)
Definition all_words (win_words loss_words : list (string * Z)) : list string :=
  map fst win_words
  ++ filter (fun w => negb (dict_has String.eqb w win_words)) (map fst loss_words).

(** *** Strategy 4: hours *)

(** [int(ts.split("T")[1].split(":")[0])]: the hour of the day. Every
    stored timestamp has a time part, so the [except] branch of the source
    is not reached. *)
Definition hour_of (ts : timestamp) : Z :=
  (ts / AgentMemory.usec_per_hour) mod 24.

Definition hour_outcomes (resolved : list decision) : list (Z * (Z * Z)) :=
  fold_left
    (fun acc dec =>
       let hour := hour_of (d_timestamp dec) in
       let score := d_outcome_score dec in
       if is_win score
       then dict_update Z.eqb (0, 0) hour (fun c => (fst c + 1, snd c)) acc
       else if is_loss score
       then dict_update Z.eqb (0, 0) hour (fun c => (fst c, snd c + 1)) acc
       else acc)
    resolved [].

Definition period_of (hour : Z) : string :=
  if (6 <=? hour) && (hour <? 12) then "morning"
  else if (12 <=? hour) && (hour <? 18) then "afternoon"
  else if (18 <=? hour) && (hour <? 22) then "evening"
  else "night".

(** The em dash of the temporal description, in UTF-8. *)
Definition em_dash : string :=
  String (ascii_of_nat 226) (String (ascii_of_nat 128) (String (ascii_of_nat 148) "")).

(** *** [mine_agent] *)

Inductive mine_result :=
| Skipped (agent reason : string) (resolved : Z)
| Mined (agent : string)
        (resolved_decisions patterns_extracted patterns_pruned
           total_active_patterns : Z)
        (new_patterns : list string).

Section Miner.

(** The clock and the [uuid4] draw seen by the [k]-th call of
    [add_pattern] of a pass, counted from 0. *)
Variable clock : nat -> timestamp.
Variable uuid4_hex : nat -> string.

(** [mem.add_pattern(...)] followed by [new_patterns.append(desc)]: the
    calls made so far are as many as the descriptions collected. *)
Definition emit (pattern_type desc : string) (evidence_count : Z)
    (confidence : float) (new_patterns : list string) : M (list string) :=
  let k := List.length new_patterns in
  AgentMemory.add_pattern (clock k) (uuid4_hex k)
                          pattern_type desc evidence_count confidence [] ;;;
  ret (new_patterns ++ [desc]).

(** The body of [for tag, counts in tag_outcomes.items()]. *)
Definition tag_step (item : string * tally) (new_patterns : list string)
    : M (list string) :=
  let '(tag, counts) := item in
  if total counts <? MIN_EVIDENCE then ret new_patterns
  else
    let wr := tag_win_rate counts in
    if PrimFloat.leb MIN_CONFIDENCE wr
       || PrimFloat.leb wr (1 - MIN_CONFIDENCE)%float
    then emit "tag_performance" (tag_description tag counts)
              (total counts)
              (if PrimFloat.leb 0.5 wr then wr else (1 - wr)%float)
              new_patterns
    else ret new_patterns.

Definition tag_strategy (resolved : list decision) (new_patterns : list string)
    : M (list string) :=
  for_each tag_step (tag_outcomes resolved) new_patterns.

(** The body of [for word in all_words]. *)
Definition keyword_step (win_words loss_words : list (string * Z))
    (word : string) (new_patterns : list string) : M (list string) :=
  let w := dict_get String.eqb 0 word win_words in
  let l := dict_get String.eqb 0 word loss_words in
  let total := w + l in
  if total <? MIN_EVIDENCE then ret new_patterns
  else
    let wr := Py.truediv w total in
    if PrimFloat.leb 0.65 wr then
      emit "keyword_signal"
           ("Keyword '" ^^ word ^^ "' in context: " ^^ Py.format_pct0 wr
              ^^ " win rate (" ^^ str_of_Z w ^^ "W/" ^^ str_of_Z l ^^ "L)")
           total wr new_patterns
    else if PrimFloat.leb wr 0.35 then
      emit "keyword_signal"
           ("Keyword '" ^^ word ^^ "' in context: "
              ^^ Py.format_pct0 (1 - wr)%float
              ^^ " loss rate (" ^^ str_of_Z l ^^ "L/" ^^ str_of_Z w ^^ "W)")
           total (1 - wr)%float new_patterns
    else ret new_patterns.

Definition keyword_strategy (resolved : list decision) (new_patterns : list string)
    : M (list string) :=
  let counters := word_counts resolved in
  for_each (keyword_step (fst counters) (snd counters))
           (all_words (fst counters) (snd counters)) new_patterns.

Definition calibration_strategy (resolved : list decision)
    (new_patterns : list string) : M (list string) :=
  let high_conf := filter (fun d => PrimFloat.leb 0.7 (d_confidence d)) resolved in
  let low_conf := filter (fun d => PrimFloat.ltb (d_confidence d) 0.4) resolved in
  let size l := Z.of_nat (@List.length decision l) in
  let win_share l :=
    Py.truediv (AgentMemory.count (fun d => is_win (d_outcome_score d)) l) (size l) in
  new_patterns <-
    (if MIN_EVIDENCE <=? size high_conf then
       let high_wr := win_share high_conf in
       emit "calibration"
            ("High-confidence decisions (>=0.7): actual win rate "
               ^^ Py.format_pct0 high_wr ^^ " over "
               ^^ str_of_Z (size high_conf) ^^ " decisions")
            (size high_conf) high_wr new_patterns
     else ret new_patterns) ;;
  if MIN_EVIDENCE <=? size low_conf then
    let low_wr := win_share low_conf in
    emit "calibration"
         ("Low-confidence decisions (<0.4): actual win rate "
            ^^ Py.format_pct0 low_wr ^^ " over "
            ^^ str_of_Z (size low_conf) ^^ " decisions")
         (size low_conf) (Py.max low_wr (1 - low_wr)%float) new_patterns
  else ret new_patterns.

(** The body of [for hour, counts in hour_outcomes.items()]. *)
Definition temporal_step (item : Z * (Z * Z)) (new_patterns : list string)
    : M (list string) :=
  let '(hour, (wins, losses)) := item in
  let total := wins + losses in
  if total <? MIN_EVIDENCE then ret new_patterns
  else
    let wr := Py.truediv wins total in
    if PrimFloat.leb 0.7 wr || PrimFloat.leb wr 0.3 then
      let result := if PrimFloat.leb 0.5 wr then "favorable" else "unfavorable" in
      emit "temporal"
           ("Hour " ^^ str_of_Z hour ^^ ":00 (" ^^ period_of hour ^^ "): "
              ^^ result ^^ " " ^^ em_dash ^^ " " ^^ Py.format_pct0 wr
              ^^ " WR (" ^^ str_of_Z wins ^^ "W/" ^^ str_of_Z losses ^^ "L)")
           total
           (if PrimFloat.leb 0.5 wr then wr else (1 - wr)%float)
           new_patterns
    else ret new_patterns.

Definition temporal_strategy (resolved : list decision) (new_patterns : list string)
    : M (list string) :=
  for_each temporal_step (hour_outcomes resolved) new_patterns.

(** The four strategies, in the order of the source. *)
Definition run_strategies (resolved : list decision) : M (list string) :=
  new_patterns <- tag_strategy resolved [] ;;
  new_patterns <- keyword_strategy resolved new_patterns ;;
  new_patterns <- calibration_strategy resolved new_patterns ;;
  temporal_strategy resolved new_patterns.

(** [p["evidence_count"] <= 1 and p["confidence"] < 0.5] *)
Definition weak (p : pattern) : bool :=
  (p_evidence_count p <=? 1) && PrimFloat.ltb (p_confidence p) 0.5.

(** The body of [for p in all_patterns]. *)
Definition prune_step (p : pattern) (pruned : Z) : M Z :=
  if weak p
  then AgentMemory.deactivate_pattern (p_id p) ;;; ret (pruned + 1)
  else ret pruned.

Definition prune_weak : M Z :=
  all_patterns <- AgentMemory.get_active_patterns None 0 ;;
  for_each prune_step all_patterns 0.

Definition mine_agent (agent : string) : M mine_result :=
  stats <- AgentMemory.get_stats ;;
  if AgentMemory.resolved_decisions stats <? MIN_EVIDENCE then
    ret (Skipped agent "insufficient_data" (AgentMemory.resolved_decisions stats))
  else
    resolved <- AgentMemory.get_recent_decisions 500 true ;;
    new_patterns <- run_strategies resolved ;;
    pruned <- prune_weak ;;
    let extracted := Z.of_nat (List.length new_patterns) in
    ret (Mined agent
               (AgentMemory.resolved_decisions stats)
               extracted
               pruned
               (AgentMemory.active_patterns stats + extracted - pruned)
               new_patterns).

End Miner.

End PatternMiner.

(** ** The calls of the interface, as data

    One constructor per public method, with the clock readings and [uuid4]
    draws the method consumes. [exec] runs a call for its effect on the
    store. *)

Inductive call :=
| RecordDecision (now : timestamp) (hex context decision reasoning : string)
                 (confidence : float) (tags : list string)
| RecordOutcome (decision_id outcome : string) (score : float)
| GetRecentDecisions (limit : Z) (resolved_only : bool)
| GetRelevantContext (situation : string) (limit : Z)
| SearchDecisions (query : string) (limit : Z)
| AddPattern (now : timestamp) (hex pattern_type description : string)
             (evidence_count : Z) (confidence : float) (tags : list string)
| GetActivePatterns (pattern_type : option string) (min_confidence : float)
| DeactivatePattern (pattern_id : string)
| SetKnowledge (now : timestamp) (hex category key value source : string)
               (ttl_hours : Z)
| GetKnowledge (now : timestamp) (category key : option string)
| GetStats
| MineAgent (clock : nat -> timestamp) (uuid4_hex : nat -> string) (agent : string).

Definition exec (c : call) (w : db) : db :=
  match c with
  | RecordDecision now hex context decision reasoning confidence tags =>
      snd (AgentMemory.record_decision now hex context decision reasoning confidence tags w)
  | RecordOutcome decision_id outcome score =>
      snd (AgentMemory.record_outcome decision_id outcome score w)
  | GetRecentDecisions limit resolved_only =>
      snd (AgentMemory.get_recent_decisions limit resolved_only w)
  | GetRelevantContext situation limit =>
      snd (AgentMemory.get_relevant_context situation limit w)
  | SearchDecisions query limit =>
      snd (AgentMemory.search_decisions query limit w)
  | AddPattern now hex pattern_type description evidence_count confidence tags =>
      snd (AgentMemory.add_pattern now hex pattern_type description
                                   evidence_count confidence tags w)
  | GetActivePatterns pattern_type min_confidence =>
      snd (AgentMemory.get_active_patterns pattern_type min_confidence w)
  | DeactivatePattern pattern_id =>
      snd (AgentMemory.deactivate_pattern pattern_id w)
  | SetKnowledge now hex category key value source ttl_hours =>
      snd (AgentMemory.set_knowledge now hex category key value source ttl_hours w)
  | GetKnowledge now category key =>
      snd (AgentMemory.get_knowledge now category key w)
  | GetStats => snd (AgentMemory.get_stats w)
  | MineAgent clock uuid4_hex agent =>
      snd (PatternMiner.mine_agent clock uuid4_hex agent w)
  end.

(** The store after a history of calls on a new database. *)
Definition history (calls : list call) : db := fold_left (fun w c => exec c w) calls empty_db.

(** [resolved = 0] implies [outcome = ''] and [outcome_score = 0.0]. *)
Definition unresolved_is_blank (d : decision) : Prop :=
  d_resolved d = false -> d_outcome d = "" /\ d_outcome_score d = 0%float.

Definition decisions_ok (w : db) : Prop := Forall unresolved_is_blank (decisions w).

(** * The vocabulary of the statements *)

Section Vocabulary.
Import AgentMemory PatternMiner.

(** [ORDER BY key DESC]: no row comes before a newer one. *)
Definition newest_first {A} (key : A -> Z) : list A -> Prop :=
  StronglySorted (fun a b => key b <= key a).

(** [m] leaves the decisions table as it found it, whether it returns or
    raises. *)
Definition keeps_decisions {A} (m : M A) : Prop :=
  forall w, decisions (snd (m w)) = decisions w.

(** A row written by the INSERT or the UPDATE of [set_knowledge]. *)
Definition written (now : timestamp) (value source : string) (ttl_hours : Z)
    (k : knowledge) : Prop :=
  k_value k = take 5000 value
  /\ k_source k = take 200 source
  /\ k_ttl_hours k = ttl_hours
  /\ k_created_at k = now
  /\ k_expires_at k
     = (if 0 <? ttl_hours then Some (now + ttl_hours * usec_per_hour) else None).

(** No [%] and no [_]. *)
Fixpoint wildcard_free (s : string) : bool :=
  match s with
  | EmptyString => true
  | String c s' =>
      (negb (Ascii.eqb c Like.percent) && negb (Ascii.eqb c Like.underscore)
       && wildcard_free s')%bool
  end.

(** The WHERE clause of [search_decisions]. *)
Definition search_hit (query : string) (r : decision) : bool :=
  (Like.like (Like.around query) (d_context r)
   || Like.like (Like.around query) (d_decision r))%bool.

(** The search as the specification words it: the query is a raw,
    case-sensitive substring of the context or of the decision text. *)
Definition search_decisions_as_specified (query : string) (limit : Z) (w : db)
    : list decision :=
  Sql.limit limit
    (Sql.order_by_desc d_timestamp
       (filter (fun r => (contains query (d_context r)
                          || contains query (d_decision r))%bool)
               (decisions w))).

(** Two decisions of the usage example. *)
Definition sample_store : db :=
  history
    [RecordDecision 1 "00000000a1" "BTC dropped 5% in high volatility"
                    "Take YES position" "F&G=25, vol spike" 0.7 [];
     RecordDecision 2 "00000000a2" "ETH staking rewards" "Hold" "" 0.5 []].

(** The WHERE clause of [get_relevant_context], for the bound patterns. *)
Definition relevant_hit (params : list string) (r : decision) : bool :=
  existsb (fun p => Like.like p (lower (d_context r))) params.

(** The words [get_relevant_context] takes from the situation. *)
Definition situation_words (situation : string) : list string :=
  map lower (filter (fun w => Nat.leb 3 (len w)) (split situation)).

(** Eleven words of three letters or more. *)
Definition eleven_words : string :=
  "alpha bravo charlie delta echo foxtrot golf hotel india juliet kilo".

(** The patterns table after [add_pattern], when the call returns. *)
Definition add_row (now : timestamp) (hex pattern_type description : string)
    (evidence_count : Z) (confidence : float) (tags : list string)
    (ps : list pattern) : list pattern :=
  match find (same_pattern pattern_type description) ps with
  | Some existing =>
      Sql.update (fun r => String.eqb (p_id r) (p_id existing))
                 (reinforce (p_evidence_count existing + evidence_count)
                            (Py.min 0.99 (p_confidence existing + 0.05)%float) now)
                 ps
  | None =>
      ps ++ [mk_pattern ("pat_" ^^ hex) (take 100 pattern_type)
                        (take 1000 description) evidence_count
                        (Py.clamp 0 1 confidence) true now now tags]
  end.

(** The id [add_pattern] gives a new row. *)
Definition draw (uuid4_hex : nat -> string) (k : nat) : string :=
  "pat_" ^^ uuid4_hex k.

(** A selection of rows by type, description and activity. *)
Definition selected (sel : string -> string -> bool -> bool) (r : pattern) : bool :=
  sel (p_pattern_type r) (p_description r) (p_active r).

(** The call [add_pattern(pattern_type, description, ...)] can neither
    find nor create a selected row. *)
Definition avoids (sel : string -> string -> bool -> bool)
    (pattern_type description : string) : Prop :=
  sel pattern_type description true = false
  /\ sel (take 100 pattern_type) (take 1000 description) true = false.

(** The ids in the table and the draws not yet used are pairwise distinct,
    when [n] calls of [add_pattern] have been made. *)
Definition supply_ok (uuid4_hex : nat -> string) (draws n : nat) (w : db) : Prop :=
  NoDup (map p_id (patterns w) ++ map (draw uuid4_hex) (seq n (draws - n))).

(** With [draws] new ids at hand, [m] makes at most [budget] calls of
    [add_pattern], returns, and leaves the selected rows as they are. *)
Definition quiet (uuid4_hex : nat -> string) (draws : nat)
    (sel : string -> string -> bool -> bool) (budget : nat)
    (m : list string -> M (list string)) : Prop :=
  forall np w,
    (List.length np + budget <= draws)%nat ->
    supply_ok uuid4_hex draws (List.length np) w ->
    exists np' w',
      m np w = (Return np', w')
      /\ (List.length np' <= List.length np + budget)%nat
      /\ supply_ok uuid4_hex draws (List.length np') w'
      /\ filter (selected sel) (patterns w') = filter (selected sel) (patterns w).

(** [sel] selects no row of the given type. *)
Definition ignores (sel : string -> string -> bool -> bool) (pattern_type : string)
    : Prop :=
  forall desc, avoids sel pattern_type desc.

(** What pruning does to one row. *)
Definition prune_row (p : pattern) : pattern :=
  if (p_active p && weak p)%bool then deactivate p else p.

(** The effect of [deactivate_pattern] on each id of a list. *)
Definition deactivate_ids (ids : list string) (ps : list pattern) : list pattern :=
  map (fun p => if existsb (String.eqb (p_id p)) ids then deactivate p else p) ps.

(** What [get_recent_decisions(limit=500, resolved_only=True)] returns. *)
Definition resolved_recent (w : db) : list decision :=
  Sql.limit 500 (Sql.order_by_desc d_timestamp (filter d_resolved (decisions w))).

(** No pass over [resolved] calls [add_pattern] more often than this: once
    per tag, per word and per hour, and twice for the calibration. *)
Definition emission_bound (resolved : list decision) : nat :=
  List.length (tag_outcomes resolved)
  + (List.length (all_words (fst (word_counts resolved)) (snd (word_counts resolved)))
     + (2 + List.length (hour_outcomes resolved))).

(** The ids of the table and the ids a pass may draw are pairwise
    distinct: the PRIMARY KEY holds and stays satisfied. *)
Definition ids_distinct (uuid4_hex : nat -> string) (w : db) : Prop :=
  NoDup (map p_id (patterns w)
         ++ map (draw uuid4_hex) (seq 0 (emission_bound (resolved_recent w)))).

(** The types of the rows the four strategies write. *)
Definition miner_types : list string :=
  ["tag_performance"; "keyword_signal"; "calibration"; "temporal"].

(** The strategies after the first. *)
Definition later_strategies (clock : nat -> timestamp) (uuid4_hex : nat -> string)
    (resolved : list decision) (new_patterns : list string)
    : M (list string) :=
  new_patterns <- keyword_strategy clock uuid4_hex resolved new_patterns ;;
  new_patterns <- calibration_strategy clock uuid4_hex resolved new_patterns ;;
  temporal_strategy clock uuid4_hex resolved new_patterns.

(** The rows of a type the miner does not write. *)
Definition foreign (pattern_type description : string) (active : bool) : bool :=
  negb (existsb (String.eqb pattern_type) miner_types).

(** The body of [for dec in resolved], on the dictionary. *)
Definition tag_fold (score : float) (tags : list string)
    (acc : list (string * tally)) : list (string * tally) :=
  fold_left (fun acc tag => dict_update String.eqb no_tally tag (count_tag score) acc)
            tags acc.

(** The loop over [resolved], from a given dictionary. *)
Definition outcomes_from (resolved : list decision) (acc : list (string * tally))
    : list (string * tally) :=
  fold_left (fun acc dec => tag_fold (d_outcome_score dec) (d_tags dec) acc)
            resolved acc.

(** The tally of one tag: each decision counts once per occurrence of the
    tag in its list. *)
Definition tally_of (t : string) (resolved : list decision) (c : tally) : tally :=
  fold_left
    (fun c d => Nat.iter (count_occ string_dec (d_tags d) t)
                         (count_tag (d_outcome_score d)) c)
    resolved c.

(** How often [t] occurs in the tag lists of [resolved]. *)
Definition tag_total (t : string) (resolved : list decision) : Z :=
  fold_right (fun d n => Z.of_nat (count_occ string_dec (d_tags d) t) + n) 0 resolved.

(** Eight wins and two losses over ten decisions. *)
Definition breakout_tally : tally := mk_tally 8 2 10.

(** The description [mine_agent] builds for that tally. *)
Definition breakout_description : string :=
  "Tag 'breakout': wins 80% of the time (8W/2L over 10 decisions)".

(** The row the first strategy inserts in the scenario. *)
Definition breakout_row (clock : nat -> timestamp) (uuid4_hex : nat -> string)
    : pattern :=
  mk_pattern (draw uuid4_hex 0%nat) "tag_performance" breakout_description
             10 0.8 true (clock 0%nat) (clock 0%nat) [].

(** The rows of one type. *)
Definition of_type (t : string) (pattern_type description : string) (active : bool)
    : bool :=
  String.eqb pattern_type t.

(** The active rows of one type that a pass has added to the table [w]. *)
Definition new_active (t : string) (w : db) (p : pattern) : bool :=
  (String.eqb (p_pattern_type p) t && p_active p
   && negb (existsb (String.eqb (p_id p)) (map p_id (patterns w))))%bool.

(** The quote around the tag in a description. *)
Definition apostrophe : ascii := "'"%char.

(** The text has no such quote. *)
Fixpoint no_apostrophe (s : string) : bool :=
  match s with
  | EmptyString => true
  | String c s' => (negb (Ascii.eqb c apostrophe) && no_apostrophe s')%bool
  end.

(** What follows the tag in its description. *)
Definition after_tag (c : tally) : string :=
  let wr := tag_win_rate c in
  ": " ^^ (if PrimFloat.leb 0.5 wr then "wins" else "loses") ^^ " "
    ^^ Py.format_pct0 wr ^^ " of the time (" ^^ str_of_Z (wins c) ^^ "W/"
    ^^ str_of_Z (losses c) ^^ "L over " ^^ str_of_Z (total c) ^^ " decisions)".

(** The active rows with the type "tag_performance" and one description. *)
Definition tag_rows (description : string) (pattern_type desc : string)
    (active : bool) : bool :=
  (String.eqb pattern_type "tag_performance" && String.eqb desc description
   && active)%bool.

(** ** Sample data *)

(** A clock and a source of [uuid4] draws for a pass of the miner. *)
Definition sample_clock (k : nat) : timestamp := 1762200000000000 + Z.of_nat k.
Definition sample_hex (k : nat) : string := "c0ffee" ^^ str_of_Z (1000 + Z.of_nat k).

(** [n] decisions with one tag, each resolved with the same score; ids and
    timestamps count up from [first]. *)
Fixpoint resolved_calls (n : nat) (first : Z) (tag : string) (score : float)
    : list call :=
  match n with
  | O => []
  | S n' =>
      RecordDecision first ("d" ^^ str_of_Z first) "BTC breakout above resistance"
                     "Take YES position" "" 0.5 [tag]
      :: RecordOutcome ("dec_d" ^^ str_of_Z first) "closed" score
      :: resolved_calls n' (first + 1) tag score
  end.

(** Ten resolved "breakout" decisions: eight wins, two losses. *)
Definition breakout_store : db :=
  history (resolved_calls 8 100 "breakout" 0.85
           ++ resolved_calls 2 200 "breakout" (-0.4)).

(** Two resolved decisions only. *)
Definition small_store : db := history (resolved_calls 2 100 "breakout" 0.85).

(** Three resolved decisions tagged "flat", each with the score 0.0. *)
Definition flat_store : db := history (resolved_calls 3 100 "flat" 0).

(** Two patterns recorded by the agent, then three resolved decisions. *)
Definition pruning_store : db :=
  history (AddPattern 1 "00000000b1" "trend" "BTC DOWN in fear markets" 1 0.3 []
           :: AddPattern 2 "00000000b2" "trend" "ETH UP after upgrades" 1 0.6 []
           :: resolved_calls 3 100 "breakout" 0.85).

Definition weak_row : pattern :=
  mk_pattern "pat_00000000b1" "trend" "BTC DOWN in fear markets" 1 0.3 true 1 1 [].

Definition fair_row : pattern :=
  mk_pattern "pat_00000000b2" "trend" "ETH UP after upgrades" 1 0.6 true 2 2 [].

(** A text of [n] times the character [c]. *)
Fixpoint replicate (n : nat) (c : ascii) : string :=
  match n with
  | O => EmptyString
  | S n' => String c (replicate n' c)
  end.

(** 150 characters: longer than 100, shorter than 200. *)
Definition long_text : string := replicate 150 "c"%char.

(** U+00E9, e with an acute accent: one character, two bytes. *)
Definition e_acute : string :=
  String (ascii_of_nat 195) (String (ascii_of_nat 169) EmptyString).

(** 1500 characters in 3000 bytes. *)
Definition accented_text : string := String.concat "" (repeat e_acute 1500).

(** 100 characters in 101 bytes. *)
Definition accented_category : string := e_acute ^^ replicate 99 "a"%char.

(** The texts of a list are pairwise different. *)
Fixpoint distinct (l : list string) : bool :=
  match l with
  | [] => true
  | x :: l' => (negb (existsb (String.eqb x) l') && distinct l')%bool
  end.

End Vocabulary.

(** * [agent_brain.py]: the memory block of a prompt

    [AgentBrain._build_memory_context] reads the memory through
    [get_active_patterns] and [get_relevant_context] and renders what it
    finds. [think] hands the text to [llm_call], which is outside this
    development; the shortcuts [remember_decision], [remember_outcome],
    [learn_pattern], [remember_fact] and [get_patterns] pass their arguments
    on to the methods of [AgentMemory]. *)

Module AgentBrain.

#[local] Open Scope bool_scope.

(** What the method can raise: an error of the memory, or [int] on a float
    that is no finite number. *)
Inductive failure :=
| Sqlite (e : error)
| ValueError       (* int(float("nan")) *)
| OverflowError.   (* int(float("inf")) *)

(** [int(x)] for a float: the integer part, towards zero. *)
Definition py_int (x : float) : failure + Z :=
  match Prim2SF x with
  | S754_zero _ => inr 0
  | S754_nan => inl ValueError
  | S754_infinity _ => inl OverflowError
  | S754_finite s m e =>
      let n := if 0 <=? e then Zpos m * 2 ^ e else Zpos m / 2 ^ (- e) in
      inr (if s then - n else n)
  end.

Definition newline : string := String (ascii_of_nat 10) "".

(** The arrow before the outcome, in UTF-8. *)
Definition arrow : string :=
  String (ascii_of_nat 226) (String (ascii_of_nat 134) (String (ascii_of_nat 146) "")).

(** [sep.join(parts)] *)
Fixpoint join (sep : string) (parts : list string) : string :=
  match parts with
  | [] => ""
  | p :: rest =>
      match rest with
      | [] => p
      | _ => p ^^ sep ^^ join sep rest
      end
  end.

(** [l[:n]] on a list: a negative [n] counts from the end. *)
Definition slice_to {A} (n : Z) (l : list A) : list A :=
  if n <? 0 then firstn (Z.to_nat (Z.of_nat (List.length l) + n)) l
  else firstn (Z.to_nat n) l.

Definition pattern_line (conf_pct : Z) (p : pattern) : string :=
  "  [" ^^ str_of_Z conf_pct ^^ "% confidence, "
    ^^ str_of_Z (p_evidence_count p) ^^ " evidence] " ^^ p_description p.

(** The loop over [patterns]: the lines, or what the first failing [int]
    raises. *)
Fixpoint pattern_lines (patterns : list pattern) : failure + list string :=
  match patterns with
  | [] => inr []
  | p :: rest =>
      match py_int (p_confidence p * 100)%float with
      | inl e => inl e
      | inr conf_pct =>
          match pattern_lines rest with
          | inl e => inl e
          | inr lines => inr (pattern_line conf_pct p :: lines)
          end
      end
  end.

Definition decision_line (d : decision) : string :=
  let outcome :=
    if d_resolved d then
      let score := d_outcome_score d in
      let emoji :=
        if PrimFloat.ltb 0 score then "WIN"
        else if PrimFloat.ltb score 0 then "LOSS" else "NEUTRAL" in
      " " ^^ arrow ^^ " " ^^ emoji ^^ ": " ^^ take 100 (d_outcome d)
    else "" in
  "  Context: " ^^ take 150 (d_context d) ^^ newline
    ^^ "  Decision: " ^^ take 150 (d_decision d) ^^ newline
    ^^ "  Confidence: " ^^ Py.format_pct0 (d_confidence d) ^^ outcome.

Section Brain.

(** The two bounds given to [__init__]; 5 and 8 by default. *)
Variable max_context_decisions : Z.
Variable max_context_patterns : Z.

(** The text, the number of patterns and the number of decisions. *)
Definition _build_memory_context (situation : string) (w : db)
    : (failure + (string * Z * Z)) * db :=
  match AgentMemory.get_active_patterns None 0.4 w with
  | (Raise e, w1) => (inl (Sqlite e), w1)
  | (Return patterns, w1) =>
      let patterns := slice_to max_context_patterns patterns in
      match pattern_lines patterns with
      | inl e => (inl e, w1)
      | inr lines =>
          let parts :=
            match patterns with
            | [] => []
            | _ => "LEARNED PATTERNS:" :: lines
            end in
          match AgentMemory.get_relevant_context situation max_context_decisions w1 with
          | (Raise e, w2) => (inl (Sqlite e), w2)
          | (Return decisions, w2) =>
              let parts :=
                match decisions with
                | [] => parts
                | _ => parts ++ (newline ^^ "SIMILAR PAST DECISIONS:")
                                :: map (fun row => decision_line (fst row)) decisions
                end in
              (inr (join newline parts,
                    Z.of_nat (List.length patterns),
                    Z.of_nat (List.length decisions)), w2)
          end
      end
  end.

End Brain.

End AgentBrain.

(** * The vocabulary of the further statements *)

Section Invariants.
Import AgentMemory PatternMiner.

(** [m] keeps the property [I] of the store, whether it returns or
    raises. *)
Definition preserves {A} (I : db -> Prop) (m : M A) : Prop :=
  forall w, I w -> I (snd (m w)).

(** The bounds that the writers put on the columns of a decision, the
    texts counted in characters (code points). *)
Definition decision_bounded (d : decision) : Prop :=
  (len (d_context d) <= 2000)%nat
  /\ (len (d_decision d) <= 2000)%nat
  /\ (len (d_reasoning d) <= 2000)%nat
  /\ (len (d_outcome d) <= 2000)%nat
  /\ PrimFloat.leb 0 (d_confidence d) = true
  /\ PrimFloat.leb (d_confidence d) 1 = true
  /\ PrimFloat.leb (-1) (d_outcome_score d) = true
  /\ PrimFloat.leb (d_outcome_score d) 1 = true.

(** ... of a pattern: the confidence is a number, at most 1.0. *)
Definition pattern_bounded (p : pattern) : Prop :=
  (len (p_pattern_type p) <= 100)%nat
  /\ (len (p_description p) <= 1000)%nat
  /\ PrimFloat.leb (p_confidence p) 1 = true.

(** ... and of a fact. *)
Definition knowledge_bounded (k : knowledge) : Prop :=
  (len (k_category k) <= 100)%nat
  /\ (len (k_key k) <= 200)%nat
  /\ (len (k_value k) <= 5000)%nat
  /\ (len (k_source k) <= 200)%nat.

Definition bounded (w : db) : Prop :=
  Forall decision_bounded (decisions w)
  /\ Forall pattern_bounded (patterns w)
  /\ Forall knowledge_bounded (knowledges w).

(** The rows of the three INSERT statements. *)
Definition decision_row (now : timestamp) (hex context choice reasoning : string)
    (confidence : float) (tags : list string) : decision :=
  mk_decision ("dec_" ^^ hex) now (take 2000 context) (take 2000 choice)
              (take 2000 reasoning) (Py.clamp 0 1 confidence) "" 0 false tags.

Definition pattern_row (now : timestamp) (hex pattern_type description : string)
    (evidence_count : Z) (confidence : float) (tags : list string) : pattern :=
  mk_pattern ("pat_" ^^ hex) (take 100 pattern_type) (take 1000 description)
             evidence_count (Py.clamp 0 1 confidence) true now now tags.

Definition knowledge_row (now : timestamp) (hex category key value source : string)
    (ttl_hours : Z) : knowledge :=
  mk_knowledge ("kn_" ^^ hex) (take 100 category) (take 200 key)
               (take 5000 value) (take 200 source) ttl_hours now
               (if 0 <? ttl_hours then Some (now + ttl_hours * usec_per_hour)
                else None).

(** The PRIMARY KEY of each table: no id twice. *)
Definition keyed (w : db) : Prop :=
  NoDup (map d_id (decisions w))
  /\ NoDup (map p_id (patterns w))
  /\ NoDup (map k_id (knowledges w)).

(** The decisions and the patterns of [w0] are still there in [w], under
    their ids and in their order, before any newer row. *)
Definition grown_from (w0 w : db) : Prop :=
  (exists l, map d_id (decisions w) = map d_id (decisions w0) ++ l)
  /\ (exists l, map p_id (patterns w) = map p_id (patterns w0) ++ l).

(** At most one fact under a category and a key. *)
Definition one_per_key (w : db) : Prop :=
  NoDup (map (fun k => (k_category k, k_key k)) (knowledges w)).

(** The WHERE clause of [get_active_patterns]. *)
Definition active_hit (pattern_type : option string) (min_confidence : float)
    (r : pattern) : bool :=
  (p_active r
   && match given pattern_type with
      | Some t => String.eqb (p_pattern_type r) t
      | None => true
      end
   && (if PrimFloat.ltb 0 min_confidence
       then PrimFloat.leb min_confidence (p_confidence r)
       else true))%bool.

(** [ORDER BY confidence DESC, evidence_count DESC]: no row is followed
    by one that sorts strictly before it. *)
Definition ranked : list pattern -> Prop :=
  Sorted (fun a b => pattern_before b a = false).

(** The WHERE clause of the SELECT of [get_knowledge]. *)
Definition knowledge_hit (category key : option string) (r : knowledge) : bool :=
  (match given category with
   | Some c => String.eqb (k_category r) c
   | None => true
   end
   && match given key with
      | Some k => String.eqb (k_key r) k
      | None => true
      end)%bool.

(** A lower-case letter, then characters of the class [[a-z0-9_]]. *)
Definition word_shape (l : list ascii) : Prop :=
  match l with
  | [] => False
  | c :: rest =>
      is_lower_letter c = true /\ Forall (fun c => is_word_char c = true) rest
  end.

Definition keyword_shape (w : string) : Prop :=
  word_shape (list_ascii_of_string w).

(** [int(confidence * 100)] is defined on the row. *)
Definition renders (p : pattern) : Prop :=
  exists n, AgentBrain.py_int (p_confidence p * 100)%float = inr n.

(** [m] keeps the relation [I] between the descriptions collected and the
    store, when it returns. *)
Definition tracks (I : list string -> db -> Prop)
    (m : list string -> M (list string)) : Prop :=
  forall np w np' w', I np w -> m np w = (Return np', w') -> I np' w'.

(** The account of a pass that began on [rows] patterns, [idle] of them
    inactive: the inactive rows are as many as before, and the table has
    grown by no more rows than descriptions were collected. *)
Definition pass_account (idle rows : Z) (np : list string) (w : db) : Prop :=
  count (fun p => negb (p_active p)) (patterns w) = idle
  /\ rows <= Z.of_nat (List.length (patterns w))
     <= rows + Z.of_nat (List.length np).

(** The rows that a pass has added to a table with the ids [before]: each
    is active, of one of the miner's types, with enough evidence. *)
Definition pass_rows (before : list string) (np : list string) (w : db) : Prop :=
  forall p, In p (patterns w) -> ~ In (p_id p) before ->
    p_active p = true
    /\ MIN_EVIDENCE <= p_evidence_count p
    /\ In (p_pattern_type p) miner_types.

(** ** The calls of a pass, listed

    The arguments of the calls [add_pattern(type, description,
    evidence_count, confidence)] that the four strategies make on the
    resolved decisions, in the order of the source. *)

Record emission := mk_emission {
  e_type : string;
  e_description : string;
  e_evidence : Z;
  e_confidence : float
}.

Definition tag_emissions (item : string * tally) : list emission :=
  let '(tag, counts) := item in
  if total counts <? MIN_EVIDENCE then []
  else
    let wr := tag_win_rate counts in
    if (PrimFloat.leb MIN_CONFIDENCE wr
        || PrimFloat.leb wr (1 - MIN_CONFIDENCE)%float)%bool
    then [mk_emission "tag_performance" (tag_description tag counts)
                      (total counts)
                      (if PrimFloat.leb 0.5 wr then wr else (1 - wr)%float)]
    else [].

Definition keyword_emissions (win_words loss_words : list (string * Z))
    (word : string) : list emission :=
  let w := dict_get String.eqb 0 word win_words in
  let l := dict_get String.eqb 0 word loss_words in
  let total := w + l in
  if total <? MIN_EVIDENCE then []
  else
    let wr := Py.truediv w total in
    if PrimFloat.leb 0.65 wr then
      [mk_emission "keyword_signal"
         ("Keyword '" ^^ word ^^ "' in context: " ^^ Py.format_pct0 wr
            ^^ " win rate (" ^^ str_of_Z w ^^ "W/" ^^ str_of_Z l ^^ "L)")
         total wr]
    else if PrimFloat.leb wr 0.35 then
      [mk_emission "keyword_signal"
         ("Keyword '" ^^ word ^^ "' in context: "
            ^^ Py.format_pct0 (1 - wr)%float
            ^^ " loss rate (" ^^ str_of_Z l ^^ "L/" ^^ str_of_Z w ^^ "W)")
         total (1 - wr)%float]
    else [].

Definition calibration_emissions (resolved : list decision) : list emission :=
  let high_conf := filter (fun d => PrimFloat.leb 0.7 (d_confidence d)) resolved in
  let low_conf := filter (fun d => PrimFloat.ltb (d_confidence d) 0.4) resolved in
  let size l := Z.of_nat (@List.length decision l) in
  let win_share l :=
    Py.truediv (AgentMemory.count (fun d => is_win (d_outcome_score d)) l) (size l) in
  (if MIN_EVIDENCE <=? size high_conf then
     let high_wr := win_share high_conf in
     [mk_emission "calibration"
        ("High-confidence decisions (>=0.7): actual win rate "
           ^^ Py.format_pct0 high_wr ^^ " over "
           ^^ str_of_Z (size high_conf) ^^ " decisions")
        (size high_conf) high_wr]
   else [])
  ++ (if MIN_EVIDENCE <=? size low_conf then
        let low_wr := win_share low_conf in
        [mk_emission "calibration"
           ("Low-confidence decisions (<0.4): actual win rate "
              ^^ Py.format_pct0 low_wr ^^ " over "
              ^^ str_of_Z (size low_conf) ^^ " decisions")
           (size low_conf) (Py.max low_wr (1 - low_wr)%float)]
      else []).

Definition temporal_emissions (item : Z * (Z * Z)) : list emission :=
  let '(hour, (wins, losses)) := item in
  let total := wins + losses in
  if total <? MIN_EVIDENCE then []
  else
    let wr := Py.truediv wins total in
    if (PrimFloat.leb 0.7 wr || PrimFloat.leb wr 0.3)%bool then
      let result := if PrimFloat.leb 0.5 wr then "favorable" else "unfavorable" in
      [mk_emission "temporal"
         ("Hour " ^^ str_of_Z hour ^^ ":00 (" ^^ period_of hour ^^ "): "
            ^^ result ^^ " " ^^ em_dash ^^ " " ^^ Py.format_pct0 wr
            ^^ " WR (" ^^ str_of_Z wins ^^ "W/" ^^ str_of_Z losses ^^ "L)")
         total
         (if PrimFloat.leb 0.5 wr then wr else (1 - wr)%float)]
    else [].

Definition emissions (resolved : list decision) : list emission :=
  flat_map tag_emissions (tag_outcomes resolved)
  ++ flat_map (keyword_emissions (fst (word_counts resolved))
                                 (snd (word_counts resolved)))
              (all_words (fst (word_counts resolved)) (snd (word_counts resolved)))
  ++ calibration_emissions resolved
  ++ flat_map temporal_emissions (hour_outcomes resolved).

(** The listed calls, made one after the other. *)
Definition emit_all (clock : nat -> timestamp) (uuid4_hex : nat -> string)
    (es : list emission) (new_patterns : list string) : M (list string) :=
  for_each (fun e np => emit clock uuid4_hex (e_type e) (e_description e)
                             (e_evidence e) (e_confidence e) np)
           es new_patterns.

(** Each listed call finds an active row of its type and description,
    with an evidence count of 2 or more. *)
Definition stocked (es : list emission) (w : db) : Prop :=
  forall e, In e es ->
    exists p, In p (patterns w)
              /\ same_pattern (e_type e) (e_description e) p = true
              /\ 2 <= p_evidence_count p.

(** No active row has an evidence count below -1. *)
Definition settled (w : db) : Prop :=
  forall p, In p (patterns w) -> p_active p = true -> -1 <= p_evidence_count p.

(** No active row is weak: there is nothing to prune. *)
Definition calm (w : db) : Prop :=
  forall p, In p (patterns w) -> p_active p = true -> weak p = false.

(** ** A pass, with the order of the set as a parameter

    [for word in all_words] visits a Python [set], and the language leaves
    the order of a set open: it depends on the hashes of the words, which
    change from one process to the next. [mine_agent_in visit] is
    [mine_agent] with that order made a parameter: [visit resolved] lists
    the words in the order in which the loop meets them, for the decisions
    read. The dictionaries of the other loops are visited in insertion
    order, which the language fixes. *)

(** The order that [all_words] takes. *)
Definition model_visit (resolved : list decision) : list string :=
  all_words (fst (word_counts resolved)) (snd (word_counts resolved)).

(** [visit] lists the elements of the set, each once, in some order. *)
Definition visits_the_set (visit : list decision -> list string) : Prop :=
  forall resolved, Permutation (visit resolved) (model_visit resolved).

(** The set in the opposite order. *)
Definition backwards (resolved : list decision) : list string :=
  rev (model_visit resolved).

Definition keyword_strategy_in (clock : nat -> timestamp) (uuid4_hex : nat -> string)
    (words : list string) (resolved : list decision) (new_patterns : list string)
    : M (list string) :=
  let counters := word_counts resolved in
  for_each (keyword_step clock uuid4_hex (fst counters) (snd counters))
           words new_patterns.

Definition run_strategies_in (clock : nat -> timestamp) (uuid4_hex : nat -> string)
    (words : list string) (resolved : list decision) : M (list string) :=
  new_patterns <- tag_strategy clock uuid4_hex resolved [] ;;
  new_patterns <- keyword_strategy_in clock uuid4_hex words resolved new_patterns ;;
  new_patterns <- calibration_strategy clock uuid4_hex resolved new_patterns ;;
  temporal_strategy clock uuid4_hex resolved new_patterns.

Definition mine_agent_in (clock : nat -> timestamp) (uuid4_hex : nat -> string)
    (visit : list decision -> list string) (agent : string) : M mine_result :=
  stats <- AgentMemory.get_stats ;;
  if AgentMemory.resolved_decisions stats <? MIN_EVIDENCE then
    ret (Skipped agent "insufficient_data" (AgentMemory.resolved_decisions stats))
  else
    resolved <- AgentMemory.get_recent_decisions 500 true ;;
    new_patterns <- run_strategies_in clock uuid4_hex (visit resolved) resolved ;;
    pruned <- prune_weak ;;
    let extracted := Z.of_nat (List.length new_patterns) in
    ret (Mined agent
               (AgentMemory.resolved_decisions stats)
               extracted
               pruned
               (AgentMemory.active_patterns stats + extracted - pruned)
               new_patterns).

(** The calls of such a pass, listed. *)
Definition emissions_in (words : list string) (resolved : list decision)
    : list emission :=
  flat_map tag_emissions (tag_outcomes resolved)
  ++ flat_map (keyword_emissions (fst (word_counts resolved))
                                 (snd (word_counts resolved)))
              words
  ++ calibration_emissions resolved
  ++ flat_map temporal_emissions (hour_outcomes resolved).

(** ** More sample data *)

(** 1001 characters: one more than a description keeps. *)
Definition long_description : string := replicate 1001 "d"%char.

(** A history with patterns of several confidences, one of them
    deactivated, a resolved decision and a fact. *)
Definition ranking_calls : list call :=
  [AddPattern 1 "00000000c1" "trend" "BTC DOWN in fear markets" 12 0.78 [];
   AddPattern 2 "00000000c2" "trend" "ETH UP after upgrades" 3 0.6 [];
   AddPattern 3 "00000000c3" "risk" "Thin books on weekends" 5 0.6 [];
   AddPattern 4 "00000000c4" "risk" "Stale oracle prices" 1 0.3 [];
   DeactivatePattern "pat_00000000c2";
   RecordDecision 5 "00000000c5" "BTC dropped 5% in high volatility"
                  "Take YES position" "F&G=25, vol spike" 0.7 ["btc"];
   RecordOutcome "dec_00000000c5" "Won +$8.50" 0.85;
   SetKnowledge 6 "00000000c6" "risk" "btc_vol" "high" "feed" 0].

Definition ranking_store : db := history ranking_calls.

Definition trend_row : pattern :=
  mk_pattern "pat_00000000c1" "trend" "BTC DOWN in fear markets" 12 0.78 true 1 1 [].

Definition retired_row : pattern :=
  mk_pattern "pat_00000000c2" "trend" "ETH UP after upgrades" 3 0.6 false 2 2 [].

End Invariants.

(** * Lemmas and theorems *)

(** ** Facts on text *)

Section TextFacts.

Lemma take_length (n : nat) (s : string) :
  len (take n s) = Nat.min n (len s).
Proof.
  revert n; induction s as [|c s IH]; intros n; cbn [take len].
  - now rewrite Nat.min_0_r.
  - destruct (is_continuation c) eqn:Ec.
    + cbn [len]. rewrite Ec. apply IH.
    + destruct n as [|n]; [reflexivity|].
      cbn [len]. rewrite Ec, IH. reflexivity.
Qed.

Lemma take_prefix (n : nat) (s : string) :
  exists rest, s = take n s ^^ rest.
Proof.
  revert n; induction s as [|c s IH]; intros n.
  - exists ""; reflexivity.
  - cbn [take]. destruct (is_continuation c).
    + destruct (IH n) as [rest E]. exists rest; cbn; congruence.
    + destruct n as [|n]; [exists (String c s); reflexivity|].
      destruct (IH n) as [rest E]. exists rest; cbn; congruence.
Qed.

Lemma len_bytes (s : string) : (len s <= String.length s)%nat.
Proof.
  induction s as [|c s IH]; cbn [len String.length]; [lia|].
  destruct (is_continuation c); lia.
Qed.

(** A slice as long as the text, counted in code points, is the text. *)
Lemma take_all (n : nat) (s : string) :
  (len s <= n)%nat -> take n s = s.
Proof.
  revert n; induction s as [|c s IH]; intros n H; [reflexivity|].
  cbn [take len] in *. destruct (is_continuation c).
  - now rewrite IH.
  - destruct n as [|n]; [lia|]. rewrite IH by lia. reflexivity.
Qed.

Lemma take_short (n : nat) (s : string) :
  (String.length s <= n)%nat -> take n s = s.
Proof.
  intros H. apply take_all. pose proof (len_bytes s). lia.
Qed.

(** On an ASCII text a code point is a byte. *)
Lemma ascii_not_continuation (c : ascii) :
  Nat.ltb (nat_of_ascii c) 128 = true -> is_continuation c = false.
Proof.
  intros H. apply Nat.ltb_lt in H. unfold is_continuation.
  apply andb_false_iff. left. apply Nat.leb_gt. exact H.
Qed.

Lemma len_ascii (s : string) :
  ascii_text s = true -> len s = String.length s.
Proof.
  induction s as [|c s IH]; cbn [ascii_text len String.length]; [reflexivity|].
  intros H. apply andb_true_iff in H. destruct H as [Hc Hs].
  rewrite (ascii_not_continuation c Hc), IH by exact Hs. reflexivity.
Qed.

End TextFacts.

(** ** Facts on floats *)

Module FloatFacts.

Lemma ltb_leb (x y : float) : PrimFloat.ltb x y = true -> PrimFloat.leb x y = true.
Proof.
  rewrite FloatAxioms.ltb_spec, FloatAxioms.leb_spec. unfold SFltb, SFleb.
  destruct (SFcompare _ _) as [[ | | ]|]; congruence.
Qed.

Lemma leb_not_ltb_eqb (x y : float) :
  PrimFloat.leb x y = true -> PrimFloat.ltb x y = false -> PrimFloat.eqb x y = true.
Proof.
  rewrite FloatAxioms.ltb_spec, FloatAxioms.leb_spec, FloatAxioms.eqb_spec. unfold SFltb, SFleb, SFeqb.
  destruct (SFcompare _ _) as [[ | | ]|]; congruence.
Qed.

Lemma compare_cont_refl (p : positive) (c : comparison) :
  PosDef.Pos.compare_cont c p p = c.
Proof. revert c; induction p; simpl; auto. Qed.

Lemma SFcompare_refl (x : spec_float) :
  x <> S754_nan -> SFcompare x x = Some Eq.
Proof.
  destruct x as [s|s| |s m e]; simpl; intros H; try congruence.
  - destruct s; reflexivity.
  - rewrite Z.compare_refl, compare_cont_refl. destruct s; reflexivity.
Qed.

Lemma leb_left_not_nan (x y : float) :
  PrimFloat.leb x y = true -> Prim2SF x <> S754_nan.
Proof.
  rewrite FloatAxioms.leb_spec. unfold SFleb. intros H E. rewrite E in H. discriminate.
Qed.

Lemma eqb_refl (x : float) : Prim2SF x <> S754_nan -> PrimFloat.eqb x x = true.
Proof.
  intros H. rewrite FloatAxioms.eqb_spec. unfold SFeqb. rewrite SFcompare_refl by assumption.
  reflexivity.
Qed.

Lemma compare_cont_Eq (p q : positive) :
  PosDef.Pos.compare_cont Eq p q = Eq -> p = q.
Proof. apply Pos.compare_eq. Qed.

Lemma SFcompare_Eq_sym (x y : spec_float) :
  SFcompare x y = Some Eq -> SFcompare y x = Some Eq.
Proof.
  destruct x as [s|s| |s m e], y as [s'|s'| |s' m' e']; simpl;
    try congruence; try (destruct s; congruence); try (destruct s'; congruence).
  - destruct s, s'; congruence.
  - destruct s, s'; try congruence;
      destruct (e ?= e') eqn:E; try congruence;
      apply Z.compare_eq in E; subst e';
      rewrite Z.compare_refl;
      destruct (PosDef.Pos.compare_cont Eq m m') eqn:E'; simpl; try congruence;
      apply compare_cont_Eq in E'; subst m'; rewrite compare_cont_refl; reflexivity.
Qed.

Lemma eqb_sym (x y : float) : PrimFloat.eqb x y = true -> PrimFloat.eqb y x = true.
Proof.
  rewrite !FloatAxioms.eqb_spec. unfold SFeqb.
  destruct (SFcompare (Prim2SF x) (Prim2SF y)) as [[ | | ]|] eqn:E; try discriminate.
  rewrite (SFcompare_Eq_sym _ _ E). reflexivity.
Qed.

(** [max(lo, min(hi, x))] lies between the bounds, for every [x], NaN
    included. *)
Lemma clamp_between (lo hi x : float) :
  PrimFloat.ltb lo hi = true ->
  PrimFloat.leb lo (Py.clamp lo hi x) = true
  /\ PrimFloat.leb (Py.clamp lo hi x) hi = true.
Proof.
  intros Hlh. unfold Py.clamp, Py.max, Py.min.
  assert (Hlo : PrimFloat.leb lo lo = true).
  { apply ltb_leb in Hlh. apply leb_left_not_nan in Hlh.
    rewrite FloatAxioms.leb_spec. unfold SFleb. rewrite SFcompare_refl by assumption. reflexivity. }
  assert (Hhi : PrimFloat.leb hi hi = true).
  { rewrite FloatAxioms.leb_spec. unfold SFleb. rewrite SFcompare_refl; [reflexivity|].
    intros E. rewrite FloatAxioms.ltb_spec in Hlh. unfold SFltb in Hlh. rewrite E in Hlh.
    destruct (Prim2SF lo); discriminate. }
  destruct (PrimFloat.ltb x hi) eqn:Hx.
  - destruct (PrimFloat.ltb lo x) eqn:Hl.
    + split; apply ltb_leb; assumption.
    + split; [assumption | apply ltb_leb; assumption].
  - rewrite Hlh. split; [apply ltb_leb; assumption | assumption].
Qed.

(** A value already between the bounds is kept, up to the sign of zero. *)
Lemma clamp_inside (lo hi x : float) :
  PrimFloat.ltb lo hi = true ->
  PrimFloat.leb lo x = true -> PrimFloat.leb x hi = true ->
  PrimFloat.eqb (Py.clamp lo hi x) x = true.
Proof.
  intros Hlh Hl Hh. unfold Py.clamp, Py.max, Py.min.
  assert (Hx : Prim2SF x <> S754_nan) by (eapply leb_left_not_nan; eassumption).
  destruct (PrimFloat.ltb x hi) eqn:Hxh.
  - destruct (PrimFloat.ltb lo x) eqn:Hlx.
    + apply eqb_refl; assumption.
    + apply leb_not_ltb_eqb; assumption.
  - rewrite Hlh. apply eqb_sym. apply leb_not_ltb_eqb; assumption.
Qed.

End FloatFacts.

(** ** Facts on the SQL fragments *)

Module SqlFacts.
Import Sql.

Section Sorting.
Context {A : Type} (before : A -> A -> bool).

Lemma insert_by_perm (x : A) (l : list A) :
  Permutation (insert_by before x l) (x :: l).
Proof.
  induction l as [|y l IH]; simpl; [reflexivity|].
  destruct (before y x); [|reflexivity].
  rewrite IH. apply perm_swap.
Qed.

Lemma sort_by_perm (l : list A) : Permutation (sort_by before l) l.
Proof.
  induction l as [|x l IH]; simpl; [reflexivity|].
  rewrite insert_by_perm. constructor; exact IH.
Qed.

Lemma sort_by_in (x : A) (l : list A) : In x (sort_by before l) <-> In x l.
Proof.
  split; apply Permutation_in; [|symmetry]; apply sort_by_perm.
Qed.

Lemma sort_by_length (l : list A) : List.length (sort_by before l) = List.length l.
Proof. apply Permutation_length, sort_by_perm. Qed.
End Sorting.

Lemma firstn_in {A} (n : nat) (l : list A) (x : A) :
  In x (firstn n l) -> In x l.
Proof.
  revert l; induction n as [|n IH]; intros [|y l]; simpl; try tauto.
  intros [E|H]; [left; exact E | right; apply IH, H].
Qed.

Section Descending.
Context {A : Type} (key : A -> Z).

Lemma insert_desc_sorted (x : A) (l : list A) :
  newest_first key l ->
  newest_first key (insert_by (fun y x => key x <? key y) x l).
Proof.
  unfold newest_first. induction 1 as [|y l Hs IH Hall]; simpl.
  - repeat constructor.
  - destruct (key x <? key y) eqn:E.
    + apply Z.ltb_lt in E. constructor; [exact IH|].
      rewrite Forall_forall in *. intros z Hz.
      apply (Permutation_in _ (insert_by_perm _ x l)) in Hz.
      destruct Hz as [<-|Hz]; [lia | auto].
    + apply Z.ltb_ge in E. constructor; [constructor; assumption|].
      constructor; [exact E|].
      rewrite Forall_forall in *. intros z Hz. specialize (Hall z Hz). lia.
Qed.

Lemma order_by_desc_sorted (l : list A) : newest_first key (order_by_desc key l).
Proof.
  unfold order_by_desc, sort_by. induction l as [|x l IH]; simpl.
  - constructor.
  - apply insert_desc_sorted, IH.
Qed.

(** A row newer than every other one comes first, wherever it is
    inserted. *)
Lemma order_by_desc_newest_last (l : list A) (x : A) :
  (forall y, In y l -> key y < key x) ->
  order_by_desc key (l ++ [x]) = x :: order_by_desc key l.
Proof.
  unfold order_by_desc, sort_by. induction l as [|y l IH]; intros H; simpl.
  - reflexivity.
  - rewrite IH by (intros z Hz; apply H; right; exact Hz). simpl.
    assert (E : (key y <? key x) = true) by (apply Z.ltb_lt, H; left; reflexivity).
    rewrite E. reflexivity.
Qed.

Lemma newest_first_firstn (n : nat) (l : list A) :
  newest_first key l -> newest_first key (firstn n l).
Proof.
  unfold newest_first. intros H; revert n.
  induction H as [|y l Hs IH Hall]; intros [|n]; simpl; try constructor.
  - apply IH.
  - rewrite Forall_forall in *. intros z Hz. apply Hall.
    eapply firstn_in; exact Hz.
Qed.
End Descending.

Section Limit.
Context {A : Type}.

Lemma limit_in (n : Z) (l : list A) (x : A) : In x (limit n l) -> In x l.
Proof.
  unfold limit. destruct (n <? 0); [auto|]. apply firstn_in.
Qed.

Lemma limit_length (n : Z) (l : list A) :
  0 <= n -> Z.of_nat (List.length (limit n l)) = Z.min n (Z.of_nat (List.length l)).
Proof.
  intros H. unfold limit. destruct (n <? 0) eqn:E; [apply Z.ltb_lt in E; lia|].
  rewrite length_firstn. lia.
Qed.

Lemma limit_all (n : Z) (l : list A) :
  n < 0 \/ Z.of_nat (List.length l) <= n -> limit n l = l.
Proof.
  intros H. unfold limit. destruct (n <? 0) eqn:E; [reflexivity|].
  apply Z.ltb_ge in E. apply firstn_all2. lia.
Qed.

Lemma limit_sorted (key : A -> Z) (n : Z) (l : list A) :
  newest_first key l -> newest_first key (limit n l).
Proof.
  intros H. unfold limit. destruct (n <? 0); [exact H|].
  apply newest_first_firstn, H.
Qed.

(** What [LIMIT] cuts off is no newer than what it keeps. *)
Lemma limit_keeps_newest (key : A -> Z) (n : Z) (l : list A) (x y : A) :
  newest_first key l ->
  In x (limit n l) -> In y l -> ~ In y (limit n l) -> key y <= key x.
Proof.
  unfold limit. destruct (n <? 0); [tauto|].
  generalize (Z.to_nat n) as k. intros k Hs; revert k.
  induction Hs as [|z l Hs IH Hall]; intros [|k]; simpl; try tauto.
  intros [<-|Hx] [<-|Hy] Hn; try tauto.
  - rewrite Forall_forall in Hall. auto.
  - eapply IH; eauto.
Qed.
End Limit.

Lemma update_length {A} (where_ : A -> bool) (set : A -> A) (l : list A) :
  List.length (update where_ set l) = List.length l.
Proof. apply length_map. Qed.

Lemma update_none {A} (where_ : A -> bool) (set : A -> A) (l : list A) :
  (forall r, In r l -> where_ r = false) -> update where_ set l = l.
Proof.
  induction l as [|r l IH]; simpl; intros H; [reflexivity|].
  rewrite (H r) by (left; reflexivity).
  rewrite IH by (intros; apply H; right; assumption). reflexivity.
Qed.

Lemma rowcount_pos {A} (where_ : A -> bool) (l : list A) :
  (0 <? rowcount where_ l) = existsb where_ l.
Proof.
  unfold rowcount. induction l as [|r l IH]; simpl; [reflexivity|].
  destruct (where_ r); simpl; [|exact IH].
  apply Z.ltb_lt. lia.
Qed.

End SqlFacts.

(** ** Which tables a call can touch *)

Module Frame.
Import AgentMemory PatternMiner.

Lemma keeps_ret {A} (a : A) : keeps_decisions (ret a).
Proof. intros w; reflexivity. Qed.

Lemma keeps_raise {A} (e : error) : keeps_decisions (@raise A e).
Proof. intros w; reflexivity. Qed.

Lemma keeps_get_db : keeps_decisions get_db.
Proof. intros w; reflexivity. Qed.

Lemma keeps_bind {A B} (m : M A) (k : A -> M B) :
  keeps_decisions m -> (forall a, keeps_decisions (k a)) ->
  keeps_decisions (bind m k).
Proof.
  intros Hm Hk w. unfold bind. specialize (Hm w).
  destruct (m w) as [[a|e] w1]; simpl in *; [|exact Hm].
  rewrite Hk. exact Hm.
Qed.

Lemma keeps_for_each {A S} (body : A -> S -> M S) (l : list A) :
  (forall x s, keeps_decisions (body x s)) ->
  forall s, keeps_decisions (for_each body l s).
Proof.
  intros H. induction l as [|x l IH]; intros s; simpl.
  - apply keeps_ret.
  - apply keeps_bind; auto.
Qed.

Lemma keeps_insert_pattern (p : pattern) : keeps_decisions (insert_pattern p).
Proof. intros w. unfold insert_pattern. destruct (existsb _ _); reflexivity. Qed.

Lemma keeps_update_patterns where_ set : keeps_decisions (update_patterns where_ set).
Proof. intros w; reflexivity. Qed.

Lemma keeps_insert_knowledge (k : knowledge) : keeps_decisions (insert_knowledge k).
Proof. intros w. unfold insert_knowledge. destruct (existsb _ _); reflexivity. Qed.

Lemma keeps_update_knowledge where_ set : keeps_decisions (update_knowledge where_ set).
Proof. intros w; reflexivity. Qed.

Lemma keeps_prune_expired now : keeps_decisions (prune_expired now).
Proof. intros w; reflexivity. Qed.

Lemma keeps_check_bindings n k : keeps_decisions (check_bindings n k).
Proof. unfold check_bindings. destruct (Nat.eqb n k); [apply keeps_ret | apply keeps_raise]. Qed.

Create HintDb keeps.

#[local] Hint Resolve keeps_ret keeps_raise keeps_get_db keeps_insert_pattern
  keeps_update_patterns keeps_insert_knowledge keeps_update_knowledge
  keeps_prune_expired keeps_check_bindings : keeps.

(** Splits a monadic program along its binds, loops and tests. *)
Ltac keeps_step :=
  match goal with
  | |- keeps_decisions (bind _ _) => apply keeps_bind
  | |- keeps_decisions (for_each _ _ _) => apply keeps_for_each
  | |- keeps_decisions (match ?x with _ => _ end) => destruct x
  | |- forall _, _ => intro
  | |- keeps_decisions _ => solve [auto with keeps]
  end.
Ltac keeps := repeat keeps_step.

Lemma keeps_add_pattern now hex pt desc ev conf tags :
  keeps_decisions (add_pattern now hex pt desc ev conf tags).
Proof. unfold add_pattern. keeps. Qed.

Lemma keeps_get_active_patterns pt mc : keeps_decisions (get_active_patterns pt mc).
Proof. unfold get_active_patterns. keeps. Qed.

Lemma keeps_deactivate_pattern id : keeps_decisions (deactivate_pattern id).
Proof. unfold deactivate_pattern. keeps. Qed.

Lemma keeps_get_recent_decisions limit ro : keeps_decisions (get_recent_decisions limit ro).
Proof. unfold get_recent_decisions. keeps. Qed.

Lemma keeps_get_relevant_context situation limit :
  keeps_decisions (get_relevant_context situation limit).
Proof. unfold get_relevant_context. keeps. Qed.

Lemma keeps_search_decisions query limit : keeps_decisions (search_decisions query limit).
Proof. unfold search_decisions. keeps. Qed.

Lemma keeps_set_knowledge now hex c k v s ttl :
  keeps_decisions (set_knowledge now hex c k v s ttl).
Proof. unfold set_knowledge. keeps. Qed.

Lemma keeps_get_knowledge now c k : keeps_decisions (get_knowledge now c k).
Proof. unfold get_knowledge. keeps. Qed.

Lemma keeps_get_stats : keeps_decisions get_stats.
Proof. unfold get_stats. keeps. Qed.

#[local] Hint Resolve keeps_add_pattern keeps_get_active_patterns
  keeps_deactivate_pattern keeps_get_recent_decisions keeps_get_stats : keeps.

Lemma keeps_emit clock uuid4_hex pt desc ev conf new_patterns :
  keeps_decisions (emit clock uuid4_hex pt desc ev conf new_patterns).
Proof. unfold emit. keeps. Qed.

#[local] Hint Resolve keeps_emit : keeps.

Lemma keeps_run_strategies clock uuid4_hex resolved :
  keeps_decisions (run_strategies clock uuid4_hex resolved).
Proof.
  unfold run_strategies, tag_strategy, keyword_strategy, calibration_strategy,
    temporal_strategy, tag_step, keyword_step, temporal_step.
  keeps.
Qed.

Lemma keeps_prune_weak : keeps_decisions prune_weak.
Proof. unfold prune_weak, prune_step. keeps. Qed.

#[local] Hint Resolve keeps_run_strategies keeps_prune_weak : keeps.

Lemma keeps_mine_agent clock uuid4_hex agent :
  keeps_decisions (mine_agent clock uuid4_hex agent).
Proof. unfold mine_agent. keeps. Qed.

End Frame.

(** ** Decisions *)

Section DecisionFacts.
Import AgentMemory.

Lemma db_eta (w : db) : mk_db (decisions w) (patterns w) (knowledges w) = w.
Proof. destruct w; reflexivity. Qed.

Lemma existsb_id_in (id : string) (l : list decision) :
  existsb (fun d => String.eqb (d_id d) id) l = true
  <-> exists d, In d l /\ d_id d = id.
Proof.
  rewrite existsb_exists. split; intros (d & Hin & E); exists d; split; auto.
  - apply String.eqb_eq, E.
  - apply String.eqb_eq, E.
Qed.

(** C4. [record_outcome] returns [True] exactly when a decision has the
    given id. Every row with that id gets the outcome cut to its first
    2000 characters (code points, whatever their size in bytes: a text of
    up to 2000 characters is stored whole), the score brought into
    [-1.0, 1.0] and [resolved] set; all other rows and the other tables
    stay as they are. With no such id the call returns [False], raises
    nothing and leaves the store unchanged. *)
Theorem record_outcome_contract
    (w : db) (decision_id outcome : string) (score : float) :
  let stored_outcome := take 2000 outcome in
  let stored_score := Py.clamp (-1) 1 score in
  exists (found : bool) (w' : db),
    record_outcome decision_id outcome score w = (Return found, w')
    /\ (found = true <-> exists d, In d (decisions w) /\ d_id d = decision_id)
    /\ Forall2
         (fun d d' =>
            if String.eqb (d_id d) decision_id
            then d_outcome d' = stored_outcome
                 /\ d_outcome_score d' = stored_score
                 /\ d_resolved d' = true
                 /\ d_id d' = d_id d
                 /\ d_timestamp d' = d_timestamp d
                 /\ d_context d' = d_context d
                 /\ d_decision d' = d_decision d
                 /\ d_reasoning d' = d_reasoning d
                 /\ d_confidence d' = d_confidence d
                 /\ d_tags d' = d_tags d
            else d' = d)
         (decisions w) (decisions w')
    /\ patterns w' = patterns w
    /\ knowledges w' = knowledges w
    /\ (found = false -> w' = w)
    /\ len stored_outcome = Nat.min 2000 (len outcome)
    /\ (exists rest, outcome = stored_outcome ^^ rest)
    /\ ((len outcome <= 2000)%nat -> stored_outcome = outcome)
    /\ PrimFloat.leb (-1) stored_score = true
    /\ PrimFloat.leb stored_score 1 = true
    /\ (PrimFloat.leb (-1) score = true -> PrimFloat.leb score 1 = true ->
        PrimFloat.eqb stored_score score = true).
Proof.
  intros stored_outcome stored_score.
  exists (existsb (fun d => String.eqb (d_id d) decision_id) (decisions w)).
  eexists. split.
  { unfold record_outcome. rewrite SqlFacts.rowcount_pos. reflexivity. }
  split; [apply existsb_id_in|].
  split.
  { simpl. induction (decisions w) as [|d l IH]; simpl; constructor; auto.
    destruct (String.eqb (d_id d) decision_id); simpl; repeat split; reflexivity. }
  split; [reflexivity|]. split; [reflexivity|].
  split.
  { intros Hnone. unfold with_decisions.
    rewrite SqlFacts.update_none; [apply db_eta|].
    intros r Hr. destruct (String.eqb (d_id r) decision_id) eqn:E; [|reflexivity].
    rewrite <- Hnone. symmetry. apply existsb_exists. exists r; auto. }
  split; [apply take_length|]. split; [apply take_prefix|].
  split; [apply take_all|].
  split; [apply FloatFacts.clamp_between; reflexivity|].
  split; [apply FloatFacts.clamp_between; reflexivity|].
  intros; apply FloatFacts.clamp_inside; auto.
Qed.

End DecisionFacts.

(** ** The decision-state invariant *)

Section DecisionInvariant.
Import AgentMemory.

(** What each call does to the decisions table. *)
Lemma exec_decisions (c : call) (w : db) :
  match c with
  | RecordDecision now hex context decision reasoning confidence tags =>
      decisions (exec c w) = decisions w
      \/ decisions (exec c w) =
         decisions w ++
           [mk_decision ("dec_" ^^ hex) now (take 2000 context) (take 2000 decision)
                        (take 2000 reasoning) (Py.clamp 0 1 confidence) "" 0 false tags]
  | RecordOutcome decision_id outcome score =>
      decisions (exec c w) =
      Sql.update (fun r => String.eqb (d_id r) decision_id)
                 (set_outcome (take 2000 outcome) (Py.clamp (-1) 1 score))
                 (decisions w)
  | _ => decisions (exec c w) = decisions w
  end.
Proof.
  destruct c; simpl;
    try reflexivity;
    try (first [ apply Frame.keeps_get_relevant_context
               | apply Frame.keeps_add_pattern
               | apply Frame.keeps_deactivate_pattern
               | apply Frame.keeps_set_knowledge
               | apply Frame.keeps_get_knowledge
               | apply Frame.keeps_mine_agent ]).
  unfold record_decision, bind, insert_decision; simpl.
  destruct (existsb _ (decisions w)); simpl; auto.
Qed.

Lemma exec_keeps_ok (c : call) (w : db) : decisions_ok w -> decisions_ok (exec c w).
Proof.
  unfold decisions_ok. intros H. pose proof (exec_decisions c w) as E.
  destruct c; try (rewrite E; exact H).
  - destruct E as [E|E]; rewrite E; [exact H|].
    apply Forall_app; split; [exact H|]. constructor; [|constructor].
    intros _; simpl; auto.
  - rewrite E. unfold Sql.update. apply Forall_map.
    eapply Forall_impl; [|exact H]. intros r Hr.
    destruct (String.eqb (d_id r) decision_id); [|exact Hr].
    intros Habs; simpl in Habs; discriminate.
Qed.

Lemma history_snoc (calls : list call) (c : call) :
  history (calls ++ [c]) = exec c (history calls).
Proof. unfold history. rewrite fold_left_app. reflexivity. Qed.

Lemma history_ok (calls : list call) : decisions_ok (history calls).
Proof.
  induction calls as [|c calls IH] using rev_ind.
  - constructor.
  - rewrite history_snoc. apply exec_keeps_ok, IH.
Qed.

(** C5. In every store reached by a history of calls, and after any
    further call, an unresolved decision has an empty outcome and the
    score 0.0. [record_decision] with an unused id appends the decision
    unresolved, with empty outcome, score 0.0 and its confidence brought
    into [0.0, 1.0]; when the stored decisions are older than it,
    [get_recent_decisions(limit=1)] then returns exactly that row. No call
    but [record_outcome] changes a stored decision, and the rows
    [record_outcome] writes are resolved. *)
Theorem decision_state_invariant
    (calls : list call) (now : timestamp)
    (hex context decision reasoning : string) (confidence : float)
    (tags : list string) :
  let w := history calls in
  let d := mk_decision ("dec_" ^^ hex) now (take 2000 context) (take 2000 decision)
                       (take 2000 reasoning) (Py.clamp 0 1 confidence)
                       "" 0 false tags in
  let w' := with_decisions (decisions w ++ [d]) w in
  decisions_ok w
  /\ (forall c, decisions_ok (exec c w))
  /\ (existsb (fun r => String.eqb (d_id r) (d_id d)) (decisions w) = false ->
      record_decision now hex context decision reasoning confidence tags w
      = (Return (d_id d), w')
      /\ ((forall r, In r (decisions w) -> d_timestamp r < now) ->
          get_recent_decisions 1 false w' = (Return [d], w')))
  /\ PrimFloat.leb 0 (d_confidence d) = true
  /\ PrimFloat.leb (d_confidence d) 1 = true
  /\ (forall c r, In r (decisions w) ->
        In r (decisions (exec c w))
        \/ exists id outcome score,
             c = RecordOutcome id outcome score /\ d_id r = id
             /\ In (set_outcome (take 2000 outcome) (Py.clamp (-1) 1 score) r)
                   (decisions (exec c w)))
  /\ (forall id outcome score r,
        In r (decisions (exec (RecordOutcome id outcome score) w)) ->
        d_id r = id -> d_resolved r = true).
Proof.
  intros w d w'.
  split; [apply history_ok|].
  split; [intros c; apply exec_keeps_ok, history_ok|].
  split.
  { intros Hfresh. split.
    - unfold record_decision, bind, insert_decision. fold d. rewrite Hfresh. reflexivity.
    - intros Hold. unfold get_recent_decisions, bind, get_db, ret. simpl.
      rewrite SqlFacts.order_by_desc_newest_last by exact Hold. reflexivity. }
  split; [apply FloatFacts.clamp_between; reflexivity|].
  split; [apply FloatFacts.clamp_between; reflexivity|].
  split.
  { intros c r Hr. pose proof (exec_decisions c w) as E.
    destruct c; try (left; rewrite E; exact Hr).
    - left. destruct E as [E|E]; rewrite E; [exact Hr|].
      apply in_or_app; left; exact Hr.
    - destruct (String.eqb (d_id r) decision_id) eqn:Eid.
      + right. do 3 eexists.
        split; [reflexivity|]. split; [apply String.eqb_eq, Eid|].
        rewrite E. unfold Sql.update. apply in_map_iff. exists r.
        rewrite Eid. auto.
      + left. rewrite E. unfold Sql.update. apply in_map_iff. exists r.
        rewrite Eid. auto. }
  intros id outcome score r Hr Hid.
  pose proof (exec_decisions (RecordOutcome id outcome score) w) as E.
  rewrite E in Hr. unfold Sql.update in Hr.
  apply in_map_iff in Hr. destruct Hr as (r0 & Hr0 & _).
  destruct (String.eqb (d_id r0) id) eqn:Eid.
  - subst r. reflexivity.
  - subst r. apply String.eqb_neq in Eid. contradiction.
Qed.

End DecisionInvariant.

(** ** Patterns *)

Section PatternFacts.
Import AgentMemory.

Lemma find_first {A} (f : A -> bool) (l : list A) (x : A) :
  In x l -> f x = true -> exists y, find f l = Some y.
Proof.
  induction l as [|z l IH]; simpl; [tauto|].
  intros [->|Hin] Hx.
  - rewrite Hx. eauto.
  - destruct (f z); eauto.
Qed.

Lemma find_none_filter {A} (f : A -> bool) (l : list A) :
  find f l = None -> filter f l = [].
Proof.
  induction l as [|z l IH]; simpl; [reflexivity|].
  destruct (f z); [discriminate | exact IH].
Qed.

Lemma find_app_none {A} (f : A -> bool) (l l' : list A) :
  find f l = None -> find f (l ++ l') = find f l'.
Proof.
  induction l as [|z l IH]; simpl; [reflexivity|].
  destruct (f z); [discriminate | exact IH].
Qed.

Lemma same_pattern_spec (pattern_type description : string) (r : pattern) :
  same_pattern pattern_type description r = true
  <-> p_pattern_type r = pattern_type /\ p_description r = description
      /\ p_active r = true.
Proof.
  unfold same_pattern. rewrite !andb_true_iff, !String.eqb_eq. tauto.
Qed.

(** The rows after the UPDATE of a reinforcement, row by row. *)
Lemma reinforce_rows (id : string) (count : Z) (conf : float) (now : timestamp)
    (l : list pattern) :
  Forall2
    (fun p p' =>
       if String.eqb (p_id p) id
       then p_evidence_count p' = count
            /\ p_confidence p' = conf
            /\ p_updated_at p' = now
            /\ p_id p' = p_id p
            /\ p_pattern_type p' = p_pattern_type p
            /\ p_description p' = p_description p
            /\ p_active p' = p_active p
            /\ p_created_at p' = p_created_at p
            /\ p_tags p' = p_tags p
       else p' = p)
    l (Sql.update (fun r => String.eqb (p_id r) id) (reinforce count conf now) l).
Proof.
  induction l as [|p l IH]; simpl; constructor; auto.
  destruct (String.eqb (p_id p) id); simpl; repeat split; reflexivity.
Qed.

(** [min(0.99, x)] is a number, at most 0.99, whatever [x] is. *)
Lemma min_cap (x : float) : PrimFloat.leb (Py.min 0.99 x) 0.99 = true.
Proof.
  unfold Py.min. destruct (PrimFloat.ltb x 0.99) eqn:E.
  - apply FloatFacts.ltb_leb, E.
  - reflexivity.
Qed.

(** [min(0.99, x)] is [x] below 0.99 and 0.99 otherwise, also when [x] is
    not a number. *)
Lemma min_below (x : float) :
  PrimFloat.ltb x 0.99 = true -> Py.min 0.99 x = x.
Proof. intros E. unfold Py.min. rewrite E. reflexivity. Qed.

Lemma min_capped (x : float) :
  PrimFloat.ltb x 0.99 = false -> Py.min 0.99 x = 0.99%float.
Proof. intros E. unfold Py.min. rewrite E. reflexivity. Qed.

(** Two calls with the same texts on a store without an active row for
    them: the second reinforces the row of the first. *)
Lemma add_pattern_twice (w : db) (now1 now2 : timestamp) (hex1 hex2 : string)
    (c1 c2 : float) :
  find (same_pattern "trend" "X") (patterns w) = None ->
  existsb (fun p => String.eqb (p_id p) ("pat_" ^^ hex1)) (patterns w) = false ->
  exists (w1 w2 : db),
    add_pattern now1 hex1 "trend" "X" 1 c1 [] w = (Return ("pat_" ^^ hex1), w1)
    /\ add_pattern now2 hex2 "trend" "X" 1 c2 [] w1 = (Return ("pat_" ^^ hex1), w2)
    /\ filter (same_pattern "trend" "X") (patterns w2)
       = [mk_pattern ("pat_" ^^ hex1) "trend" "X" 2
                     (Py.min 0.99 (Py.clamp 0 1 c1 + 0.05)%float) true now1 now2 []]
    /\ List.length (patterns w2) = S (List.length (patterns w)).
Proof.
  intros Hnone Hfresh.
  unfold add_pattern, bind, get_db, insert_pattern, update_patterns, ret.
  rewrite Hnone.
  change (take 100 "trend") with "trend". change (take 1000 "X") with "X".
  set (c := Py.clamp 0 1 c1). clearbody c.
  set (pid := "pat_" ^^ hex1) in *. clearbody pid.
  cbn [p_id patterns with_patterns fst snd]. rewrite Hfresh.
  do 2 eexists. split; [reflexivity|].
  cbn [p_id patterns with_patterns fst snd].
  rewrite (find_app_none _ _ _ Hnone).
  cbn [find same_pattern p_pattern_type p_description p_active p_id
       p_evidence_count p_confidence].
  change (("trend" =? "trend")%string && ("X" =? "X")%string && true) with true.
  cbv iota. split; [reflexivity|].
  cbn [patterns with_patterns].
  unfold Sql.update. rewrite map_app, filter_app.
  cbn [map filter p_id]. rewrite String.eqb_refl.
  assert (Hkeep : forall f,
             map (fun r => if String.eqb (p_id r) pid then f r else r) (patterns w)
             = patterns w).
  { intros f. apply SqlFacts.update_none. intros p Hp.
    destruct (String.eqb (p_id p) pid) eqn:E; [|reflexivity].
    rewrite <- Hfresh. symmetry. apply existsb_exists. exists p; auto. }
  rewrite Hkeep, (find_none_filter _ _ Hnone). split; [reflexivity|].
  rewrite length_app. simpl. lia.
Qed.

(** C1. When an active row has the given type and description,
    [add_pattern] inserts nothing and returns the id of the first such
    row; that row gets the sum of the two evidence counts, the confidence
    [min(0.99, old + 0.05)] and the clock reading as [updated_at], and
    every row with another id is unchanged. The new confidence is spelled
    out: it is [old + 0.05] when that is below 0.99 and 0.99 otherwise, so
    it never exceeds 0.99. From a store with no active ("trend", "X") row,
    two calls [add_pattern("trend", "X", 1, 0.5)] leave exactly one such
    row, with evidence 2 and confidence 0.55; when the first call passes
    0.95 instead, the row ends with confidence 0.99, not 1.0. *)
Theorem add_pattern_reinforces :
  (forall (w : db) (now : timestamp) (hex pattern_type description : string)
          (evidence_count : Z) (confidence : float) (tags : list string)
          (r : pattern),
      In r (patterns w) ->
      p_pattern_type r = pattern_type -> p_description r = description ->
      p_active r = true ->
      exists (existing : pattern) (w' : db),
        add_pattern now hex pattern_type description evidence_count confidence tags w
        = (Return (p_id existing), w')
        /\ In existing (patterns w)
        /\ p_pattern_type existing = pattern_type
        /\ p_description existing = description
        /\ p_active existing = true
        /\ List.length (patterns w') = List.length (patterns w)
        /\ Forall2
             (fun p p' =>
                if String.eqb (p_id p) (p_id existing)
                then p_evidence_count p'
                     = p_evidence_count existing + evidence_count
                     /\ p_confidence p'
                        = Py.min 0.99 (p_confidence existing + 0.05)%float
                     /\ PrimFloat.leb (p_confidence p') 0.99 = true
                     /\ (PrimFloat.ltb (p_confidence existing + 0.05) 0.99 = true ->
                         p_confidence p' = (p_confidence existing + 0.05)%float)
                     /\ (PrimFloat.ltb (p_confidence existing + 0.05) 0.99 = false ->
                         p_confidence p' = 0.99%float)
                     /\ p_updated_at p' = now
                     /\ p_id p' = p_id p
                     /\ p_pattern_type p' = p_pattern_type p
                     /\ p_description p' = p_description p
                     /\ p_active p' = p_active p
                     /\ p_created_at p' = p_created_at p
                     /\ p_tags p' = p_tags p
                else p' = p)
             (patterns w) (patterns w')
        /\ decisions w' = decisions w
        /\ knowledges w' = knowledges w)
  /\ (forall (w : db) (now1 now2 : timestamp) (hex1 hex2 : string),
        find (same_pattern "trend" "X") (patterns w) = None ->
        existsb (fun p => String.eqb (p_id p) ("pat_" ^^ hex1)) (patterns w) = false ->
        exists (w1 w2 : db),
          add_pattern now1 hex1 "trend" "X" 1 0.5 [] w = (Return ("pat_" ^^ hex1), w1)
          /\ add_pattern now2 hex2 "trend" "X" 1 0.5 [] w1 = (Return ("pat_" ^^ hex1), w2)
          /\ filter (same_pattern "trend" "X") (patterns w2)
             = [mk_pattern ("pat_" ^^ hex1) "trend" "X" 2 0.55 true now1 now2 []]
          /\ List.length (patterns w2) = S (List.length (patterns w)))
  /\ (forall (w : db) (now1 now2 : timestamp) (hex1 hex2 : string),
        find (same_pattern "trend" "X") (patterns w) = None ->
        existsb (fun p => String.eqb (p_id p) ("pat_" ^^ hex1)) (patterns w) = false ->
        exists (w1 w2 : db),
          add_pattern now1 hex1 "trend" "X" 1 0.95 [] w = (Return ("pat_" ^^ hex1), w1)
          /\ add_pattern now2 hex2 "trend" "X" 1 0.5 [] w1 = (Return ("pat_" ^^ hex1), w2)
          /\ filter (same_pattern "trend" "X") (patterns w2)
             = [mk_pattern ("pat_" ^^ hex1) "trend" "X" 2 0.99 true now1 now2 []]
          /\ List.length (patterns w2) = S (List.length (patterns w))).
Proof.
  split; [|split].
  - intros w now hex pattern_type description evidence_count confidence tags r
           Hin Ht Hd Ha.
    destruct (find_first (same_pattern pattern_type description) (patterns w) r Hin)
      as [existing Hfind].
    { apply same_pattern_spec; auto. }
    exists existing. eexists. split.
    { unfold add_pattern, bind, get_db. rewrite Hfind. reflexivity. }
    destruct (find_some _ _ Hfind) as [Hin' Hsame].
    apply same_pattern_spec in Hsame. destruct Hsame as (? & ? & ?).
    repeat (split; [assumption|]).
    split; [apply SqlFacts.update_length|].
    split; [|split; reflexivity].
    cbn [patterns with_patterns snd].
    eapply Forall2_impl; [|apply reinforce_rows].
    intros p p'. cbv beta.
    destruct (String.eqb (p_id p) (p_id existing)); [|exact (fun E => E)].
    intros (Hc & Hx & Hrest).
    split; [exact Hc|]. split; [exact Hx|].
    split; [rewrite Hx; apply min_cap|].
    split; [intros E; rewrite Hx; apply min_below, E|].
    split; [intros E; rewrite Hx; apply min_capped, E|].
    exact Hrest.
  - intros w now1 now2 hex1 hex2 Hnone Hfresh.
    exact (add_pattern_twice w now1 now2 hex1 hex2 0.5 0.5 Hnone Hfresh).
  - intros w now1 now2 hex1 hex2 Hnone Hfresh.
    exact (add_pattern_twice w now1 now2 hex1 hex2 0.95 0.5 Hnone Hfresh).
Qed.

End PatternFacts.

(** ** Knowledge *)

Section KnowledgeFacts.
Import AgentMemory.

Lemma overwrite_rows (id : string) (now : timestamp) (value source : string)
    (ttl_hours : Z) (l : list knowledge) :
  Forall2
    (fun k k' =>
       if String.eqb (k_id k) id
       then written now value source ttl_hours k'
            /\ k_id k' = k_id k
            /\ k_category k' = k_category k
            /\ k_key k' = k_key k
       else k' = k)
    l (Sql.update (fun r => String.eqb (k_id r) id)
                  (overwrite (take 5000 value) (take 200 source) ttl_hours now
                             (if 0 <? ttl_hours
                              then Some (now + ttl_hours * usec_per_hour) else None))
                  l).
Proof.
  induction l as [|k l IH]; simpl; constructor; auto.
  destruct (String.eqb (k_id k) id); [|reflexivity].
  unfold written; simpl; repeat split; reflexivity.
Qed.

(** What [set_knowledge] does on each of its three paths. *)
Lemma set_knowledge_cases (w : db) (now : timestamp)
    (hex category key value source : string) (ttl_hours : Z) :
  let expires :=
    if 0 <? ttl_hours then Some (now + ttl_hours * usec_per_hour) else None in
  match find (same_fact category key) (knowledges w) with
  | Some existing =>
      set_knowledge now hex category key value source ttl_hours w
      = (Return (k_id existing),
         with_knowledges
           (Sql.update (fun r => String.eqb (k_id r) (k_id existing))
                       (overwrite (take 5000 value) (take 200 source)
                                  ttl_hours now expires)
                       (knowledges w)) w)
  | None =>
      if existsb (fun r => String.eqb (k_id r) ("kn_" ^^ hex)) (knowledges w)
      then set_knowledge now hex category key value source ttl_hours w
           = (Raise IntegrityError, w)
      else set_knowledge now hex category key value source ttl_hours w
           = (Return ("kn_" ^^ hex),
              with_knowledges
                (knowledges w ++
                   [mk_knowledge ("kn_" ^^ hex) (take 100 category) (take 200 key)
                                 (take 5000 value) (take 200 source)
                                 ttl_hours now expires]) w)
  end.
Proof.
  intros expires. unfold set_knowledge, bind, get_db, same_fact.
  destruct (find _ (knowledges w)) as [existing|]; [reflexivity|].
  unfold insert_knowledge. cbn [k_id].
  destruct (existsb _ (knowledges w)); reflexivity.
Qed.

(** C8, as the code has it. The row that [set_knowledge] inserts holds the
    value cut to 5000 characters, the source cut to 200, the category cut
    to 100 and the key cut to 200; on the update path the value is cut to
    5000 and the source to 200, and category and key stay those of the row
    found, which are the arguments. Nothing is rejected for its length.
    Characters are code points: a cut text has as many as the bound or as
    the argument, whichever is less, whatever their size in bytes. *)
Theorem set_knowledge_truncates
    (w : db) (now : timestamp) (hex category key value source : string)
    (ttl_hours : Z) :
  match find (same_fact category key) (knowledges w) with
  | Some existing =>
      exists w',
        set_knowledge now hex category key value source ttl_hours w
        = (Return (k_id existing), w')
        /\ k_category existing = category /\ k_key existing = key
        /\ Forall2
             (fun k k' =>
                if String.eqb (k_id k) (k_id existing)
                then written now value source ttl_hours k'
                     /\ k_id k' = k_id k
                     /\ k_category k' = k_category k
                     /\ k_key k' = k_key k
                else k' = k)
             (knowledges w) (knowledges w')
  | None =>
      existsb (fun r => String.eqb (k_id r) ("kn_" ^^ hex)) (knowledges w) = false ->
      exists k,
        set_knowledge now hex category key value source ttl_hours w
        = (Return (k_id k), with_knowledges (knowledges w ++ [k]) w)
        /\ k_id k = "kn_" ^^ hex
        /\ k_category k = take 100 category
        /\ k_key k = take 200 key
        /\ written now value source ttl_hours k
  end
  /\ len (take 5000 value) = Nat.min 5000 (len value)
  /\ len (take 200 source) = Nat.min 200 (len source)
  /\ len (take 100 category) = Nat.min 100 (len category)
  /\ len (take 200 key) = Nat.min 200 (len key)
  /\ ((len value <= 5000)%nat -> take 5000 value = value)
  /\ ((len source <= 200)%nat -> take 200 source = source)
  /\ ((len category <= 100)%nat -> take 100 category = category)
  /\ ((len key <= 200)%nat -> take 200 key = key).
Proof.
  split.
  - pose proof (set_knowledge_cases w now hex category key value source ttl_hours) as H.
    cbv zeta in H.
    destruct (find (same_fact category key) (knowledges w)) as [existing|] eqn:Hfind.
    + eexists. split; [exact H|].
      apply find_some in Hfind. destruct Hfind as [_ Hsame].
      unfold same_fact in Hsame. apply andb_true_iff in Hsame.
      rewrite !String.eqb_eq in Hsame.
      split; [tauto|]. split; [tauto|].
      apply overwrite_rows.
    + intros Hfresh. rewrite Hfresh in H.
      eexists (mk_knowledge _ _ _ _ _ _ _ _). split; [exact H|].
      unfold written. cbn. repeat split; reflexivity.
  - rewrite !take_length. repeat split; try reflexivity; apply take_all.
Qed.

End KnowledgeFacts.

Section KnowledgeExpiry.
Import AgentMemory.

(** After [set_knowledge] the rows with the returned id, and there is one,
    are the rows just written. *)
Lemma set_knowledge_row (w : db) (now : timestamp)
    (hex category key value source : string) (ttl_hours : Z) :
  (find (same_fact category key) (knowledges w) = None ->
   existsb (fun r => String.eqb (k_id r) ("kn_" ^^ hex)) (knowledges w) = false) ->
  exists id w1,
    set_knowledge now hex category key value source ttl_hours w = (Return id, w1)
    /\ (exists k, In k (knowledges w1) /\ k_id k = id
                  /\ written now value source ttl_hours k)
    /\ (forall k, In k (knowledges w1) -> k_id k = id ->
                  written now value source ttl_hours k).
Proof.
  intros Hfresh.
  pose proof (set_knowledge_cases w now hex category key value source ttl_hours) as H.
  cbv zeta in H.
  destruct (find (same_fact category key) (knowledges w)) as [existing|] eqn:Hfind.
  - do 2 eexists. split; [exact H|].
    cbn [knowledges with_knowledges]. unfold Sql.update.
    apply find_some in Hfind. destruct Hfind as [Hin _]. split.
    + eexists. split; [apply in_map_iff; exists existing; split; [reflexivity|exact Hin]|].
      rewrite String.eqb_refl. unfold written. cbn. repeat split; reflexivity.
    + intros k Hk Hid. apply in_map_iff in Hk. destruct Hk as (r & <- & _).
      destruct (String.eqb (k_id r) (k_id existing)) eqn:E.
      * unfold written. cbn. repeat split; reflexivity.
      * apply String.eqb_neq in E. contradiction.
  - specialize (Hfresh eq_refl). rewrite Hfresh in H.
    do 2 eexists. split; [exact H|].
    cbn [knowledges with_knowledges]. split.
    + eexists. split; [apply in_or_app; right; left; reflexivity|].
      unfold written. cbn. repeat split; reflexivity.
    + intros k Hk Hid. apply in_app_or in Hk. destruct Hk as [Hk|[<-|[]]].
      * exfalso. apply Bool.not_true_iff_false in Hfresh. apply Hfresh.
        apply existsb_exists. exists k. split; [exact Hk|]. apply String.eqb_eq, Hid.
      * unfold written. cbn. repeat split; reflexivity.
Qed.

Lemma expired_spec (now : timestamp) (k : knowledge) :
  expired now k = false <-> forall e, k_expires_at k = Some e -> now <= e.
Proof.
  unfold expired. destruct (k_expires_at k) as [e|].
  - rewrite Z.ltb_ge. split; [intros H e' [= <-]; exact H | auto].
  - split; [intros _ e' [=] | reflexivity].
Qed.

(** One read: the purge, then the SELECT on what is left. *)
Lemma get_knowledge_cases (w : db) (now : timestamp) (category key : option string) :
  exists rows,
    get_knowledge now category key w
    = (Return rows,
       with_knowledges (filter (fun r => negb (expired now r)) (knowledges w)) w)
    /\ (forall k, In k rows ->
                  In k (filter (fun r => negb (expired now r)) (knowledges w)))
    /\ (given category = None -> given key = None ->
        forall k, In k (filter (fun r => negb (expired now r)) (knowledges w)) ->
                  In k rows).
Proof.
  eexists. split; [reflexivity|]. cbn [knowledges with_knowledges]. split.
  - intros k Hk. apply SqlFacts.sort_by_in in Hk. apply filter_In in Hk. tauto.
  - intros -> -> k Hk. apply SqlFacts.sort_by_in. apply filter_In. auto.
Qed.

(** C9. [get_knowledge] first deletes every row whose [expires_at] is set
    and earlier than the clock reading, and selects from what is left.
    A fact set at [t0] with [ttl_hours > 0] is returned by a read at [t1]
    up to [t0 + ttl_hours] hours and is gone from the result and from the
    table after that; with [ttl_hours <= 0], 0 in particular, it is
    returned whatever [t1] is. *)
Theorem get_knowledge_purges_expired
    (w : db) (t0 t1 : timestamp) (hex category key value source : string)
    (ttl_hours : Z) (category_filter key_filter : option string) :
  (find (same_fact category key) (knowledges w) = None ->
   existsb (fun r => String.eqb (k_id r) ("kn_" ^^ hex)) (knowledges w) = false) ->
  (exists rows w',
      get_knowledge t1 category_filter key_filter w = (Return rows, w')
      /\ knowledges w' = filter (fun r => negb (expired t1 r)) (knowledges w)
      /\ (forall k, In k (knowledges w')
                    <-> In k (knowledges w)
                        /\ forall e, k_expires_at k = Some e -> t1 <= e)
      /\ (forall k, In k rows -> In k (knowledges w'))
      /\ decisions w' = decisions w
      /\ patterns w' = patterns w)
  /\ exists id w1 rows w2,
       set_knowledge t0 hex category key value source ttl_hours w = (Return id, w1)
       /\ get_knowledge t1 None None w1 = (Return rows, w2)
       /\ (0 < ttl_hours -> t1 <= t0 + ttl_hours * usec_per_hour ->
           exists k, In k rows /\ k_id k = id /\ k_value k = take 5000 value)
       /\ (0 < ttl_hours -> t0 + ttl_hours * usec_per_hour < t1 ->
           forall k, k_id k = id -> ~ In k rows /\ ~ In k (knowledges w2))
       /\ (ttl_hours <= 0 ->
           exists k, In k rows /\ k_id k = id /\ k_value k = take 5000 value).
Proof.
  intros Hfresh. split.
  - destruct (get_knowledge_cases w t1 category_filter key_filter) as (rows & E & Hrows & _).
    do 2 eexists. split; [exact E|]. cbn [knowledges with_knowledges decisions patterns].
    split; [reflexivity|]. split.
    { intros k. rewrite filter_In, Bool.negb_true_iff, expired_spec. tauto. }
    split; [exact Hrows|]. split; reflexivity.
  - destruct (set_knowledge_row w t0 hex category key value source ttl_hours Hfresh)
      as (id & w1 & Eset & (k0 & Hin0 & Hid0 & Hw0) & Hall).
    destruct (get_knowledge_cases w1 t1 None None) as (rows & Eget & Hrows & Hback).
    specialize (Hback eq_refl eq_refl).
    exists id, w1, rows. eexists. split; [exact Eset|]. split; [exact Eget|].
    cbn [knowledges with_knowledges].
    assert (Hkept : expired t1 k0 = false -> exists k, In k rows /\ k_id k = id
                                                      /\ k_value k = take 5000 value).
    { intros Hk. exists k0. split; [|split; [exact Hid0 | apply Hw0]].
      apply Hback. apply filter_In. rewrite Hk. auto. }
    split; [|split].
    + intros Hpos Hle. apply Hkept. apply expired_spec. intros e He.
      destruct Hw0 as (_ & _ & _ & _ & Hexp). rewrite Hexp in He.
      apply Z.ltb_lt in Hpos. rewrite Hpos in He. injection He as <-. exact Hle.
    + intros Hpos Hlt k Hid.
      assert (Hgone : ~ In k (filter (fun r => negb (expired t1 r)) (knowledges w1))).
      { intros Hk. apply filter_In in Hk. destruct Hk as [Hk Hne].
        destruct (Hall k Hk Hid) as (_ & _ & _ & _ & Hexp).
        apply Z.ltb_lt in Hpos. rewrite Hpos in Hexp.
        unfold expired in Hne. rewrite Hexp in Hne.
        apply Bool.negb_true_iff, Z.ltb_ge in Hne. lia. }
      split; [intros Hk; apply Hgone, Hrows, Hk | exact Hgone].
    + intros Hle. apply Hkept. apply expired_spec. intros e He.
      destruct Hw0 as (_ & _ & _ & _ & Hexp). rewrite Hexp in He.
      assert (E : (0 <? ttl_hours) = false) by (apply Z.ltb_ge; exact Hle).
      rewrite E in He. discriminate.
Qed.

End KnowledgeExpiry.

(** ** LIKE and the two searches *)

Section LikeFacts.
Import Like.

Lemma like_percent (p s : string) :
  like (String percent p) s
  = (like p s || match s with
                 | EmptyString => false
                 | String _ s' => like (String percent p) s'
                 end)%bool.
Proof. destruct s; reflexivity. Qed.

Lemma like_plain (c : ascii) (p s : string) :
  Ascii.eqb c percent = false -> Ascii.eqb c underscore = false ->
  like (String c p) s
  = match s with
    | EmptyString => false
    | String d s' => (same_nocase c d && like p s')%bool
    end.
Proof. intros H1 H2. simpl. rewrite H1, H2. reflexivity. Qed.

Lemma like_percent_all (s : string) : like (String percent "") s = true.
Proof.
  induction s as [|c s IH]; [reflexivity|].
  rewrite like_percent. rewrite IH. apply orb_true_r.
Qed.

(** A wildcard-free text followed by [%] matches the strings it is a
    prefix of, up to ASCII case. *)
Lemma like_prefix (q s : string) :
  wildcard_free q = true ->
  like (q ^^ String percent "") s = prefix_of (lower q) (lower s).
Proof.
  revert s. induction q as [|c q IH]; intros s Hq.
  - apply like_percent_all.
  - simpl in Hq. apply andb_true_iff in Hq. destruct Hq as [Hc Hq].
    apply andb_true_iff in Hc. destruct Hc as [H1 H2].
    apply negb_true_iff in H1, H2.
    change (String c q ^^ String percent "") with (String c (q ^^ String percent "")).
    rewrite like_plain by assumption.
    destruct s as [|d s]; [reflexivity|].
    simpl. rewrite IH by exact Hq. reflexivity.
Qed.

(** [LIKE '%q%'] for a wildcard-free [q] is containment up to ASCII case. *)
Lemma like_around (q s : string) :
  wildcard_free q = true ->
  like (around q) s = contains (lower q) (lower s).
Proof.
  intros Hq. unfold around.
  change ("%" ^^ q ^^ "%") with (String percent (q ^^ String percent "")).
  induction s as [|c s IH].
  - rewrite like_percent, like_prefix by exact Hq.
    destruct (lower q); reflexivity.
  - rewrite like_percent, like_prefix by exact Hq.
    rewrite IH. reflexivity.
Qed.

End LikeFacts.

Section SearchFacts.
Import AgentMemory.

(** C6 as specified fails on the code: [search_decisions("btc")] returns
    the decision on "BTC dropped ...", which does not contain "btc" as a
    case-sensitive substring. *)
Lemma search_decisions_ignores_case :
  fst (search_decisions "btc" 10 sample_store)
  = Return [mk_decision "dec_00000000a1" 1 "BTC dropped 5% in high volatility"
                        "Take YES position" "F&G=25, vol spike" 0.7 "" 0 false []]
  /\ search_decisions_as_specified "btc" 10 sample_store = []
  /\ fst (search_decisions "btc" 10 sample_store)
     <> Return (search_decisions_as_specified "btc" 10 sample_store).
Proof.
  split; [vm_compute; reflexivity|]. split; [vm_compute; reflexivity|].
  vm_compute. discriminate.
Qed.

(** C6, as the code has it. [search_decisions] returns, newest first, the
    decisions whose context or decision text is matched by SQLite's
    [LIKE '%query%']: all of them when [limit] is negative or large
    enough, else the [limit] newest. For a query without [%] and [_]
    the match is containment up to ASCII case. *)
Theorem search_decisions_like (w : db) (query : string) (limit : Z) :
  exists rows,
    search_decisions query limit w = (Return rows, w)
    /\ newest_first d_timestamp rows
    /\ (forall r, In r rows -> In r (decisions w) /\ search_hit query r = true)
    /\ (0 <= limit ->
        Z.of_nat (List.length rows) = Z.min limit (count (search_hit query) (decisions w)))
    /\ (limit < 0 \/ count (search_hit query) (decisions w) <= limit ->
        Permutation rows (filter (search_hit query) (decisions w)))
    /\ (forall x y, In x rows -> In y (decisions w) -> search_hit query y = true ->
                    ~ In y rows -> d_timestamp y <= d_timestamp x)
    /\ (wildcard_free query = true ->
        forall r, search_hit query r
                  = (contains (lower query) (lower (d_context r))
                     || contains (lower query) (lower (d_decision r)))%bool).
Proof.
  eexists. split; [reflexivity|].
  fold (search_hit query).
  set (hits := filter (search_hit query) (decisions w)).
  split; [apply SqlFacts.limit_sorted, SqlFacts.order_by_desc_sorted|].
  split.
  { intros r Hr. apply SqlFacts.limit_in, SqlFacts.sort_by_in in Hr.
    apply filter_In in Hr. exact Hr. }
  split.
  { intros Hl. rewrite SqlFacts.limit_length by exact Hl.
    unfold Sql.order_by_desc. rewrite SqlFacts.sort_by_length. reflexivity. }
  split.
  { intros Hl. rewrite SqlFacts.limit_all.
    - apply SqlFacts.sort_by_perm.
    - unfold Sql.order_by_desc. rewrite SqlFacts.sort_by_length. exact Hl. }
  split.
  { intros x y Hx Hy Hhit Hny.
    eapply SqlFacts.limit_keeps_newest;
      [apply SqlFacts.order_by_desc_sorted | exact Hx | | exact Hny].
    apply SqlFacts.sort_by_in. apply filter_In. auto. }
  intros Hq r. unfold search_hit. rewrite !like_around by exact Hq. reflexivity.
Qed.

(** With more than ten words the statement has more [?] than the call
    binds, and [execute] raises. *)
Lemma get_relevant_context_over_ten (situation : string) (limit : Z) (w : db) :
  (10 < List.length (situation_words situation))%nat ->
  get_relevant_context situation limit w = (Raise ProgrammingError, w).
Proof.
  intros H. unfold get_relevant_context. fold (situation_words situation).
  destruct (situation_words situation) as [|x l] eqn:E; [simpl in H; lia|].
  rewrite <- E in H |- *. unfold bind, check_bindings.
  rewrite length_map, length_firstn.
  replace (Nat.eqb _ _) with false; [reflexivity|].
  symmetry. apply Nat.eqb_neq. lia.
Qed.

(** With one to ten words the call returns the rows that match one of the
    patterns, newest first. *)
Lemma get_relevant_context_up_to_ten (situation : string) (limit : Z) (w : db) :
  let words := situation_words situation in
  (0 < List.length words <= 10)%nat ->
  exists rows,
    get_relevant_context situation limit w = (Return rows, w)
    /\ map fst rows
       = Sql.limit limit
           (Sql.order_by_desc d_timestamp
              (filter (relevant_hit (map Like.around words)) (decisions w))).
Proof.
  intros words H. unfold get_relevant_context. fold (situation_words situation).
  fold words. destruct words as [|x l] eqn:E; [simpl in H; lia|].
  rewrite <- E in H |- *. unfold bind, check_bindings.
  rewrite firstn_all2 by lia. rewrite length_map, Nat.eqb_refl.
  eexists. split; [reflexivity|].
  rewrite map_map. simpl. rewrite map_id. reflexivity.
Qed.

(** C2, at an input on which the code departs from the specification: eleven
    qualifying words make [get_relevant_context] raise on any store,
    where the specification has it return the matches of the first ten.
    The example of the specification, with four words, behaves as
    specified. *)
Theorem get_relevant_context_raises_on_eleven_words (w : db) (limit : Z) :
  List.length (situation_words eleven_words) = 11%nat
  /\ get_relevant_context eleven_words limit w = (Raise ProgrammingError, w)
  /\ map (fun row => d_context (fst row))
         (match fst (get_relevant_context "BTC high volatility trade" 5 sample_store) with
          | Return rows => rows
          | Raise _ => []
          end)
     = ["BTC dropped 5% in high volatility"].
Proof.
  split; [reflexivity|]. split.
  - apply get_relevant_context_over_ten.
    replace (List.length (situation_words eleven_words)) with 11%nat by reflexivity.
    lia.
  - vm_compute. reflexivity.
Qed.

End SearchFacts.

(** ** The miner: one call of [add_pattern] *)

Section AddRow.
Import AgentMemory.

Lemma add_pattern_returns (now : timestamp) (hex pattern_type description : string)
    (evidence_count : Z) (confidence : float) (tags : list string) (w : db) :
  ~ In ("pat_" ^^ hex) (map p_id (patterns w)) ->
  exists id,
    add_pattern now hex pattern_type description evidence_count confidence tags w
    = (Return id,
       with_patterns
         (add_row now hex pattern_type description evidence_count confidence tags
                  (patterns w)) w).
Proof.
  intros Hfresh. unfold add_pattern, add_row, bind, get_db.
  destruct (find _ (patterns w)) as [existing|]; [eexists; reflexivity|].
  unfold insert_pattern. cbn [p_id].
  destruct (existsb _ (patterns w)) eqn:E; [|eexists; reflexivity].
  exfalso. apply Hfresh. apply existsb_exists in E. destruct E as (r & Hr & E).
  apply String.eqb_eq in E. rewrite <- E. apply in_map, Hr.
Qed.

(** The ids after the call: the same, or one more at the end. *)
Lemma add_row_ids (now : timestamp) (hex pattern_type description : string)
    (evidence_count : Z) (confidence : float) (tags : list string)
    (ps : list pattern) :
  map p_id (add_row now hex pattern_type description evidence_count confidence tags ps)
  = map p_id ps
  \/ map p_id (add_row now hex pattern_type description evidence_count confidence tags ps)
     = map p_id ps ++ ["pat_" ^^ hex].
Proof.
  unfold add_row. destruct (find _ ps) as [existing|].
  - left. unfold Sql.update. rewrite map_map. apply map_ext.
    intros r. destruct (String.eqb (p_id r) (p_id existing)); reflexivity.
  - right. rewrite map_app. reflexivity.
Qed.

Lemma filter_map_same {A} (g : A -> bool) (f : A -> A) (l : list A) :
  (forall r, In r l -> g (f r) = g r /\ (g r = true -> f r = r)) ->
  filter g (map f l) = filter g l.
Proof.
  induction l as [|r l IH]; intros H; simpl; [reflexivity|].
  destruct (H r (or_introl eq_refl)) as [E1 E2]. rewrite E1.
  rewrite IH by (intros; apply H; right; assumption).
  destruct (g r); [rewrite E2 by reflexivity|]; reflexivity.
Qed.

Lemma NoDup_map_eq {A B} (f : A -> B) (l : list A) (x y : A) :
  NoDup (map f l) -> In x l -> In y l -> f x = f y -> x = y.
Proof.
  induction l as [|z l IH]; simpl; [tauto|].
  intros Hnd. inversion Hnd as [|? ? Hnot Hnd']; subst.
  intros [->|Hx] [->|Hy] E; auto.
  - exfalso. apply Hnot. rewrite E. apply in_map, Hy.
  - exfalso. apply Hnot. rewrite <- E. apply in_map, Hx.
Qed.

(** A call that avoids a selection leaves the selected rows as they are. *)
Lemma add_row_avoids (sel : string -> string -> bool -> bool)
    (now : timestamp) (hex pattern_type description : string)
    (evidence_count : Z) (confidence : float) (tags : list string)
    (ps : list pattern) :
  NoDup (map p_id ps) ->
  avoids sel pattern_type description ->
  filter (selected sel)
         (add_row now hex pattern_type description evidence_count confidence tags ps)
  = filter (selected sel) ps.
Proof.
  intros Hnd [Hfind Hnew]. unfold add_row.
  destruct (find _ ps) as [existing|] eqn:E.
  - apply find_some in E. destruct E as [Hin Hsame].
    apply same_pattern_spec in Hsame. destruct Hsame as (Ht & Hd & Ha).
    unfold Sql.update. apply filter_map_same. intros r Hr.
    destruct (String.eqb (p_id r) (p_id existing)) eqn:Eid; [|auto].
    apply String.eqb_eq in Eid.
    assert (r = existing) by (eapply NoDup_map_eq; eauto). subst r.
    unfold selected. cbn. rewrite Ht, Hd, Ha, Hfind. split; [reflexivity|discriminate].
  - rewrite filter_app. cbn [filter].
    match goal with
    | |- context [if selected sel ?r then _ else _] =>
        change (selected sel r)
          with (sel (take 100 pattern_type) (take 1000 description) true)
    end.
    rewrite Hnew. apply app_nil_r.
Qed.

End AddRow.

(** ** The miner: sequences of calls *)

Section MinerLoops.
Import AgentMemory PatternMiner.

Variable clock : nat -> timestamp.
Variable uuid4_hex : nat -> string.

(** The number of draws of a pass that are known to be new. *)
Variable draws : nat.

Lemma supply_ok_ids (n : nat) (w : db) :
  supply_ok uuid4_hex draws n w -> NoDup (map p_id (patterns w)).
Proof. unfold supply_ok. intros H. eapply NoDup_app_remove_r, H. Qed.

Lemma supply_ok_next (n : nat) (w : db) :
  (n < draws)%nat -> supply_ok uuid4_hex draws n w ->
  ~ In (draw uuid4_hex n) (map p_id (patterns w))
  /\ NoDup (map p_id (patterns w) ++ map (draw uuid4_hex) (seq (S n) (draws - S n)))
  /\ NoDup ((map p_id (patterns w) ++ [draw uuid4_hex n])
              ++ map (draw uuid4_hex) (seq (S n) (draws - S n))).
Proof.
  unfold supply_ok. intros Hn H.
  replace (draws - n)%nat with (S (draws - S n)) in H by lia.
  cbn [seq map] in H.
  split; [|split].
  - apply NoDup_remove_2 in H. intros Hin. apply H. apply in_or_app. left. exact Hin.
  - apply NoDup_remove_1 in H. exact H.
  - rewrite <- app_assoc. exact H.
Qed.

(** One call: the table becomes [add_row] of itself. *)
Lemma emit_returns (pattern_type desc : string) (evidence_count : Z)
    (confidence : float) (np : list string) (w : db) :
  (List.length np < draws)%nat ->
  supply_ok uuid4_hex draws (List.length np) w ->
  exists w',
    emit clock uuid4_hex pattern_type desc evidence_count confidence np w
    = (Return (np ++ [desc]), w')
    /\ patterns w'
       = add_row (clock (List.length np)) (uuid4_hex (List.length np))
                 pattern_type desc evidence_count confidence [] (patterns w)
    /\ supply_ok uuid4_hex draws (S (List.length np)) w'.
Proof.
  intros Hn Hok.
  destruct (supply_ok_next _ _ Hn Hok) as (Hfresh & Hsame & Hmore).
  destruct (add_pattern_returns (clock (List.length np)) (uuid4_hex (List.length np))
              pattern_type desc evidence_count confidence [] w Hfresh) as [id E].
  eexists. split; [|split].
  - unfold emit, bind. rewrite E. reflexivity.
  - reflexivity.
  - unfold supply_ok. cbn [patterns with_patterns].
    destruct (add_row_ids (clock (List.length np)) (uuid4_hex (List.length np))
                pattern_type desc evidence_count confidence [] (patterns w))
      as [Eids|Eids]; rewrite Eids; assumption.
Qed.

Lemma quiet_ret (sel : string -> string -> bool -> bool) :
  quiet uuid4_hex draws sel 0 (fun np => ret np).
Proof.
  intros np w _ Hok. exists np, w. repeat split; auto. lia.
Qed.

Lemma quiet_emit (sel : string -> string -> bool -> bool)
    (pattern_type desc : string) (evidence_count : Z) (confidence : float) :
  avoids sel pattern_type desc ->
  quiet uuid4_hex draws sel 1 (emit clock uuid4_hex pattern_type desc evidence_count confidence).
Proof.
  intros Hav np w Hn Hok.
  destruct (emit_returns pattern_type desc evidence_count confidence np w)
    as (w' & E & Hrows & Hok'); [lia | exact Hok |].
  exists (np ++ [desc]), w'. rewrite length_app. cbn [List.length].
  split; [exact E|]. split; [lia|].
  split; [replace (List.length np + 1)%nat with (S (List.length np)) by lia; exact Hok'|].
  rewrite Hrows. apply add_row_avoids; [eapply supply_ok_ids; eassumption | exact Hav].
Qed.

Lemma quiet_more (sel : string -> string -> bool -> bool) (b b' : nat)
    (m : list string -> M (list string)) :
  (b <= b')%nat -> quiet uuid4_hex draws sel b m -> quiet uuid4_hex draws sel b' m.
Proof.
  intros Hb H np w Hn Hok.
  destruct (H np w) as (np' & w' & E & Hl & Hok' & Hf); [lia | exact Hok |].
  exists np', w'. repeat split; auto. lia.
Qed.

Lemma quiet_bind (sel : string -> string -> bool -> bool) (b1 b2 : nat)
    (m1 m2 : list string -> M (list string)) :
  quiet uuid4_hex draws sel b1 m1 -> quiet uuid4_hex draws sel b2 m2 ->
  quiet uuid4_hex draws sel (b1 + b2) (fun np => np' <- m1 np ;; m2 np').
Proof.
  intros H1 H2 np w Hn Hok.
  destruct (H1 np w) as (np1 & w1 & E1 & Hl1 & Hok1 & Hf1); [lia | exact Hok |].
  destruct (H2 np1 w1) as (np2 & w2 & E2 & Hl2 & Hok2 & Hf2); [lia | exact Hok1 |].
  exists np2, w2. unfold bind. rewrite E1, E2.
  split; [reflexivity|]. split; [lia|]. split; [exact Hok2|]. congruence.
Qed.

Lemma quiet_for_each {A} (sel : string -> string -> bool -> bool)
    (body : A -> list string -> M (list string)) (l : list A) :
  (forall x, In x l -> quiet uuid4_hex draws sel 1 (body x)) ->
  quiet uuid4_hex draws sel (List.length l) (for_each body l).
Proof.
  induction l as [|x l IH]; intros H.
  - apply quiet_ret.
  - change (quiet uuid4_hex draws sel (1 + List.length l)
                  (fun np => np' <- body x np ;; for_each body l np')).
    apply quiet_bind; [apply H; left; reflexivity|].
    apply IH. intros y Hy. apply H. right. exact Hy.
Qed.

Lemma quiet_tag_step (sel : string -> string -> bool -> bool) (item : string * tally) :
  (MIN_EVIDENCE <= total (snd item) ->
   avoids sel "tag_performance" (tag_description (fst item) (snd item))) ->
  quiet uuid4_hex draws sel 1 (tag_step clock uuid4_hex item).
Proof.
  destruct item as [tag counts]. cbn [fst snd]. intros H. unfold tag_step.
  destruct (total counts <? MIN_EVIDENCE) eqn:E;
    [apply (quiet_more sel 0); [lia | apply quiet_ret]|].
  apply Z.ltb_ge in E.
  destruct (_ || _)%bool; [|apply (quiet_more sel 0); [lia | apply quiet_ret]].
  apply quiet_emit. auto.
Qed.

Lemma quiet_tag_strategy (sel : string -> string -> bool -> bool)
    (resolved : list decision) :
  ignores sel "tag_performance" ->
  quiet uuid4_hex draws sel (List.length (tag_outcomes resolved)) (tag_strategy clock uuid4_hex resolved).
Proof.
  intros H. unfold tag_strategy. apply quiet_for_each.
  intros item _. apply quiet_tag_step. intros _. apply H.
Qed.

Lemma quiet_keyword_strategy (sel : string -> string -> bool -> bool)
    (resolved : list decision) :
  ignores sel "keyword_signal" ->
  quiet uuid4_hex draws sel
        (List.length (all_words (fst (word_counts resolved)) (snd (word_counts resolved))))
        (keyword_strategy clock uuid4_hex resolved).
Proof.
  intros H. unfold keyword_strategy. apply quiet_for_each.
  intros word _. unfold keyword_step.
  destruct (_ <? MIN_EVIDENCE);
    [apply (quiet_more sel 0); [lia | apply quiet_ret]|].
  destruct (PrimFloat.leb 0.65 _); [apply quiet_emit, H|].
  destruct (PrimFloat.leb _ 0.35); [apply quiet_emit, H|].
  apply (quiet_more sel 0); [lia | apply quiet_ret].
Qed.

Lemma quiet_calibration_strategy (sel : string -> string -> bool -> bool)
    (resolved : list decision) :
  ignores sel "calibration" ->
  quiet uuid4_hex draws sel 2 (calibration_strategy clock uuid4_hex resolved).
Proof.
  intros H. unfold calibration_strategy.
  apply (quiet_bind sel 1 1).
  - destruct (MIN_EVIDENCE <=? _); [apply quiet_emit, H|].
    apply (quiet_more sel 0); [lia | apply quiet_ret].
  - destruct (MIN_EVIDENCE <=? _); [apply quiet_emit, H|].
    apply (quiet_more sel 0); [lia | apply quiet_ret].
Qed.

Lemma quiet_temporal_strategy (sel : string -> string -> bool -> bool)
    (resolved : list decision) :
  ignores sel "temporal" ->
  quiet uuid4_hex draws sel (List.length (hour_outcomes resolved))
        (temporal_strategy clock uuid4_hex resolved).
Proof.
  intros H. unfold temporal_strategy. apply quiet_for_each.
  intros [hour [wins losses]] _. unfold temporal_step.
  destruct (_ <? MIN_EVIDENCE);
    [apply (quiet_more sel 0); [lia | apply quiet_ret]|].
  destruct (_ || _)%bool; [apply quiet_emit, H|].
  apply (quiet_more sel 0); [lia | apply quiet_ret].
Qed.

End MinerLoops.

(** ** The miner: pruning *)

Section Pruning.
Import AgentMemory PatternMiner.

Lemma deactivate_ids_cons (id : string) (ids : list string) (ps : list pattern) :
  deactivate_ids ids (Sql.update (fun r => String.eqb (p_id r) id) deactivate ps)
  = deactivate_ids (id :: ids) ps.
Proof.
  unfold deactivate_ids, Sql.update. rewrite map_map. apply map_ext. intros p.
  cbn [existsb]. destruct (String.eqb (p_id p) id) eqn:E.
  - cbn [p_id deactivate]. destruct (existsb _ ids); reflexivity.
  - reflexivity.
Qed.

Lemma prune_loop (l : list pattern) (n : Z) (w : db) :
  for_each prune_step l n w
  = (Return (n + count weak l),
     with_patterns (deactivate_ids (map p_id (filter weak l)) (patterns w)) w).
Proof.
  revert n w. induction l as [|x l IH]; intros n w.
  - cbn. unfold deactivate_ids. cbn. rewrite map_id.
    unfold count. cbn. rewrite Z.add_0_r. destruct w; reflexivity.
  - cbn [for_each]. unfold bind at 1. unfold prune_step at 1.
    unfold count. cbn [filter].
    destruct (weak x) eqn:E.
    + unfold deactivate_pattern, update_patterns, bind, ret. cbn [fst snd].
      rewrite IH. cbn [patterns with_patterns map List.length].
      rewrite deactivate_ids_cons. unfold count, with_patterns. cbn.
      f_equal. f_equal. lia.
    + unfold ret. rewrite IH. reflexivity.
Qed.

(** The rows [get_active_patterns()] returns, in some order. *)
Lemma get_active_patterns_all (w : db) :
  exists l,
    get_active_patterns None 0 w = (Return l, w)
    /\ forall p, In p l <-> In p (patterns w) /\ p_active p = true.
Proof.
  eexists. split; [reflexivity|]. intros p.
  rewrite SqlFacts.sort_by_in, filter_In. cbn.
  rewrite !andb_true_r. reflexivity.
Qed.

(** Pruning deactivates the active rows that are weak, and only them. *)
Lemma prune_weak_returns (w : db) :
  NoDup (map p_id (patterns w)) ->
  exists pruned,
    prune_weak w = (Return pruned, with_patterns (map prune_row (patterns w)) w).
Proof.
  intros Hnd. unfold prune_weak, bind.
  destruct (get_active_patterns_all w) as (l & E & Hl). rewrite E.
  rewrite prune_loop. eexists. f_equal. f_equal.
  unfold deactivate_ids. apply map_ext_in. intros p Hp. unfold prune_row.
  destruct (p_active p && weak p)%bool eqn:Epw.
  - apply andb_true_iff in Epw. destruct Epw as [Ha Hw].
    replace (existsb _ _) with true; [reflexivity|].
    symmetry. apply existsb_exists. exists (p_id p).
    split; [|apply String.eqb_refl].
    apply in_map. apply filter_In. split; [|exact Hw]. apply Hl. auto.
  - replace (existsb _ _) with false; [reflexivity|].
    symmetry. apply not_true_iff_false. intros Hex.
    apply existsb_exists in Hex. destruct Hex as (id & Hid & Eid).
    apply String.eqb_eq in Eid. subst id.
    apply in_map_iff in Hid. destruct Hid as (q & Eq & Hq).
    apply filter_In in Hq. destruct Hq as [Hq Hwq].
    apply Hl in Hq. destruct Hq as [Hq Haq].
    assert (q = p) by (eapply NoDup_map_eq; eauto). subst q.
    rewrite Haq, Hwq in Epw. discriminate.
Qed.

Lemma prune_row_id (p : pattern) : p_id (prune_row p) = p_id p.
Proof. unfold prune_row. destruct (_ && _)%bool; reflexivity. Qed.

Lemma prune_row_type (p : pattern) : p_pattern_type (prune_row p) = p_pattern_type p.
Proof. unfold prune_row. destruct (_ && _)%bool; reflexivity. Qed.

Lemma prune_row_keeps (p : pattern) : weak p = false -> prune_row p = p.
Proof. unfold prune_row. intros ->. rewrite andb_false_r. reflexivity. Qed.

Lemma prune_row_inactive (p : pattern) : p_active p = false -> prune_row p = p.
Proof. unfold prune_row. intros ->. reflexivity. Qed.

Lemma prune_row_weak (p : pattern) :
  p_active p = true -> weak p = true -> prune_row p = deactivate p.
Proof. unfold prune_row. intros -> ->. reflexivity. Qed.

(** No active row is weak after pruning. *)
Lemma prune_row_result (p : pattern) :
  p_active (prune_row p) = true -> weak (prune_row p) = false.
Proof.
  unfold prune_row. destruct (p_active p) eqn:Ha; cbn.
  - destruct (weak p) eqn:Hw; cbn; [discriminate | intros _; exact Hw].
  - rewrite Ha. discriminate.
Qed.

End Pruning.

(** ** The miner: a whole pass *)

Section MinerPass.
Import AgentMemory PatternMiner.

Variable clock : nat -> timestamp.
Variable uuid4_hex : nat -> string.

Lemma quiet_later_strategies (draws : nat) (sel : string -> string -> bool -> bool)
    (resolved : list decision) :
  ignores sel "keyword_signal" -> ignores sel "calibration" -> ignores sel "temporal" ->
  quiet uuid4_hex draws sel
        (List.length (all_words (fst (word_counts resolved)) (snd (word_counts resolved)))
         + (2 + List.length (hour_outcomes resolved)))
        (later_strategies clock uuid4_hex resolved).
Proof.
  intros Hk Hc Ht. unfold later_strategies.
  apply quiet_bind
    with (m1 := keyword_strategy clock uuid4_hex resolved)
         (m2 := fun np => np' <- calibration_strategy clock uuid4_hex resolved np ;;
                          temporal_strategy clock uuid4_hex resolved np').
  - apply quiet_keyword_strategy, Hk.
  - apply quiet_bind
      with (m1 := calibration_strategy clock uuid4_hex resolved)
           (m2 := temporal_strategy clock uuid4_hex resolved).
    + apply quiet_calibration_strategy, Hc.
    + apply quiet_temporal_strategy, Ht.
Qed.

Lemma run_strategies_split (resolved : list decision) (w : db) :
  run_strategies clock uuid4_hex resolved w
  = (np <- tag_strategy clock uuid4_hex resolved [] ;; later_strategies clock uuid4_hex resolved np) w.
Proof. reflexivity. Qed.

Lemma quiet_all_strategies (draws : nat) (sel : string -> string -> bool -> bool)
    (resolved : list decision) :
  ignores sel "tag_performance" ->
  ignores sel "keyword_signal" -> ignores sel "calibration" -> ignores sel "temporal" ->
  quiet uuid4_hex draws sel (emission_bound resolved)
        (fun np => np' <- tag_strategy clock uuid4_hex resolved np ;;
                   later_strategies clock uuid4_hex resolved np').
Proof.
  intros Hg Hk Hc Ht. unfold emission_bound.
  apply quiet_bind
    with (m1 := tag_strategy clock uuid4_hex resolved)
         (m2 := later_strategies clock uuid4_hex resolved).
  - apply quiet_tag_strategy, Hg.
  - apply quiet_later_strategies; assumption.
Qed.

Lemma ignores_foreign (pattern_type : string) :
  In pattern_type miner_types -> ignores foreign pattern_type.
Proof.
  intros H desc. unfold miner_types in H. cbn in H.
  destruct H as [<-|[<-|[<-|[<-|[]]]]]; split; reflexivity.
Qed.

(** The four strategies return; the table keeps its PRIMARY KEY, and the
    rows of a foreign type are as before. *)
Lemma run_strategies_returns (w : db) :
  ids_distinct uuid4_hex w ->
  exists new_patterns w1,
    run_strategies clock uuid4_hex (resolved_recent w) w = (Return new_patterns, w1)
    /\ NoDup (map p_id (patterns w1))
    /\ decisions w1 = decisions w
    /\ filter (selected foreign) (patterns w1) = filter (selected foreign) (patterns w).
Proof.
  intros Hids. set (resolved := resolved_recent w) in *.
  destruct (quiet_all_strategies (emission_bound resolved) foreign resolved)
    with (np := @nil string) (w := w)
    as (np & w1 & E & _ & Hok & Hf);
    try (apply ignores_foreign; cbn; tauto).
  - cbn [List.length]. lia.
  - unfold supply_ok. cbn [List.length]. rewrite Nat.sub_0_r. exact Hids.
  - exists np, w1. rewrite run_strategies_split. split; [exact E|].
    split; [eapply supply_ok_ids; exact Hok|]. split; [|exact Hf].
    pose proof (Frame.keeps_run_strategies clock uuid4_hex resolved w) as Hd.
    rewrite run_strategies_split, E in Hd. exact Hd.
Qed.

(** An agent with enough resolved decisions is mined: the strategies run,
    then the pruning. *)
Lemma mine_agent_returns (agent : string) (w : db) :
  ids_distinct uuid4_hex w ->
  MIN_EVIDENCE <= count d_resolved (decisions w) ->
  exists new_patterns w1 pruned,
    run_strategies clock uuid4_hex (resolved_recent w) w = (Return new_patterns, w1)
    /\ NoDup (map p_id (patterns w1))
    /\ decisions w1 = decisions w
    /\ filter (selected foreign) (patterns w1) = filter (selected foreign) (patterns w)
    /\ prune_weak w1
       = (Return pruned, with_patterns (map prune_row (patterns w1)) w1)
    /\ mine_agent clock uuid4_hex agent w
       = (Return (Mined agent (count d_resolved (decisions w))
                        (Z.of_nat (List.length new_patterns)) pruned
                        (count p_active (patterns w)
                         + Z.of_nat (List.length new_patterns) - pruned)
                        new_patterns),
          with_patterns (map prune_row (patterns w1)) w1).
Proof.
  intros Hids Hres.
  destruct (run_strategies_returns w Hids) as (np & w1 & E & Hnd & Hd & Hf).
  destruct (prune_weak_returns w1 Hnd) as (pruned & Ep).
  exists np, w1, pruned. repeat (split; [assumption|]).
  assert (Estats : exists stats,
             get_stats w = (Return stats, w)
             /\ resolved_decisions stats = count d_resolved (decisions w)
             /\ active_patterns stats = count p_active (patterns w)).
  { eexists. split; [reflexivity|]. split; reflexivity. }
  destruct Estats as (stats & Estats & Hr & Ha).
  assert (Erecent : get_recent_decisions 500 true w = (Return (resolved_recent w), w))
    by reflexivity.
  unfold mine_agent, bind. rewrite Estats, Hr, Ha.
  replace (count d_resolved (decisions w) <? MIN_EVIDENCE) with false
    by (symmetry; apply Z.ltb_ge; exact Hres).
  rewrite Erecent, E, Ep. reflexivity.
Qed.

End MinerPass.

(** ** The miner: pruning after a pass *)

Section PruningPass.
Import AgentMemory PatternMiner.

Lemma weak_spec (p : pattern) :
  weak p = true
  <-> p_evidence_count p <= 1 /\ PrimFloat.ltb (p_confidence p) 0.5 = true.
Proof. unfold weak. rewrite andb_true_iff, Z.leb_le. reflexivity. Qed.

Lemma prune_rows (l : list pattern) :
  Forall2 (fun p p' => if (p_active p && weak p)%bool
                       then p' = deactivate p else p' = p)
          l (map prune_row l).
Proof.
  induction l as [|p l IH]; cbn [map]; constructor; [|exact IH].
  unfold prune_row. destruct (p_active p && weak p)%bool; reflexivity.
Qed.

Lemma foreign_selected (p : pattern) :
  ~ In (p_pattern_type p) miner_types -> selected foreign p = true.
Proof.
  intros H. unfold selected, foreign. apply negb_true_iff.
  apply not_true_iff_false. intros Hex. apply H.
  apply existsb_exists in Hex. destruct Hex as (t & Ht & E).
  apply String.eqb_eq in E. rewrite E. exact Ht.
Qed.

(** C7. When an agent with at least [MIN_EVIDENCE] resolved decisions is
    mined, the pass returns, and its last step turns the table [w1] left
    by the four strategies into [w2]: every row that is active in [w1]
    with [evidence_count <= 1] and [confidence < 0.5] is in [w2]
    deactivated and otherwise unchanged, every other row of [w1] is in
    [w2] as it was, and no active row of [w2] is weak. Rows of a type the
    strategies do not write reach the pruning untouched: such an active
    row with evidence 1 and confidence 0.3 ends deactivated, and one with
    evidence 1 and confidence 0.6 stays as it is. *)
Theorem mine_agent_prunes_weak_patterns
    (clock : nat -> timestamp) (uuid4_hex : nat -> string) (agent : string)
    (w : db) :
  ids_distinct uuid4_hex w ->
  MIN_EVIDENCE <= count d_resolved (decisions w) ->
  exists new_patterns w1 pruned w2,
    run_strategies clock uuid4_hex (resolved_recent w) w = (Return new_patterns, w1)
    /\ prune_weak w1 = (Return pruned, w2)
    /\ mine_agent clock uuid4_hex agent w
       = (Return (Mined agent (count d_resolved (decisions w))
                        (Z.of_nat (List.length new_patterns)) pruned
                        (count p_active (patterns w)
                         + Z.of_nat (List.length new_patterns) - pruned)
                        new_patterns),
          w2)
    /\ Forall2 (fun p p' => if (p_active p && weak p)%bool
                            then p' = deactivate p else p' = p)
               (patterns w1) (patterns w2)
    /\ (forall p, In p (patterns w1) -> p_active p = true ->
                  p_evidence_count p <= 1 ->
                  PrimFloat.ltb (p_confidence p) 0.5 = true ->
                  In (deactivate p) (patterns w2)
                  /\ forall q, In q (patterns w2) -> p_id q = p_id p ->
                               p_active q = false)
    /\ (forall p, In p (patterns w1) -> p_active p = true ->
                  ~ (p_evidence_count p <= 1
                     /\ PrimFloat.ltb (p_confidence p) 0.5 = true) ->
                  In p (patterns w2))
    /\ (forall q, In q (patterns w2) -> p_active q = true ->
                  ~ (p_evidence_count q <= 1
                     /\ PrimFloat.ltb (p_confidence q) 0.5 = true))
    /\ (forall p, In p (patterns w) -> ~ In (p_pattern_type p) miner_types ->
                  In p (patterns w1))
    /\ (forall p, In p (patterns w) -> ~ In (p_pattern_type p) miner_types ->
                  p_active p = true -> p_evidence_count p = 1 ->
                  p_confidence p = 0.3%float ->
                  In (deactivate p) (patterns w2)
                  /\ forall q, In q (patterns w2) -> p_id q = p_id p ->
                               p_active q = false)
    /\ (forall p, In p (patterns w) -> ~ In (p_pattern_type p) miner_types ->
                  p_active p = true -> p_evidence_count p = 1 ->
                  p_confidence p = 0.6%float ->
                  In p (patterns w2)).
Proof.
  intros Hids Hres.
  destruct (mine_agent_returns clock uuid4_hex agent w Hids Hres)
    as (np & w1 & pruned & Erun & Hnd & _ & Hframe & Eprune & Emine).
  exists np, w1, pruned, (with_patterns (map prune_row (patterns w1)) w1).
  cbn [patterns with_patterns].
  assert (Hweak :
    forall p, In p (patterns w1) -> p_active p = true -> weak p = true ->
              In (deactivate p) (map prune_row (patterns w1))
              /\ forall q, In q (map prune_row (patterns w1)) -> p_id q = p_id p ->
                           p_active q = false).
  { intros p Hp Ha Hw. split.
    - apply in_map_iff. exists p. split; [apply prune_row_weak; assumption | exact Hp].
    - intros q Hq Hid. apply in_map_iff in Hq. destruct Hq as (r & <- & Hr).
      rewrite prune_row_id in Hid.
      assert (r = p) by (eapply NoDup_map_eq; eauto). subst r.
      rewrite prune_row_weak by assumption. reflexivity. }
  assert (Hkeep :
    forall p, In p (patterns w1) -> weak p = false ->
              In p (map prune_row (patterns w1))).
  { intros p Hp Hw. apply in_map_iff. exists p.
    split; [apply prune_row_keeps, Hw | exact Hp]. }
  assert (Hforeign :
    forall p, In p (patterns w) -> ~ In (p_pattern_type p) miner_types ->
              In p (patterns w1)).
  { intros p Hp Ht.
    assert (Hin : In p (filter (selected foreign) (patterns w)))
      by (apply filter_In; split; [exact Hp | apply foreign_selected, Ht]).
    rewrite <- Hframe in Hin. apply filter_In in Hin. tauto. }
  split; [exact Erun|]. split; [exact Eprune|]. split; [exact Emine|].
  split; [apply prune_rows|].
  split.
  { intros p Hp Ha He Hc. apply Hweak; auto. apply weak_spec. auto. }
  split.
  { intros p Hp Ha Hn. apply Hkeep; [exact Hp|].
    apply not_true_iff_false. intros Hw. apply Hn, weak_spec, Hw. }
  split.
  { intros q Hq Ha Hn. apply in_map_iff in Hq. destruct Hq as (r & <- & _).
    apply weak_spec in Hn. rewrite prune_row_result in Hn by exact Ha. discriminate. }
  split; [exact Hforeign|].
  split.
  - intros p Hp Ht Ha He Hc. apply Hweak; auto.
    unfold weak. rewrite He, Hc. reflexivity.
  - intros p Hp Ht Ha He Hc. apply Hkeep; auto.
    unfold weak. rewrite He, Hc. reflexivity.
Qed.

End PruningPass.

(** ** Facts on dictionaries *)

Section DictFacts.
Import PatternMiner.

Context {K V : Type} (eqb : K -> K -> bool).
Hypothesis eqb_eq : forall a b, eqb a b = true <-> a = b.
Variable default : V.

Lemma eqb_same (a : K) : eqb a a = true.
Proof. apply eqb_eq. reflexivity. Qed.

Lemma eqb_other (a b : K) : a <> b -> eqb a b = false.
Proof. intros H. apply not_true_iff_false. intros E. apply H, eqb_eq, E. Qed.

Lemma dict_get_update_same (k : K) (f : V -> V) (d : list (K * V)) :
  dict_get eqb default k (dict_update eqb default k f d)
  = f (dict_get eqb default k d).
Proof.
  induction d as [|[k' v] d IH]; cbn.
  - rewrite eqb_same. reflexivity.
  - destruct (eqb k' k) eqn:E; cbn; rewrite E; [reflexivity | exact IH].
Qed.

Lemma dict_get_update_other (k k' : K) (f : V -> V) (d : list (K * V)) :
  k' <> k ->
  dict_get eqb default k' (dict_update eqb default k f d)
  = dict_get eqb default k' d.
Proof.
  intros Hne. induction d as [|[k0 v] d IH]; cbn.
  - rewrite eqb_other by (intros E; apply Hne; symmetry; exact E). reflexivity.
  - destruct (eqb k0 k) eqn:E; cbn.
    + apply eqb_eq in E. subst k0.
      rewrite eqb_other by (intros E; apply Hne; symmetry; exact E). reflexivity.
    + destruct (eqb k0 k'); [reflexivity | exact IH].
Qed.

Lemma dict_update_keys (k : K) (f : V -> V) (d : list (K * V)) :
  map fst (dict_update eqb default k f d)
  = if dict_has eqb k d then map fst d else map fst d ++ [k].
Proof.
  unfold dict_has. induction d as [|[k' v] d IH]; cbn; [reflexivity|].
  destruct (eqb k' k) eqn:E; cbn; [reflexivity|].
  rewrite IH. destruct (existsb _ d); reflexivity.
Qed.

Lemma dict_has_in (k : K) (d : list (K * V)) :
  dict_has eqb k d = true <-> In k (map fst d).
Proof.
  unfold dict_has. rewrite existsb_exists, in_map_iff. split.
  - intros (kv & Hin & E). apply eqb_eq in E. exists kv. auto.
  - intros (kv & E & Hin). exists kv. split; [exact Hin|]. apply eqb_eq, E.
Qed.

Lemma dict_update_keys_in (k k' : K) (f : V -> V) (d : list (K * V)) :
  In k' (map fst (dict_update eqb default k f d)) <-> In k' (map fst d) \/ k' = k.
Proof.
  rewrite dict_update_keys. destruct (dict_has eqb k d) eqn:E.
  - apply dict_has_in in E. split; [tauto|]. intros [H| ->]; assumption.
  - rewrite in_app_iff. cbn. intuition.
Qed.

Lemma dict_update_nodup (k : K) (f : V -> V) (d : list (K * V)) :
  NoDup (map fst d) -> NoDup (map fst (dict_update eqb default k f d)).
Proof.
  intros H. rewrite dict_update_keys. destruct (dict_has eqb k d) eqn:E; [exact H|].
  apply NoDup_app; [exact H | repeat constructor; cbn; tauto |].
  intros x Hx [<-|[]]. apply dict_has_in in Hx. congruence.
Qed.

Lemma dict_get_absent (k : K) (d : list (K * V)) :
  ~ In k (map fst d) -> dict_get eqb default k d = default.
Proof.
  induction d as [|[k' v] d IH]; cbn; [reflexivity|].
  intros H. rewrite eqb_other by tauto. apply IH. tauto.
Qed.

Lemma dict_get_in (k : K) (v : V) (d : list (K * V)) :
  NoDup (map fst d) -> In (k, v) d -> dict_get eqb default k d = v.
Proof.
  induction d as [|[k' v'] d IH]; cbn; [tauto|].
  intros Hnd. inversion Hnd as [|? ? Hnot Hnd']; subst.
  intros [[= -> ->]|Hin].
  - rewrite eqb_same. reflexivity.
  - rewrite eqb_other.
    + apply IH; assumption.
    + intros ->. apply Hnot. apply (in_map fst) in Hin. exact Hin.
Qed.

Lemma dict_in_get (k : K) (d : list (K * V)) :
  In k (map fst d) -> In (k, dict_get eqb default k d) d.
Proof.
  induction d as [|[k' v] d IH]; cbn; [tauto|].
  destruct (eqb k' k) eqn:E.
  - apply eqb_eq in E. subst k'. intros _. left. reflexivity.
  - intros [->|H]; [rewrite eqb_same in E; discriminate|]. right. apply IH, H.
Qed.

(** A dictionary whose only key is [k]. *)
Lemma dict_single (k : K) (d : list (K * V)) :
  NoDup (map fst d) -> (forall k', In k' (map fst d) -> k' = k) ->
  In k (map fst d) -> d = [(k, dict_get eqb default k d)].
Proof.
  destruct d as [|[k1 v1] d]; cbn; [tauto|].
  intros Hnd Hall _. inversion Hnd as [|? ? Hnot _]; subst.
  assert (k1 = k) by (apply Hall; left; reflexivity). subst k1.
  rewrite eqb_same. destruct d as [|[k2 v2] d]; [reflexivity|].
  exfalso. apply Hnot. cbn. left. apply Hall. right. left. reflexivity.
Qed.

End DictFacts.

(** ** The miner: the tallies of the tags *)

Section TagTallies.
Import AgentMemory PatternMiner.

Lemma tag_outcomes_from (resolved : list decision) :
  tag_outcomes resolved = outcomes_from resolved [].
Proof. reflexivity. Qed.

Lemma tag_fold_get (t : string) (score : float) (tags : list string)
    (acc : list (string * tally)) :
  dict_get String.eqb no_tally t (tag_fold score tags acc)
  = Nat.iter (count_occ string_dec tags t) (count_tag score)
             (dict_get String.eqb no_tally t acc).
Proof.
  revert acc. induction tags as [|tag tags IH]; intros acc; [reflexivity|].
  unfold tag_fold in *. cbn [fold_left]. rewrite IH.
  destruct (string_dec tag t) as [->|Hne].
  - rewrite count_occ_cons_eq by reflexivity.
    rewrite (dict_get_update_same String.eqb String.eqb_eq).
    rewrite Nat.iter_succ_r. reflexivity.
  - rewrite count_occ_cons_neq by exact Hne.
    rewrite (dict_get_update_other String.eqb String.eqb_eq)
      by (intros E; apply Hne; symmetry; exact E).
    reflexivity.
Qed.

Lemma tag_fold_nodup (score : float) (tags : list string)
    (acc : list (string * tally)) :
  NoDup (map fst acc) -> NoDup (map fst (tag_fold score tags acc)).
Proof.
  revert acc. induction tags as [|tag tags IH]; intros acc H; [exact H|].
  apply IH. apply (dict_update_nodup String.eqb String.eqb_eq). exact H.
Qed.

Lemma tag_fold_keys (k : string) (score : float) (tags : list string)
    (acc : list (string * tally)) :
  In k (map fst (tag_fold score tags acc)) <-> In k (map fst acc) \/ In k tags.
Proof.
  revert acc. induction tags as [|tag tags IH]; intros acc.
  - cbn. tauto.
  - unfold tag_fold in *. cbn [fold_left]. rewrite IH.
    rewrite (dict_update_keys_in String.eqb String.eqb_eq). cbn. intuition.
Qed.

Lemma outcomes_get (t : string) (resolved : list decision)
    (acc : list (string * tally)) :
  dict_get String.eqb no_tally t (outcomes_from resolved acc)
  = tally_of t resolved (dict_get String.eqb no_tally t acc).
Proof.
  revert acc. induction resolved as [|d resolved IH]; intros acc; [reflexivity|].
  unfold outcomes_from, tally_of in *. cbn [fold_left].
  rewrite IH, tag_fold_get. reflexivity.
Qed.

Lemma outcomes_nodup (resolved : list decision) (acc : list (string * tally)) :
  NoDup (map fst acc) -> NoDup (map fst (outcomes_from resolved acc)).
Proof.
  revert acc. induction resolved as [|d resolved IH]; intros acc H; [exact H|].
  apply IH, tag_fold_nodup, H.
Qed.

Lemma outcomes_keys (k : string) (resolved : list decision)
    (acc : list (string * tally)) :
  In k (map fst (outcomes_from resolved acc))
  <-> In k (map fst acc) \/ exists d, In d resolved /\ In k (d_tags d).
Proof.
  revert acc. induction resolved as [|d resolved IH]; intros acc.
  - cbn. split; [tauto|]. intros [H|(d & [] & _)]. exact H.
  - unfold outcomes_from in *. cbn [fold_left]. rewrite IH, tag_fold_keys. split.
    + intros [[H|H]|(d' & Hd' & Hk)]; [tauto | right; exists d; cbn; tauto |].
      right. exists d'. cbn. tauto.
    + intros [H|(d' & [<-|Hd'] & Hk)]; [tauto | tauto |].
      right. exists d'. tauto.
Qed.

Lemma tag_outcomes_nodup (resolved : list decision) :
  NoDup (map fst (tag_outcomes resolved)).
Proof. apply outcomes_nodup. constructor. Qed.

Lemma tag_outcomes_get (t : string) (resolved : list decision) :
  dict_get String.eqb no_tally t (tag_outcomes resolved)
  = tally_of t resolved no_tally.
Proof. apply outcomes_get. Qed.

(** A win is no loss. *)
Lemma win_not_loss (score : float) : is_win score = true -> is_loss score = false.
Proof.
  unfold is_win, is_loss. rewrite !FloatAxioms.ltb_spec. unfold SFltb.
  change (Prim2SF 0) with (S754_zero false).
  destruct (Prim2SF score) as [s|s| |s m e]; cbn; try discriminate;
    destruct s; cbn; congruence.
Qed.

(** A score equal to zero is neither. *)
Lemma zero_not_win_nor_loss (score : float) :
  PrimFloat.eqb score 0 = true -> is_win score = false /\ is_loss score = false.
Proof.
  unfold is_win, is_loss. rewrite FloatAxioms.eqb_spec, !FloatAxioms.ltb_spec.
  unfold SFeqb, SFltb. change (Prim2SF 0) with (S754_zero false).
  destruct (Prim2SF score) as [s|s| |s m e]; cbn; try discriminate;
    try (destruct s; discriminate). auto.
Qed.

(** With one and the same tag on every decision, the tally counts the
    wins, the losses and the decisions. *)
Lemma tally_of_single_tag (t : string) (resolved : list decision) (c : tally) :
  (forall d, In d resolved -> d_tags d = [t]) ->
  tally_of t resolved c
  = mk_tally (wins c + count (fun d => is_win (d_outcome_score d)) resolved)
             (losses c + count (fun d => is_loss (d_outcome_score d)) resolved)
             (total c + Z.of_nat (List.length resolved)).
Proof.
  revert c. induction resolved as [|d resolved IH]; intros c H.
  - unfold count. cbn. rewrite !Z.add_0_r. destruct c; reflexivity.
  - unfold tally_of in *. cbn [fold_left].
    rewrite (H d) by (left; reflexivity). cbn [count_occ].
    destruct (string_dec t t) as [_|Hne]; [|contradiction].
    rewrite Nat.iter_succ. change (Nat.iter 0 (count_tag (d_outcome_score d)) c) with c.
    rewrite IH by (intros; apply H; right; assumption).
    unfold count. cbn [filter List.length]. unfold count_tag.
    destruct (is_win (d_outcome_score d)) eqn:Ew.
    + rewrite (win_not_loss _ Ew). cbn [wins losses total List.length].
      f_equal; lia.
    + destruct (is_loss (d_outcome_score d)); cbn [wins losses total List.length];
        f_equal; lia.
Qed.

(** With scores that are neither wins nor losses wherever the tag occurs,
    the tally only counts the occurrences. *)
Lemma tally_of_zero_scores (t : string) (resolved : list decision) (c : tally) :
  (forall d, In d resolved -> In t (d_tags d) ->
             is_win (d_outcome_score d) = false
             /\ is_loss (d_outcome_score d) = false) ->
  tally_of t resolved c
  = mk_tally (wins c) (losses c) (total c + tag_total t resolved).
Proof.
  revert c. induction resolved as [|d resolved IH]; intros c H.
  - cbn. rewrite Z.add_0_r. destruct c; reflexivity.
  - unfold tally_of in *. cbn [fold_left fold_right tag_total].
    rewrite IH by (intros; apply H; [right|]; assumption).
    assert (Hiter : forall n c0,
               (n = 0%nat \/ In t (d_tags d)) ->
               Nat.iter n (count_tag (d_outcome_score d)) c0
               = mk_tally (wins c0) (losses c0) (total c0 + Z.of_nat n)).
    { induction n as [|n IHn]; intros c0 Hn.
      - cbn. rewrite Z.add_0_r. destruct c0; reflexivity.
      - assert (Ht : In t (d_tags d)) by (destruct Hn as [Hn|Hn]; [discriminate | exact Hn]).
        rewrite Nat.iter_succ_r. rewrite IHn by (right; exact Ht).
        destruct (H d (or_introl eq_refl) Ht) as [Ew El].
        unfold count_tag. rewrite Ew, El. cbn [wins losses total]. f_equal. lia. }
    rewrite Hiter.
    + cbn [wins losses total]. f_equal. unfold tag_total. lia.
    + destruct (count_occ string_dec (d_tags d) t) eqn:E; [left; reflexivity|].
      right. apply (count_occ_In string_dec). lia.
Qed.

End TagTallies.

(** ** Facts on counting *)

Section Counting.
Import AgentMemory.

Lemma filter_perm {A} (f : A -> bool) (l l' : list A) :
  Permutation l l' -> Permutation (filter f l) (filter f l').
Proof.
  induction 1 as [|x l l' _ IH|x y l|l l' l'' _ IH1 _ IH2]; cbn.
  - constructor.
  - destruct (f x); [constructor|]; exact IH.
  - destruct (f x), (f y); try reflexivity. apply perm_swap.
  - etransitivity; eassumption.
Qed.

Lemma count_perm {A} (f : A -> bool) (l l' : list A) :
  Permutation l l' -> count f l = count f l'.
Proof.
  intros H. unfold count. f_equal. apply Permutation_length, filter_perm, H.
Qed.

Lemma filter_and {A} (f g : A -> bool) (l : list A) :
  filter f (filter g l) = filter (fun x => (g x && f x)%bool) l.
Proof.
  induction l as [|x l IH]; cbn; [reflexivity|].
  destruct (g x); cbn; [destruct (f x)|]; rewrite IH; reflexivity.
Qed.

Lemma count_filter {A} (f g : A -> bool) (l : list A) :
  count f (filter g l) = count (fun x => (g x && f x)%bool) l.
Proof. unfold count. rewrite filter_and. reflexivity. Qed.

Lemma filter_none {A} (f : A -> bool) (l : list A) :
  (forall x, In x l -> f x = false) -> filter f l = [].
Proof.
  induction l as [|x l IH]; cbn; intros H; [reflexivity|].
  rewrite (H x) by tauto. apply IH. intros; apply H; tauto.
Qed.

Lemma filter_nil_find {A} (f : A -> bool) (l : list A) :
  filter f l = [] -> find f l = None.
Proof.
  induction l as [|x l IH]; cbn; [reflexivity|].
  destruct (f x); [discriminate | exact IH].
Qed.

(** Filtering after a map needs only the rows of a wider selection. *)
Lemma filter_map_through {A} (f g : A -> bool) (h : A -> A) (l : list A) :
  (forall x, f (h x) = true -> g x = true) ->
  filter f (map h l) = filter f (map h (filter g l)).
Proof.
  intros H. induction l as [|x l IH]; cbn; [reflexivity|].
  destruct (g x) eqn:Eg; cbn; rewrite IH; [reflexivity|].
  destruct (f (h x)) eqn:Ef; [|reflexivity].
  apply H in Ef. congruence.
Qed.

(** With at most 500 resolved decisions, the miner reads them all. *)
Lemma resolved_recent_perm (w : db) :
  count d_resolved (decisions w) <= 500 ->
  Permutation (resolved_recent w) (filter d_resolved (decisions w)).
Proof.
  intros H. unfold resolved_recent. rewrite SqlFacts.limit_all.
  - apply SqlFacts.sort_by_perm.
  - right. unfold Sql.order_by_desc. rewrite SqlFacts.sort_by_length. exact H.
Qed.

End Counting.

(** ** The miner: the scenario of the ten breakout decisions *)

Section Breakout.
Import AgentMemory PatternMiner.

Variable clock : nat -> timestamp.
Variable uuid4_hex : nat -> string.

Lemma breakout_step (np : list string) :
  tag_step clock uuid4_hex ("breakout", breakout_tally) np
  = emit clock uuid4_hex "tag_performance" breakout_description 10 0.8 np.
Proof. reflexivity. Qed.

(** A call for a pair that no active row has inserts a row. *)
Lemma emit_inserts (draws : nat) (pattern_type desc : string) (evidence_count : Z)
    (confidence : float) (np : list string) (w : db) :
  (List.length np < draws)%nat ->
  supply_ok uuid4_hex draws (List.length np) w ->
  find (same_pattern pattern_type desc) (patterns w) = None ->
  exists w',
    emit clock uuid4_hex pattern_type desc evidence_count confidence np w
    = (Return (np ++ [desc]), w')
    /\ patterns w'
       = patterns w
         ++ [mk_pattern (draw uuid4_hex (List.length np)) (take 100 pattern_type)
                        (take 1000 desc) evidence_count (Py.clamp 0 1 confidence)
                        true (clock (List.length np)) (clock (List.length np)) []]
    /\ supply_ok uuid4_hex draws (S (List.length np)) w'.
Proof.
  intros Hn Hok Hnone.
  destruct (emit_returns clock uuid4_hex draws pattern_type desc evidence_count
              confidence np w Hn Hok) as (w' & E & Hrows & Hok').
  exists w'. split; [exact E|]. split; [|exact Hok'].
  rewrite Hrows. unfold add_row. rewrite Hnone. reflexivity.
Qed.

End Breakout.

Section BreakoutPass.
Import AgentMemory PatternMiner.

Variable clock : nat -> timestamp.
Variable uuid4_hex : nat -> string.

Lemma ignores_of_type (t pattern_type : string) :
  String.eqb pattern_type t = false ->
  String.eqb (take 100 pattern_type) t = false ->
  ignores (of_type t) pattern_type.
Proof. intros H1 H2 desc. split; assumption. Qed.

(** The dictionary of the scenario has the one key "breakout". *)
Lemma breakout_outcomes (w : db) :
  count d_resolved (decisions w) = 10 ->
  count (fun d => d_resolved d && is_win (d_outcome_score d))%bool (decisions w) = 8 ->
  count (fun d => d_resolved d && is_loss (d_outcome_score d))%bool (decisions w) = 2 ->
  (forall d, In d (decisions w) -> d_resolved d = true -> d_tags d = ["breakout"]) ->
  tag_outcomes (resolved_recent w) = [("breakout", breakout_tally)].
Proof.
  intros Hn Hwin Hloss Htags.
  assert (Hperm : Permutation (resolved_recent w) (filter d_resolved (decisions w)))
    by (apply resolved_recent_perm; lia).
  set (resolved := resolved_recent w) in *.
  assert (Hall : forall d, In d resolved -> d_tags d = ["breakout"]).
  { intros d Hd. apply (Permutation_in _ Hperm) in Hd. apply filter_In in Hd.
    apply Htags; tauto. }
  assert (Hlen : Z.of_nat (List.length resolved) = 10).
  { rewrite (Permutation_length Hperm). exact Hn. }
  rewrite (dict_single String.eqb String.eqb_eq no_tally "breakout"
             (tag_outcomes resolved)).
  - rewrite tag_outcomes_get, (tally_of_single_tag "breakout" resolved no_tally Hall).
    rewrite (count_perm _ _ _ Hperm), (count_perm (fun d => is_loss _) _ _ Hperm).
    rewrite !count_filter, Hwin, Hloss, Hlen. reflexivity.
  - apply tag_outcomes_nodup.
  - intros k Hk. rewrite tag_outcomes_from in Hk. apply outcomes_keys in Hk.
    destruct Hk as [[]|(d & Hd & Hk)]. rewrite (Hall d Hd) in Hk.
    destruct Hk as [<-|[]]. reflexivity.
  - rewrite tag_outcomes_from. apply outcomes_keys. right.
    destruct resolved as [|d resolved']; [discriminate|].
    exists d. split; [left; reflexivity|].
    rewrite (Hall d) by (left; reflexivity). left. reflexivity.
Qed.

(** C3. An agent whose resolved decisions are ten, all tagged
    "breakout", eight with a positive and two with a negative score, and
    whose table has no active row for the description, is mined: among
    the rows the pass adds, exactly one is an active row of type
    "tag_performance", with evidence 10 and confidence 0.8. An agent with
    two resolved decisions is skipped with the reason "insufficient_data"
    and its store is left as it is. *)
Theorem mine_agent_breakout_scenario (agent : string) (w : db) :
  (ids_distinct uuid4_hex w ->
   count d_resolved (decisions w) = 10 ->
   count (fun d => d_resolved d && is_win (d_outcome_score d))%bool (decisions w) = 8 ->
   count (fun d => d_resolved d && is_loss (d_outcome_score d))%bool (decisions w) = 2 ->
   (forall d, In d (decisions w) -> d_resolved d = true -> d_tags d = ["breakout"]) ->
   find (same_pattern "tag_performance" breakout_description) (patterns w) = None ->
   exists result w2,
     mine_agent clock uuid4_hex agent w = (Return result, w2)
     /\ filter (new_active "tag_performance" w) (patterns w2)
        = [breakout_row clock uuid4_hex]
     /\ p_evidence_count (breakout_row clock uuid4_hex) = 10
     /\ p_confidence (breakout_row clock uuid4_hex) = 0.8%float
     /\ decisions w2 = decisions w)
  /\ (count d_resolved (decisions w) = 2 ->
      mine_agent clock uuid4_hex agent w
      = (Return (Skipped agent "insufficient_data" 2), w)).
Proof.
  split.
  - intros Hids Hn Hwin Hloss Htags Hnone.
    pose proof (breakout_outcomes w Hn Hwin Hloss Htags) as Htable.
    set (resolved := resolved_recent w) in *.
    set (draws := emission_bound resolved).
    assert (Hdraws : (1 + (List.length (all_words (fst (word_counts resolved))
                                                   (snd (word_counts resolved)))
                           + (2 + List.length (hour_outcomes resolved))) = draws)%nat).
    { unfold draws, emission_bound. rewrite Htable. reflexivity. }
    (* the first strategy inserts the row *)
    destruct (emit_inserts clock uuid4_hex draws "tag_performance"
                breakout_description 10 0.8 [] w) as (wa & Ea & Hrows & Hoka).
    { cbn [List.length]. lia. }
    { unfold supply_ok. cbn [List.length]. rewrite Nat.sub_0_r. exact Hids. }
    { exact Hnone. }
    change (patterns wa = patterns w ++ [breakout_row clock uuid4_hex]) in Hrows.
    assert (Hfresh : existsb (String.eqb (draw uuid4_hex 0)) (map p_id (patterns w))
                     = false).
    { apply not_true_iff_false. intros Hex. apply existsb_exists in Hex.
      destruct Hex as (id & Hid & E). apply String.eqb_eq in E. subst id.
      destruct (supply_ok_next uuid4_hex draws 0 w) as (Hnot & _); [lia | | auto].
      unfold supply_ok. rewrite Nat.sub_0_r. exact Hids. }
    (* the other strategies leave the rows of the type alone *)
    destruct (quiet_later_strategies clock uuid4_hex draws
                (of_type "tag_performance") resolved)
      with (np := [] ++ [breakout_description]) (w := wa)
      as (np & w1 & E1 & _ & Hok1 & Hf1);
      try (apply ignores_of_type; reflexivity).
    { cbn [List.length app]. lia. }
    { exact Hoka. }
    assert (Erun : run_strategies clock uuid4_hex resolved w = (Return np, w1)).
    { rewrite run_strategies_split. unfold bind at 1. unfold tag_strategy.
      rewrite Htable. cbn [for_each]. unfold bind at 1.
      rewrite breakout_step, Ea. cbn [ret]. exact E1. }
    destruct (mine_agent_returns clock uuid4_hex agent w Hids)
      as (np' & w1' & pruned & Erun' & Hnd & Hdec & _ & _ & Emine);
      [rewrite Hn; unfold MIN_EVIDENCE; lia|].
    fold resolved in Erun'. rewrite Erun in Erun'. injection Erun' as <- <-.
    do 2 eexists. split; [exact Emine|].
    cbn [patterns with_patterns decisions].
    split; [|split; [reflexivity|split; [reflexivity|exact Hdec]]].
    rewrite (filter_map_through _ (selected (of_type "tag_performance"))).
    + rewrite Hf1, Hrows, filter_app, map_app, filter_app.
      rewrite (filter_none (new_active "tag_performance" w)).
      * change (filter (selected (of_type "tag_performance"))
                       [breakout_row clock uuid4_hex])
          with [breakout_row clock uuid4_hex].
        change (map prune_row [breakout_row clock uuid4_hex])
          with [breakout_row clock uuid4_hex].
        cbn [app filter]. unfold new_active.
        change (p_id (breakout_row clock uuid4_hex)) with (draw uuid4_hex 0).
        rewrite Hfresh. reflexivity.
      * intros q Hq. apply in_map_iff in Hq. destruct Hq as (r & <- & Hr).
        apply filter_In in Hr. destruct Hr as [Hr _].
        unfold new_active. rewrite prune_row_id.
        replace (existsb _ _) with true; [apply andb_false_r|].
        symmetry. apply existsb_exists. exists (p_id r).
        split; [apply in_map, Hr | apply String.eqb_refl].
    + intros p Hp. unfold new_active in Hp. rewrite prune_row_type in Hp.
      apply andb_true_iff in Hp. destruct Hp as [Hp _].
      apply andb_true_iff in Hp. destruct Hp as [Hp _]. exact Hp.
  - intros Hn.
    assert (Estats : exists stats,
               get_stats w = (Return stats, w)
               /\ resolved_decisions stats = count d_resolved (decisions w)).
    { eexists. split; reflexivity. }
    destruct Estats as (stats & Estats & Hr).
    unfold mine_agent, bind. rewrite Estats, Hr, Hn. reflexivity.
Qed.

End BreakoutPass.

(** ** The miner: descriptions name their tag *)

Section Descriptions.
Import PatternMiner.

Lemma no_apostrophe_app (a b : string) :
  no_apostrophe (a ^^ b) = (no_apostrophe a && no_apostrophe b)%bool.
Proof.
  induction a as [|c a IH]; cbn; [reflexivity|].
  rewrite IH. apply andb_assoc.
Qed.

Lemma no_apostrophe_uint (d : Decimal.uint) :
  no_apostrophe (NilEmpty.string_of_uint d) = true.
Proof. induction d; cbn; auto. Qed.

Lemma no_apostrophe_str_of_Z (n : Z) : no_apostrophe (str_of_Z n) = true.
Proof.
  unfold str_of_Z, NilZero.string_of_int, NilZero.string_of_uint.
  destruct (Z.to_int n) as [d|d]; destruct d; cbn; auto using no_apostrophe_uint.
Qed.

Lemma no_apostrophe_pct (x : float) : no_apostrophe (Py.format_pct0 x) = true.
Proof.
  unfold Py.format_pct0.
  destruct (Prim2SF (x * 100)) as [s|s| |s m e]; try (destruct s; reflexivity);
    try reflexivity.
  rewrite !no_apostrophe_app, no_apostrophe_str_of_Z. destruct s; reflexivity.
Qed.

(** The last apostrophe of a text splits it in one way only. *)
Lemma apostrophe_split (t t' r r' : string) :
  no_apostrophe r = true -> no_apostrophe r' = true ->
  t ^^ String apostrophe r = t' ^^ String apostrophe r' -> t = t'.
Proof.
  intros Hr Hr'. revert t'. induction t as [|c t IH]; intros [|c' t'] E; cbn in E.
  - reflexivity.
  - injection E as <- E. rewrite E, no_apostrophe_app in Hr. cbn in Hr.
    rewrite andb_false_r in Hr. discriminate.
  - injection E as -> E. rewrite <- E, no_apostrophe_app in Hr'. cbn in Hr'.
    rewrite andb_false_r in Hr'. discriminate.
  - injection E as <- E. f_equal. apply IH, E.
Qed.

Lemma tag_description_shape (t : string) (c : tally) :
  tag_description t c = "Tag '" ^^ t ^^ String apostrophe (after_tag c).
Proof. reflexivity. Qed.

Lemma no_apostrophe_after_tag (c : tally) : no_apostrophe (after_tag c) = true.
Proof.
  unfold after_tag. cbv zeta.
  rewrite !no_apostrophe_app, !no_apostrophe_str_of_Z, no_apostrophe_pct.
  destruct (PrimFloat.leb 0.5 (tag_win_rate c)); reflexivity.
Qed.

Lemma tag_description_inj (t t' : string) (c c' : tally) :
  tag_description t c = tag_description t' c' -> t = t'.
Proof.
  rewrite !tag_description_shape. intros E.
  assert (E' : t ^^ String apostrophe (after_tag c)
               = t' ^^ String apostrophe (after_tag c')).
  { cbn in E. injection E as E. exact E. }
  eapply apostrophe_split; [| |exact E']; apply no_apostrophe_after_tag.
Qed.

End Descriptions.

(** ** The miner: a tag whose scores are all zero *)

Section ZeroScores.
Import AgentMemory PatternMiner.

Variable clock : nat -> timestamp.
Variable uuid4_hex : nat -> string.

Lemma selected_tag_rows (description : string) (p : pattern) :
  selected (tag_rows description) p
  = same_pattern "tag_performance" description p.
Proof. reflexivity. Qed.

Lemma for_each_app {A S} (body : A -> S -> M S) (l l' : list A) (s : S) (w : db) :
  for_each body (l ++ l') s w = (s' <- for_each body l s ;; for_each body l' s') w.
Proof.
  revert s w. induction l as [|x l IH]; intros s w; [reflexivity|].
  cbn [app for_each]. unfold bind.
  destruct (body x s w) as [[s1|e] w1]; [|reflexivity].
  rewrite IH. reflexivity.
Qed.

Lemma ignores_tag_rows (description pattern_type : string) :
  String.eqb pattern_type "tag_performance" = false ->
  String.eqb (take 100 pattern_type) "tag_performance" = false ->
  ignores (tag_rows description) pattern_type.
Proof.
  intros H1 H2 desc. unfold tag_rows. split; [rewrite H1 | rewrite H2]; reflexivity.
Qed.

(** The description of another tag is another key, also once cut. *)
Lemma other_tag_avoids (t t' : string) (c c' : tally) :
  t' <> t ->
  (String.length (tag_description t c) < 1000)%nat ->
  avoids (tag_rows (tag_description t c)) "tag_performance" (tag_description t' c').
Proof.
  intros Hne Hlen. unfold avoids, tag_rows.
  assert (Hd : tag_description t' c' <> tag_description t c).
  { intros E. apply Hne. eapply tag_description_inj, E. }
  split.
  - apply String.eqb_neq in Hd. rewrite Hd. reflexivity.
  - replace (String.eqb (take 1000 (tag_description t' c')) (tag_description t c))
      with false; [reflexivity|].
    symmetry. apply String.eqb_neq. intros E.
    assert (Hl : len (take 1000 (tag_description t' c'))
                 = len (tag_description t c)) by (rewrite E; reflexivity).
    rewrite take_length in Hl. pose proof (len_bytes (tag_description t c)).
    rewrite take_all in E by lia. contradiction.
Qed.

(** The step of the tag itself calls [add_pattern] with confidence 1.0. *)
Lemma zero_tally_step (t : string) (n : Z) (np : list string) :
  MIN_EVIDENCE <= n ->
  tag_step clock uuid4_hex (t, mk_tally 0 0 n) np
  = emit clock uuid4_hex "tag_performance" (tag_description t (mk_tally 0 0 n))
         n 1 np.
Proof.
  intros Hn. unfold tag_step. cbn [total].
  replace (n <? MIN_EVIDENCE) with false by (symmetry; apply Z.ltb_ge; exact Hn).
  reflexivity.
Qed.

Lemma prune_keeps_tag_rows (description : string) (p : pattern) :
  same_pattern "tag_performance" description (prune_row p) = true ->
  same_pattern "tag_performance" description p = true.
Proof.
  unfold prune_row. destruct (p_active p && weak p)%bool; [|auto].
  unfold same_pattern. cbn. rewrite andb_false_r. discriminate.
Qed.

(** C10. A tag that the resolved decisions read by the miner carry [n]
    times, [n >= MIN_EVIDENCE], always with a score equal to zero, has
    the tally 0 wins, 0 losses, [n] in total. Its win rate is computed as
    0 / max(1, 0) = 0.0, which is at most [1 - MIN_CONFIDENCE], and the
    pass calls [add_pattern] for it with confidence 1.0: when the table
    had no active row for the description (and the description needs no
    cut), it ends with exactly one, of confidence 1.0 and evidence [n],
    saying "loses 0% of the time (0W/0L over n decisions)". *)
Theorem mine_agent_zero_score_tag (agent : string) (w : db) (t : string) (n : Z) :
  let resolved := resolved_recent w in
  let zero := mk_tally 0 0 n in
  let description := tag_description t zero in
  ids_distinct uuid4_hex w ->
  MIN_EVIDENCE <= count d_resolved (decisions w) ->
  tag_total t resolved = n ->
  MIN_EVIDENCE <= n ->
  (forall d, In d resolved -> In t (d_tags d) ->
             PrimFloat.eqb (d_outcome_score d) 0 = true) ->
  (String.length description < 1000)%nat ->
  find (same_pattern "tag_performance" description) (patterns w) = None ->
  In (t, zero) (tag_outcomes resolved)
  /\ tag_win_rate zero = 0%float
  /\ PrimFloat.leb (tag_win_rate zero) (1 - MIN_CONFIDENCE) = true
  /\ description
     = "Tag '" ^^ t ^^ "': loses 0% of the time (0W/0L over " ^^ str_of_Z n
         ^^ " decisions)"
  /\ exists result w2 p,
       mine_agent clock uuid4_hex agent w = (Return result, w2)
       /\ filter (same_pattern "tag_performance" description) (patterns w2) = [p]
       /\ p_confidence p = 1%float
       /\ p_evidence_count p = n
       /\ p_active p = true.
Proof.
  intros resolved zero description Hids Hres Htotal Hn Hzero Hlen Hnone.
  (* the tally of the tag *)
  assert (Hget : dict_get String.eqb no_tally t (tag_outcomes resolved) = zero).
  { rewrite tag_outcomes_get, tally_of_zero_scores.
    - cbn [wins losses total no_tally]. rewrite Htotal. reflexivity.
    - intros d Hd Ht. apply zero_not_win_nor_loss, Hzero; assumption. }
  assert (Hkey : In t (map fst (tag_outcomes resolved))).
  { destruct (in_dec string_dec t (map fst (tag_outcomes resolved))) as [H|H];
      [exact H|].
    rewrite (dict_get_absent String.eqb String.eqb_eq) in Hget by exact H.
    unfold zero, no_tally in Hget. injection Hget as Hget.
    unfold MIN_EVIDENCE in Hn. lia. }
  assert (Hin : In (t, zero) (tag_outcomes resolved)).
  { rewrite <- Hget. apply (dict_in_get String.eqb String.eqb_eq), Hkey. }
  split; [exact Hin|]. split; [reflexivity|]. split; [reflexivity|].
  split; [reflexivity|].
  (* the dictionary around the tag *)
  destruct (in_split _ _ Hin) as (l1 & l2 & Htable).
  pose proof (tag_outcomes_nodup resolved) as Hnd.
  rewrite Htable, map_app in Hnd. cbn [map fst] in Hnd.
  pose proof (NoDup_remove_2 _ _ _ Hnd) as Hnot.
  assert (Hother : forall item, In item (l1 ++ l2) ->
            quiet uuid4_hex (emission_bound resolved) (tag_rows description) 1
                  (tag_step clock uuid4_hex item)).
  { intros [t' c'] Hitem. apply quiet_tag_step. cbn [fst snd]. intros _.
    apply other_tag_avoids; [|exact Hlen].
    intros ->. apply Hnot. rewrite <- map_app. apply (in_map fst) in Hitem. exact Hitem. }
  set (draws := emission_bound resolved) in *.
  set (rest := (List.length (all_words (fst (word_counts resolved))
                                       (snd (word_counts resolved)))
                + (2 + List.length (hour_outcomes resolved)))%nat).
  assert (Hdraws : (List.length l1 + (1 + List.length l2) + rest = draws)%nat).
  { unfold draws, emission_bound, rest. rewrite Htable, length_app. reflexivity. }
  (* the tags before *)
  destruct (quiet_for_each uuid4_hex draws (tag_rows description)
              (tag_step clock uuid4_hex) l1) with (np := @nil string) (w := w)
    as (npa & wa & Ea & Hla & Hoka & Hfa).
  { intros item Hitem. apply Hother, in_or_app. left. exact Hitem. }
  { cbn [List.length]. lia. }
  { unfold supply_ok. cbn [List.length]. rewrite Nat.sub_0_r. exact Hids. }
  cbn [List.length] in Hla.
  assert (Hnone_a : find (same_pattern "tag_performance" description) (patterns wa)
                    = None).
  { apply filter_nil_find.
    change (filter (selected (tag_rows description)) (patterns wa) = []).
    rewrite Hfa. apply find_none_filter, Hnone. }
  (* the tag itself *)
  destruct (emit_inserts clock uuid4_hex draws "tag_performance" description n 1
              npa wa) as (wb & Eb & Hrows & Hokb); [lia | exact Hoka | exact Hnone_a |].
  change (take 100 "tag_performance") with "tag_performance" in Hrows.
  change (Py.clamp 0 1 1) with 1%float in Hrows.
  rewrite take_short in Hrows by lia.
  set (row := mk_pattern (draw uuid4_hex (List.length npa)) "tag_performance"
                         description n 1 true (clock (List.length npa))
                         (clock (List.length npa)) []) in *.
  (* the tags after *)
  destruct (quiet_for_each uuid4_hex draws (tag_rows description)
              (tag_step clock uuid4_hex) l2) with (np := npa ++ [description]) (w := wb)
    as (npc & wc & Ec & Hlc & Hokc & Hfc).
  { intros item Hitem. apply Hother, in_or_app. right. exact Hitem. }
  { rewrite length_app. cbn [List.length]. lia. }
  { rewrite length_app. cbn [List.length].
    replace (List.length npa + 1)%nat with (S (List.length npa)) by lia. exact Hokb. }
  rewrite length_app in Hlc. cbn [List.length] in Hlc.
  (* the other strategies *)
  destruct (quiet_later_strategies clock uuid4_hex draws (tag_rows description)
              resolved) with (np := npc) (w := wc)
    as (np & w1 & E1 & _ & Hok1 & Hf1);
    try (apply ignores_tag_rows; reflexivity); [fold rest; lia | exact Hokc |].
  assert (Erun : run_strategies clock uuid4_hex resolved w = (Return np, w1)).
  { rewrite run_strategies_split. unfold bind at 1. unfold tag_strategy.
    rewrite Htable, for_each_app. unfold bind at 1. rewrite Ea.
    cbn [for_each]. unfold bind at 1.
    pose proof (zero_tally_step t n npa Hn) as Estep.
    fold zero in Estep. fold description in Estep.
    rewrite Estep, Eb, Ec. exact E1. }
  destruct (mine_agent_returns clock uuid4_hex agent w Hids Hres)
    as (np' & w1' & pruned & Erun' & _ & _ & _ & _ & Emine).
  fold resolved in Erun'. rewrite Erun in Erun'. injection Erun' as <- <-.
  assert (Hone : filter (same_pattern "tag_performance" description) (patterns w1)
                 = [row]).
  { change (filter (selected (tag_rows description)) (patterns w1) = [row]).
    rewrite Hf1, Hfc, Hrows, filter_app, Hfa.
    change (filter (selected (tag_rows description)) (patterns w))
      with (filter (same_pattern "tag_performance" description) (patterns w)).
    rewrite (find_none_filter _ _ Hnone). cbn [app filter].
    unfold selected, tag_rows. cbn [p_pattern_type p_description p_active row].
    rewrite !String.eqb_refl. reflexivity. }
  do 2 eexists. exists row. split; [exact Emine|].
  cbn [patterns with_patterns].
  split; [|split; [reflexivity | split; reflexivity]].
  rewrite (filter_map_through _ (same_pattern "tag_performance" description))
    by (apply prune_keeps_tag_rows).
  rewrite Hone. cbn [map].
  rewrite prune_row_keeps.
  - cbn [filter]. unfold same_pattern. cbn [p_pattern_type p_description p_active row].
    rewrite !String.eqb_refl. reflexivity.
  - unfold weak. cbn [p_evidence_count row].
    replace (n <=? 1) with false; [reflexivity|].
    symmetry. apply Z.leb_gt. unfold MIN_EVIDENCE in Hn. lia.
Qed.

End ZeroScores.

(** ** The properties on sample data *)

Section Samples.
Import AgentMemory PatternMiner.

Lemma distinct_NoDup (l : list string) : distinct l = true -> NoDup l.
Proof.
  induction l as [|x l IH]; cbn; intros H; constructor.
  - apply andb_true_iff in H. destruct H as [H _].
    apply negb_true_iff in H. intros Hin.
    apply not_true_iff_false in H. apply H.
    apply existsb_exists. exists x. split; [exact Hin | apply String.eqb_refl].
  - apply IH. apply andb_true_iff in H. tauto.
Qed.

(** C8 as specified fails on the code: a category and a source of 150
    characters are stored with 100 and with 150 characters, where the
    specification has them cut to 200 and to 100. *)
Lemma set_knowledge_bounds_differ :
  exists k,
    knowledges (snd (set_knowledge 0 "00000000f1" long_text "btc_vol" "high"
                                   long_text 0 empty_db)) = [k]
    /\ k_category k <> take 200 long_text
    /\ k_source k <> take 100 long_text
    /\ len long_text = 150%nat
    /\ len (k_category k) = 100%nat
    /\ len (k_source k) = 150%nat.
Proof.
  eexists. split; [vm_compute; reflexivity|].
  split; [|split; [|split; [|split]; reflexivity]].
  - intros E. apply (f_equal len) in E. vm_compute in E. discriminate.
  - intros E. apply (f_equal len) in E. vm_compute in E. discriminate.
Qed.

(** C1 on the empty store: the second call reinforces the row of the
    first, to 0.55 from 0.5 and to 0.99 from 0.95. *)
Lemma add_pattern_reinforces_witness :
  (exists w1 w2,
      add_pattern 1 "00000000e1" "trend" "X" 1 0.5 [] empty_db
      = (Return "pat_00000000e1", w1)
      /\ add_pattern 2 "00000000e2" "trend" "X" 1 0.5 [] w1
         = (Return "pat_00000000e1", w2)
      /\ filter (same_pattern "trend" "X") (patterns w2)
         = [mk_pattern "pat_00000000e1" "trend" "X" 2 0.55 true 1 2 []])
  /\ (exists w1 w2,
        add_pattern 1 "00000000e1" "trend" "X" 1 0.95 [] empty_db
        = (Return "pat_00000000e1", w1)
        /\ add_pattern 2 "00000000e2" "trend" "X" 1 0.5 [] w1
           = (Return "pat_00000000e1", w2)
        /\ filter (same_pattern "trend" "X") (patterns w2)
           = [mk_pattern "pat_00000000e1" "trend" "X" 2 0.99 true 1 2 []]).
Proof.
  destruct add_pattern_reinforces as (_ & H & H').
  split.
  - destruct (H empty_db 1 2 "00000000e1" "00000000e2")
      as (w1 & w2 & E1 & E2 & Hf & _); [reflexivity | reflexivity |].
    exists w1, w2. split; [exact E1|]. split; [exact E2 | exact Hf].
  - destruct (H' empty_db 1 2 "00000000e1" "00000000e2")
      as (w1 & w2 & E1 & E2 & Hf & _); [reflexivity | reflexivity |].
    exists w1, w2. split; [exact E1|]. split; [exact E2 | exact Hf].
Defined.

(** C3 on the sample stores. *)
Lemma mine_agent_breakout_witness :
  (exists result w2,
      mine_agent sample_clock sample_hex "hawk" breakout_store = (Return result, w2)
      /\ filter (new_active "tag_performance" breakout_store) (patterns w2)
         = [breakout_row sample_clock sample_hex])
  /\ mine_agent sample_clock sample_hex "hawk" small_store
     = (Return (Skipped "hawk" "insufficient_data" 2), small_store).
Proof.
  split.
  - destruct (mine_agent_breakout_scenario sample_clock sample_hex "hawk"
                breakout_store) as [H _].
    destruct H as (result & w2 & E & Hf & _).
    + unfold ids_distinct. apply distinct_NoDup. vm_compute. reflexivity.
    + vm_compute. reflexivity.
    + vm_compute. reflexivity.
    + vm_compute. reflexivity.
    + intros d Hd _. vm_compute in Hd.
      repeat (destruct Hd as [<-|Hd]; [reflexivity|]). contradiction.
    + vm_compute. reflexivity.
    + exists result, w2. split; [exact E | exact Hf].
  - destruct (mine_agent_breakout_scenario sample_clock sample_hex "hawk"
                small_store) as [_ H].
    apply H. vm_compute. reflexivity.
Defined.

(** C5 after a decision recorded and resolved: the next decision comes
    back first from [get_recent_decisions(limit=1)]. *)
Lemma decision_state_invariant_witness :
  let w := history (resolved_calls 1 100 "breakout" 0.85) in
  let d := mk_decision "dec_00000000d2" 500 "ETH staking rewards" "Hold" ""
                       1 "" 0 false [] in
  decisions_ok w
  /\ record_decision 500 "00000000d2" "ETH staking rewards" "Hold" "" 1.5 [] w
     = (Return "dec_00000000d2", with_decisions (decisions w ++ [d]) w)
  /\ get_recent_decisions 1 false (with_decisions (decisions w ++ [d]) w)
     = (Return [d], with_decisions (decisions w ++ [d]) w).
Proof.
  intros w d.
  destruct (decision_state_invariant (resolved_calls 1 100 "breakout" 0.85) 500
              "00000000d2" "ETH staking rewards" "Hold" "" 1.5 [])
    as (Hok & _ & Hrec & _).
  split; [exact Hok|].
  destruct Hrec as [Erec Erecent]; [vm_compute; reflexivity|].
  split; [exact Erec|].
  apply Erecent. intros r Hr. vm_compute in Hr.
  destruct Hr as [<-|[]]. vm_compute. reflexivity.
Defined.

(** C7 on the sample store: the pattern with confidence 0.3 ends
    deactivated, the one with confidence 0.6 stays. *)
Lemma mine_agent_prunes_witness :
  ids_distinct sample_hex pruning_store
  /\ MIN_EVIDENCE <= count d_resolved (decisions pruning_store)
  /\ exists w2,
       snd (mine_agent sample_clock sample_hex "hawk" pruning_store) = w2
       /\ In (deactivate weak_row) (patterns w2)
       /\ In fair_row (patterns w2).
Proof.
  assert (H1 : ids_distinct sample_hex pruning_store).
  { unfold ids_distinct. apply distinct_NoDup. vm_compute. reflexivity. }
  assert (H2 : MIN_EVIDENCE <= count d_resolved (decisions pruning_store)).
  { apply Z.leb_le. vm_compute. reflexivity. }
  split; [exact H1|]. split; [exact H2|].
  destruct (mine_agent_prunes_weak_patterns sample_clock sample_hex "hawk"
              pruning_store H1 H2)
    as (np & w1 & pruned & w2 & _ & _ & Emine & _ & _ & _ & _ & _ & Hweak & Hfair).
  exists w2. rewrite Emine. split; [reflexivity|]. split.
  - apply (Hweak weak_row); try reflexivity.
    + vm_compute. auto.
    + vm_compute. intuition discriminate.
  - apply (Hfair fair_row); try reflexivity.
    + vm_compute. auto.
    + vm_compute. intuition discriminate.
Defined.

(** C8 on the empty store: the insert cuts the category to 100
    characters, and a category of 100 characters in 101 bytes is stored
    whole. *)
Lemma set_knowledge_truncates_witness :
  (exists k,
      set_knowledge 0 "00000000f1" long_text "btc_vol" "high" long_text 0 empty_db
      = (Return (k_id k), with_knowledges [k] empty_db)
      /\ k_category k = take 100 long_text
      /\ k_source k = take 200 long_text)
  /\ (exists k,
        set_knowledge 0 "00000000f1" accented_category "btc_vol" "high" "" 0 empty_db
        = (Return (k_id k), with_knowledges [k] empty_db)
        /\ k_category k = accented_category
        /\ String.length (k_category k) = 101%nat).
Proof.
  split.
  - destruct (set_knowledge_truncates empty_db 0 "00000000f1" long_text "btc_vol"
                "high" long_text 0) as [H _].
    cbn [find knowledges empty_db] in H.
    destruct H as (k & E & _ & Hc & _ & (_ & Hs & _)); [reflexivity|].
    exists k. split; [exact E|]. split; [exact Hc | exact Hs].
  - destruct (set_knowledge_truncates empty_db 0 "00000000f1" accented_category
                "btc_vol" "high" "" 0) as (H & _ & _ & _ & _ & _ & _ & Hwhole & _).
    cbn [find knowledges empty_db] in H.
    destruct H as (k & E & _ & Hc & _); [reflexivity|].
    rewrite Hwhole in Hc by (vm_compute; lia).
    exists k. split; [exact E|]. split; [exact Hc|].
    rewrite Hc. reflexivity.
Defined.

(** C9 on the empty store: a fact with one hour to live is gone from a
    read one microsecond after the hour. *)
Lemma get_knowledge_purges_witness :
  exists id w1 rows w2,
    set_knowledge 0 "00000000c1" "risk" "btc_vol" "high" "manual" 1 empty_db
    = (Return id, w1)
    /\ get_knowledge (usec_per_hour + 1) None None w1 = (Return rows, w2)
    /\ forall k, k_id k = id -> ~ In k rows /\ ~ In k (knowledges w2).
Proof.
  destruct (get_knowledge_purges_expired empty_db 0 (usec_per_hour + 1)
              "00000000c1" "risk" "btc_vol" "high" "manual" 1 None None)
    as [_ (id & w1 & rows & w2 & E1 & E2 & _ & Hgone & _)];
    [intros _; reflexivity|].
  exists id, w1, rows, w2. split; [exact E1|]. split; [exact E2|].
  apply Hgone; reflexivity.
Defined.

(** C10 on the sample store: three decisions tagged "flat" with the score
    0.0 leave a pattern of confidence 1.0. *)
Lemma mine_agent_zero_score_witness :
  exists result w2 p,
    mine_agent sample_clock sample_hex "hawk" flat_store = (Return result, w2)
    /\ filter (same_pattern "tag_performance"
                            "Tag 'flat': loses 0% of the time (0W/0L over 3 decisions)")
               (patterns w2) = [p]
    /\ p_confidence p = 1%float
    /\ p_evidence_count p = 3.
Proof.
  destruct (mine_agent_zero_score_tag sample_clock sample_hex "hawk" flat_store
              "flat" 3)
    as (_ & _ & _ & _ & result & w2 & p & E & Hf & Hc & He & _).
  - unfold ids_distinct. apply distinct_NoDup. vm_compute. reflexivity.
  - apply Z.leb_le. vm_compute. reflexivity.
  - vm_compute. reflexivity.
  - apply Z.leb_le. reflexivity.
  - intros d Hd _. vm_compute in Hd.
    repeat (destruct Hd as [<-|Hd]; [reflexivity|]). contradiction.
  - apply Nat.ltb_lt. vm_compute. reflexivity.
  - vm_compute. reflexivity.
  - exists result, w2, p. split; [exact E|]. split; [exact Hf|].
    split; [exact Hc | exact He].
Defined.

(** C4 on the sample store: an unknown id gives [False] and changes
    nothing; an outcome of 1500 characters in 3000 bytes is not cut. *)
Lemma record_outcome_contract_witness :
  record_outcome "dec_missing" "Won" 0.85 sample_store = (Return false, sample_store)
  /\ String.length accented_text = 3000%nat
  /\ take 2000 accented_text = accented_text.
Proof.
  split; [|split; [reflexivity|]].
  - destruct (record_outcome_contract sample_store "dec_missing" "Won" 0.85)
      as (found & w' & E & Hiff & _ & _ & _ & Hsame & _).
    destruct found.
    + exfalso. destruct (proj1 Hiff eq_refl) as (d & Hd & Hid).
      vm_compute in Hd. destruct Hd as [<-|[<-|[]]]; discriminate.
    + rewrite (Hsame eq_refl) in E. exact E.
  - destruct (record_outcome_contract sample_store "dec_missing" accented_text 0.85)
      as (_ & _ & _ & _ & _ & _ & _ & _ & _ & _ & Hwhole & _).
    apply Hwhole. vm_compute. lia.
Defined.

(** C6 on the sample store, without a limit: the rows are those that
    [LIKE] matches. *)
Lemma search_decisions_like_witness :
  exists rows,
    search_decisions "btc" (-1) sample_store = (Return rows, sample_store)
    /\ Permutation rows (filter (search_hit "btc") (decisions sample_store)).
Proof.
  destruct (search_decisions_like sample_store "btc" (-1))
    as (rows & E & _ & _ & _ & Hperm & _).
  exists rows. split; [exact E|]. apply Hperm. left. reflexivity.
Defined.

End Samples.

(** * Further properties of the code *)

(** ** Properties that every call keeps *)

Module Preservation.
Import AgentMemory PatternMiner.

Lemma preserves_ret {A} (I : db -> Prop) (a : A) : preserves I (ret a).
Proof. intros w H; exact H. Qed.

Lemma preserves_raise {A} (I : db -> Prop) (e : error) : preserves I (@raise A e).
Proof. intros w H; exact H. Qed.

Lemma preserves_get_db (I : db -> Prop) : preserves I get_db.
Proof. intros w H; exact H. Qed.

Lemma preserves_bind {A B} (I : db -> Prop) (m : M A) (k : A -> M B) :
  preserves I m -> (forall a, preserves I (k a)) -> preserves I (bind m k).
Proof.
  intros Hm Hk w Hw. unfold bind. specialize (Hm w Hw).
  destruct (m w) as [[a|e] w1]; simpl in *; [|exact Hm].
  apply Hk, Hm.
Qed.

Lemma preserves_for_each {A S} (I : db -> Prop) (body : A -> S -> M S) (l : list A) :
  (forall x s, preserves I (body x s)) ->
  forall s, preserves I (for_each body l s).
Proof.
  intros H. induction l as [|x l IH]; intros s; simpl.
  - apply preserves_ret.
  - apply preserves_bind; auto.
Qed.

Lemma preserves_check_bindings (I : db -> Prop) (n k : nat) :
  preserves I (check_bindings n k).
Proof.
  unfold check_bindings. destruct (Nat.eqb n k); [apply preserves_ret | apply preserves_raise].
Qed.

Create HintDb preserved.

#[local] Hint Resolve preserves_ret preserves_raise preserves_get_db
  preserves_check_bindings : preserved.

(** Splits a monadic program along its binds, loops and tests. *)
Ltac preserved_step :=
  match goal with
  | |- preserves _ (bind _ _) => apply preserves_bind
  | |- preserves _ (for_each _ _ _) => apply preserves_for_each
  | |- preserves _ (match ?x with _ => _ end) => destruct x
  | |- forall _, _ => intro
  | |- preserves _ _ => solve [auto with preserved]
  end.
Ltac preserved := repeat preserved_step.

Section Closure.

Variable I : db -> Prop.

Hypothesis add_pattern_ok :
  forall now hex pt desc ev conf tags,
    preserves I (add_pattern now hex pt desc ev conf tags).
Hypothesis deactivate_pattern_ok : forall id, preserves I (deactivate_pattern id).

#[local] Hint Resolve add_pattern_ok deactivate_pattern_ok : preserved.

Lemma preserves_get_stats : preserves I get_stats.
Proof. unfold get_stats. preserved. Qed.

Lemma preserves_get_recent_decisions limit ro :
  preserves I (get_recent_decisions limit ro).
Proof. unfold get_recent_decisions. preserved. Qed.

Lemma preserves_get_relevant_context situation limit :
  preserves I (get_relevant_context situation limit).
Proof. unfold get_relevant_context. preserved. Qed.

Lemma preserves_search_decisions query limit :
  preserves I (search_decisions query limit).
Proof. unfold search_decisions. preserved. Qed.

Lemma preserves_get_active_patterns pt mc : preserves I (get_active_patterns pt mc).
Proof. unfold get_active_patterns. preserved. Qed.

#[local] Hint Resolve preserves_get_stats preserves_get_recent_decisions
  preserves_get_active_patterns : preserved.

Lemma preserves_emit clock uuid4_hex pt desc ev conf new_patterns :
  preserves I (emit clock uuid4_hex pt desc ev conf new_patterns).
Proof. unfold emit. preserved. Qed.

#[local] Hint Resolve preserves_emit : preserved.

Lemma preserves_run_strategies clock uuid4_hex resolved :
  preserves I (run_strategies clock uuid4_hex resolved).
Proof.
  unfold run_strategies, tag_strategy, keyword_strategy, calibration_strategy,
    temporal_strategy, tag_step, keyword_step, temporal_step.
  preserved.
Qed.

Lemma preserves_prune_weak : preserves I prune_weak.
Proof. unfold prune_weak, prune_step. preserved. Qed.

#[local] Hint Resolve preserves_run_strategies preserves_prune_weak : preserved.

Lemma preserves_mine_agent clock uuid4_hex agent :
  preserves I (mine_agent clock uuid4_hex agent).
Proof. unfold mine_agent. preserved. Qed.

Hypothesis record_decision_ok :
  forall now hex context decision reasoning confidence tags,
    preserves I (record_decision now hex context decision reasoning confidence tags).
Hypothesis record_outcome_ok :
  forall id outcome score, preserves I (record_outcome id outcome score).
Hypothesis set_knowledge_ok :
  forall now hex c k v s ttl, preserves I (set_knowledge now hex c k v s ttl).
Hypothesis get_knowledge_ok :
  forall now c k, preserves I (get_knowledge now c k).

Lemma preserves_exec (c : call) (w : db) : I w -> I (exec c w).
Proof.
  destruct c; cbn [exec].
  - apply record_decision_ok.
  - apply record_outcome_ok.
  - apply preserves_get_recent_decisions.
  - apply preserves_get_relevant_context.
  - apply preserves_search_decisions.
  - apply add_pattern_ok.
  - apply preserves_get_active_patterns.
  - apply deactivate_pattern_ok.
  - apply set_knowledge_ok.
  - apply get_knowledge_ok.
  - apply preserves_get_stats.
  - apply preserves_mine_agent.
Qed.

Lemma preserves_history (calls : list call) : I empty_db -> I (history calls).
Proof.
  intros H0. induction calls as [|c calls IH] using rev_ind.
  - exact H0.
  - unfold history. rewrite fold_left_app. apply preserves_exec, IH.
Qed.

End Closure.

End Preservation.

(** ** What each writer leaves in the store *)

Section Writers.
Import AgentMemory.

Lemma record_decision_cases (now : timestamp) (hex context choice reasoning : string)
    (confidence : float) (tags : list string) (w : db) :
  record_decision now hex context choice reasoning confidence tags w
  = if existsb (fun r => String.eqb (d_id r) ("dec_" ^^ hex)) (decisions w)
    then (Raise IntegrityError, w)
    else (Return ("dec_" ^^ hex),
          with_decisions
            (decisions w
             ++ [decision_row now hex context choice reasoning confidence tags]) w).
Proof.
  unfold record_decision, bind, insert_decision. cbn [d_id].
  destruct (existsb _ (decisions w)); reflexivity.
Qed.

Lemma add_pattern_cases (now : timestamp) (hex pattern_type description : string)
    (evidence_count : Z) (confidence : float) (tags : list string) (w : db) :
  add_pattern now hex pattern_type description evidence_count confidence tags w
  = match find (same_pattern pattern_type description) (patterns w) with
    | Some existing =>
        (Return (p_id existing),
         with_patterns
           (Sql.update (fun r => String.eqb (p_id r) (p_id existing))
                       (reinforce (p_evidence_count existing + evidence_count)
                                  (Py.min 0.99 (p_confidence existing + 0.05)%float)
                                  now)
                       (patterns w)) w)
    | None =>
        if existsb (fun r => String.eqb (p_id r) ("pat_" ^^ hex)) (patterns w)
        then (Raise IntegrityError, w)
        else (Return ("pat_" ^^ hex),
              with_patterns
                (patterns w
                 ++ [pattern_row now hex pattern_type description evidence_count
                                 confidence tags]) w)
    end.
Proof.
  unfold add_pattern, bind, get_db.
  destruct (find _ (patterns w)) as [existing|]; [reflexivity|].
  unfold insert_pattern. cbn [p_id].
  destruct (existsb _ (patterns w)); reflexivity.
Qed.

Lemma set_knowledge_paths (now : timestamp) (hex category key value source : string)
    (ttl_hours : Z) (w : db) :
  set_knowledge now hex category key value source ttl_hours w
  = match find (same_fact category key) (knowledges w) with
    | Some existing =>
        (Return (k_id existing),
         with_knowledges
           (Sql.update (fun r => String.eqb (k_id r) (k_id existing))
                       (overwrite (take 5000 value) (take 200 source) ttl_hours now
                                  (if 0 <? ttl_hours
                                   then Some (now + ttl_hours * usec_per_hour)
                                   else None))
                       (knowledges w)) w)
    | None =>
        if existsb (fun r => String.eqb (k_id r) ("kn_" ^^ hex)) (knowledges w)
        then (Raise IntegrityError, w)
        else (Return ("kn_" ^^ hex),
              with_knowledges
                (knowledges w
                 ++ [knowledge_row now hex category key value source ttl_hours]) w)
    end.
Proof.
  unfold set_knowledge, bind, get_db.
  destruct (find _ (knowledges w)) as [existing|]; [reflexivity|].
  unfold insert_knowledge. cbn [k_id].
  destruct (existsb _ (knowledges w)); reflexivity.
Qed.

Lemma deactivate_pattern_store (id : string) (w : db) :
  deactivate_pattern id w
  = (Return (existsb (fun r => String.eqb (p_id r) id) (patterns w)),
     with_patterns (Sql.update (fun r => String.eqb (p_id r) id) deactivate (patterns w)) w).
Proof.
  unfold deactivate_pattern, bind, update_patterns, ret.
  rewrite SqlFacts.rowcount_pos. reflexivity.
Qed.

End Writers.

(** Reads the tables of a store that is given by its tables. *)
Ltac tables :=
  cbn [fst snd decisions patterns knowledges
       with_decisions with_patterns with_knowledges].

(** ** The primary keys *)

Section Keys.
Import AgentMemory PatternMiner.

Lemma fresh_not_in {A} (f : A -> string) (id : string) (l : list A) :
  existsb (fun r => String.eqb (f r) id) l = false -> ~ In id (map f l).
Proof.
  intros H Hin. apply in_map_iff in Hin. destruct Hin as (r & E & Hr).
  apply Bool.not_true_iff_false in H. apply H. apply existsb_exists.
  exists r. split; [exact Hr|]. apply String.eqb_eq, E.
Qed.

Lemma NoDup_snoc {A} (l : list A) (x : A) :
  NoDup l -> ~ In x l -> NoDup (l ++ [x]).
Proof.
  intros Hl Hx. apply NoDup_app.
  - exact Hl.
  - repeat constructor. intros [].
  - intros a Ha [<-|[]]. contradiction.
Qed.

Lemma update_map_same {A B} (f : A -> B) (where_ : A -> bool) (set : A -> A)
    (l : list A) :
  (forall r, f (set r) = f r) -> map f (Sql.update where_ set l) = map f l.
Proof.
  intros H. unfold Sql.update. rewrite map_map. apply map_ext.
  intros r. destruct (where_ r); auto.
Qed.

Lemma NoDup_map_filter {A B} (f : A -> B) (g : A -> bool) (l : list A) :
  NoDup (map f l) -> NoDup (map f (filter g l)).
Proof.
  induction l as [|x l IH]; simpl; intros H; [constructor|].
  inversion H as [|? ? Hx Hl]; subst.
  destruct (g x); simpl; [|auto].
  constructor; [|auto].
  intros Hin. apply Hx. apply in_map_iff in Hin. destruct Hin as (y & E & Hy).
  apply filter_In in Hy. rewrite <- E. apply in_map. tauto.
Qed.

Lemma keyed_record_decision now hex context decision reasoning confidence tags :
  preserves keyed (record_decision now hex context decision reasoning confidence tags).
Proof.
  intros w (Hd & Hp & Hk). rewrite record_decision_cases.
  destruct (existsb _ (decisions w)) eqn:E; tables; [repeat split; assumption|].
  repeat split; tables; try assumption.
  rewrite map_app. apply NoDup_snoc; [exact Hd|].
  apply fresh_not_in, E.
Qed.

Lemma keyed_record_outcome id outcome score :
  preserves keyed (record_outcome id outcome score).
Proof.
  intros w (Hd & Hp & Hk). unfold record_outcome.
  repeat split; tables; try assumption.
  rewrite update_map_same; [exact Hd | reflexivity].
Qed.

Lemma keyed_add_pattern now hex pt desc ev conf tags :
  preserves keyed (add_pattern now hex pt desc ev conf tags).
Proof.
  intros w (Hd & Hp & Hk). rewrite add_pattern_cases.
  destruct (find _ (patterns w)) as [existing|].
  - repeat split; tables; try assumption.
    rewrite update_map_same; [exact Hp | reflexivity].
  - destruct (existsb _ (patterns w)) eqn:E; [repeat split; assumption|].
    repeat split; tables; try assumption.
    rewrite map_app. apply NoDup_snoc; [exact Hp|].
    apply fresh_not_in, E.
Qed.

Lemma keyed_deactivate_pattern id : preserves keyed (deactivate_pattern id).
Proof.
  intros w (Hd & Hp & Hk). rewrite deactivate_pattern_store.
  repeat split; tables; try assumption.
  rewrite update_map_same; [exact Hp | reflexivity].
Qed.

Lemma keyed_set_knowledge now hex c k v s ttl :
  preserves keyed (set_knowledge now hex c k v s ttl).
Proof.
  intros w (Hd & Hp & Hk). rewrite set_knowledge_paths.
  destruct (find _ (knowledges w)) as [existing|].
  - repeat split; tables; try assumption.
    rewrite update_map_same; [exact Hk | reflexivity].
  - destruct (existsb _ (knowledges w)) eqn:E; [repeat split; assumption|].
    repeat split; tables; try assumption.
    rewrite map_app. apply NoDup_snoc; [exact Hk|].
    apply fresh_not_in, E.
Qed.

Lemma keyed_get_knowledge now c k : preserves keyed (get_knowledge now c k).
Proof.
  intros w (Hd & Hp & Hk). unfold get_knowledge, bind, prune_expired, get_db, ret.
  repeat split; tables; try assumption.
  apply NoDup_map_filter, Hk.
Qed.

Lemma keyed_exec (c : call) (w : db) : keyed w -> keyed (exec c w).
Proof.
  apply Preservation.preserves_exec;
    auto using keyed_add_pattern, keyed_deactivate_pattern, keyed_record_decision,
      keyed_record_outcome, keyed_set_knowledge, keyed_get_knowledge.
Qed.

Lemma keyed_history (calls : list call) : keyed (history calls).
Proof.
  apply Preservation.preserves_history;
    auto using keyed_add_pattern, keyed_deactivate_pattern, keyed_record_decision,
      keyed_record_outcome, keyed_set_knowledge, keyed_get_knowledge.
  repeat split; constructor.
Qed.

(** X1. The PRIMARY KEY of each table holds in every store reached by a
    history of calls and after any further call, a pass of the miner
    included: no two decisions, no two patterns and no two facts share an
    id. An INSERT under an id in use raises [IntegrityError] and writes
    nothing. *)
Theorem primary_keys_hold (calls : list call) :
  let w := history calls in
  keyed w
  /\ (forall c, keyed (exec c w))
  /\ (forall now hex context choice reasoning confidence tags,
        In ("dec_" ^^ hex) (map d_id (decisions w)) ->
        record_decision now hex context choice reasoning confidence tags w
        = (Raise IntegrityError, w))
  /\ (forall now hex pattern_type description evidence_count confidence tags,
        find (same_pattern pattern_type description) (patterns w) = None ->
        In ("pat_" ^^ hex) (map p_id (patterns w)) ->
        add_pattern now hex pattern_type description evidence_count confidence tags w
        = (Raise IntegrityError, w))
  /\ (forall now hex category key value source ttl_hours,
        find (same_fact category key) (knowledges w) = None ->
        In ("kn_" ^^ hex) (map k_id (knowledges w)) ->
        set_knowledge now hex category key value source ttl_hours w
        = (Raise IntegrityError, w)).
Proof.
  intros w.
  assert (Hused : forall {A} (f : A -> string) (id : string) (l : list A),
             In id (map f l) -> existsb (fun r => String.eqb (f r) id) l = true).
  { intros A f id l Hin. apply in_map_iff in Hin. destruct Hin as (r & E & Hr).
    apply existsb_exists. exists r. split; [exact Hr|]. apply String.eqb_eq, E. }
  split; [apply keyed_history|].
  split; [intros c; apply keyed_exec, keyed_history|].
  split; [|split].
  - intros now hex context choice reasoning confidence tags Hin.
    rewrite record_decision_cases, (Hused _ d_id _ _ Hin). reflexivity.
  - intros now hex pattern_type description evidence_count confidence tags Hnone Hin.
    rewrite add_pattern_cases, Hnone, (Hused _ p_id _ _ Hin). reflexivity.
  - intros now hex category key value source ttl_hours Hnone Hin.
    rewrite set_knowledge_paths, Hnone, (Hused _ k_id _ _ Hin). reflexivity.
Qed.

End Keys.

(** ** The order of the floats *)

Module FloatOrder.

Lemma lex_lt (e e' : Z) (m m' : positive) :
  match e ?= e' with
  | Eq => PosDef.Pos.compare_cont Eq m m'
  | Lt => Lt
  | Gt => Gt
  end = Lt <-> e < e' \/ (e = e' /\ (m < m')%positive).
Proof.
  destruct (Z.compare_spec e e') as [->|H|H].
  - change (PosDef.Pos.compare_cont Eq m m') with (Pos.compare m m').
    rewrite Pos.compare_lt_iff. split; [auto|]. intros [H|[_ H]]; [lia|exact H].
  - split; [auto|reflexivity].
  - split; [discriminate|]. intros [H'|[H' _]]; lia.
Qed.

Lemma lex_gt (e e' : Z) (m m' : positive) :
  match e ?= e' with
  | Eq => PosDef.Pos.compare_cont Eq m m'
  | Lt => Lt
  | Gt => Gt
  end = Gt <-> e' < e \/ (e = e' /\ (m' < m)%positive).
Proof.
  destruct (Z.compare_spec e e') as [->|H|H].
  - change (PosDef.Pos.compare_cont Eq m m') with (Pos.compare m m').
    rewrite Pos.compare_gt_iff. split; [auto|]. intros [H|[_ H]]; [lia|exact H].
  - split; [discriminate|]. intros [H'|[H' _]]; lia.
  - split; [auto|reflexivity].
Qed.

Lemma lex_eq (e e' : Z) (m m' : positive) :
  match e ?= e' with
  | Eq => PosDef.Pos.compare_cont Eq m m'
  | Lt => Lt
  | Gt => Gt
  end = Eq <-> e = e' /\ m = m'.
Proof.
  destruct (Z.compare_spec e e') as [->|H|H].
  - change (PosDef.Pos.compare_cont Eq m m') with (Pos.compare m m').
    rewrite Pos.compare_eq_iff. tauto.
  - split; [discriminate|]. intros [H' _]; lia.
  - split; [discriminate|]. intros [H' _]; lia.
Qed.

Lemma opp_lt (c : comparison) : CompOpp c = Lt <-> c = Gt.
Proof. destruct c; simpl; split; congruence. Qed.
Lemma opp_gt (c : comparison) : CompOpp c = Gt <-> c = Lt.
Proof. destruct c; simpl; split; congruence. Qed.
Lemma opp_eq (c : comparison) : CompOpp c = Eq <-> c = Eq.
Proof. destruct c; simpl; split; congruence. Qed.

Lemma some_inj {A} (a b : A) : Some a = Some b <-> a = b.
Proof. split; congruence. Qed.

Lemma lex_opp (e e' : Z) (m m' : positive) :
  match e ?= e' with
  | Eq => CompOpp (PosDef.Pos.compare_cont Eq m m')
  | Lt => Gt
  | Gt => Lt
  end
  = CompOpp match e ?= e' with
            | Eq => PosDef.Pos.compare_cont Eq m m'
            | Lt => Lt
            | Gt => Gt
            end.
Proof. destruct (e ?= e'); reflexivity. Qed.

Ltac order_props :=
  rewrite ?some_inj, ?lex_opp, ?opp_lt, ?opp_gt, ?opp_eq, ?lex_lt, ?lex_gt, ?lex_eq in *.

(** [SFcompare] is a strict order with its equivalence. *)
Lemma SFcompare_lt_trans (x y z : spec_float) :
  SFcompare x y = Some Lt ->
  SFcompare y z = Some Lt \/ SFcompare y z = Some Eq ->
  SFcompare x z = Some Lt.
Proof.
  destruct x as [sx|sx| |sx mx ex], y as [sy|sy| |sy my ey], z as [sz|sz| |sz mz ez];
    try destruct sx; try destruct sy; try destruct sz; simpl;
    intros H1 [H2|H2]; try congruence; order_props; try lia.
Qed.

Lemma SFcompare_eq_lt (x y z : spec_float) :
  SFcompare x y = Some Eq -> SFcompare y z = Some Lt -> SFcompare x z = Some Lt.
Proof.
  destruct x as [sx|sx| |sx mx ex], y as [sy|sy| |sy my ey], z as [sz|sz| |sz mz ez];
    try destruct sx; try destruct sy; try destruct sz; simpl;
    intros H1 H2; try congruence; order_props; try lia.
Qed.

Lemma SFcompare_eq_trans (x y z : spec_float) :
  SFcompare x y = Some Eq -> SFcompare y z = Some Eq -> SFcompare x z = Some Eq.
Proof.
  destruct x as [sx|sx| |sx mx ex], y as [sy|sy| |sy my ey], z as [sz|sz| |sz mz ez];
    try destruct sx; try destruct sy; try destruct sz; simpl;
    intros H1 H2; try congruence; order_props; try lia.
  all: destruct H1 as [-> ->]; exact H2.
Qed.

Lemma SFcompare_lt_gt (x y : spec_float) :
  SFcompare x y = Some Lt -> SFcompare y x = Some Gt.
Proof.
  destruct x as [sx|sx| |sx mx ex], y as [sy|sy| |sy my ey];
    try destruct sx; try destruct sy; simpl;
    intros H1; try congruence; order_props; try lia.
Qed.

Lemma ltb_leb_trans (x y z : float) :
  PrimFloat.ltb x y = true -> PrimFloat.leb y z = true -> PrimFloat.leb x z = true.
Proof.
  rewrite FloatAxioms.ltb_spec, !FloatAxioms.leb_spec. unfold SFltb, SFleb.
  intros H1 H2.
  destruct (SFcompare (Prim2SF x) (Prim2SF y)) as [[ | | ]|] eqn:E1; try discriminate.
  destruct (SFcompare (Prim2SF y) (Prim2SF z)) as [[ | | ]|] eqn:E2; try discriminate.
  - rewrite (SFcompare_lt_trans _ _ _ E1 (or_intror E2)). reflexivity.
  - rewrite (SFcompare_lt_trans _ _ _ E1 (or_introl E2)). reflexivity.
Qed.

(** A row that sorts strictly before another does not sort after it. *)
Lemma ltb_asym (x y : float) :
  PrimFloat.ltb x y = true ->
  PrimFloat.ltb y x = false /\ PrimFloat.eqb y x = false.
Proof.
  rewrite !FloatAxioms.ltb_spec, FloatAxioms.eqb_spec. unfold SFltb, SFeqb.
  intros H.
  destruct (SFcompare (Prim2SF x) (Prim2SF y)) as [[ | | ]|] eqn:E; try discriminate.
  rewrite (SFcompare_lt_gt _ _ E). auto.
Qed.

Lemma eqb_not_ltb (x y : float) :
  PrimFloat.eqb x y = true -> PrimFloat.ltb y x = false.
Proof.
  rewrite FloatAxioms.ltb_spec, FloatAxioms.eqb_spec. unfold SFltb, SFeqb.
  intros H.
  destruct (SFcompare (Prim2SF x) (Prim2SF y)) as [[ | | ]|] eqn:E; try discriminate.
  rewrite (FloatFacts.SFcompare_Eq_sym _ _ E). reflexivity.
Qed.

End FloatOrder.

(** ** The bounds of the columns *)

Section Bounds.
Import AgentMemory PatternMiner.

Lemma take_bound (n : nat) (s : string) : (len (take n s) <= n)%nat.
Proof. rewrite take_length. lia. Qed.

Lemma decision_row_bounded now hex context choice reasoning confidence tags :
  decision_bounded (decision_row now hex context choice reasoning confidence tags).
Proof.
  unfold decision_bounded, decision_row.
  cbn [d_context d_decision d_reasoning d_outcome d_confidence d_outcome_score].
  repeat split; try apply take_bound; try reflexivity.
  - cbn. lia.
  - apply FloatFacts.clamp_between; reflexivity.
  - apply FloatFacts.clamp_between; reflexivity.
Qed.

Lemma set_outcome_bounded (outcome : string) (score : float) (d : decision) :
  decision_bounded d ->
  decision_bounded (set_outcome (take 2000 outcome) (Py.clamp (-1) 1 score) d).
Proof.
  unfold decision_bounded, set_outcome.
  cbn [d_context d_decision d_reasoning d_outcome d_confidence d_outcome_score].
  intros (? & ? & ? & ? & ? & ? & ? & ?).
  repeat split; try assumption; try apply take_bound;
    apply FloatFacts.clamp_between; reflexivity.
Qed.

Lemma pattern_row_bounded now hex pattern_type description evidence_count confidence tags :
  pattern_bounded
    (pattern_row now hex pattern_type description evidence_count confidence tags).
Proof.
  unfold pattern_bounded, pattern_row.
  cbn [p_pattern_type p_description p_confidence].
  repeat split; try apply take_bound.
  apply FloatFacts.clamp_between; reflexivity.
Qed.

Lemma min_cap_one (x : float) : PrimFloat.leb (Py.min 0.99 x) 1 = true.
Proof.
  unfold Py.min. destruct (PrimFloat.ltb x 0.99) eqn:E.
  - eapply FloatOrder.ltb_leb_trans; [exact E | reflexivity].
  - reflexivity.
Qed.

Lemma reinforce_bounded (count : Z) (x : float) (now : timestamp) (p : pattern) :
  pattern_bounded p -> pattern_bounded (reinforce count (Py.min 0.99 x) now p).
Proof.
  unfold pattern_bounded, reinforce. cbn [p_pattern_type p_description p_confidence].
  intros (? & ? & ?). repeat split; try assumption. apply min_cap_one.
Qed.

Lemma Forall_update {A} (P : A -> Prop) (where_ : A -> bool) (set : A -> A)
    (l : list A) :
  (forall r, P r -> P (set r)) -> Forall P l -> Forall P (Sql.update where_ set l).
Proof.
  intros Hset H. unfold Sql.update. apply Forall_map.
  eapply Forall_impl; [|exact H]. intros r Hr. destruct (where_ r); auto.
Qed.

Lemma Forall_snoc {A} (P : A -> Prop) (l : list A) (x : A) :
  Forall P l -> P x -> Forall P (l ++ [x]).
Proof. intros Hl Hx. apply Forall_app. split; [exact Hl|]. repeat constructor. exact Hx. Qed.

Lemma Forall_filter {A} (P : A -> Prop) (g : A -> bool) (l : list A) :
  Forall P l -> Forall P (filter g l).
Proof.
  rewrite !Forall_forall. intros H x Hx. apply filter_In in Hx. apply H. tauto.
Qed.

Lemma bounded_record_decision now hex context choice reasoning confidence tags :
  preserves bounded (record_decision now hex context choice reasoning confidence tags).
Proof.
  intros w (Hd & Hp & Hk). rewrite record_decision_cases.
  destruct (existsb _ (decisions w)); [repeat split; assumption|].
  repeat split; tables; try assumption.
  apply Forall_snoc; [exact Hd | apply decision_row_bounded].
Qed.

Lemma bounded_record_outcome id outcome score :
  preserves bounded (record_outcome id outcome score).
Proof.
  intros w (Hd & Hp & Hk). unfold record_outcome.
  repeat split; tables; try assumption.
  apply Forall_update; [apply set_outcome_bounded | exact Hd].
Qed.

Lemma bounded_add_pattern now hex pt desc ev conf tags :
  preserves bounded (add_pattern now hex pt desc ev conf tags).
Proof.
  intros w (Hd & Hp & Hk). rewrite add_pattern_cases.
  destruct (find _ (patterns w)) as [existing|].
  - repeat split; tables; try assumption.
    apply Forall_update; [apply reinforce_bounded | exact Hp].
  - destruct (existsb _ (patterns w)); [repeat split; assumption|].
    repeat split; tables; try assumption.
    apply Forall_snoc; [exact Hp | apply pattern_row_bounded].
Qed.

Lemma bounded_deactivate_pattern id : preserves bounded (deactivate_pattern id).
Proof.
  intros w (Hd & Hp & Hk). rewrite deactivate_pattern_store.
  repeat split; tables; try assumption.
  apply Forall_update; [|exact Hp]. intros r Hr. exact Hr.
Qed.

Lemma knowledge_row_bounded now hex c k v s ttl :
  knowledge_bounded (knowledge_row now hex c k v s ttl).
Proof.
  unfold knowledge_bounded, knowledge_row. cbn [k_category k_key k_value k_source].
  repeat split; apply take_bound.
Qed.

Lemma overwrite_bounded (value source : string) ttl now expires (k : knowledge) :
  knowledge_bounded k ->
  knowledge_bounded (overwrite (take 5000 value) (take 200 source) ttl now expires k).
Proof.
  unfold knowledge_bounded, overwrite. cbn [k_category k_key k_value k_source].
  intros (? & ? & ? & ?). repeat split; try assumption; apply take_bound.
Qed.

Lemma bounded_set_knowledge now hex c k v s ttl :
  preserves bounded (set_knowledge now hex c k v s ttl).
Proof.
  intros w (Hd & Hp & Hk). rewrite set_knowledge_paths.
  destruct (find _ (knowledges w)) as [existing|].
  - repeat split; tables; try assumption.
    apply Forall_update; [apply overwrite_bounded | exact Hk].
  - destruct (existsb _ (knowledges w)); [repeat split; assumption|].
    repeat split; tables; try assumption.
    apply Forall_snoc; [exact Hk | apply knowledge_row_bounded].
Qed.

Lemma bounded_get_knowledge now c k : preserves bounded (get_knowledge now c k).
Proof.
  intros w (Hd & Hp & Hk). unfold get_knowledge, bind, prune_expired, get_db, ret.
  repeat split; tables; try assumption.
  apply Forall_filter, Hk.
Qed.

Lemma bounded_exec (c : call) (w : db) : bounded w -> bounded (exec c w).
Proof.
  apply Preservation.preserves_exec;
    auto using bounded_add_pattern, bounded_deactivate_pattern, bounded_record_decision,
      bounded_record_outcome, bounded_set_knowledge, bounded_get_knowledge.
Qed.

Lemma bounded_history (calls : list call) : bounded (history calls).
Proof.
  apply Preservation.preserves_history;
    auto using bounded_add_pattern, bounded_deactivate_pattern, bounded_record_decision,
      bounded_record_outcome, bounded_set_knowledge, bounded_get_knowledge.
  repeat split; constructor.
Qed.

(** X2. In every store reached by a history of calls, and after any
    further call, every column is within the bound its writers put on it:
    the texts of a decision have at most 2000 characters, counted as
    Python and SQLite count them, in code points; its confidence
    lies in [0.0, 1.0] and its score in [-1.0, 1.0]; a pattern has a type
    of at most 100 and a description of at most 1000 characters and a
    confidence that is a number not above 1.0; a fact has a category of at
    most 100, a key and a source of at most 200 and a value of at most
    5000 characters. *)
Theorem column_bounds_hold (calls : list call) :
  let w := history calls in
  bounded w
  /\ (forall c, bounded (exec c w))
  /\ (forall d, In d (decisions w) -> decision_bounded d)
  /\ (forall p, In p (patterns w) -> pattern_bounded p)
  /\ (forall k, In k (knowledges w) -> knowledge_bounded k).
Proof.
  intros w. pose proof (bounded_history calls) as H. fold w in H.
  split; [exact H|]. split; [intros c; apply bounded_exec, H|].
  destruct H as (Hd & Hp & Hk). rewrite Forall_forall in Hd, Hp, Hk. auto.
Qed.

(** X3. A reinforcement never takes the confidence above 0.99: after
    [add_pattern] has found an active row of the given type and
    description, the row it returns has a confidence that is a number and
    at most 0.99, whatever the confidence was before and whatever the
    call passes. *)
Theorem add_pattern_caps_confidence
    (w : db) (now : timestamp) (hex pattern_type description : string)
    (evidence_count : Z) (confidence : float) (tags : list string)
    (existing : pattern) :
  find (same_pattern pattern_type description) (patterns w) = Some existing ->
  exists w',
    add_pattern now hex pattern_type description evidence_count confidence tags w
    = (Return (p_id existing), w')
    /\ (exists p, In p (patterns w') /\ p_id p = p_id existing)
    /\ (forall p, In p (patterns w') -> p_id p = p_id existing ->
          PrimFloat.leb (p_confidence p) 0.99 = true
          /\ p_evidence_count p = p_evidence_count existing + evidence_count
          /\ p_updated_at p = now).
Proof.
  intros Hfind. rewrite add_pattern_cases, Hfind. eexists. split; [reflexivity|].
  tables. unfold Sql.update. split.
  - apply find_some in Hfind. destruct Hfind as [Hin _].
    eexists. split; [apply in_map_iff; exists existing; split; [reflexivity|exact Hin]|].
    destruct (String.eqb _ _); reflexivity.
  - intros p Hp Hid. apply in_map_iff in Hp. destruct Hp as (r & <- & Hr).
    destruct (String.eqb (p_id r) (p_id existing)) eqn:E.
    + cbn [reinforce p_confidence p_evidence_count p_updated_at].
      split; [apply min_cap|]. split; reflexivity.
    + apply String.eqb_neq in E. contradiction.
Qed.

End Bounds.

(** ** Texts longer than their column *)

Section LongTexts.
Import AgentMemory PatternMiner.

Lemma find_all_false {A} (f : A -> bool) (l : list A) :
  (forall r, In r l -> f r = false) -> find f l = None.
Proof.
  induction l as [|r l IH]; simpl; intros H; [reflexivity|].
  rewrite (H r) by (left; reflexivity). apply IH. intros; apply H; right; assumption.
Qed.

(** The lookup of [add_pattern] compares the whole texts with the stored
    ones, which are cut. *)
Lemma long_pattern_not_found (w : db) (pattern_type description : string) :
  bounded w ->
  (100 < len pattern_type)%nat \/ (1000 < len description)%nat ->
  find (same_pattern pattern_type description) (patterns w) = None.
Proof.
  intros (_ & Hp & _) Hlong. apply find_all_false. intros r Hr.
  rewrite Forall_forall in Hp. destruct (Hp r Hr) as (Ht & Hd & _).
  unfold same_pattern.
  destruct Hlong as [Hlong|Hlong].
  - replace (String.eqb (p_pattern_type r) pattern_type) with false; [reflexivity|].
    symmetry. apply String.eqb_neq. intros E. rewrite E in Ht. lia.
  - replace (String.eqb (p_description r) description) with false;
      [apply andb_false_r || (rewrite andb_false_r; reflexivity)|].
    symmetry. apply String.eqb_neq. intros E. rewrite E in Hd. lia.
Qed.

Lemma long_fact_not_found (w : db) (category key : string) :
  bounded w ->
  (100 < len category)%nat \/ (200 < len key)%nat ->
  find (same_fact category key) (knowledges w) = None.
Proof.
  intros (_ & _ & Hk) Hlong. apply find_all_false. intros r Hr.
  rewrite Forall_forall in Hk. destruct (Hk r Hr) as (Hc & Hy & _).
  unfold same_fact.
  destruct Hlong as [Hlong|Hlong].
  - replace (String.eqb (k_category r) category) with false; [reflexivity|].
    symmetry. apply String.eqb_neq. intros E. rewrite E in Hc. lia.
  - replace (String.eqb (k_key r) key) with false; [apply andb_false_r|].
    symmetry. apply String.eqb_neq. intros E. rewrite E in Hy. lia.
Qed.

Lemma not_in_fresh {A} (f : A -> string) (id : string) (l : list A) :
  ~ In id (map f l) -> existsb (fun r => String.eqb (f r) id) l = false.
Proof.
  intros H. apply Bool.not_true_iff_false. intros E. apply H.
  apply existsb_exists in E. destruct E as (r & Hr & E).
  apply String.eqb_eq in E. rewrite <- E. apply in_map, Hr.
Qed.

(** X4. A pattern whose description has more than 1000 characters (code
    points), or whose type has more than 100, is never reinforced: in a store reached
    by a history of calls the lookup of [add_pattern] finds no row, since
    the stored texts are cut, so each call inserts a row. Two calls with
    the same long texts leave two active rows with the same stored type
    and description. *)
Theorem add_pattern_long_text_duplicates
    (calls : list call) (now1 now2 : timestamp)
    (hex1 hex2 pattern_type description : string)
    (evidence_count : Z) (confidence : float) (tags : list string) :
  let w := history calls in
  let row1 := pattern_row now1 hex1 pattern_type description evidence_count
                          confidence tags in
  let row2 := pattern_row now2 hex2 pattern_type description evidence_count
                          confidence tags in
  (100 < len pattern_type)%nat \/ (1000 < len description)%nat ->
  ~ In ("pat_" ^^ hex1) (map p_id (patterns w)) ->
  ~ In ("pat_" ^^ hex2) (map p_id (patterns w)) ->
  hex1 <> hex2 ->
  exists w1 w2,
    add_pattern now1 hex1 pattern_type description evidence_count confidence tags w
    = (Return ("pat_" ^^ hex1), w1)
    /\ add_pattern now2 hex2 pattern_type description evidence_count confidence tags w1
       = (Return ("pat_" ^^ hex2), w2)
    /\ patterns w2 = patterns w ++ [row1; row2]
    /\ p_active row1 = true /\ p_active row2 = true
    /\ p_pattern_type row1 = p_pattern_type row2
    /\ p_description row1 = p_description row2
    /\ p_id row1 <> p_id row2.
Proof.
  intros w row1 row2 Hlong Hf1 Hf2 Hne.
  assert (Hw : bounded w) by apply bounded_history.
  pose proof (add_pattern_cases now1 hex1 pattern_type description evidence_count
                confidence tags w) as E1.
  rewrite (long_pattern_not_found w _ _ Hw Hlong), (not_in_fresh _ _ _ Hf1) in E1.
  fold row1 in E1.
  set (w1 := with_patterns (patterns w ++ [row1]) w) in *.
  assert (Hw1 : bounded w1).
  { pose proof (bounded_add_pattern now1 hex1 pattern_type description evidence_count
                  confidence tags w Hw) as H.
    rewrite E1 in H. exact H. }
  assert (Hne' : "pat_" ^^ hex1 <> "pat_" ^^ hex2).
  { intros E. apply Hne. injection E. auto. }
  pose proof (add_pattern_cases now2 hex2 pattern_type description evidence_count
                confidence tags w1) as E2.
  rewrite (long_pattern_not_found w1 _ _ Hw1 Hlong) in E2.
  rewrite not_in_fresh in E2.
  2:{ unfold w1. tables. rewrite map_app. intros Hin. apply in_app_or in Hin.
      destruct Hin as [Hin|[Hin|[]]]; [contradiction|]. apply Hne'. exact Hin. }
  fold row2 in E2.
  exists w1, (with_patterns (patterns w1 ++ [row2]) w1).
  split; [exact E1|]. split; [exact E2|].
  split; [unfold w1; tables; rewrite <- app_assoc; reflexivity|].
  repeat split. exact Hne'.
Qed.

(** X5. A fact whose category has more than 100 characters (code points),
    or whose key has more than 200, is never updated in place: in a store reached by a
    history of calls the lookup of [set_knowledge] finds no row, so each
    call inserts one, and two calls leave two rows under the same stored
    category and key. *)
Theorem set_knowledge_long_key_duplicates
    (calls : list call) (now1 now2 : timestamp)
    (hex1 hex2 category key value1 value2 source : string) (ttl_hours : Z) :
  let w := history calls in
  let row1 := knowledge_row now1 hex1 category key value1 source ttl_hours in
  let row2 := knowledge_row now2 hex2 category key value2 source ttl_hours in
  (100 < len category)%nat \/ (200 < len key)%nat ->
  ~ In ("kn_" ^^ hex1) (map k_id (knowledges w)) ->
  ~ In ("kn_" ^^ hex2) (map k_id (knowledges w)) ->
  hex1 <> hex2 ->
  exists w1 w2,
    set_knowledge now1 hex1 category key value1 source ttl_hours w
    = (Return ("kn_" ^^ hex1), w1)
    /\ set_knowledge now2 hex2 category key value2 source ttl_hours w1
       = (Return ("kn_" ^^ hex2), w2)
    /\ knowledges w2 = knowledges w ++ [row1; row2]
    /\ k_category row1 = k_category row2
    /\ k_key row1 = k_key row2
    /\ k_value row1 = take 5000 value1
    /\ k_value row2 = take 5000 value2
    /\ k_id row1 <> k_id row2.
Proof.
  intros w row1 row2 Hlong Hf1 Hf2 Hne.
  assert (Hw : bounded w) by apply bounded_history.
  pose proof (set_knowledge_paths now1 hex1 category key value1 source ttl_hours w) as E1.
  rewrite (long_fact_not_found w _ _ Hw Hlong), (not_in_fresh _ _ _ Hf1) in E1.
  fold row1 in E1.
  set (w1 := with_knowledges (knowledges w ++ [row1]) w) in *.
  assert (Hw1 : bounded w1).
  { pose proof (bounded_set_knowledge now1 hex1 category key value1 source ttl_hours
                  w Hw) as H.
    rewrite E1 in H. exact H. }
  assert (Hne' : "kn_" ^^ hex1 <> "kn_" ^^ hex2).
  { intros E. apply Hne. injection E. auto. }
  pose proof (set_knowledge_paths now2 hex2 category key value2 source ttl_hours w1) as E2.
  rewrite (long_fact_not_found w1 _ _ Hw1 Hlong) in E2.
  rewrite not_in_fresh in E2.
  2:{ unfold w1. tables. rewrite map_app. intros Hin. apply in_app_or in Hin.
      destruct Hin as [Hin|[Hin|[]]]; [contradiction|]. apply Hne'. exact Hin. }
  fold row2 in E2.
  exists w1, (with_knowledges (knowledges w1 ++ [row2]) w1).
  split; [exact E1|]. split; [exact E2|].
  split; [unfold w1; tables; rewrite <- app_assoc; reflexivity|].
  repeat split. exact Hne'.
Qed.

End LongTexts.

(** ** Rows that stay *)

Section Lifecycle.
Import AgentMemory PatternMiner.

Lemma grown_refl (w : db) : grown_from w w.
Proof. split; exists []; rewrite app_nil_r; reflexivity. Qed.

Lemma grown_step (w0 w w' : db) :
  grown_from w0 w ->
  map d_id (decisions w') = map d_id (decisions w)
  \/ (exists x, map d_id (decisions w') = map d_id (decisions w) ++ [x]) ->
  map p_id (patterns w') = map p_id (patterns w)
  \/ (exists x, map p_id (patterns w') = map p_id (patterns w) ++ [x]) ->
  grown_from w0 w'.
Proof.
  intros [[ld Hd] [lp Hp]] Ed Ep. split.
  - destruct Ed as [->|[x ->]]; rewrite Hd.
    + exists ld; reflexivity.
    + exists (ld ++ [x]). rewrite app_assoc. reflexivity.
  - destruct Ep as [->|[x ->]]; rewrite Hp.
    + exists lp; reflexivity.
    + exists (lp ++ [x]). rewrite app_assoc. reflexivity.
Qed.

Lemma grown_record_decision w0 now hex context choice reasoning confidence tags :
  preserves (grown_from w0)
            (record_decision now hex context choice reasoning confidence tags).
Proof.
  intros w H. rewrite record_decision_cases.
  destruct (existsb _ (decisions w)); [exact H|].
  eapply grown_step; [exact H | right | left; reflexivity].
  tables. rewrite map_app. eexists; reflexivity.
Qed.

Lemma grown_record_outcome w0 id outcome score :
  preserves (grown_from w0) (record_outcome id outcome score).
Proof.
  intros w H. unfold record_outcome.
  eapply grown_step; [exact H | left | left; reflexivity].
  tables. apply update_map_same. reflexivity.
Qed.

Lemma grown_add_pattern w0 now hex pt desc ev conf tags :
  preserves (grown_from w0) (add_pattern now hex pt desc ev conf tags).
Proof.
  intros w H. rewrite add_pattern_cases.
  destruct (find _ (patterns w)) as [existing|].
  - eapply grown_step; [exact H | left; reflexivity | left].
    tables. apply update_map_same. reflexivity.
  - destruct (existsb _ (patterns w)); [exact H|].
    eapply grown_step; [exact H | left; reflexivity | right].
    tables. rewrite map_app. eexists; reflexivity.
Qed.

Lemma grown_deactivate_pattern w0 id :
  preserves (grown_from w0) (deactivate_pattern id).
Proof.
  intros w H. rewrite deactivate_pattern_store.
  eapply grown_step; [exact H | left; reflexivity | left].
  tables. apply update_map_same. reflexivity.
Qed.

Lemma grown_set_knowledge w0 now hex c k v s ttl :
  preserves (grown_from w0) (set_knowledge now hex c k v s ttl).
Proof.
  intros w H. rewrite set_knowledge_paths.
  destruct (find _ (knowledges w)) as [existing|].
  - eapply grown_step; [exact H | left; reflexivity | left; reflexivity].
  - destruct (existsb _ (knowledges w)); [exact H|].
    eapply grown_step; [exact H | left; reflexivity | left; reflexivity].
Qed.

Lemma grown_get_knowledge w0 now c k :
  preserves (grown_from w0) (get_knowledge now c k).
Proof.
  intros w H. eapply grown_step; [exact H | left; reflexivity | left; reflexivity].
Qed.

Lemma grown_exec (w0 : db) (c : call) (w : db) :
  grown_from w0 w -> grown_from w0 (exec c w).
Proof.
  apply Preservation.preserves_exec;
    auto using grown_add_pattern, grown_deactivate_pattern, grown_record_decision,
      grown_record_outcome, grown_set_knowledge, grown_get_knowledge.
Qed.

(** X6. No call deletes or reorders a decision or a pattern: after any
    call, and after any sequence of calls, passes of the miner included,
    the ids of the decisions and of the patterns that were in the store
    are still there, in the same order, before the ids of the rows added
    since. Pruning and [deactivate_pattern] keep the row. *)
Theorem decisions_and_patterns_are_kept (w : db) (calls : list call) :
  grown_from w (fold_left (fun w c => exec c w) calls w)
  /\ (forall c, grown_from w (exec c w))
  /\ (forall c id, In id (map d_id (decisions w)) ->
                   In id (map d_id (decisions (exec c w))))
  /\ (forall c id, In id (map p_id (patterns w)) ->
                   In id (map p_id (patterns (exec c w)))).
Proof.
  split.
  { induction calls as [|c calls IH] using rev_ind.
    - apply grown_refl.
    - rewrite fold_left_app. apply grown_exec, IH. }
  assert (H : forall c, grown_from w (exec c w)) by (intros c; apply grown_exec, grown_refl).
  split; [exact H|].
  split; intros c id Hin; destruct (H c) as [[ld Hd] [lp Hp]].
  - rewrite Hd. apply in_or_app. left. exact Hin.
  - rewrite Hp. apply in_or_app. left. exact Hin.
Qed.

(** A row that is inactive already is left as it is by the UPDATE of
    [deactivate_pattern]. *)
Lemma deactivate_inactive (p : pattern) : p_active p = false -> deactivate p = p.
Proof. destruct p; cbn. intros ->. reflexivity. Qed.

Lemma in_update_other {A} (where_ : A -> bool) (set : A -> A) (l : list A) (x : A) :
  In x l -> (where_ x = true -> set x = x) -> In x (Sql.update where_ set l).
Proof.
  intros Hin H. unfold Sql.update. apply in_map_iff. exists x. split; [|exact Hin].
  destruct (where_ x); auto.
Qed.

Lemma frozen_add_pattern (p : pattern) now hex pt desc ev conf tags :
  p_active p = false ->
  preserves (fun w => keyed w /\ In p (patterns w))
            (add_pattern now hex pt desc ev conf tags).
Proof.
  intros Hp w [Hk Hin]. split; [apply keyed_add_pattern, Hk|].
  rewrite add_pattern_cases.
  destruct (find _ (patterns w)) as [existing|] eqn:Hfind.
  - tables. apply in_update_other; [exact Hin|].
    intros E. apply String.eqb_eq in E.
    apply find_some in Hfind. destruct Hfind as [Hex Hsame].
    apply same_pattern_spec in Hsame. destruct Hsame as (_ & _ & Ha).
    destruct Hk as (_ & Hnd & _).
    assert (p = existing) by (eapply NoDup_map_eq; eauto). subst p. congruence.
  - destruct (existsb _ (patterns w)); [exact Hin|].
    tables. apply in_or_app. left. exact Hin.
Qed.

Lemma frozen_deactivate_pattern (p : pattern) id :
  p_active p = false ->
  preserves (fun w => keyed w /\ In p (patterns w)) (deactivate_pattern id).
Proof.
  intros Hp w [Hk Hin]. split; [apply keyed_deactivate_pattern, Hk|].
  rewrite deactivate_pattern_store. tables.
  apply in_update_other; [exact Hin|]. intros _. apply deactivate_inactive, Hp.
Qed.

Lemma frozen_exec (p : pattern) (c : call) (w : db) :
  p_active p = false ->
  keyed w /\ In p (patterns w) -> keyed (exec c w) /\ In p (patterns (exec c w)).
Proof.
  intros Hp.
  apply (Preservation.preserves_exec (fun w => keyed w /\ In p (patterns w))).
  - intros. apply frozen_add_pattern, Hp.
  - intros. apply frozen_deactivate_pattern, Hp.
  - intros now hex context choice reasoning confidence tags w0 [Hk Hin].
    split; [apply keyed_record_decision, Hk|].
    rewrite record_decision_cases. destruct (existsb _ _); exact Hin.
  - intros id outcome score w0 [Hk Hin].
    split; [apply keyed_record_outcome, Hk | exact Hin].
  - intros now hex c0 k v s ttl w0 [Hk Hin].
    split; [apply keyed_set_knowledge, Hk|].
    rewrite set_knowledge_paths.
    destruct (find _ _); [exact Hin|]. destruct (existsb _ _); exact Hin.
  - intros now c0 k w0 [Hk Hin].
    split; [apply keyed_get_knowledge, Hk | exact Hin].
Qed.

(** X7. An inactive pattern is frozen. In a store reached by a history
    of calls, a pattern with [active = 0] is left exactly as it is by
    every further call: [add_pattern] with its type and description does
    not reinforce it, a pass of the miner does not touch it, nothing sets
    it active again, and [get_active_patterns] does not return it. *)
Theorem inactive_patterns_are_frozen (calls : list call) (p : pattern) :
  let w := history calls in
  In p (patterns w) -> p_active p = false ->
  (forall c, In p (patterns (exec c w)))
  /\ (forall more, In p (patterns (fold_left (fun w c => exec c w) more w)))
  /\ (forall pattern_type min_confidence rows,
        fst (get_active_patterns pattern_type min_confidence w) = Return rows ->
        ~ In p rows).
Proof.
  intros w Hin Hp.
  assert (Hw : keyed w /\ In p (patterns w)) by (split; [apply keyed_history | exact Hin]).
  split; [intros c; apply (frozen_exec p c w Hp Hw)|].
  split.
  - intros more.
    assert (H : keyed (fold_left (fun w c => exec c w) more w)
                /\ In p (patterns (fold_left (fun w c => exec c w) more w))).
    { induction more as [|c more IH] using rev_ind; [exact Hw|].
      rewrite fold_left_app. apply frozen_exec; assumption. }
    apply H.
  - intros pattern_type min_confidence rows E Hrows.
    cbn in E. injection E as <-.
    apply SqlFacts.sort_by_in in Hrows. apply filter_In in Hrows.
    destruct Hrows as [_ Hhit]. rewrite Hp in Hhit. discriminate.
Qed.

End Lifecycle.

(** ** Reading and retiring patterns *)

Section ActivePatterns.
Import AgentMemory PatternMiner.

Lemma pattern_before_asym (x y : pattern) :
  pattern_before y x = true -> pattern_before x y = false.
Proof.
  unfold pattern_before. intros H. apply orb_true_iff in H.
  destruct H as [H|H].
  - destruct (FloatOrder.ltb_asym _ _ H) as [H1 H2]. rewrite H1, H2. reflexivity.
  - apply andb_true_iff in H. destruct H as [He Hn].
    rewrite (FloatOrder.eqb_not_ltb _ _ He). cbn [orb].
    apply andb_false_iff. right. apply Z.ltb_ge. apply Z.ltb_lt in Hn. lia.
Qed.

Lemma insert_by_sorted {A} (before : A -> A -> bool) (x : A) (l : list A) :
  (forall a b, before a b = true -> before b a = false) ->
  Sorted (fun a b => before b a = false) l ->
  Sorted (fun a b => before b a = false) (Sql.insert_by before x l).
Proof.
  intros Hasym. induction 1 as [|y l Hs IH Hhd]; cbn [Sql.insert_by].
  - repeat constructor.
  - destruct (before y x) eqn:E.
    + constructor; [exact IH|].
      destruct l as [|z l]; cbn [Sql.insert_by].
      * constructor. apply Hasym, E.
      * destruct (before z x); constructor.
        -- inversion Hhd; assumption.
        -- apply Hasym, E.
    + constructor; [constructor; assumption|]. constructor. exact E.
Qed.

Lemma sort_by_sorted {A} (before : A -> A -> bool) (l : list A) :
  (forall a b, before a b = true -> before b a = false) ->
  Sorted (fun a b => before b a = false) (Sql.sort_by before l).
Proof.
  intros Hasym. unfold Sql.sort_by. induction l as [|x l IH]; cbn [fold_right].
  - constructor.
  - apply insert_by_sorted; assumption.
Qed.

(** X8. [get_active_patterns] returns the active rows, those of the given
    type when one is given and it is not the empty string, those with at
    least the given confidence when that is above 0; each such row once.
    No returned row is directly followed by one with a higher confidence,
    or with the same confidence and more evidence. The store is not
    changed, and an empty type is no filter. *)
Theorem get_active_patterns_contract
    (w : db) (pattern_type : option string) (min_confidence : float) :
  exists rows,
    get_active_patterns pattern_type min_confidence w = (Return rows, w)
    /\ Permutation rows (filter (active_hit pattern_type min_confidence) (patterns w))
    /\ (forall p, In p rows <->
          In p (patterns w)
          /\ p_active p = true
          /\ (forall t, pattern_type = Some t -> t <> "" -> p_pattern_type p = t)
          /\ (PrimFloat.ltb 0 min_confidence = true ->
              PrimFloat.leb min_confidence (p_confidence p) = true))
    /\ ranked rows
    /\ get_active_patterns (Some "") min_confidence w
       = get_active_patterns None min_confidence w.
Proof.
  eexists. split; [reflexivity|].
  fold (active_hit pattern_type min_confidence).
  split; [apply SqlFacts.sort_by_perm|].
  split.
  { intros p. rewrite SqlFacts.sort_by_in, filter_In. unfold active_hit.
    rewrite !andb_true_iff.
    assert (Ht : match given pattern_type with
                 | Some t => String.eqb (p_pattern_type p) t
                 | None => true
                 end = true
                 <-> forall t, pattern_type = Some t -> t <> "" -> p_pattern_type p = t).
    { destruct pattern_type as [[|c t]|]; cbn [given].
      - split; [|reflexivity]. intros _ t [= <-] Hne. contradiction.
      - rewrite String.eqb_eq. split.
        + intros E t' [= <-] _. exact E.
        + intros H. apply H; [reflexivity | discriminate].
      - split; [|reflexivity]. intros _ t [=]. }
    rewrite Ht.
    destruct (PrimFloat.ltb 0 min_confidence); intuition congruence. }
  split; [apply sort_by_sorted; intros a b; apply pattern_before_asym|].
  reflexivity.
Qed.

(** X9. [deactivate_pattern] returns [True] exactly when a row has the
    id, also when that row was inactive already. The rows with the id
    get [active = 0] and keep every other column; all other rows and the
    other tables are unchanged. From then on [get_active_patterns] does
    not return a row with that id, and a second call changes nothing. *)
Theorem deactivate_pattern_contract (w : db) (pattern_id : string) :
  exists (found : bool) (w' : db),
    deactivate_pattern pattern_id w = (Return found, w')
    /\ (found = true <-> exists p, In p (patterns w) /\ p_id p = pattern_id)
    /\ Forall2
         (fun p p' =>
            if String.eqb (p_id p) pattern_id
            then p_active p' = false
                 /\ p_id p' = p_id p
                 /\ p_pattern_type p' = p_pattern_type p
                 /\ p_description p' = p_description p
                 /\ p_evidence_count p' = p_evidence_count p
                 /\ p_confidence p' = p_confidence p
                 /\ p_created_at p' = p_created_at p
                 /\ p_updated_at p' = p_updated_at p
                 /\ p_tags p' = p_tags p
            else p' = p)
         (patterns w) (patterns w')
    /\ decisions w' = decisions w
    /\ knowledges w' = knowledges w
    /\ (found = false -> w' = w)
    /\ (forall pattern_type min_confidence rows p,
          get_active_patterns pattern_type min_confidence w' = (Return rows, w') ->
          In p rows -> p_id p <> pattern_id)
    /\ deactivate_pattern pattern_id w' = (Return found, w').
Proof.
  do 2 eexists. split; [apply deactivate_pattern_store|].
  split.
  { rewrite existsb_exists. split; intros (p & Hp & E); exists p; split; auto;
      apply String.eqb_eq; exact E. }
  tables. split.
  { induction (patterns w) as [|p l IH]; cbn; constructor; auto.
    destruct (String.eqb (p_id p) pattern_id); cbn; repeat split; reflexivity. }
  split; [reflexivity|]. split; [reflexivity|].
  split.
  { intros Hnone. unfold with_patterns.
    rewrite SqlFacts.update_none; [apply db_eta|].
    intros r Hr. destruct (String.eqb (p_id r) pattern_id) eqn:E; [|reflexivity].
    rewrite <- Hnone. symmetry. apply existsb_exists. exists r; auto. }
  split.
  { intros pattern_type min_confidence rows p E Hp Hid.
    injection E as <-. apply SqlFacts.sort_by_in in Hp. apply filter_In in Hp.
    destruct Hp as [Hin Hhit]. tables. unfold Sql.update in Hin.
    apply in_map_iff in Hin. destruct Hin as (r & Er & _).
    destruct (String.eqb (p_id r) pattern_id) eqn:E.
    - subst p. cbn in Hhit. discriminate.
    - subst p. apply String.eqb_neq in E. contradiction. }
  rewrite deactivate_pattern_store. tables. f_equal.
  - f_equal. unfold Sql.update.
    induction (patterns w) as [|r l IH]; cbn [map existsb]; [reflexivity|].
    rewrite IH. f_equal.
    destruct (String.eqb (p_id r) pattern_id) eqn:E; cbn [deactivate p_id]; rewrite E;
      reflexivity.
  - unfold with_patterns. tables. f_equal.
    unfold Sql.update. rewrite map_map. apply map_ext. intros r.
    destruct (String.eqb (p_id r) pattern_id) eqn:E; cbn [deactivate p_id]; rewrite E;
      reflexivity.
Qed.

(** X10. A deactivated pattern is not revived by [add_pattern]: when the
    one active row of a type and description has been deactivated, the
    next [add_pattern] with that type and description inserts a new row
    under a new id, with the evidence and confidence of the call; the
    old row stays, inactive, with the evidence and confidence it had. *)
Theorem add_pattern_after_deactivation
    (w : db) (old : pattern) (now : timestamp) (hex : string)
    (evidence_count : Z) (confidence : float) (tags : list string) :
  let pattern_type := p_pattern_type old in
  let description := p_description old in
  filter (same_pattern pattern_type description) (patterns w) = [old] ->
  ~ In ("pat_" ^^ hex) (map p_id (patterns w)) ->
  exists w1 w2,
    deactivate_pattern (p_id old) w = (Return true, w1)
    /\ add_pattern now hex pattern_type description evidence_count confidence tags w1
       = (Return ("pat_" ^^ hex), w2)
    /\ patterns w2
       = patterns w1
         ++ [pattern_row now hex pattern_type description evidence_count confidence tags]
    /\ In (deactivate old) (patterns w2)
    /\ List.length (patterns w2) = S (List.length (patterns w)).
Proof.
  intros pattern_type description Hone Hfresh.
  assert (Hold : In old (patterns w) /\ same_pattern pattern_type description old = true).
  { apply filter_In. rewrite Hone. left. reflexivity. }
  destruct Hold as [Hin Hsame].
  set (w1 := with_patterns
               (Sql.update (fun r => String.eqb (p_id r) (p_id old)) deactivate
                           (patterns w)) w).
  assert (E1 : deactivate_pattern (p_id old) w = (Return true, w1)).
  { rewrite deactivate_pattern_store. f_equal. f_equal.
    apply existsb_exists. exists old. split; [exact Hin | apply String.eqb_refl]. }
  assert (Hnone : find (same_pattern pattern_type description) (patterns w1) = None).
  { apply find_all_false. intros r Hr. unfold w1 in Hr. tables.
    unfold Sql.update in Hr. apply in_map_iff in Hr. destruct Hr as (r0 & <- & Hr0).
    destruct (String.eqb (p_id r0) (p_id old)) eqn:E.
    - unfold same_pattern. cbn [deactivate p_active]. apply andb_false_r.
    - destruct (same_pattern pattern_type description r0) eqn:Es; [|reflexivity].
      assert (Hr1 : In r0 (filter (same_pattern pattern_type description) (patterns w)))
        by (apply filter_In; auto).
      rewrite Hone in Hr1. destruct Hr1 as [<-|[]].
      rewrite String.eqb_refl in E. discriminate. }
  assert (Hfresh1 : ~ In ("pat_" ^^ hex) (map p_id (patterns w1))).
  { unfold w1. tables. rewrite update_map_same; [exact Hfresh | reflexivity]. }
  pose proof (add_pattern_cases now hex pattern_type description evidence_count
                confidence tags w1) as E2.
  rewrite Hnone, (not_in_fresh _ _ _ Hfresh1) in E2.
  exists w1. eexists. split; [exact E1|]. split; [exact E2|].
  tables. split; [reflexivity|]. split.
  - apply in_or_app. left. unfold w1. tables. unfold Sql.update.
    apply in_map_iff. exists old. rewrite String.eqb_refl. auto.
  - rewrite length_app. unfold w1. tables. rewrite SqlFacts.update_length.
    cbn [List.length]. lia.
Qed.

End ActivePatterns.

(** ** Facts: writing and reading back *)

Section KnowledgeRoundTrip.
Import AgentMemory PatternMiner.

Lemma filter_comm {A} (f g : A -> bool) (l : list A) :
  filter f (filter g l) = filter g (filter f l).
Proof.
  rewrite !filter_and. apply filter_ext. intros x. apply andb_comm.
Qed.

Lemma filter_single {A B} (f : A -> B) (g : A -> bool) (l : list A) (x : A) :
  NoDup (map f l) -> In x l ->
  (forall r, In r l -> g r = true <-> f r = f x) ->
  filter g l = [x].
Proof.
  induction l as [|y l IH]; cbn; [tauto|].
  intros Hnd Hin Hg. inversion Hnd as [|? ? Hy Hl]; subst.
  destruct Hin as [->|Hin].
  - replace (g x) with true by (symmetry; apply Hg; auto).
    f_equal. apply filter_none. intros r Hr.
    apply Bool.not_true_iff_false. intros E. apply Hg in E; [|auto].
    apply Hy. rewrite <- E. apply in_map, Hr.
  - replace (g y) with false.
    + apply IH; auto.
    + symmetry. apply Bool.not_true_iff_false. intros E. apply Hg in E; [|auto].
      apply Hy. rewrite E. apply in_map, Hin.
Qed.

Lemma same_fact_spec (category key : string) (r : knowledge) :
  same_fact category key r = true <-> (k_category r, k_key r) = (category, key).
Proof.
  unfold same_fact. rewrite andb_true_iff, !String.eqb_eq.
  split; [intros [-> ->]; reflexivity | intros [= -> ->]; auto].
Qed.

Lemma knowledge_hit_same_fact (category key : string) (r : knowledge) :
  category <> "" -> key <> "" ->
  knowledge_hit (Some category) (Some key) r = same_fact category key r.
Proof.
  intros Hc Hk. unfold knowledge_hit, same_fact.
  destruct category; [contradiction|]. destruct key; [contradiction|]. reflexivity.
Qed.

(** One read, as a function of the table. *)
Lemma get_knowledge_store (now : timestamp) (category key : option string) (w : db) :
  get_knowledge now category key w
  = (Return (Sql.order_by_desc k_created_at
               (filter (knowledge_hit category key)
                       (filter (fun r => negb (expired now r)) (knowledges w)))),
     with_knowledges (filter (fun r => negb (expired now r)) (knowledges w)) w).
Proof. reflexivity. Qed.

(** X11. Writing a fact and reading it back. In a store with one row at
    most under each category and key, [set_knowledge] with a category of
    at most 100 and a key of at most 200 characters (code points), neither
    empty,
    leaves one row under that category and key, and
    [get_knowledge(category, key)] returns exactly that row, holding the
    value and source of the call, while the fact has not expired. The
    id is the one returned, and the store still has one row at most under
    each category and key. *)
Theorem set_knowledge_then_get
    (w : db) (t0 t1 : timestamp) (hex category key value source : string)
    (ttl_hours : Z) :
  NoDup (map k_id (knowledges w)) ->
  one_per_key w ->
  category <> "" -> key <> "" ->
  (len category <= 100)%nat -> (len key <= 200)%nat ->
  ~ In ("kn_" ^^ hex) (map k_id (knowledges w)) ->
  (0 < ttl_hours -> t1 <= t0 + ttl_hours * usec_per_hour) ->
  exists id w1 k w2,
    set_knowledge t0 hex category key value source ttl_hours w = (Return id, w1)
    /\ get_knowledge t1 (Some category) (Some key) w1 = (Return [k], w2)
    /\ k_id k = id
    /\ k_category k = category
    /\ k_key k = key
    /\ written t0 value source ttl_hours k
    /\ filter (same_fact category key) (knowledges w1) = [k]
    /\ one_per_key w1
    /\ NoDup (map k_id (knowledges w1)).
Proof.
  intros Hids Hone Hc Hk Hlc Hlk Hfresh Hlive.
  pose proof (set_knowledge_paths t0 hex category key value source ttl_hours w) as E.
  set (expires := if 0 <? ttl_hours then Some (t0 + ttl_hours * usec_per_hour) else None)
    in *.
  assert (Hlive' : forall k, k_expires_at k = expires -> expired t1 k = false).
  { intros k Ek. unfold expired. rewrite Ek. unfold expires.
    destruct (0 <? ttl_hours) eqn:Et; [|reflexivity].
    apply Z.ltb_ge. apply Hlive. apply Z.ltb_lt, Et. }
  assert (Hread : forall w1 k,
             filter (same_fact category key) (knowledges w1) = [k] ->
             k_expires_at k = expires ->
             get_knowledge t1 (Some category) (Some key) w1
             = (Return [k],
                with_knowledges (filter (fun r => negb (expired t1 r)) (knowledges w1)) w1)).
  { intros w1 k Hk1 Ek. rewrite get_knowledge_store. f_equal. f_equal.
    rewrite (filter_ext _ _ (fun r => knowledge_hit_same_fact category key r Hc Hk)).
    rewrite filter_comm, Hk1. cbn [filter]. rewrite (Hlive' k Ek). reflexivity. }
  destruct (find (same_fact category key) (knowledges w)) as [existing|] eqn:Hfind.
  - apply find_some in Hfind. destruct Hfind as [Hin Hsame].
    apply same_fact_spec in Hsame.
    set (U := fun r => if String.eqb (k_id r) (k_id existing)
                       then overwrite (take 5000 value) (take 200 source) ttl_hours t0
                                      expires r
                       else r) in *.
    assert (Hrows : filter (same_fact category key) (map U (knowledges w))
                    = [U existing]).
    { rewrite (filter_map_through _ (same_fact category key)).
      - rewrite (filter_single (fun k => (k_category k, k_key k)) _ _ existing Hone Hin).
        + cbn [map filter]. replace (same_fact category key (U existing)) with true;
            [reflexivity|].
          symmetry. apply same_fact_spec. unfold U. rewrite String.eqb_refl.
          cbn [overwrite k_category k_key]. exact Hsame.
        + intros r _. rewrite same_fact_spec, Hsame. reflexivity.
      - intros x Hx. apply same_fact_spec in Hx. apply same_fact_spec.
        rewrite <- Hx. unfold U. destruct (String.eqb _ _); reflexivity. }
    assert (HU : U existing
                 = overwrite (take 5000 value) (take 200 source) ttl_hours t0 expires
                             existing).
    { unfold U. rewrite String.eqb_refl. reflexivity. }
    do 4 eexists. split; [exact E|].
    split; [apply Hread; tables; [exact Hrows | rewrite HU; reflexivity]|].
    rewrite HU. cbn [overwrite k_id k_category k_key].
    injection Hsame as Hcat Hkey.
    repeat split; try assumption; try reflexivity.
    + tables. fold U. rewrite HU in Hrows. exact Hrows.
    + unfold one_per_key. tables.
      rewrite update_map_same; [exact Hone|]. intros r. reflexivity.
    + tables. rewrite update_map_same; [exact Hids|]. intros r. reflexivity.
  - rewrite (not_in_fresh _ _ _ Hfresh) in E.
    set (row := knowledge_row t0 hex category key value source ttl_hours) in *.
    assert (Hrow : same_fact category key row = true).
    { apply same_fact_spec. unfold row, knowledge_row. cbn [k_category k_key].
      rewrite (take_all 100 category), (take_all 200 key) by assumption.
      reflexivity. }
    assert (Hrows : filter (same_fact category key) (knowledges w ++ [row]) = [row]).
    { rewrite filter_app, (find_none_filter _ _ Hfind). cbn [filter app].
      rewrite Hrow. reflexivity. }
    do 4 eexists. split; [exact E|].
    split; [apply Hread; tables; [exact Hrows | reflexivity]|].
    apply same_fact_spec in Hrow.
    pose proof (f_equal fst Hrow) as Hcat. pose proof (f_equal snd Hrow) as Hkey.
    cbn [fst snd] in Hcat, Hkey.
    repeat split; try assumption; try reflexivity.
    + unfold one_per_key. tables. rewrite map_app. apply NoDup_snoc; [exact Hone|].
      cbn [map]. rewrite Hcat, Hkey. intros Hin.
      apply in_map_iff in Hin. destruct Hin as (r & Er & Hr).
      apply same_fact_spec in Er.
      pose proof (find_none _ _ Hfind r Hr) as Hno. congruence.
    + tables. rewrite map_app. apply NoDup_snoc; [exact Hids | exact Hfresh].
Qed.

(** X12. [get_knowledge] deletes the expired rows and returns, newest
    first, all rows that are left and have the given category and the
    given key; [None] and the empty string are no filter. Decisions and
    patterns are unchanged, and a second read at the same time returns
    the same rows and changes nothing. *)
Theorem get_knowledge_contract
    (w : db) (now : timestamp) (category key : option string) :
  exists rows w',
    get_knowledge now category key w = (Return rows, w')
    /\ knowledges w' = filter (fun r => negb (expired now r)) (knowledges w)
    /\ decisions w' = decisions w
    /\ patterns w' = patterns w
    /\ newest_first k_created_at rows
    /\ Permutation rows (filter (knowledge_hit category key) (knowledges w'))
    /\ (forall k, In k rows <->
          In k (knowledges w)
          /\ expired now k = false
          /\ (forall c, category = Some c -> c <> "" -> k_category k = c)
          /\ (forall y, key = Some y -> y <> "" -> k_key k = y))
    /\ get_knowledge now (Some "") (Some "") w = get_knowledge now None None w
    /\ get_knowledge now category key w' = (Return rows, w').
Proof.
  do 2 eexists. split; [apply get_knowledge_store|]. tables.
  split; [reflexivity|]. split; [reflexivity|]. split; [reflexivity|].
  split; [apply SqlFacts.order_by_desc_sorted|].
  split; [apply SqlFacts.sort_by_perm|].
  split.
  { intros k. unfold Sql.order_by_desc. rewrite SqlFacts.sort_by_in, !filter_In.
    unfold knowledge_hit. rewrite andb_true_iff, negb_true_iff.
    assert (Hg : forall (f : option string) (v : string),
               match given f with
               | Some c => String.eqb v c
               | None => true
               end = true
               <-> forall c, f = Some c -> c <> "" -> v = c).
    { intros [[|a c]|] v; cbn [given].
      - split; [|reflexivity]. intros _ c [= <-] Hne. contradiction.
      - rewrite String.eqb_eq. split.
        + intros E c' [= <-] _. exact E.
        + intros H. apply H; [reflexivity | discriminate].
      - split; [|reflexivity]. intros _ c [=]. }
    rewrite !Hg. tauto. }
  split; [reflexivity|].
  rewrite get_knowledge_store. tables.
  assert (Hidem : filter (fun r => negb (expired now r))
                         (filter (fun r => negb (expired now r)) (knowledges w))
                  = filter (fun r => negb (expired now r)) (knowledges w)).
  { rewrite filter_and. apply filter_ext. intros r. apply andb_diag. }
  rewrite Hidem. unfold with_knowledges. tables. rewrite ?Hidem. reflexivity.
Qed.

End KnowledgeRoundTrip.

(** ** Reading decisions *)

Section ReadingDecisions.
Import AgentMemory PatternMiner.

(** X13. [get_recent_decisions] returns decisions of the table, the
    resolved ones only when [resolved_only] is set, newest first: all of
    them when [limit] is negative or large enough, else the [limit]
    newest. It does not change the store. *)
Theorem get_recent_decisions_contract (w : db) (limit : Z) (resolved_only : bool) :
  let candidates :=
    if resolved_only then filter d_resolved (decisions w) else decisions w in
  exists rows,
    get_recent_decisions limit resolved_only w = (Return rows, w)
    /\ newest_first d_timestamp rows
    /\ (forall r, In r rows ->
          In r (decisions w) /\ (resolved_only = true -> d_resolved r = true))
    /\ (0 <= limit ->
        Z.of_nat (List.length rows) = Z.min limit (Z.of_nat (List.length candidates)))
    /\ (limit < 0 \/ Z.of_nat (List.length candidates) <= limit ->
        Permutation rows candidates)
    /\ (forall x y, In x rows -> In y candidates -> ~ In y rows ->
                    d_timestamp y <= d_timestamp x).
Proof.
  intros candidates. eexists. split; [reflexivity|]. fold candidates.
  split; [apply SqlFacts.limit_sorted, SqlFacts.order_by_desc_sorted|].
  split.
  { intros r Hr. apply SqlFacts.limit_in, SqlFacts.sort_by_in in Hr.
    unfold candidates in Hr. destruct resolved_only.
    - apply filter_In in Hr. tauto.
    - split; [exact Hr | discriminate]. }
  split.
  { intros Hl. rewrite SqlFacts.limit_length by exact Hl.
    unfold Sql.order_by_desc. rewrite SqlFacts.sort_by_length. reflexivity. }
  split.
  { intros Hl. rewrite SqlFacts.limit_all.
    - apply SqlFacts.sort_by_perm.
    - unfold Sql.order_by_desc. rewrite SqlFacts.sort_by_length. exact Hl. }
  intros x y Hx Hy Hny.
  eapply SqlFacts.limit_keeps_newest;
    [apply SqlFacts.order_by_desc_sorted | exact Hx | | exact Hny].
  apply SqlFacts.sort_by_in. exact Hy.
Qed.

Lemma lower_ascii_idem (c : ascii) : lower_ascii (lower_ascii c) = lower_ascii c.
Proof. destruct c as [[] [] [] [] [] [] [] []]; reflexivity. Qed.

Lemma lower_idem (s : string) : lower (lower s) = lower s.
Proof.
  induction s as [|c s IH]; cbn [lower]; [reflexivity|].
  rewrite lower_ascii_idem, IH. reflexivity.
Qed.

Lemma situation_words_lower (situation word : string) :
  In word (situation_words situation) -> lower word = word.
Proof.
  unfold situation_words. intros H. apply in_map_iff in H.
  destruct H as (u & <- & _). apply lower_idem.
Qed.

(** The rows of a call with one to ten words. *)
Lemma get_relevant_context_rows (w : db) (situation : string) (limit : Z) :
  let words := situation_words situation in
  let hit := relevant_hit (map Like.around words) in
  (0 < List.length words <= 10)%nat ->
  get_relevant_context situation limit w
  = (Return (map (fun r => (r, if hit r then 1 else 0))
                 (Sql.limit limit
                    (Sql.order_by_desc d_timestamp (filter hit (decisions w))))),
     w).
Proof.
  intros words hit H. subst hit. unfold get_relevant_context, relevant_hit.
  fold (situation_words situation). fold words. clearbody words.
  destruct words as [|x l] eqn:E; [simpl in H; lia|].
  rewrite <- E in H |- *. unfold bind, check_bindings.
  rewrite firstn_all2 by lia. rewrite length_map, Nat.eqb_refl.
  reflexivity.
Qed.

(** X14. For an ASCII situation with one to ten words of three
    characters or more, [get_relevant_context] returns, newest first and
    cut to [limit], the decisions whose context, lower-cased by SQLite,
    is matched by [LIKE '%word%'] for one of the lower-cased words; the
    column [relevance] is 1 on every row. For words without [%] and [_]
    the match is containment of the word in the lower-cased context.
    With no such word the call returns the empty list. The store is
    unchanged. The contexts stored may hold any text. *)
Theorem get_relevant_context_contract (w : db) (situation : string) (limit : Z) :
  let words := situation_words situation in
  let hit := relevant_hit (map Like.around words) in
  ascii_text situation = true ->
  (words = [] -> get_relevant_context situation limit w = (Return [], w))
  /\ ((0 < List.length words <= 10)%nat ->
      exists rows,
        get_relevant_context situation limit w = (Return rows, w)
        /\ newest_first d_timestamp (map fst rows)
        /\ (forall r relevance, In (r, relevance) rows ->
              In r (decisions w) /\ hit r = true /\ relevance = 1)
        /\ (0 <= limit ->
            Z.of_nat (List.length rows) = Z.min limit (count hit (decisions w)))
        /\ (limit < 0 \/ count hit (decisions w) <= limit ->
            Permutation (map fst rows) (filter hit (decisions w)))
        /\ (forall x y, In x (map fst rows) -> In y (decisions w) -> hit y = true ->
                        ~ In y (map fst rows) -> d_timestamp y <= d_timestamp x))
  /\ (forallb wildcard_free words = true ->
      forall r, hit r = existsb (fun word => contains word (lower (d_context r))) words).
Proof.
  intros words hit _. split; [|split].
  - intros E. unfold get_relevant_context. fold (situation_words situation).
    fold words. rewrite E. reflexivity.
  - intros H.
    set (found := Sql.limit limit
                    (Sql.order_by_desc d_timestamp (filter hit (decisions w)))).
    exists (map (fun r => (r, if hit r then 1 else 0)) found).
    split; [apply get_relevant_context_rows, H|].
    assert (Efst : map fst (map (fun r => (r, if hit r then 1 else 0)) found) = found).
    { rewrite map_map. cbn [fst]. apply map_id. }
    rewrite Efst, length_map.
    split; [apply SqlFacts.limit_sorted, SqlFacts.order_by_desc_sorted|].
    split.
    { intros r relevance Hr. apply in_map_iff in Hr. destruct Hr as (r0 & [= <- <-] & Hr0).
      apply SqlFacts.limit_in, SqlFacts.sort_by_in in Hr0. apply filter_In in Hr0.
      destruct Hr0 as [Hin Hhit]. rewrite Hhit. auto. }
    split.
    { intros Hl. unfold found. rewrite SqlFacts.limit_length by exact Hl.
      unfold Sql.order_by_desc. rewrite SqlFacts.sort_by_length. reflexivity. }
    split.
    { intros Hl. unfold found. rewrite SqlFacts.limit_all.
      - apply SqlFacts.sort_by_perm.
      - unfold Sql.order_by_desc. rewrite SqlFacts.sort_by_length. exact Hl. }
    intros x y Hx Hy Hhit Hny.
    eapply SqlFacts.limit_keeps_newest;
      [apply SqlFacts.order_by_desc_sorted | exact Hx | | exact Hny].
    apply SqlFacts.sort_by_in. apply filter_In. auto.
  - intros Hfree r. unfold hit, relevant_hit.
    assert (Hwords : forall word, In word words -> lower word = word)
      by (intros word; apply situation_words_lower).
    rewrite forallb_forall in Hfree.
    induction words as [|word l IH]; cbn [map existsb]; [reflexivity|].
    rewrite like_around by (apply Hfree; left; reflexivity).
    rewrite lower_idem, (Hwords word) by (left; reflexivity).
    rewrite IH; [reflexivity | |]; intros; [apply Hfree | apply Hwords]; right; assumption.
Qed.

Lemma update_update {A} (where_ : A -> bool) (set1 set2 : A -> A) (l : list A) :
  (forall r, where_ (set1 r) = where_ r) ->
  (forall r, set2 (set1 r) = set2 r) ->
  Sql.update where_ set2 (Sql.update where_ set1 l) = Sql.update where_ set2 l.
Proof.
  intros Hw Hs. unfold Sql.update. rewrite map_map. apply map_ext. intros r.
  destruct (where_ r) eqn:E.
  - rewrite Hw, E. apply Hs.
  - rewrite E. reflexivity.
Qed.

Lemma existsb_update {A} (where_ : A -> bool) (set : A -> A) (l : list A) :
  (forall r, where_ (set r) = where_ r) ->
  existsb where_ (Sql.update where_ set l) = existsb where_ l.
Proof.
  intros Hw. unfold Sql.update. induction l as [|r l IH]; cbn [map existsb]; [reflexivity|].
  rewrite IH. f_equal. destruct (where_ r) eqn:E; [rewrite Hw|]; exact E.
Qed.

(** X15. The last outcome wins. Recording a second outcome for a
    decision overwrites the first one entirely: the store after the two
    calls is the store after the second call alone, the second call
    reports the decision as found exactly when the first did, and the
    row holds the second outcome, cut to its first 2000 characters (code
    points), and the second score. *)
Theorem record_outcome_overwrites
    (w : db) (decision_id outcome1 outcome2 : string) (score1 score2 : float) :
  (exists found w1 w2,
      record_outcome decision_id outcome1 score1 w = (Return found, w1)
      /\ record_outcome decision_id outcome2 score2 w1 = (Return found, w2)
      /\ record_outcome decision_id outcome2 score2 w = (Return found, w2)
      /\ (forall d, In d (decisions w2) -> d_id d = decision_id ->
            d_outcome d = take 2000 outcome2
            /\ d_outcome_score d = Py.clamp (-1) 1 score2
            /\ d_resolved d = true))
  /\ len (take 2000 outcome2) = Nat.min 2000 (len outcome2)
  /\ ((len outcome2 <= 2000)%nat -> take 2000 outcome2 = outcome2).
Proof.
  split; [|split; [apply take_length | apply take_all]].
  do 3 eexists. split; [reflexivity|]. tables.
  assert (E : record_outcome decision_id outcome2 score2
                (with_decisions
                   (Sql.update (fun r => String.eqb (d_id r) decision_id)
                      (set_outcome (take 2000 outcome1) (Py.clamp (-1) 1 score1))
                      (decisions w)) w)
              = record_outcome decision_id outcome2 score2 w).
  { unfold record_outcome. tables. rewrite !SqlFacts.rowcount_pos.
    rewrite existsb_update by reflexivity.
    rewrite update_update by reflexivity. reflexivity. }
  split; [rewrite E; unfold record_outcome; rewrite !SqlFacts.rowcount_pos; reflexivity|].
  split; [unfold record_outcome; rewrite !SqlFacts.rowcount_pos; reflexivity|].
  tables. intros d Hd Hid. unfold Sql.update in Hd. apply in_map_iff in Hd.
  destruct Hd as (r & <- & _).
  destruct (String.eqb (d_id r) decision_id) eqn:Er.
  - repeat split.
  - apply String.eqb_neq in Er. contradiction.
Qed.

(** X16. The counters of [get_stats] fit together: the resolved and the
    unresolved decisions add up to all decisions, the wins and the
    losses are disjoint and are resolved decisions, and no counter is
    negative. The call does not change the store. *)
Theorem get_stats_counters (w : db) :
  exists s,
    get_stats w = (Return s, w)
    /\ total_decisions s = Z.of_nat (List.length (decisions w))
    /\ total_decisions s = resolved_decisions s + unresolved_decisions s
    /\ 0 <= resolved_decisions s
    /\ 0 <= unresolved_decisions s
    /\ 0 <= win_count s
    /\ 0 <= loss_count s
    /\ win_count s + loss_count s <= resolved_decisions s
    /\ 0 <= active_patterns s <= Z.of_nat (List.length (patterns w))
    /\ total_knowledge s = Z.of_nat (List.length (knowledges w)).
Proof.
  eexists. split; [reflexivity|].
  cbn [total_decisions resolved_decisions unresolved_decisions win_count loss_count
       active_patterns total_knowledge].
  assert (Hle : forall {A} (f : A -> bool) (l : list A),
             0 <= count f l <= Z.of_nat (List.length l)).
  { intros A f l. unfold count. pose proof (filter_length_le f l). lia. }
  assert (Hwl : count (fun r => d_resolved r && PrimFloat.ltb 0 (d_outcome_score r))
                      (decisions w)
                + count (fun r => d_resolved r && PrimFloat.ltb (d_outcome_score r) 0)
                        (decisions w)
                <= count d_resolved (decisions w)).
  { unfold count. induction (decisions w) as [|d l IH]; cbn [filter]; [cbn; lia|].
    destruct (d_resolved d); cbn [andb]; [|exact IH].
    destruct (PrimFloat.ltb 0 (d_outcome_score d)) eqn:Ew.
    - apply win_not_loss in Ew. unfold is_loss in Ew. rewrite Ew.
      cbn [List.length]. lia.
    - destruct (PrimFloat.ltb (d_outcome_score d) 0); cbn [List.length]; lia. }
  pose proof (Hle _ d_resolved (decisions w)).
  pose proof (Hle _ p_active (patterns w)).
  pose proof (Hle _ (fun r => d_resolved r && PrimFloat.ltb 0 (d_outcome_score r))
                (decisions w)).
  pose proof (Hle _ (fun r => d_resolved r && PrimFloat.ltb (d_outcome_score r) 0)
                (decisions w)).
  repeat split; try lia.
Qed.

End ReadingDecisions.

(** ** The keywords of a context *)

Section Keywords.
Import AgentMemory PatternMiner.

Lemma word_shape_snoc (l : list ascii) (c : ascii) :
  word_shape l -> is_word_char c = true -> word_shape (l ++ [c]).
Proof.
  destruct l as [|a l]; cbn; [tauto|].
  intros [Ha Hl] Hc. split; [exact Ha|].
  apply Forall_app. split; [exact Hl|]. repeat constructor. exact Hc.
Qed.

Lemma findall_words_shape (text : string) :
  forall cur,
    match cur with
    | Some acc => word_shape (rev acc)
    | None => True
    end ->
    Forall keyword_shape (findall_words cur text).
Proof.
  assert (Hflush : forall acc, word_shape (rev acc) ->
                     keyword_shape (string_of_list_ascii (rev acc))).
  { intros acc H. unfold keyword_shape.
    rewrite list_ascii_of_string_of_list_ascii. exact H. }
  induction text as [|c text IH]; intros cur Hcur; cbn [findall_words].
  - destruct cur as [[|a [|b acc]]|]; try constructor; [|constructor].
    apply Hflush, Hcur.
  - destruct cur as [acc|].
    + destruct (is_word_char c) eqn:Ec.
      * apply IH. cbn [rev]. apply word_shape_snoc; assumption.
      * destruct acc as [|a [|b acc]]; try (apply IH; exact I).
        constructor; [apply Hflush, Hcur | apply IH; exact I].
    + destruct (is_lower_letter c) eqn:Ec; apply IH; [|exact I].
      cbn. split; [exact Ec | constructor].
Qed.

Lemma lower_keeps_high (c : ascii) :
  Ascii.eqb (ascii_of_nat 226) (lower_ascii c) = Ascii.eqb (ascii_of_nat 226) c
  /\ Ascii.eqb (ascii_of_nat 132) (lower_ascii c) = Ascii.eqb (ascii_of_nat 132) c
  /\ Ascii.eqb (ascii_of_nat 170) (lower_ascii c) = Ascii.eqb (ascii_of_nat 170) c
  /\ Ascii.eqb (ascii_of_nat 196) (lower_ascii c) = Ascii.eqb (ascii_of_nat 196) c
  /\ Ascii.eqb (ascii_of_nat 176) (lower_ascii c) = Ascii.eqb (ascii_of_nat 176) c.
Proof. destruct c as [[] [] [] [] [] [] [] []]; repeat split; reflexivity. Qed.

Lemma prefix_of_lower (s : string) :
  prefix_of kelvin_sign (lower s) = prefix_of kelvin_sign s
  /\ prefix_of dotted_capital_i (lower s) = prefix_of dotted_capital_i s.
Proof.
  unfold kelvin_sign, dotted_capital_i.
  destruct s as [|a s]; [split; reflexivity|].
  cbn [lower prefix_of]. destruct (lower_keeps_high a) as (-> & _ & _ & -> & _).
  destruct s as [|b s]; [split; reflexivity|].
  cbn [lower prefix_of]. destruct (lower_keeps_high b) as (_ & -> & _ & _ & ->).
  split; [|reflexivity].
  destruct s as [|c s]; [reflexivity|].
  cbn [lower prefix_of]. destruct (lower_keeps_high c) as (_ & _ & -> & _ & _).
  reflexivity.
Qed.

(** Folding the ASCII letters first changes nothing. *)
Lemma lower_from_lower (s : string) (skip : nat) :
  lower_from skip (lower s) = lower_from skip s.
Proof.
  revert skip. induction s as [|c s IH]; intros skip; [reflexivity|].
  change (lower (String c s)) with (String (lower_ascii c) (lower s)).
  destruct skip as [|k]; [|cbn [lower_from]; apply IH].
  unfold lower_from; fold lower_from.
  change (String (lower_ascii c) (lower s)) with (lower (String c s)).
  destruct (prefix_of_lower (String c s)) as [-> ->].
  rewrite !IH, lower_ascii_idem. reflexivity.
Qed.

Lemma str_lower_lower (s : string) : str_lower (lower s) = str_lower s.
Proof. apply lower_from_lower. Qed.

(** X17. Every keyword [_extract_keywords] returns has at least three
    characters, starts with a lower-case letter, consists of lower-case
    letters, digits and underscores, and is none of the noise words. The
    case of the text does not matter, and the empty text has no
    keywords. *)
Theorem extract_keywords_shape (text : string) :
  Forall (fun w => (3 <= String.length w)%nat
                   /\ keyword_shape w
                   /\ ~ In w noise)
         (_extract_keywords text)
  /\ _extract_keywords (lower text) = _extract_keywords text
  /\ _extract_keywords "" = [].
Proof.
  split; [|split].
  - unfold _extract_keywords. apply Forall_forall. intros w Hw.
    apply filter_In in Hw. destruct Hw as [Hin Hok].
    apply andb_true_iff in Hok. destruct Hok as [Hnoise Hlen].
    split; [apply Nat.leb_le in Hlen; pose proof (len_bytes w); lia|]. split.
    + pose proof (findall_words_shape (str_lower text) None I) as H.
      rewrite Forall_forall in H. apply H, Hin.
    + apply negb_true_iff in Hnoise. intros Hn.
      apply Bool.not_true_iff_false in Hnoise. apply Hnoise.
      apply existsb_exists. exists w. split; [exact Hn | apply String.eqb_refl].
  - unfold _extract_keywords. rewrite str_lower_lower. reflexivity.
  - reflexivity.
Qed.

(** Beyond ASCII: the Kelvin sign reads as [k], the capital I with a dot
    as [i] and a combining dot, which ends the word, and an accented
    letter is no part of a word. *)
Lemma extract_keywords_beyond_ascii :
  _extract_keywords (kelvin_sign ^^ "elvin Rate THE") = ["kelvin"; "rate"]
  /\ _extract_keywords (dotted_capital_i ^^ "stanbul") = ["stanbul"]
  /\ _extract_keywords (e_acute ^^ "COLE") = ["cole"].
Proof. repeat split; reflexivity. Qed.

End Keywords.

(** ** The miner: when it runs and what it leaves alone *)

Section MinerFrame.
Import AgentMemory PatternMiner.

Variable clock : nat -> timestamp.
Variable uuid4_hex : nat -> string.

Lemma other_tables_add_pattern (w0 : db) now hex pt desc ev conf tags :
  preserves (fun w => decisions w = decisions w0 /\ knowledges w = knowledges w0)
            (add_pattern now hex pt desc ev conf tags).
Proof.
  intros w H. rewrite add_pattern_cases.
  destruct (find _ (patterns w)); [exact H|].
  destruct (existsb _ (patterns w)); exact H.
Qed.

Lemma other_tables_deactivate_pattern (w0 : db) id :
  preserves (fun w => decisions w = decisions w0 /\ knowledges w = knowledges w0)
            (deactivate_pattern id).
Proof. intros w H. rewrite deactivate_pattern_store. exact H. Qed.

(** X18. [mine_agent] skips an agent exactly when it has fewer than
    [MIN_EVIDENCE] (3) resolved decisions: it then reports their number
    with the reason "insufficient_data" and writes nothing. With three or
    more it does not skip. Whether it skips, returns or raises, it leaves
    the decisions and the facts as they are. *)
Theorem mine_agent_skips_below_min_evidence (agent : string) (w : db) :
  let resolved := count d_resolved (decisions w) in
  (resolved < MIN_EVIDENCE ->
   mine_agent clock uuid4_hex agent w
   = (Return (Skipped agent "insufficient_data" resolved), w))
  /\ (forall a reason n w',
        mine_agent clock uuid4_hex agent w = (Return (Skipped a reason n), w') ->
        resolved < MIN_EVIDENCE /\ n = resolved /\ w' = w)
  /\ decisions (snd (mine_agent clock uuid4_hex agent w)) = decisions w
  /\ knowledges (snd (mine_agent clock uuid4_hex agent w)) = knowledges w.
Proof.
  intros resolved.
  assert (Estats : exists stats,
             get_stats w = (Return stats, w)
             /\ resolved_decisions stats = resolved).
  { eexists. split; reflexivity. }
  destruct Estats as (stats & Estats & Hr).
  split; [|split].
  - intros Hlt. unfold mine_agent, bind. rewrite Estats, Hr.
    replace (resolved <? MIN_EVIDENCE) with true by (symmetry; apply Z.ltb_lt, Hlt).
    reflexivity.
  - intros a reason n w'. unfold mine_agent, bind. rewrite Estats, Hr.
    destruct (resolved <? MIN_EVIDENCE) eqn:E.
    + intros [= <- <- <- <-]. apply Z.ltb_lt in E. auto.
    + destruct (get_recent_decisions 500 true w) as [[rows|e] w1]; [|discriminate].
      destruct (run_strategies clock uuid4_hex rows w1) as [[np|e] w2]; [|discriminate].
      destruct (prune_weak w2) as [[pruned|e] w3]; discriminate.
  - apply (Preservation.preserves_mine_agent
             (fun w' => decisions w' = decisions w /\ knowledges w' = knowledges w)).
    + intros. apply other_tables_add_pattern.
    + intros. apply other_tables_deactivate_pattern.
    + split; reflexivity.
Qed.

End MinerFrame.

(** ** The memory block of a prompt *)

Section MemoryContext.
Import AgentMemory PatternMiner AgentBrain.

Variable max_context_decisions : Z.
Variable max_context_patterns : Z.

Lemma slice_to_in {A} (n : Z) (l : list A) (x : A) : In x (slice_to n l) -> In x l.
Proof. unfold slice_to. destruct (n <? 0); apply SqlFacts.firstn_in. Qed.

Lemma slice_to_length {A} (n : Z) (l : list A) :
  (List.length (slice_to n l) <= List.length l)%nat
  /\ (0 <= n -> Z.of_nat (List.length (slice_to n l)) <= n).
Proof.
  unfold slice_to. destruct (n <? 0) eqn:E; rewrite length_firstn.
  - apply Z.ltb_lt in E. split; lia.
  - split; lia.
Qed.

Lemma pattern_lines_renders (l : list pattern) :
  Forall renders l ->
  exists lines,
    pattern_lines l = inr lines /\ List.length lines = List.length l.
Proof.
  induction 1 as [|p l [n Hn] _ (lines & E & Hlen)]; cbn [pattern_lines].
  - exists []. auto.
  - rewrite Hn, E. eexists. split; [reflexivity|]. cbn. congruence.
Qed.

(** The patterns the method gets to see. *)
Lemma shown_patterns (w : db) :
  exists rows,
    get_active_patterns None 0.4 w = (Return rows, w)
    /\ (forall p, In p rows <-> In p (patterns w) /\ active_hit None 0.4 p = true)
    /\ List.length rows = List.length (filter (active_hit None 0.4) (patterns w)).
Proof.
  eexists. split; [reflexivity|]. fold (active_hit None 0.4). split.
  - intros p. rewrite SqlFacts.sort_by_in, filter_In. reflexivity.
  - apply SqlFacts.sort_by_length.
Qed.

Lemma join_nonempty (sep p : string) (rest : list string) :
  p <> "" -> join sep (p :: rest) <> "".
Proof.
  intros Hp. cbn [join]. destruct p as [|c p]; [contradiction|].
  destruct rest; discriminate.
Qed.

(** X19. An ASCII situation with more than ten words of three characters
    or more makes [_build_memory_context] raise, on every store and for
    every bound: the method returns no context. It is the
    [ProgrammingError] of [get_relevant_context] that comes out, unless
    [int] has failed on a pattern before. The store is unchanged. *)
Theorem build_memory_context_raises_on_long_situation (w : db) (situation : string) :
  ascii_text situation = true ->
  (10 < List.length (situation_words situation))%nat ->
  (exists e,
      _build_memory_context max_context_decisions max_context_patterns situation w
      = (inl e, w))
  /\ ((forall p, In p (patterns w) -> active_hit None 0.4 p = true -> renders p) ->
      _build_memory_context max_context_decisions max_context_patterns situation w
      = (inl (Sqlite ProgrammingError), w)).
Proof.
  intros _ Hlong.
  destruct (shown_patterns w) as (rows & Erows & Hrows & _).
  pose proof (get_relevant_context_over_ten situation max_context_decisions w Hlong)
    as Eraise.
  split.
  - unfold _build_memory_context. rewrite Erows.
    destruct (pattern_lines _) as [e|lines]; [exists e; reflexivity|].
    rewrite Eraise. eexists; reflexivity.
  - intros Hren. unfold _build_memory_context. rewrite Erows.
    destruct (pattern_lines_renders (slice_to max_context_patterns rows))
      as (lines & E & _).
    { apply Forall_forall. intros p Hp. apply slice_to_in, Hrows in Hp.
      apply Hren; tauto. }
    rewrite E, Eraise. reflexivity.
Qed.

(** X20. For an ASCII situation with at most ten such words, and [int]
    defined on the confidence of the patterns to show, [_build_memory_context] returns
    and leaves the store as it is. The number of patterns is at most
    [max_context_patterns] and the number of decisions at most
    [max_context_decisions], when these are not negative, and neither
    exceeds what the memory holds. The context is the empty string
    exactly when both numbers are 0: a memory without an active pattern
    of confidence 0.4 or more and without a matching decision gives
    the empty context and no error. *)
Theorem build_memory_context_returns (w : db) (situation : string) :
  let words := situation_words situation in
  let hit := relevant_hit (map Like.around words) in
  ascii_text situation = true ->
  (List.length words <= 10)%nat ->
  (forall p, In p (patterns w) -> active_hit None 0.4 p = true -> renders p) ->
  exists context patterns_used decisions_found,
    _build_memory_context max_context_decisions max_context_patterns situation w
    = (inr (context, patterns_used, decisions_found), w)
    /\ 0 <= patterns_used <= count (active_hit None 0.4) (patterns w)
    /\ 0 <= decisions_found <= count hit (decisions w)
    /\ (0 <= max_context_patterns -> patterns_used <= max_context_patterns)
    /\ (0 <= max_context_decisions -> decisions_found <= max_context_decisions)
    /\ (context = "" <-> patterns_used = 0 /\ decisions_found = 0)
    /\ (count (active_hit None 0.4) (patterns w) = 0 -> count hit (decisions w) = 0 ->
        context = "" /\ patterns_used = 0 /\ decisions_found = 0).
Proof.
  intros words hit _ Hwords Hren.
  destruct (shown_patterns w) as (rows & Erows & Hrows & Hlen).
  destruct (pattern_lines_renders (slice_to max_context_patterns rows))
    as (lines & Elines & Hlines).
  { apply Forall_forall. intros p Hp. apply slice_to_in, Hrows in Hp.
    apply Hren; tauto. }
  assert (Hdec : exists found,
             get_relevant_context situation max_context_decisions w = (Return found, w)
             /\ Z.of_nat (List.length found) <= count hit (decisions w)
             /\ (0 <= max_context_decisions ->
                 Z.of_nat (List.length found) <= max_context_decisions)).
  { destruct words as [|x l] eqn:E.
    - exists []. split.
      + unfold get_relevant_context. fold (situation_words situation).
        fold words. rewrite E. reflexivity.
      + unfold count. cbn [List.length]. split; lia.
    - destruct (get_relevant_context_up_to_ten situation max_context_decisions w)
        as (found & Ef & Hf).
      { fold words. rewrite E. cbn [List.length] in *. lia. }
      fold words in Hf. rewrite E in Hf. exists found. split; [exact Ef|].
      apply (f_equal (@List.length decision)) in Hf. rewrite length_map in Hf.
      rewrite Hf. fold hit.
      set (hits := Sql.order_by_desc d_timestamp (filter hit (decisions w))).
      assert (Hh : List.length hits = List.length (filter hit (decisions w)))
        by apply SqlFacts.sort_by_length.
      unfold count. rewrite <- Hh. unfold Sql.limit.
      destruct (max_context_decisions <? 0) eqn:En.
      + apply Z.ltb_lt in En. split; lia.
      + rewrite length_firstn. split; lia. }
  destruct Hdec as (found & Efound & Hfound & Hcap).
  set (shown := slice_to max_context_patterns rows) in *.
  destruct (slice_to_length max_context_patterns rows) as [Hshown Hshown'].
  fold shown in Hshown, Hshown'.
  do 3 eexists. split.
  { unfold _build_memory_context. rewrite Erows. fold shown. rewrite Elines, Efound.
    reflexivity. }
  assert (Hcontext :
            join newline
              (match found with
               | [] => match shown with
                       | [] => []
                       | _ :: _ => "LEARNED PATTERNS:" :: lines
                       end
               | _ :: _ =>
                   match shown with
                   | [] => []
                   | _ :: _ => "LEARNED PATTERNS:" :: lines
                   end
                   ++ (newline ^^ "SIMILAR PAST DECISIONS:")
                      :: map (fun row => decision_line (fst row)) found
               end) = ""
            <-> Z.of_nat (List.length shown) = 0 /\ Z.of_nat (List.length found) = 0).
  { destruct shown as [|p shown']; destruct found as [|d found']; cbn [app List.length].
    - split; [auto | reflexivity].
    - split; [intros Habs | intros [_ Habs]; lia].
      exfalso. revert Habs. apply join_nonempty. discriminate.
    - split; [intros Habs | intros [Habs _]; lia].
      exfalso. revert Habs. apply join_nonempty. discriminate.
    - split; [intros Habs | intros [Habs _]; lia].
      exfalso. revert Habs. apply join_nonempty. discriminate. }
  unfold count. rewrite <- Hlen.
  split; [lia|]. split; [unfold count in Hfound; lia|].
  split; [exact Hshown'|]. split; [exact Hcap|].
  split; [exact Hcontext|].
  intros H0 H1. unfold count in Hfound, H1.
  assert (Z.of_nat (List.length shown) = 0 /\ Z.of_nat (List.length found) = 0) by lia.
  split; [apply Hcontext; assumption | assumption].
Qed.

End MemoryContext.

(** ** Writing and finding again *)

Section RoundTrips.
Import AgentMemory PatternMiner.

(** X21. A decision just recorded is recalled first. When the stored
    decisions are older, an ASCII situation of one to ten words, one of which
    has no [%] and no [_] and occurs in the lower-cased stored context,
    makes [get_relevant_context] return the new decision as its first
    row, with relevance 1, for any limit but 0. *)
Theorem record_decision_then_recall
    (w : db) (now : timestamp) (hex context choice reasoning : string)
    (confidence : float) (tags : list string)
    (situation word : string) (limit : Z) :
  let d := decision_row now hex context choice reasoning confidence tags in
  ~ In ("dec_" ^^ hex) (map d_id (decisions w)) ->
  (forall r, In r (decisions w) -> d_timestamp r < now) ->
  ascii_text situation = true ->
  (List.length (situation_words situation) <= 10)%nat ->
  In word (situation_words situation) ->
  wildcard_free word = true ->
  contains word (lower (take 2000 context)) = true ->
  limit <> 0 ->
  exists w1 rest,
    record_decision now hex context choice reasoning confidence tags w
    = (Return (d_id d), w1)
    /\ decisions w1 = decisions w ++ [d]
    /\ get_relevant_context situation limit w1 = (Return ((d, 1) :: rest), w1).
Proof.
  intros d Hfresh Hold _ Hten Hword Hfree Hin Hlimit.
  set (words := situation_words situation) in *.
  set (hit := relevant_hit (map Like.around words)).
  pose proof (record_decision_cases now hex context choice reasoning confidence tags w)
    as E1.
  rewrite (not_in_fresh _ _ _ Hfresh) in E1. fold d in E1.
  set (w1 := with_decisions (decisions w ++ [d]) w) in *.
  assert (Hhit : hit d = true).
  { unfold hit, relevant_hit. apply existsb_exists. exists (Like.around word).
    split; [apply in_map, Hword|].
    rewrite like_around by exact Hfree.
    rewrite lower_idem, (situation_words_lower situation word Hword). exact Hin. }
  assert (Hlen : (0 < List.length words <= 10)%nat).
  { split; [|exact Hten]. destruct words; [contradiction | cbn; lia]. }
  pose proof (get_relevant_context_rows w1 situation limit Hlen) as E2.
  fold words in E2. fold hit in E2.
  assert (Erows : Sql.order_by_desc d_timestamp (filter hit (decisions w1))
                  = d :: Sql.order_by_desc d_timestamp (filter hit (decisions w))).
  { unfold w1. tables. rewrite filter_app. cbn [filter]. rewrite Hhit.
    apply SqlFacts.order_by_desc_newest_last.
    intros y Hy. apply filter_In in Hy. apply Hold. tauto. }
  rewrite Erows in E2.
  assert (Elimit : exists rest',
             Sql.limit limit (d :: Sql.order_by_desc d_timestamp (filter hit (decisions w)))
             = d :: rest').
  { unfold Sql.limit. destruct (limit <? 0) eqn:En; [eexists; reflexivity|].
    apply Z.ltb_ge in En.
    destruct (Z.to_nat limit) as [|n] eqn:Ez; [lia|]. cbn [firstn]. eexists; reflexivity. }
  destruct Elimit as [rest' Elimit]. rewrite Elimit in E2. cbn [map] in E2.
  rewrite Hhit in E2.
  exists w1. eexists. split; [exact E1|]. split; [reflexivity | exact E2].
Qed.

(** X22. A pattern just added is among the active patterns. When the
    id drawn is new, [add_pattern] returns the id of a row that
    [get_active_patterns()] lists on the resulting store; the row has
    the given type and description, cut to 100 and 1000 characters (code
    points) when it is a new row. *)
Theorem add_pattern_then_listed
    (w : db) (now : timestamp) (hex pattern_type description : string)
    (evidence_count : Z) (confidence : float) (tags : list string) :
  ~ In ("pat_" ^^ hex) (map p_id (patterns w)) ->
  (exists id w' rows p,
      add_pattern now hex pattern_type description evidence_count confidence tags w
      = (Return id, w')
      /\ get_active_patterns None 0 w' = (Return rows, w')
      /\ In p rows
      /\ p_id p = id
      /\ p_active p = true
      /\ p_updated_at p = now
      /\ ((p_pattern_type p = pattern_type /\ p_description p = description)
          \/ (id = "pat_" ^^ hex
              /\ p_pattern_type p = take 100 pattern_type
              /\ p_description p = take 1000 description
              /\ p_evidence_count p = evidence_count)))
  /\ len (take 100 pattern_type) = Nat.min 100 (len pattern_type)
  /\ len (take 1000 description) = Nat.min 1000 (len description).
Proof.
  intros Hfresh. split; [|split; apply take_length].
  pose proof (add_pattern_cases now hex pattern_type description evidence_count
                confidence tags w) as E.
  assert (Hlisted : forall w' p, In p (patterns w') -> p_active p = true ->
                      In p (Sql.sort_by pattern_before
                              (filter (active_hit None 0) (patterns w')))).
  { intros w' p Hp Ha. apply SqlFacts.sort_by_in. apply filter_In. split; [exact Hp|].
    unfold active_hit. rewrite Ha. reflexivity. }
  destruct (find (same_pattern pattern_type description) (patterns w))
    as [existing|] eqn:Hfind.
  - apply find_some in Hfind. destruct Hfind as [Hin Hsame].
    apply same_pattern_spec in Hsame. destruct Hsame as (Ht & Hd & Ha).
    do 2 eexists.
    exists (Sql.sort_by pattern_before
              (filter (active_hit None 0)
                 (Sql.update (fun r => String.eqb (p_id r) (p_id existing))
                    (reinforce (p_evidence_count existing + evidence_count)
                       (Py.min 0.99 (p_confidence existing + 0.05)%float) now)
                    (patterns w)))).
    exists (reinforce (p_evidence_count existing + evidence_count)
                      (Py.min 0.99 (p_confidence existing + 0.05)%float) now existing).
    split; [exact E|]. split; [reflexivity|].
    split.
    { apply (Hlisted (with_patterns _ w)); [|exact Ha]. tables.
      unfold Sql.update. apply in_map_iff. exists existing.
      rewrite String.eqb_refl. auto. }
    cbn [reinforce p_id p_active p_updated_at p_pattern_type p_description].
    repeat split; auto.
  - rewrite (not_in_fresh _ _ _ Hfresh) in E.
    do 2 eexists.
    exists (Sql.sort_by pattern_before
              (filter (active_hit None 0)
                 (patterns w
                  ++ [pattern_row now hex pattern_type description evidence_count
                                  confidence tags]))).
    exists (pattern_row now hex pattern_type description evidence_count confidence tags).
    split; [exact E|]. split; [reflexivity|].
    split.
    { apply (Hlisted (with_patterns _ w)); [|reflexivity]. tables.
      apply in_or_app. right. left. reflexivity. }
    repeat split. right. repeat split.
Qed.

Lemma nan_not_below (x y : float) :
  Prim2SF x = S754_nan -> PrimFloat.ltb x y = false.
Proof.
  intros E. rewrite FloatAxioms.ltb_spec. unfold SFltb. rewrite E. reflexivity.
Qed.

(** X23. A confidence or a score that is not a number is stored as 1.0:
    in [max(lo, min(1.0, x))] the comparison with NaN fails and the
    bound 1.0 is kept. [record_decision] then stores the decision with
    full confidence, and [record_outcome] stores the score 1.0, which
    [get_stats] and the miner count as a win. *)
Theorem nan_is_stored_as_one (w : db) (x : float) :
  Prim2SF x = S754_nan ->
  (forall now hex context choice reasoning tags,
      ~ In ("dec_" ^^ hex) (map d_id (decisions w)) ->
      record_decision now hex context choice reasoning x tags w
      = (Return ("dec_" ^^ hex),
         with_decisions
           (decisions w
            ++ [mk_decision ("dec_" ^^ hex) now (take 2000 context) (take 2000 choice)
                            (take 2000 reasoning) 1 "" 0 false tags]) w))
  /\ (forall decision_id outcome d,
        In d (decisions (snd (record_outcome decision_id outcome x w))) ->
        d_id d = decision_id ->
        d_outcome_score d = 1%float /\ is_win (d_outcome_score d) = true).
Proof.
  intros Hx.
  assert (H01 : Py.clamp 0 1 x = 1%float).
  { unfold Py.clamp, Py.min. rewrite (nan_not_below x 1 Hx). reflexivity. }
  assert (H11 : Py.clamp (-1) 1 x = 1%float).
  { unfold Py.clamp, Py.min. rewrite (nan_not_below x 1 Hx). reflexivity. }
  split.
  - intros now hex context choice reasoning tags Hfresh.
    rewrite record_decision_cases, (not_in_fresh _ _ _ Hfresh).
    unfold decision_row. rewrite H01. reflexivity.
  - intros decision_id outcome d Hd Hid. unfold record_outcome in Hd. tables.
    unfold Sql.update in Hd. apply in_map_iff in Hd. destruct Hd as (r & <- & _).
    destruct (String.eqb (d_id r) decision_id) eqn:E.
    + cbn [set_outcome d_outcome_score]. rewrite H11. split; reflexivity.
    + apply String.eqb_neq in E. contradiction.
Qed.

End RoundTrips.

(** ** The miner: the total it reports *)

Section ReportedTotal.
Import AgentMemory PatternMiner.

Variable clock : nat -> timestamp.
Variable uuid4_hex : nat -> string.

Lemma tracks_ret (I : list string -> db -> Prop) : tracks I (fun np => ret np).
Proof. intros np w np' w' H [= <- <-]. exact H. Qed.

Lemma tracks_bind (I : list string -> db -> Prop)
    (m1 m2 : list string -> M (list string)) :
  tracks I m1 -> tracks I m2 -> tracks I (fun np => np' <- m1 np ;; m2 np').
Proof.
  intros H1 H2 np w np' w' H. unfold bind.
  destruct (m1 np w) as [[np1|e] w1] eqn:E1; [|discriminate].
  intros E2. eapply H2; [|exact E2]. eapply H1; eassumption.
Qed.

Lemma tracks_for_each {A} (I : list string -> db -> Prop)
    (body : A -> list string -> M (list string)) (l : list A) :
  (forall x, tracks I (body x)) -> tracks I (for_each body l).
Proof.
  intros H. induction l as [|x l IH].
  - apply tracks_ret.
  - change (tracks I (fun np => np' <- body x np ;; for_each body l np')).
    apply tracks_bind; auto.
Qed.

Lemma count_app {A} (f : A -> bool) (l l' : list A) :
  count f (l ++ l') = count f l + count f l'.
Proof. unfold count. rewrite filter_app, length_app. lia. Qed.

Lemma count_update_same {A} (f : A -> bool) (where_ : A -> bool) (set : A -> A)
    (l : list A) :
  (forall r, f (set r) = f r) -> count f (Sql.update where_ set l) = count f l.
Proof.
  intros H. unfold count, Sql.update. f_equal.
  induction l as [|r l IH]; cbn [map filter]; [reflexivity|].
  replace (f (if where_ r then set r else r)) with (f r)
    by (destruct (where_ r); [symmetry; apply H | reflexivity]).
  destruct (f r); cbn [List.length]; rewrite IH; reflexivity.
Qed.

Lemma tracks_emit (idle rows : Z) (pattern_type desc : string) (evidence_count : Z)
    (confidence : float) :
  tracks (pass_account idle rows)
         (emit clock uuid4_hex pattern_type desc evidence_count confidence).
Proof.
  intros np w np' w' [Hidle Hrows]. unfold emit, bind.
  rewrite add_pattern_cases.
  destruct (find _ (patterns w)) as [existing|].
  - intros [= <- <-]. unfold pass_account. tables.
    rewrite count_update_same by reflexivity.
    rewrite SqlFacts.update_length, length_app. cbn [List.length].
    split; [exact Hidle | lia].
  - destruct (existsb _ (patterns w)); [discriminate|].
    intros [= <- <-]. unfold pass_account. tables.
    rewrite count_app, !length_app. cbn [List.length].
    split; [|lia]. rewrite Hidle. unfold count, pattern_row. cbn. lia.
Qed.

Lemma tracks_run_strategies (idle rows : Z) (resolved : list decision) :
  tracks (pass_account idle rows)
         (fun np => np' <- tag_strategy clock uuid4_hex resolved np ;;
                    later_strategies clock uuid4_hex resolved np').
Proof.
  assert (Hret := tracks_ret (pass_account idle rows)).
  assert (Hemit := tracks_emit idle rows).
  apply tracks_bind; [|apply tracks_bind; [|apply tracks_bind]].
  - apply tracks_for_each. intros [tag counts]. unfold tag_step.
    destruct (total counts <? MIN_EVIDENCE); [exact Hret|].
    destruct (_ || _)%bool; [apply Hemit | exact Hret].
  - apply tracks_for_each. intros word. unfold keyword_step.
    destruct (_ <? MIN_EVIDENCE); [exact Hret|].
    destruct (PrimFloat.leb 0.65 _); [apply Hemit|].
    destruct (PrimFloat.leb _ 0.35); [apply Hemit | exact Hret].
  - unfold calibration_strategy.
    apply (tracks_bind _
             (fun np => if MIN_EVIDENCE <=? _ then _ else ret np)
             (fun np => if MIN_EVIDENCE <=? _ then _ else ret np)).
    + destruct (MIN_EVIDENCE <=? _); [apply Hemit | exact Hret].
    + destruct (MIN_EVIDENCE <=? _); [apply Hemit | exact Hret].
  - apply tracks_for_each. intros [hour [wins losses]]. unfold temporal_step.
    destruct (_ <? MIN_EVIDENCE); [exact Hret|].
    destruct (_ || _)%bool; [apply Hemit | exact Hret].
Qed.

Lemma count_split {A} (f : A -> bool) (l : list A) :
  count f l + count (fun x => negb (f x)) l = Z.of_nat (List.length l).
Proof.
  unfold count. induction l as [|x l IH]; cbn [filter List.length]; [reflexivity|].
  destruct (f x); cbn [negb List.length]; lia.
Qed.

(** What the pruning loop counts. *)
Lemma prune_weak_count (w : db) (pruned : Z) (w' : db) :
  prune_weak w = (Return pruned, w') ->
  pruned = count (fun p => (p_active p && weak p)%bool) (patterns w).
Proof.
  unfold prune_weak, bind.
  destruct (get_active_patterns_all w) as (l & E & _).
  assert (El : l = Sql.sort_by pattern_before (filter (active_hit None 0) (patterns w))).
  { cbn in E. injection E as <-. reflexivity. }
  rewrite E, prune_loop. intros [= <- _]. rewrite El.
  rewrite (count_perm weak _ _ (SqlFacts.sort_by_perm _ _)), count_filter.
  unfold count. f_equal. f_equal. apply filter_ext. intros p.
  unfold active_hit. cbn. rewrite !andb_true_r. reflexivity.
Qed.

Lemma count_prune_rows (ps : list pattern) :
  count p_active (map prune_row ps)
  = count p_active ps - count (fun p => (p_active p && weak p)%bool) ps.
Proof.
  unfold count. induction ps as [|p ps IH]; cbn [map filter List.length]; [reflexivity|].
  unfold prune_row at 1.
  destruct (p_active p) eqn:Ea; cbn [andb].
  - destruct (weak p); cbn [deactivate p_active List.length]; rewrite ?Ea;
      cbn [List.length]; lia.
  - rewrite Ea. exact IH.
Qed.

(** X24. The total of active patterns that [mine_agent] reports is
    [active before + patterns extracted - patterns pruned]. It counts
    every description collected as a new row, so it exceeds the number
    of active rows in the store after the pass by the number of
    descriptions that reinforced an existing pattern, and is exact when
    each of them was inserted. *)
Theorem mine_agent_reported_total (agent : string) (w : db) :
  ids_distinct uuid4_hex w ->
  MIN_EVIDENCE <= count d_resolved (decisions w) ->
  exists resolved extracted pruned reported new_patterns w',
    mine_agent clock uuid4_hex agent w
    = (Return (Mined agent resolved extracted pruned reported new_patterns), w')
    /\ extracted = Z.of_nat (List.length new_patterns)
    /\ reported = count p_active (patterns w) + extracted - pruned
    /\ (let inserted :=
          Z.of_nat (List.length (patterns w')) - Z.of_nat (List.length (patterns w)) in
        0 <= inserted <= extracted
        /\ count p_active (patterns w') = reported - (extracted - inserted))
    /\ count p_active (patterns w') <= reported.
Proof.
  intros Hids Hres.
  destruct (mine_agent_returns clock uuid4_hex agent w Hids Hres)
    as (np & w1 & pruned & Erun & Hnd & _ & _ & Eprune & Emine).
  pose proof (prune_weak_count w1 pruned _ Eprune) as Hpruned.
  rewrite run_strategies_split in Erun.
  pose proof (tracks_run_strategies
                (count (fun p => negb (p_active p)) (patterns w))
                (Z.of_nat (List.length (patterns w)))
                (resolved_recent w) [] w np w1) as Hacc.
  destruct Hacc as [Hidle Hrows]; [|exact Erun|].
  { split; [reflexivity|]. cbn [List.length]. lia. }
  pose proof (count_split p_active (patterns w)) as Hw.
  pose proof (count_split p_active (patterns w1)) as Hw1.
  pose proof (count_prune_rows (patterns w1)) as Hafter.
  do 6 eexists. split; [exact Emine|].
  tables. rewrite length_map.
  split; [reflexivity|]. split; [reflexivity|].
  split; [cbv zeta; split; lia | lia].
Qed.

End ReportedTotal.

(** ** The miner: tallies, the situation and the rows of a pass *)

Section MinerTallies.
Import AgentMemory PatternMiner.

Lemma iter_count_tag (n : nat) (score : float) (c : tally) :
  Nat.iter n (count_tag score) c
  = mk_tally (wins c + (if is_win score then Z.of_nat n else 0))
             (losses c + (if is_loss score then Z.of_nat n else 0))
             (total c + Z.of_nat n).
Proof.
  induction n as [|n IH].
  - change (Nat.iter 0 (count_tag score) c) with c. change (Z.of_nat 0) with 0.
    destruct c as [a b t0]. cbn [wins losses total].
    destruct (is_win score), (is_loss score); f_equal; lia.
  - rewrite Nat.iter_succ, IH. unfold count_tag. cbn [wins losses total].
    destruct (is_win score) eqn:Ew.
    + rewrite (win_not_loss _ Ew). f_equal; lia.
    + destruct (is_loss score); f_equal; lia.
Qed.

Lemma tag_total_filter (t : string) (f : decision -> bool) (d : decision)
    (resolved : list decision) :
  tag_total t (filter f (d :: resolved))
  = (if f d then Z.of_nat (count_occ string_dec (d_tags d) t) else 0)
    + tag_total t (filter f resolved).
Proof. cbn [filter]. destruct (f d); reflexivity. Qed.

Lemma tally_of_counts (t : string) (resolved : list decision) (c : tally) :
  tally_of t resolved c
  = mk_tally
      (wins c + tag_total t (filter (fun d => is_win (d_outcome_score d)) resolved))
      (losses c + tag_total t (filter (fun d => is_loss (d_outcome_score d)) resolved))
      (total c + tag_total t resolved).
Proof.
  revert c. induction resolved as [|d resolved IH]; intros c.
  - cbn. rewrite !Z.add_0_r. destruct c; reflexivity.
  - unfold tally_of in *. cbn [fold_left]. rewrite IH, iter_count_tag.
    rewrite !tag_total_filter. cbn [wins losses total].
    change (tag_total t (d :: resolved))
      with (Z.of_nat (count_occ string_dec (d_tags d) t) + tag_total t resolved).
    destruct (is_win (d_outcome_score d)), (is_loss (d_outcome_score d));
      f_equal; lia.
Qed.

Lemma tag_total_nonneg (t : string) (resolved : list decision) :
  0 <= tag_total t resolved.
Proof.
  unfold tag_total. induction resolved as [|d resolved IH]; cbn [fold_right]; lia.
Qed.

Lemma tag_total_pos (t : string) (resolved : list decision) (d : decision) :
  In d resolved -> In t (d_tags d) -> 0 < tag_total t resolved.
Proof.
  induction resolved as [|d' resolved IH]; cbn [In tag_total fold_right]; [tauto|].
  intros [->|Hin] Ht.
  - apply (count_occ_In string_dec) in Ht.
    pose proof (tag_total_nonneg t resolved). unfold tag_total in *. lia.
  - specialize (IH Hin Ht). unfold tag_total in *. lia.
Qed.

Lemma tag_total_wins_losses (t : string) (resolved : list decision) :
  tag_total t (filter (fun d => is_win (d_outcome_score d)) resolved)
  + tag_total t (filter (fun d => is_loss (d_outcome_score d)) resolved)
  <= tag_total t resolved.
Proof.
  induction resolved as [|d resolved IH]; [cbn; lia|].
  rewrite !tag_total_filter.
  change (tag_total t (d :: resolved))
    with (Z.of_nat (count_occ string_dec (d_tags d) t) + tag_total t resolved).
  destruct (is_win (d_outcome_score d)) eqn:Ew.
  - rewrite (win_not_loss _ Ew). lia.
  - destruct (is_loss (d_outcome_score d)); lia.
Qed.

(** X25. The tallies of the first strategy. After the loop over the
    resolved decisions the dictionary has one entry for each tag of a
    decision and no other. The total of a tag is the number of times it
    occurs in the tag lists, its wins the number of times it occurs on
    decisions with a positive score and its losses the number of times on
    decisions with a negative score; so the total is positive and wins
    and losses together do not exceed it. *)
Theorem tag_outcomes_tallies (resolved : list decision) :
  NoDup (map fst (tag_outcomes resolved))
  /\ (forall t, In t (map fst (tag_outcomes resolved))
                <-> exists d, In d resolved /\ In t (d_tags d))
  /\ (forall t c, In (t, c) (tag_outcomes resolved) ->
        total c = tag_total t resolved
        /\ wins c
           = tag_total t (filter (fun d => is_win (d_outcome_score d)) resolved)
        /\ losses c
           = tag_total t (filter (fun d => is_loss (d_outcome_score d)) resolved)
        /\ 0 < total c
        /\ 0 <= wins c /\ 0 <= losses c
        /\ wins c + losses c <= total c).
Proof.
  split; [apply tag_outcomes_nodup|].
  assert (Hkeys : forall t, In t (map fst (tag_outcomes resolved))
                            <-> exists d, In d resolved /\ In t (d_tags d)).
  { intros t. rewrite tag_outcomes_from, outcomes_keys. cbn. tauto. }
  split; [exact Hkeys|].
  intros t c Hin.
  assert (Ec : c = tally_of t resolved no_tally).
  { rewrite <- tag_outcomes_get. symmetry.
    apply (dict_get_in String.eqb String.eqb_eq); [apply tag_outcomes_nodup | exact Hin]. }
  rewrite tally_of_counts in Ec. subst c. cbn [wins losses total no_tally].
  assert (Hocc : exists d, In d resolved /\ In t (d_tags d)).
  { apply Hkeys. apply in_map_iff. exists (t, mk_tally
      (0 + tag_total t (filter (fun d => is_win (d_outcome_score d)) resolved))
      (0 + tag_total t (filter (fun d => is_loss (d_outcome_score d)) resolved))
      (0 + tag_total t resolved)). split; [reflexivity | exact Hin]. }
  destruct Hocc as (d & Hd & Ht).
  pose proof (tag_total_pos t resolved d Hd Ht).
  pose proof (tag_total_nonneg t (filter (fun d => is_win (d_outcome_score d)) resolved)).
  pose proof (tag_total_nonneg t (filter (fun d => is_loss (d_outcome_score d)) resolved)).
  pose proof (tag_total_wins_losses t resolved).
  repeat split; lia.
Qed.

End MinerTallies.

Section SituationCase.
Import AgentMemory PatternMiner.

Lemma is_space_lower (c : ascii) : is_space (lower_ascii c) = is_space c.
Proof. destruct c as [[] [] [] [] [] [] [] []]; reflexivity. Qed.

Lemma is_continuation_lower (c : ascii) :
  is_continuation (lower_ascii c) = is_continuation c.
Proof. destruct c as [[] [] [] [] [] [] [] []]; reflexivity. Qed.

Lemma lower_length (s : string) : len (lower s) = len s.
Proof.
  induction s as [|c s IH]; cbn [lower len]; [reflexivity|].
  rewrite is_continuation_lower, IH. reflexivity.
Qed.

Lemma ascii_text_lower (s : string) : ascii_text (lower s) = ascii_text s.
Proof.
  induction s as [|c s IH]; cbn [lower ascii_text]; [reflexivity|].
  rewrite IH. f_equal.
  destruct c as [[] [] [] [] [] [] [] []]; reflexivity.
Qed.

Lemma lower_of_list (l : list ascii) :
  lower (string_of_list_ascii l) = string_of_list_ascii (map lower_ascii l).
Proof. induction l as [|c l IH]; cbn; [reflexivity | rewrite IH; reflexivity]. Qed.

Lemma split_aux_lower (s : string) (cur : list ascii) :
  split_aux (map lower_ascii cur) (lower s) = map lower (split_aux cur s).
Proof.
  revert cur. induction s as [|c s IH]; intros cur; cbn [lower split_aux].
  - destruct cur as [|a cur]; [reflexivity|]. cbn [map].
    rewrite lower_of_list, map_rev. reflexivity.
  - rewrite is_space_lower. destruct (is_space c).
    + change (@nil ascii) with (map lower_ascii []). rewrite IH.
      destruct cur as [|a cur]; [reflexivity|]. cbn [map].
      rewrite lower_of_list, map_rev. reflexivity.
    + change (lower_ascii c :: map lower_ascii cur) with (map lower_ascii (c :: cur)).
      apply IH.
Qed.

Lemma filter_map_lower (l : list string) :
  filter (fun w => Nat.leb 3 (len w)) (map lower l)
  = map lower (filter (fun w => Nat.leb 3 (len w)) l).
Proof.
  induction l as [|w l IH]; cbn [map filter]; [reflexivity|].
  rewrite lower_length. destruct (Nat.leb 3 (len w)); cbn [map]; rewrite IH;
    reflexivity.
Qed.

Lemma situation_words_lower_text (situation : string) :
  situation_words (lower situation) = situation_words situation.
Proof.
  unfold situation_words, split.
  change (@nil ascii) with (map lower_ascii []) at 1.
  rewrite split_aux_lower, filter_map_lower, map_map.
  apply map_ext. intros w. apply lower_idem.
Qed.

(** X26. Recall does not depend on the case of an ASCII situation.
    [get_relevant_context] gives the same result for the situation and
    for its lower-cased form, which is ASCII too, on every store and for
    every limit, and two decisions whose contexts differ only in the case
    of their ASCII letters, which is what SQLite's [LOWER] folds, are
    matched alike. *)
Theorem get_relevant_context_ignores_case (w : db) (situation : string) (limit : Z) :
  ascii_text situation = true ->
  ascii_text (lower situation) = true
  /\ get_relevant_context (lower situation) limit w
  = get_relevant_context situation limit w
  /\ (forall r r', lower (d_context r) = lower (d_context r') ->
        relevant_hit (map Like.around (situation_words situation)) r
        = relevant_hit (map Like.around (situation_words situation)) r').
Proof.
  intros Hascii. split; [|split].
  - rewrite ascii_text_lower. exact Hascii.
  - unfold get_relevant_context.
    fold (situation_words (lower situation)). fold (situation_words situation).
    rewrite situation_words_lower_text. reflexivity.
  - intros r r' E. unfold relevant_hit. rewrite E. reflexivity.
Qed.

End SituationCase.

Section PassRows.
Import AgentMemory PatternMiner.

Variable clock : nat -> timestamp.
Variable uuid4_hex : nat -> string.

Lemma tracks_emit_rows (before : list string) (pattern_type desc : string)
    (evidence_count : Z) (confidence : float) :
  MIN_EVIDENCE <= evidence_count ->
  In pattern_type miner_types ->
  tracks (pass_rows before)
         (emit clock uuid4_hex pattern_type desc evidence_count confidence).
Proof.
  intros Hev Htype np w np' w' H. unfold emit, bind.
  rewrite add_pattern_cases.
  destruct (find _ (patterns w)) as [existing|] eqn:Hfind.
  - intros [= <- <-]. intros p Hp Hnew. tables.
    unfold Sql.update in Hp. apply in_map_iff in Hp. destruct Hp as (r & <- & Hr).
    apply find_some in Hfind. destruct Hfind as [Hex _].
    destruct (String.eqb (p_id r) (p_id existing)) eqn:E; [|apply H; assumption].
    apply String.eqb_eq in E. cbn [reinforce p_id] in Hnew.
    destruct (H r Hr Hnew) as (Ha & _ & Ht).
    destruct (H existing Hex) as (_ & He & _); [rewrite <- E; exact Hnew|].
    cbn [reinforce p_active p_evidence_count p_pattern_type].
    unfold MIN_EVIDENCE in *. repeat split; [exact Ha | lia | exact Ht].
  - destruct (existsb _ (patterns w)); [discriminate|].
    intros [= <- <-]. intros p Hp Hnew. tables.
    apply in_app_or in Hp. destruct Hp as [Hp|[<-|[]]]; [apply H; assumption|].
    unfold pattern_row. cbn [p_active p_evidence_count p_pattern_type].
    repeat split; [exact Hev|].
    unfold miner_types in *. cbn in Htype.
    destruct Htype as [<-|[<-|[<-|[<-|[]]]]]; cbn; tauto.
Qed.

Lemma tracks_run_strategies_rows (before : list string) (resolved : list decision) :
  tracks (pass_rows before)
         (fun np => np' <- tag_strategy clock uuid4_hex resolved np ;;
                    later_strategies clock uuid4_hex resolved np').
Proof.
  assert (Hret := tracks_ret (pass_rows before)).
  assert (Hemit := tracks_emit_rows before).
  apply tracks_bind; [|apply tracks_bind; [|apply tracks_bind]].
  - apply tracks_for_each. intros [tag counts]. unfold tag_step.
    destruct (total counts <? MIN_EVIDENCE) eqn:E; [exact Hret|].
    apply Z.ltb_ge in E.
    destruct (_ || _)%bool; [apply Hemit; [exact E | cbn; tauto] | exact Hret].
  - apply tracks_for_each. intros word. unfold keyword_step.
    destruct (_ <? MIN_EVIDENCE) eqn:E; [exact Hret|]. apply Z.ltb_ge in E.
    destruct (PrimFloat.leb 0.65 _); [apply Hemit; [exact E | cbn; tauto]|].
    destruct (PrimFloat.leb _ 0.35); [apply Hemit; [exact E | cbn; tauto] | exact Hret].
  - unfold calibration_strategy.
    apply (tracks_bind _
             (fun np => if MIN_EVIDENCE <=? _ then _ else ret np)
             (fun np => if MIN_EVIDENCE <=? _ then _ else ret np)).
    + destruct (MIN_EVIDENCE <=? _) eqn:E; [|exact Hret].
      apply Z.leb_le in E. apply Hemit; [exact E | cbn; tauto].
    + destruct (MIN_EVIDENCE <=? _) eqn:E; [|exact Hret].
      apply Z.leb_le in E. apply Hemit; [exact E | cbn; tauto].
  - apply tracks_for_each. intros [hour [wins losses]]. unfold temporal_step.
    destruct (_ <? MIN_EVIDENCE) eqn:E; [exact Hret|]. apply Z.ltb_ge in E.
    destruct (_ || _)%bool; [apply Hemit; [exact E | cbn; tauto] | exact Hret].
Qed.

(** X27. What a pass of the miner adds, it does not prune. Every row
    that is in the patterns table after [mine_agent] and was not there
    before is active, has one of the four types of the miner and an
    evidence count of at least [MIN_EVIDENCE] (3), so it is not weak. *)
Theorem mine_agent_keeps_its_rows (agent : string) (w : db) :
  ids_distinct uuid4_hex w ->
  MIN_EVIDENCE <= count d_resolved (decisions w) ->
  exists result w',
    mine_agent clock uuid4_hex agent w = (Return result, w')
    /\ forall p, In p (patterns w') -> ~ In (p_id p) (map p_id (patterns w)) ->
         p_active p = true
         /\ MIN_EVIDENCE <= p_evidence_count p
         /\ In (p_pattern_type p) miner_types
         /\ weak p = false.
Proof.
  intros Hids Hres.
  destruct (mine_agent_returns clock uuid4_hex agent w Hids Hres)
    as (np & w1 & pruned & Erun & _ & _ & _ & _ & Emine).
  rewrite run_strategies_split in Erun.
  pose proof (tracks_run_strategies_rows (map p_id (patterns w)) (resolved_recent w)
                [] w np w1) as Hrows.
  assert (H1 : pass_rows (map p_id (patterns w)) np w1).
  { apply Hrows; [|exact Erun]. intros p Hp Hnew. exfalso. apply Hnew, in_map, Hp. }
  do 2 eexists. split; [exact Emine|]. tables.
  intros p Hp Hnew. apply in_map_iff in Hp. destruct Hp as (p0 & <- & Hp0).
  rewrite prune_row_id in Hnew.
  destruct (H1 p0 Hp0 Hnew) as (Ha & He & Ht).
  assert (Hw : weak p0 = false).
  { unfold weak. replace (p_evidence_count p0 <=? 1) with false; [reflexivity|].
    symmetry. apply Z.leb_gt. unfold MIN_EVIDENCE in He. lia. }
  rewrite (prune_row_keeps p0 Hw). auto.
Qed.

End PassRows.

(** ** The further statements on sample data *)

Section MoreSamples.
Import AgentMemory PatternMiner AgentBrain.

(** X3 on the sample history: a reinforcement of the "trend" pattern. *)
Lemma add_pattern_caps_confidence_witness :
  exists w',
    add_pattern 9 "00000000c9" "trend" "BTC DOWN in fear markets" 1 0.9 [] ranking_store
    = (Return "pat_00000000c1", w')
    /\ forall p, In p (patterns w') -> p_id p = "pat_00000000c1" ->
                 PrimFloat.leb (p_confidence p) 0.99 = true.
Proof.
  destruct (add_pattern_caps_confidence ranking_store 9 "00000000c9" "trend"
              "BTC DOWN in fear markets" 1 0.9 [] trend_row)
    as (w' & E & _ & H); [vm_compute; reflexivity|].
  exists w'. split; [exact E|]. intros p Hp Hid. apply (H p Hp Hid).
Defined.

(** X4 on the empty store: a description of 1001 characters, twice. *)
Lemma add_pattern_long_text_witness :
  exists w1 w2,
    add_pattern 1 "00000000d1" "trend" long_description 1 0.5 [] empty_db
    = (Return "pat_00000000d1", w1)
    /\ add_pattern 2 "00000000d2" "trend" long_description 1 0.5 [] w1
       = (Return "pat_00000000d2", w2)
    /\ List.length (patterns w2) = 2%nat.
Proof.
  destruct (add_pattern_long_text_duplicates [] 1 2 "00000000d1" "00000000d2" "trend"
              long_description 1 0.5 [])
    as (w1 & w2 & E1 & E2 & Hrows & _).
  - right. apply Nat.ltb_lt. vm_compute. reflexivity.
  - intros [].
  - intros [].
  - discriminate.
  - exists w1, w2. split; [exact E1|]. split; [exact E2|].
    rewrite Hrows. reflexivity.
Defined.

(** X5 on the empty store: a category of 150 characters, twice. *)
Lemma set_knowledge_long_key_witness :
  exists w1 w2,
    set_knowledge 1 "00000000d1" long_text "btc_vol" "high" "feed" 0 empty_db
    = (Return "kn_00000000d1", w1)
    /\ set_knowledge 2 "00000000d2" long_text "btc_vol" "low" "feed" 0 w1
       = (Return "kn_00000000d2", w2)
    /\ List.length (knowledges w2) = 2%nat.
Proof.
  destruct (set_knowledge_long_key_duplicates [] 1 2 "00000000d1" "00000000d2"
              long_text "btc_vol" "high" "low" "feed" 0)
    as (w1 & w2 & E1 & E2 & Hrows & _).
  - left. apply Nat.ltb_lt. vm_compute. reflexivity.
  - intros [].
  - intros [].
  - discriminate.
  - exists w1, w2. split; [exact E1|]. split; [exact E2|].
    rewrite Hrows. reflexivity.
Defined.

(** X7 on the sample history: the deactivated "trend" pattern stays as it
    is under a call that names its type and description. *)
Lemma inactive_patterns_are_frozen_witness :
  In retired_row
     (patterns (exec (AddPattern 9 "00000000c9" "trend" "ETH UP after upgrades" 1 0.9 [])
                     ranking_store)).
Proof.
  destruct (inactive_patterns_are_frozen ranking_calls retired_row) as [H _].
  - vm_compute. auto.
  - reflexivity.
  - apply H.
Defined.

(** X10 on the sample history. *)
Lemma add_pattern_after_deactivation_witness :
  exists w1 w2,
    deactivate_pattern "pat_00000000c1" ranking_store = (Return true, w1)
    /\ add_pattern 9 "00000000c9" "trend" "BTC DOWN in fear markets" 1 0.5 [] w1
       = (Return "pat_00000000c9", w2)
    /\ In (deactivate trend_row) (patterns w2).
Proof.
  destruct (add_pattern_after_deactivation ranking_store trend_row 9 "00000000c9"
              1 0.5 [])
    as (w1 & w2 & E1 & E2 & _ & Hold & _).
  - vm_compute. reflexivity.
  - vm_compute. intuition discriminate.
  - exists w1, w2. split; [exact E1|]. split; [exact E2 | exact Hold].
Defined.

(** X11 on the sample history: the fact "risk"/"btc_vol" is overwritten
    and read back. *)
Lemma set_knowledge_then_get_witness :
  exists id w1 k w2,
    set_knowledge 7 "00000000c7" "risk" "btc_vol" "low" "manual" 0 ranking_store
    = (Return id, w1)
    /\ get_knowledge 8 (Some "risk") (Some "btc_vol") w1 = (Return [k], w2)
    /\ k_value k = "low".
Proof.
  destruct (set_knowledge_then_get ranking_store 7 8 "00000000c7" "risk" "btc_vol"
              "low" "manual" 0)
    as (id & w1 & k & w2 & E1 & E2 & _ & _ & _ & (Hv & _) & _).
  - apply distinct_NoDup. vm_compute. reflexivity.
  - unfold one_per_key. vm_compute. constructor; [intros [] | constructor].
  - discriminate.
  - discriminate.
  - vm_compute. lia.
  - vm_compute. lia.
  - vm_compute. intuition discriminate.
  - lia.
  - exists id, w1, k, w2. split; [exact E1|]. split; [exact E2 | exact Hv].
Defined.

(** X19 on the sample history, with the default bounds. *)
Lemma build_memory_context_raises_witness :
  _build_memory_context 5 8 eleven_words ranking_store
  = (inl (Sqlite ProgrammingError), ranking_store).
Proof.
  destruct (build_memory_context_raises_on_long_situation 5 8 ranking_store eleven_words)
    as [_ H].
  - reflexivity.
  - apply Nat.ltb_lt. vm_compute. reflexivity.
  - apply H. intros p Hp _. vm_compute in Hp.
    destruct Hp as [<-|[<-|[<-|[<-|[]]]]]; eexists; vm_compute; reflexivity.
Defined.

(** X20 on the sample history, with the default bounds. *)
Lemma build_memory_context_returns_witness :
  exists context,
    _build_memory_context 5 8 "BTC high volatility trade" ranking_store
    = (inr (context, 2, 1), ranking_store).
Proof.
  destruct (build_memory_context_returns 5 8 ranking_store "BTC high volatility trade")
    as (context & np & nd & E & _).
  - reflexivity.
  - vm_compute. lia.
  - intros p Hp _. vm_compute in Hp.
    destruct Hp as [<-|[<-|[<-|[<-|[]]]]]; eexists; vm_compute; reflexivity.
  - pose proof E as E'. vm_compute in E'. injection E' as _ Hnp Hnd.
    exists context. rewrite E, <- Hnp, <- Hnd. reflexivity.
Defined.

(** X21 on the sample history. *)
Lemma record_decision_then_recall_witness :
  exists w1 rest,
    record_decision 100 "00000000c8" "ETH gas fees spike" "Wait" "" 0.6 [] ranking_store
    = (Return "dec_00000000c8", w1)
    /\ get_relevant_context "eth spike" 5 w1
       = (Return ((decision_row 100 "00000000c8" "ETH gas fees spike" "Wait" "" 0.6 [],
                   1) :: rest), w1).
Proof.
  destruct (record_decision_then_recall ranking_store 100 "00000000c8"
              "ETH gas fees spike" "Wait" "" 0.6 [] "eth spike" "eth" 5)
    as (w1 & rest & E1 & _ & E2).
  - vm_compute. intuition discriminate.
  - intros r Hr. vm_compute in Hr. destruct Hr as [<-|[]]. reflexivity.
  - reflexivity.
  - vm_compute. lia.
  - vm_compute. auto.
  - reflexivity.
  - vm_compute. reflexivity.
  - discriminate.
  - exists w1, rest. split; [exact E1 | exact E2].
Defined.

(** X22 on the sample history. *)
Lemma add_pattern_then_listed_witness :
  exists id w' rows p,
    add_pattern 9 "00000000c9" "risk" "Wide spreads at night" 2 0.6 [] ranking_store
    = (Return id, w')
    /\ get_active_patterns None 0 w' = (Return rows, w')
    /\ In p rows /\ p_id p = id.
Proof.
  destruct (add_pattern_then_listed ranking_store 9 "00000000c9" "risk"
              "Wide spreads at night" 2 0.6 [])
    as [(id & w' & rows & p & E1 & E2 & Hin & Hid & _) _].
  - vm_compute. intuition discriminate.
  - exists id, w', rows, p. auto.
Defined.

(** X23 at the NaN of the floats. *)
Lemma nan_is_stored_as_one_witness :
  record_decision 9 "00000000c9" "ETH gas fees spike" "Wait" "" PrimFloat.nan []
                  ranking_store
  = (Return "dec_00000000c9",
     with_decisions
       (decisions ranking_store
        ++ [mk_decision "dec_00000000c9" 9 "ETH gas fees spike" "Wait" "" 1 "" 0
                        false []])
       ranking_store).
Proof.
  destruct (nan_is_stored_as_one ranking_store PrimFloat.nan) as [H _].
  - vm_compute. reflexivity.
  - apply (H 9 "00000000c9" "ETH gas fees spike" "Wait" "" []).
    vm_compute. intuition discriminate.
Defined.

(** X24 on the pruning store of the miner. *)
Lemma mine_agent_reported_total_witness :
  exists resolved extracted pruned reported new_patterns w',
    mine_agent sample_clock sample_hex "hawk" pruning_store
    = (Return (Mined "hawk" resolved extracted pruned reported new_patterns), w')
    /\ count p_active (patterns w') <= reported.
Proof.
  destruct (mine_agent_reported_total sample_clock sample_hex "hawk" pruning_store)
    as (r & e & p & t & np & w' & E & _ & _ & _ & H).
  - unfold ids_distinct. apply distinct_NoDup. vm_compute. reflexivity.
  - apply Z.leb_le. vm_compute. reflexivity.
  - exists r, e, p, t, np, w'. split; [exact E | exact H].
Defined.

(** X27 on the pruning store of the miner. *)
Lemma mine_agent_keeps_its_rows_witness :
  exists result w',
    mine_agent sample_clock sample_hex "hawk" pruning_store = (Return result, w')
    /\ forall p, In p (patterns w') ->
                 ~ In (p_id p) (map p_id (patterns pruning_store)) ->
                 weak p = false.
Proof.
  destruct (mine_agent_keeps_its_rows sample_clock sample_hex "hawk" pruning_store)
    as (result & w' & E & H).
  - unfold ids_distinct. apply distinct_NoDup. vm_compute. reflexivity.
  - apply Z.leb_le. vm_compute. reflexivity.
  - exists result, w'. split; [exact E|]. intros p Hp Hnew. apply (H p Hp Hnew).
Defined.

(** X14 on the sample store: the situation of four words has matches,
    each with relevance 1. *)
Lemma get_relevant_context_contract_witness :
  exists rows,
    get_relevant_context "BTC high volatility trade" 5 sample_store
    = (Return rows, sample_store)
    /\ forall r relevance, In (r, relevance) rows -> relevance = 1.
Proof.
  destruct (get_relevant_context_contract sample_store "BTC high volatility trade" 5)
    as (_ & H & _).
  - reflexivity.
  - destruct H as (rows & E & _ & Hrel & _).
    + vm_compute. lia.
    + exists rows. split; [exact E|].
      intros r relevance Hin. apply (Hrel r relevance Hin).
Defined.

(** X26 on the sample store. *)
Lemma get_relevant_context_ignores_case_witness :
  get_relevant_context "btc high volatility trade" 5 sample_store
  = get_relevant_context "BTC High Volatility Trade" 5 sample_store.
Proof.
  destruct (get_relevant_context_ignores_case sample_store
              "BTC High Volatility Trade" 5) as (_ & E & _).
  - reflexivity.
  - exact E.
Defined.

End MoreSamples.

(** ** The miner: the calls of a pass *)

Section Emissions.
Import AgentMemory PatternMiner.

Variable clock : nat -> timestamp.
Variable uuid4_hex : nat -> string.

Lemma bind_ret {A} (m : M A) (w : db) : (a <- m ;; ret a) w = m w.
Proof. unfold bind. destruct (m w) as [[a|e] w1]; reflexivity. Qed.

Lemma bind_ext {A B} (m m' : M A) (k k' : A -> M B) (w : db) :
  m w = m' w -> (forall a w1, k a w1 = k' a w1) -> bind m k w = bind m' k' w.
Proof.
  intros Hm Hk. unfold bind. rewrite Hm.
  destruct (m' w) as [[a|e] w1]; [apply Hk | reflexivity].
Qed.

Lemma emit_all_one (e : emission) (np : list string) (w : db) :
  emit_all clock uuid4_hex [e] np w
  = emit clock uuid4_hex (e_type e) (e_description e) (e_evidence e) (e_confidence e)
         np w.
Proof. unfold emit_all. cbn [for_each]. apply bind_ret. Qed.

Lemma emit_all_app (es es' : list emission) (np : list string) (w : db) :
  emit_all clock uuid4_hex (es ++ es') np w
  = (np' <- emit_all clock uuid4_hex es np ;; emit_all clock uuid4_hex es' np') w.
Proof. apply for_each_app. Qed.

Lemma for_each_listing {A} (step : A -> list string -> M (list string))
    (listing : A -> list emission) (items : list A) :
  (forall x np w, step x np w = emit_all clock uuid4_hex (listing x) np w) ->
  forall np w,
    for_each step items np w = emit_all clock uuid4_hex (flat_map listing items) np w.
Proof.
  intros H. induction items as [|x items IH]; intros np w; [reflexivity|].
  cbn [for_each flat_map]. rewrite emit_all_app.
  apply bind_ext; [apply H | exact IH].
Qed.

Lemma tag_step_listing (item : string * tally) (np : list string) (w : db) :
  tag_step clock uuid4_hex item np w
  = emit_all clock uuid4_hex (tag_emissions item) np w.
Proof.
  destruct item as [tag counts]. unfold tag_step, tag_emissions.
  destruct (total counts <? MIN_EVIDENCE); [reflexivity|].
  destruct (_ || _)%bool; [|reflexivity].
  rewrite emit_all_one. reflexivity.
Qed.

Lemma keyword_step_listing (win_words loss_words : list (string * Z)) (word : string)
    (np : list string) (w : db) :
  keyword_step clock uuid4_hex win_words loss_words word np w
  = emit_all clock uuid4_hex (keyword_emissions win_words loss_words word) np w.
Proof.
  unfold keyword_step, keyword_emissions.
  destruct (_ <? MIN_EVIDENCE); [reflexivity|].
  destruct (PrimFloat.leb 0.65 _); [rewrite emit_all_one; reflexivity|].
  destruct (PrimFloat.leb _ 0.35); [rewrite emit_all_one; reflexivity|].
  reflexivity.
Qed.

Lemma temporal_step_listing (item : Z * (Z * Z)) (np : list string) (w : db) :
  temporal_step clock uuid4_hex item np w
  = emit_all clock uuid4_hex (temporal_emissions item) np w.
Proof.
  destruct item as [hour [wins losses]]. unfold temporal_step, temporal_emissions.
  destruct (_ <? MIN_EVIDENCE); [reflexivity|].
  destruct (_ || _)%bool; [|reflexivity].
  rewrite emit_all_one. reflexivity.
Qed.

Lemma calibration_listing (resolved : list decision) (np : list string) (w : db) :
  calibration_strategy clock uuid4_hex resolved np w
  = emit_all clock uuid4_hex (calibration_emissions resolved) np w.
Proof.
  unfold calibration_strategy, calibration_emissions.
  rewrite emit_all_app. apply bind_ext.
  - destruct (MIN_EVIDENCE <=? _); [rewrite emit_all_one|]; reflexivity.
  - intros np' w1. destruct (MIN_EVIDENCE <=? _); [rewrite emit_all_one|]; reflexivity.
Qed.

(** The four strategies make the listed calls, in their order. *)
Lemma run_strategies_listing (resolved : list decision) (w : db) :
  run_strategies clock uuid4_hex resolved w
  = emit_all clock uuid4_hex (emissions resolved) [] w.
Proof.
  unfold run_strategies, emissions.
  rewrite emit_all_app. apply bind_ext.
  { unfold tag_strategy. apply for_each_listing. apply tag_step_listing. }
  intros np1 w1. rewrite emit_all_app. apply bind_ext.
  { unfold keyword_strategy. apply for_each_listing. apply keyword_step_listing. }
  intros np2 w2. rewrite emit_all_app. apply bind_ext.
  { apply calibration_listing. }
  intros np3 w3. unfold temporal_strategy. apply for_each_listing.
  apply temporal_step_listing.
Qed.

Lemma emit_all_descriptions (es : list emission) (np np' : list string) (w w' : db) :
  emit_all clock uuid4_hex es np w = (Return np', w') ->
  np' = np ++ map e_description es.
Proof.
  revert np w. induction es as [|e es IH]; intros np w.
  - intros [= <- _]. rewrite app_nil_r. reflexivity.
  - unfold emit_all. cbn [for_each]. unfold bind at 1. unfold emit at 1. unfold bind at 1.
    destruct (add_pattern _ _ _ _ _ _ _ w) as [[id|err] w1]; [|discriminate].
    cbn [ret]. intros E. apply IH in E. rewrite E, <- app_assoc. reflexivity.
Qed.

Lemma emissions_evidence (resolved : list decision) (e : emission) :
  In e (emissions resolved) ->
  MIN_EVIDENCE <= e_evidence e /\ In (e_type e) miner_types.
Proof.
  unfold emissions. rewrite !in_app_iff, !in_flat_map.
  intros [([tag counts] & _ & H)|[(word & _ & H)|[H|([hour [wins losses]] & _ & H)]]].
  - unfold tag_emissions in H.
    destruct (total counts <? MIN_EVIDENCE) eqn:E; [destruct H|]. apply Z.ltb_ge in E.
    destruct (_ || _)%bool; [|destruct H]. destruct H as [<-|[]].
    split; [exact E | cbn; tauto].
  - unfold keyword_emissions in H.
    destruct (_ <? MIN_EVIDENCE) eqn:E; [destruct H|]. apply Z.ltb_ge in E.
    destruct (PrimFloat.leb 0.65 _);
      [destruct H as [<-|[]]; split; [exact E | cbn; tauto]|].
    destruct (PrimFloat.leb _ 0.35); [|destruct H].
    destruct H as [<-|[]]. split; [exact E | cbn; tauto].
  - unfold calibration_emissions in H. apply in_app_or in H. destruct H as [H|H].
    + destruct (MIN_EVIDENCE <=? _) eqn:E; [|destruct H]. apply Z.leb_le in E.
      destruct H as [<-|[]]. split; [exact E | cbn; tauto].
    + destruct (MIN_EVIDENCE <=? _) eqn:E; [|destruct H]. apply Z.leb_le in E.
      destruct H as [<-|[]]. split; [exact E | cbn; tauto].
  - unfold temporal_emissions in H.
    destruct (_ <? MIN_EVIDENCE) eqn:E; [destruct H|]. apply Z.ltb_ge in E.
    destruct (_ || _)%bool; [|destruct H]. destruct H as [<-|[]].
    split; [exact E | cbn; tauto].
Qed.

(** With the order that [all_words] takes, the pass is [mine_agent]. *)
Lemma mine_agent_in_model (agent : string) (w : db) :
  mine_agent_in clock uuid4_hex model_visit agent w
  = mine_agent clock uuid4_hex agent w.
Proof. reflexivity. Qed.

Lemma emissions_in_model (resolved : list decision) :
  emissions_in (model_visit resolved) resolved = emissions resolved.
Proof. reflexivity. Qed.

(** The strategies make the listed calls, the words in the order
    given. *)
Lemma run_strategies_in_listing (words : list string) (resolved : list decision)
    (w : db) :
  run_strategies_in clock uuid4_hex words resolved w
  = emit_all clock uuid4_hex (emissions_in words resolved) [] w.
Proof.
  unfold run_strategies_in, emissions_in.
  rewrite emit_all_app. apply bind_ext.
  { unfold tag_strategy. apply for_each_listing. apply tag_step_listing. }
  intros np1 w1. rewrite emit_all_app. apply bind_ext.
  { unfold keyword_strategy_in. apply for_each_listing. apply keyword_step_listing. }
  intros np2 w2. rewrite emit_all_app. apply bind_ext.
  { apply calibration_listing. }
  intros np3 w3. unfold temporal_strategy. apply for_each_listing.
  apply temporal_step_listing.
Qed.

(** The order of the set permutes the calls and nothing else. *)
Lemma emissions_in_perm (words : list string) (resolved : list decision) :
  Permutation words (model_visit resolved) ->
  Permutation (emissions_in words resolved) (emissions resolved).
Proof.
  intros H. unfold emissions_in, emissions.
  apply Permutation_app_head, Permutation_app_tail.
  apply Permutation_flat_map, H.
Qed.

Lemma flat_map_short {A B} (f : A -> list B) (l : list A) :
  (forall x, (List.length (f x) <= 1)%nat) ->
  (List.length (flat_map f l) <= List.length l)%nat.
Proof.
  intros H. induction l as [|x l IH]; cbn [flat_map List.length]; [lia|].
  rewrite length_app. pose proof (H x). lia.
Qed.

Lemma emissions_in_bound (words : list string) (resolved : list decision) :
  Permutation words (model_visit resolved) ->
  (List.length (emissions_in words resolved) <= emission_bound resolved)%nat.
Proof.
  intros H. apply Permutation_length in H.
  unfold emissions_in, emission_bound. rewrite !length_app.
  fold (model_visit resolved). rewrite <- H.
  assert (H1 : (List.length (flat_map tag_emissions (tag_outcomes resolved))
                <= List.length (tag_outcomes resolved))%nat).
  { apply flat_map_short. intros [tag counts]. unfold tag_emissions.
    destruct (_ <? _); [cbn; lia|]. destruct (_ || _)%bool; cbn; lia. }
  assert (H2 : (List.length (flat_map (keyword_emissions (fst (word_counts resolved))
                                                         (snd (word_counts resolved)))
                                      words)
                <= List.length words)%nat).
  { apply flat_map_short. intros word. unfold keyword_emissions.
    destruct (_ <? _); [cbn; lia|].
    destruct (PrimFloat.leb 0.65 _); [cbn; lia|].
    destruct (PrimFloat.leb _ 0.35); cbn; lia. }
  assert (H3 : (List.length (calibration_emissions resolved) <= 2)%nat).
  { unfold calibration_emissions. rewrite length_app.
    destruct (_ <=? _); destruct (_ <=? _); cbn; lia. }
  assert (H4 : (List.length (flat_map temporal_emissions (hour_outcomes resolved))
                <= List.length (hour_outcomes resolved))%nat).
  { apply flat_map_short. intros [hour [wins losses]]. unfold temporal_emissions.
    destruct (_ <? _); [cbn; lia|]. destruct (_ || _)%bool; cbn; lia. }
  lia.
Qed.

(** Listed calls return while new ids are at hand. *)
Lemma emit_all_returns (draws : nat) (es : list emission) :
  forall np w,
    (List.length np + List.length es <= draws)%nat ->
    supply_ok uuid4_hex draws (List.length np) w ->
    exists w',
      emit_all clock uuid4_hex es np w = (Return (np ++ map e_description es), w')
      /\ NoDup (map p_id (patterns w'))
      /\ decisions w' = decisions w
      /\ knowledges w' = knowledges w.
Proof.
  induction es as [|e es IH]; intros np w Hn Hok.
  - exists w. cbn [map]. rewrite app_nil_r.
    split; [reflexivity|]. split; [|auto].
    unfold supply_ok in Hok. eapply NoDup_app_remove_r, Hok.
  - cbn [List.length] in Hn.
    destruct (emit_returns clock uuid4_hex draws (e_type e) (e_description e)
                (e_evidence e) (e_confidence e) np w) as (w1 & E1 & _ & Hok1);
      [lia | exact Hok |].
    destruct (IH (np ++ [e_description e]) w1) as (w2 & E2 & Hnd & Hd & Hk).
    { rewrite length_app. cbn [List.length]. lia. }
    { rewrite length_app. cbn [List.length].
      replace (List.length np + 1)%nat with (S (List.length np)) by lia. exact Hok1. }
    exists w2. split.
    { unfold emit_all. cbn [for_each]. unfold bind at 1. rewrite E1.
      fold (emit_all clock uuid4_hex es (np ++ [e_description e]) w1).
      rewrite E2. cbn [map]. rewrite <- app_assoc. reflexivity. }
    split; [exact Hnd|].
    assert (Hw1 : decisions w1 = decisions w /\ knowledges w1 = knowledges w).
    { unfold emit, bind in E1.
      rewrite add_pattern_cases in E1. apply (f_equal snd) in E1.
      destruct (find _ (patterns w)); [cbn [snd ret] in E1; subst w1; split; reflexivity|].
      destruct (existsb _ (patterns w)); cbn [snd ret] in E1; subst w1; split; reflexivity. }
    destruct Hw1. split; congruence.
Qed.

(** A pass on an agent with enough resolved decisions returns, in
    whatever order it visits the set. *)
Lemma mine_agent_in_returns (visit : list decision -> list string) (agent : string)
    (w : db) :
  let listing := emissions_in (visit (resolved_recent w)) (resolved_recent w) in
  visits_the_set visit ->
  ids_distinct uuid4_hex w ->
  MIN_EVIDENCE <= count d_resolved (decisions w) ->
  exists w1 pruned,
    emit_all clock uuid4_hex listing [] w = (Return (map e_description listing), w1)
    /\ NoDup (map p_id (patterns w1))
    /\ decisions w1 = decisions w
    /\ knowledges w1 = knowledges w
    /\ prune_weak w1 = (Return pruned, with_patterns (map prune_row (patterns w1)) w1)
    /\ mine_agent_in clock uuid4_hex visit agent w
       = (Return (Mined agent (count d_resolved (decisions w))
                        (Z.of_nat (List.length listing)) pruned
                        (count p_active (patterns w)
                         + Z.of_nat (List.length listing) - pruned)
                        (map e_description listing)),
          with_patterns (map prune_row (patterns w1)) w1).
Proof.
  intros listing Hvisit Hids Hres.
  destruct (emit_all_returns (emission_bound (resolved_recent w)) listing [] w)
    as (w1 & E & Hnd & Hd & Hk).
  { cbn [List.length]. apply emissions_in_bound, Hvisit. }
  { unfold supply_ok. cbn [List.length]. rewrite Nat.sub_0_r. exact Hids. }
  cbn [app] in E.
  destruct (prune_weak_returns w1 Hnd) as (pruned & Ep).
  exists w1, pruned. repeat (split; [assumption|]).
  unfold mine_agent_in, bind.
  assert (Estats : exists stats,
             get_stats w = (Return stats, w)
             /\ resolved_decisions stats = count d_resolved (decisions w)
             /\ active_patterns stats = count p_active (patterns w)).
  { eexists. split; [reflexivity|]. split; reflexivity. }
  destruct Estats as (stats & Estats & Hr & Ha).
  assert (Erecent : get_recent_decisions 500 true w = (Return (resolved_recent w), w))
    by reflexivity.
  rewrite Estats, Hr, Ha.
  replace (count d_resolved (decisions w) <? MIN_EVIDENCE) with false
    by (symmetry; apply Z.ltb_ge; exact Hres).
  rewrite Erecent, run_strategies_in_listing. fold listing.
  rewrite E, Ep, length_map. reflexivity.
Qed.


(** X28. What a pass collects depends on the decisions only, and on the
    order in which the loop over the set of words visits it only for the
    order of the result. When the miner runs, in whatever order [visit]
    it meets the words, the strategies make the calls of [add_pattern]
    that the listing gives for the resolved decisions read; the
    descriptions returned as [new_patterns] are those of the listing and
    [patterns_extracted] is their number, whatever the patterns table,
    the clock and the ids are. Another order of the set gives the same
    calls in another order. Every call has one of the four types of the
    miner and an evidence count of at least [MIN_EVIDENCE]. With the
    order of [all_words] the pass is [mine_agent]. *)
Theorem mine_agent_collects_the_listing
    (visit : list decision -> list string) (agent : string) (w : db) :
  let resolved := resolved_recent w in
  let listing := emissions_in (visit resolved) resolved in
  visits_the_set visit ->
  ids_distinct uuid4_hex w ->
  MIN_EVIDENCE <= count d_resolved (decisions w) ->
  exists n pruned reported w',
    mine_agent_in clock uuid4_hex visit agent w
    = (Return (Mined agent n (Z.of_nat (List.length listing)) pruned reported
                     (map e_description listing)), w')
    /\ run_strategies_in clock uuid4_hex (visit resolved) resolved w
       = emit_all clock uuid4_hex listing [] w
    /\ Permutation listing (emissions resolved)
    /\ Permutation (map e_description listing) (map e_description (emissions resolved))
    /\ List.length listing = List.length (emissions resolved)
    /\ Forall (fun e => MIN_EVIDENCE <= e_evidence e /\ In (e_type e) miner_types)
              listing
    /\ (forall agent0 w0,
          mine_agent_in clock uuid4_hex model_visit agent0 w0
          = mine_agent clock uuid4_hex agent0 w0).
Proof.
  intros resolved listing Hvisit Hids Hres.
  destruct (mine_agent_in_returns visit agent w Hvisit Hids Hres)
    as (w1 & pruned & _ & _ & _ & _ & _ & Emine).
  fold resolved in Emine. fold listing in Emine.
  assert (Hperm : Permutation listing (emissions resolved))
    by (apply emissions_in_perm, Hvisit).
  do 4 eexists. split; [exact Emine|].
  split; [apply run_strategies_in_listing|].
  split; [exact Hperm|].
  split; [apply Permutation_map, Hperm|].
  split; [apply Permutation_length, Hperm|].
  split; [|intros; reflexivity].
  apply Forall_forall. intros e He.
  apply (emissions_evidence resolved e).
  eapply Permutation_in; [exact Hperm | exact He].
Qed.

End Emissions.

(** ** The miner: a second pass *)

Section SecondPass.
Import AgentMemory PatternMiner.

Lemma same_pattern_reinforce (t d : string) (count : Z) (conf : float)
    (now : timestamp) (p : pattern) :
  same_pattern t d (reinforce count conf now p) = same_pattern t d p.
Proof. reflexivity. Qed.

Lemma not_weak (p : pattern) : 2 <= p_evidence_count p -> weak p = false.
Proof.
  intros H. unfold weak. replace (p_evidence_count p <=? 1) with false; [reflexivity|].
  symmetry. apply Z.leb_gt. lia.
Qed.

Lemma miner_type_short (t : string) : In t miner_types -> take 100 t = t.
Proof.
  unfold miner_types. cbn. intros [<-|[<-|[<-|[<-|[]]]]]; reflexivity.
Qed.

(** One call on a store whose active rows have an evidence count of -1
    or more. *)
Lemma add_pattern_settled (now : timestamp) (hex : string) (e : emission)
    (tags : list string) (id : string) (w w' : db) :
  settled w -> MIN_EVIDENCE <= e_evidence e ->
  add_pattern now hex (e_type e) (e_description e) (e_evidence e) (e_confidence e)
              tags w = (Return id, w') ->
  settled w'
  /\ (forall es, stocked es w -> stocked es w')
  /\ (In (e_type e) miner_types ->
      (len (e_description e) <= 1000)%nat -> stocked [e] w').
Proof.
  intros Hset Hev. unfold MIN_EVIDENCE in Hev. rewrite add_pattern_cases.
  destruct (find _ (patterns w)) as [existing|] eqn:Hfind.
  - intros [= <- <-]. tables.
    apply find_some in Hfind. destruct Hfind as [Hex Hsame].
    assert (Ha : p_active existing = true)
      by (apply same_pattern_spec in Hsame; tauto).
    pose proof (Hset existing Hex Ha) as Hold.
    set (U := fun r => if String.eqb (p_id r) (p_id existing)
                       then reinforce (p_evidence_count existing + e_evidence e)
                                      (Py.min 0.99 (p_confidence existing + 0.05)%float)
                                      now r
                       else r).
    assert (HU : forall r, same_pattern (e_type e) (e_description e) (U r)
                           = same_pattern (e_type e) (e_description e) r
                           /\ p_active (U r) = p_active r
                           /\ (p_evidence_count (U r) = p_evidence_count r
                               \/ 2 <= p_evidence_count (U r))
                           /\ forall t d, same_pattern t d (U r) = same_pattern t d r).
    { intros r. unfold U. destruct (String.eqb (p_id r) (p_id existing)).
      - cbn [reinforce p_active p_evidence_count]. repeat split; auto. right. lia.
      - repeat split; auto. }
    split; [|split].
    + intros p Hp Hact. unfold Sql.update in Hp. apply in_map_iff in Hp.
      destruct Hp as (r & <- & Hr). fold (U r) in *.
      destruct (HU r) as (_ & Hact' & [Hsame'|Hbig] & _); [|lia].
      rewrite Hsame'. apply Hset; [exact Hr | congruence].
    + intros es Hes e0 He0. destruct (Hes e0 He0) as (p & Hp & Hsp & Hbig).
      exists (U p). split; [unfold Sql.update; apply in_map; exact Hp|].
      destruct (HU p) as (_ & _ & [Hsame'|Hbig'] & Hall); rewrite Hall;
        split; auto; lia.
    + intros _ _ e0 [<-|[]]. exists (U existing).
      split; [unfold Sql.update; apply in_map; exact Hex|].
      destruct (HU existing) as (Hs & _ & _ & _). rewrite Hs. split; [exact Hsame|].
      unfold U. rewrite String.eqb_refl. cbn [reinforce p_evidence_count]. lia.
  - destruct (existsb _ (patterns w)); [discriminate|].
    intros [= <- <-]. tables. split; [|split].
    + intros p Hp Hact. apply in_app_or in Hp. destruct Hp as [Hp|[<-|[]]].
      * apply Hset; assumption.
      * cbn [pattern_row p_evidence_count]. lia.
    + intros es Hes e0 He0. destruct (Hes e0 He0) as (p & Hp & Hrest).
      exists p. split; [apply in_or_app; left; exact Hp | exact Hrest].
    + intros Htype Hlen e0 [<-|[]].
      exists (pattern_row now hex (e_type e) (e_description e) (e_evidence e)
                          (e_confidence e) tags).
      split; [apply in_or_app; right; left; reflexivity|].
      unfold pattern_row, same_pattern.
      cbn [p_pattern_type p_description p_active p_evidence_count].
      rewrite (miner_type_short _ Htype), (take_all 1000 _ Hlen), !String.eqb_refl.
      split; [reflexivity | lia].
Qed.

Section Passes.

Variable clock : nat -> timestamp.
Variable uuid4_hex : nat -> string.

(** The first pass leaves a row for each of its calls. *)
Lemma emit_all_stocks (es : list emission) :
  (forall e, In e es ->
     MIN_EVIDENCE <= e_evidence e /\ In (e_type e) miner_types
     /\ (len (e_description e) <= 1000)%nat) ->
  forall np w np' w',
    settled w ->
    emit_all clock uuid4_hex es np w = (Return np', w') ->
    settled w' /\ stocked es w' /\ (forall es0, stocked es0 w -> stocked es0 w').
Proof.
  induction es as [|e es IH]; intros Hes np w np' w' Hset.
  - intros [= _ <-]. split; [exact Hset|]. split; [intros e []|auto].
  - unfold emit_all. cbn [for_each]. unfold bind at 1. unfold emit at 1. unfold bind at 1.
    destruct (add_pattern _ _ _ _ _ _ _ w) as [[id|err] w1] eqn:E1; [|discriminate].
    cbn [ret]. intros E2.
    destruct (Hes e (or_introl eq_refl)) as (Hev & Htype & Hlen).
    destruct (add_pattern_settled _ _ e [] id w w1 Hset Hev E1) as (Hset1 & Hkeep1 & Hnew1).
    destruct (IH (fun e0 H0 => Hes e0 (or_intror H0)) _ _ _ _ Hset1 E2)
      as (Hset2 & Hst2 & Hkeep2).
    split; [exact Hset2|]. split.
    + intros e0 [<-|He0]; [|apply Hst2, He0].
      apply (Hkeep2 [e]); [apply Hnew1; assumption | left; reflexivity].
    + intros es0 H0. apply Hkeep2, Hkeep1, H0.
Qed.

(** A call that finds its row changes no id, no type, no description and
    no [active] flag. *)
Lemma emit_found (e : emission) (np : list string) (w : db) :
  stocked [e] w -> settled w -> calm w -> MIN_EVIDENCE <= e_evidence e ->
  exists w',
    emit clock uuid4_hex (e_type e) (e_description e) (e_evidence e) (e_confidence e)
         np w = (Return (np ++ [e_description e]), w')
    /\ map p_id (patterns w') = map p_id (patterns w)
    /\ map p_active (patterns w') = map p_active (patterns w)
    /\ map p_pattern_type (patterns w') = map p_pattern_type (patterns w)
    /\ map p_description (patterns w') = map p_description (patterns w)
    /\ decisions w' = decisions w
    /\ knowledges w' = knowledges w
    /\ settled w' /\ calm w'
    /\ (forall es, stocked es w -> stocked es w').
Proof.
  intros Hst Hset Hcalm Hev.
  destruct (Hst e (or_introl eq_refl)) as (p & Hp & Hsame & _).
  destruct (find_first _ _ p Hp Hsame) as [existing Hfind].
  pose proof (add_pattern_cases (clock (List.length np)) (uuid4_hex (List.length np))
                (e_type e) (e_description e) (e_evidence e) (e_confidence e) [] w) as E.
  rewrite Hfind in E.
  destruct (add_pattern_settled _ _ e [] _ w _ Hset Hev E) as (Hset' & Hkeep & _).
  eexists. split; [unfold emit, bind; rewrite E; reflexivity|]. tables.
  split; [apply update_map_same; reflexivity|].
  split; [apply update_map_same; reflexivity|].
  split; [apply update_map_same; reflexivity|].
  split; [apply update_map_same; reflexivity|].
  split; [reflexivity|]. split; [reflexivity|].
  split; [exact Hset'|]. split; [|exact Hkeep].
  intros q Hq Hact. tables. unfold Sql.update in Hq. apply in_map_iff in Hq.
  destruct Hq as (r & <- & Hr).
  apply find_some in Hfind. destruct Hfind as [Hex Hsame'].
  assert (Ha : p_active existing = true)
    by (apply same_pattern_spec in Hsame'; tauto).
  pose proof (Hset existing Hex Ha) as Hold.
  destruct (String.eqb (p_id r) (p_id existing)).
  - apply not_weak. cbn [reinforce p_evidence_count]. unfold MIN_EVIDENCE in Hev. lia.
  - apply Hcalm; assumption.
Qed.

(** A pass whose calls all find their rows. *)
Lemma emit_all_found (es es0 : list emission) :
  (forall e, In e es -> In e es0) ->
  (forall e, In e es0 -> MIN_EVIDENCE <= e_evidence e) ->
  forall np w,
    stocked es0 w -> settled w -> calm w ->
    exists w',
      emit_all clock uuid4_hex es np w = (Return (np ++ map e_description es), w')
      /\ map p_id (patterns w') = map p_id (patterns w)
      /\ map p_active (patterns w') = map p_active (patterns w)
      /\ map p_pattern_type (patterns w') = map p_pattern_type (patterns w)
      /\ map p_description (patterns w') = map p_description (patterns w)
      /\ decisions w' = decisions w
      /\ knowledges w' = knowledges w
      /\ calm w'.
Proof.
  induction es as [|e es IH]; intros Hsub Hev np w Hst Hset Hcalm.
  - exists w. cbn [map]. rewrite app_nil_r. repeat split; auto.
  - destruct (emit_found e np w) as (w1 & E1 & Hi1 & Ha1 & Ht1 & Hd1 & Hdec1 & Hk1
                                       & Hset1 & Hcalm1 & Hkeep1).
    { intros e0 [<-|[]]. apply Hst, Hsub. left. reflexivity. }
    { exact Hset. } { exact Hcalm. } { apply Hev, Hsub. left. reflexivity. }
    destruct (IH (fun e0 H0 => Hsub e0 (or_intror H0)) Hev (np ++ [e_description e]) w1)
      as (w2 & E2 & Hi2 & Ha2 & Ht2 & Hd2 & Hdec2 & Hk2 & Hcalm2);
      [apply Hkeep1, Hst | exact Hset1 | exact Hcalm1 |].
    exists w2. split.
    { unfold emit_all. cbn [for_each]. unfold bind at 1. rewrite E1.
      fold (emit_all clock uuid4_hex es (np ++ [e_description e]) w1).
      rewrite E2. cbn [map]. rewrite <- app_assoc. reflexivity. }
    repeat split; try congruence. exact Hcalm2.
Qed.

End Passes.

Lemma prune_rows_calm (ps : list pattern) :
  (forall p, In p ps -> p_active p = true -> weak p = false) ->
  map prune_row ps = ps.
Proof.
  intros H. rewrite <- (map_id ps) at 2. apply map_ext_in. intros p Hp.
  destruct (p_active p) eqn:Ha.
  - apply prune_row_keeps, H; assumption.
  - apply prune_row_inactive, Ha.
Qed.

Lemma count_none {A} (f : A -> bool) (l : list A) :
  (forall x, In x l -> f x = false) -> count f l = 0.
Proof. intros H. unfold count. rewrite filter_none by exact H. reflexivity. Qed.

(** X29. Mining twice inserts nothing new. After a pass of the miner on
    a store whose active patterns have an evidence count of -1 or more,
    and whose descriptions to record have at most 1000 characters (code
    points), a second pass over the same decisions, with any clock and
    any ids, returns: it collects the same descriptions, finds a row for
    each of them, reinforces it, prunes nothing and inserts nothing. The
    patterns table keeps its ids, types, descriptions and [active] flags,
    as the decisions and the facts are kept. Each pass may visit the set
    of words in an order of its own: the descriptions collected are then
    the same up to their order, and the same list when the orders
    agree. *)
Theorem mine_agent_twice_inserts_nothing
    (clock clock' : nat -> timestamp) (uuid4_hex uuid4_hex' : nat -> string)
    (visit visit' : list decision -> list string) (agent : string) (w : db) :
  visits_the_set visit ->
  visits_the_set visit' ->
  ids_distinct uuid4_hex w ->
  MIN_EVIDENCE <= count d_resolved (decisions w) ->
  settled w ->
  (forall e, In e (emissions (resolved_recent w)) ->
             (len (e_description e) <= 1000)%nat) ->
  exists resolved extracted pruned reported reported' new_patterns new_patterns' w1 w2,
    mine_agent_in clock uuid4_hex visit agent w
    = (Return (Mined agent resolved extracted pruned reported new_patterns), w1)
    /\ mine_agent_in clock' uuid4_hex' visit' agent w1
       = (Return (Mined agent resolved extracted 0 reported' new_patterns'), w2)
    /\ Permutation new_patterns (map e_description (emissions (resolved_recent w)))
    /\ Permutation new_patterns' new_patterns
    /\ (visit' (resolved_recent w) = visit (resolved_recent w) ->
        new_patterns' = new_patterns)
    /\ map p_id (patterns w2) = map p_id (patterns w1)
    /\ map p_active (patterns w2) = map p_active (patterns w1)
    /\ map p_pattern_type (patterns w2) = map p_pattern_type (patterns w1)
    /\ map p_description (patterns w2) = map p_description (patterns w1)
    /\ decisions w2 = decisions w
    /\ knowledges w2 = knowledges w1.
Proof.
  intros Hvisit Hvisit' Hids Hres Hset Hlen.
  set (R := resolved_recent w) in *.
  set (E := emissions_in (visit R) R).
  set (E' := emissions_in (visit' R) R).
  assert (HP : Permutation E (emissions R)) by (apply emissions_in_perm, Hvisit).
  assert (HP' : Permutation E' (emissions R)) by (apply emissions_in_perm, Hvisit').
  destruct (mine_agent_in_returns clock uuid4_hex visit agent w Hvisit Hids Hres)
    as (w1s & pruned & Erun & Hnd & Hdec & Hkn & Eprune & Emine).
  fold R in Erun, Emine. fold E in Erun, Emine.
  assert (HE : forall e, In e E ->
                 MIN_EVIDENCE <= e_evidence e /\ In (e_type e) miner_types
                 /\ (len (e_description e) <= 1000)%nat).
  { intros e He. apply (Permutation_in _ HP) in He.
    destruct (emissions_evidence _ e He). auto. }
  destruct (emit_all_stocks clock uuid4_hex E HE [] w _ w1s Hset Erun)
    as (Hset1 & Hst1 & _).
  set (w1 := with_patterns (map prune_row (patterns w1s)) w1s) in *.
  assert (Hst : stocked E w1).
  { intros e He. destruct (Hst1 e He) as (p & Hp & Hsame & Hbig).
    exists p. split; [|auto]. unfold w1. tables.
    rewrite <- (prune_row_keeps p (not_weak p Hbig)). apply in_map, Hp. }
  assert (Hactive : forall p0, p_active (prune_row p0) = true -> prune_row p0 = p0).
  { intros p0. unfold prune_row. destruct (p_active p0 && weak p0)%bool;
      [discriminate | reflexivity]. }
  assert (Hsettled : settled w1).
  { intros p Hp Hact. unfold w1 in Hp. cbn [patterns with_patterns] in Hp.
    apply in_map_iff in Hp. destruct Hp as (p0 & <- & Hp0).
    pose proof (Hactive p0 Hact) as Ep. rewrite Ep in Hact |- *.
    apply Hset1; assumption. }
  assert (Hcalm : calm w1).
  { intros p Hp Hact. unfold w1 in Hp. cbn [patterns with_patterns] in Hp.
    apply in_map_iff in Hp. destruct Hp as (p0 & <- & Hp0).
    apply prune_row_result, Hact. }
  assert (Hdec1 : decisions w1 = decisions w) by exact Hdec.
  assert (Erecent : resolved_recent w1 = R).
  { unfold R, resolved_recent. rewrite Hdec1. reflexivity. }
  destruct (emit_all_found clock' uuid4_hex' E' E
              (fun e H => Permutation_in e (Permutation_trans HP' (Permutation_sym HP)) H)
              (fun e H => proj1 (HE e H)) [] w1 Hst Hsettled Hcalm)
    as (w2 & Erun2 & Hi & Ha & Ht & Hd & Hdec2 & Hk2 & Hcalm2).
  cbn [app] in Erun2.
  assert (Hnd2 : NoDup (map p_id (patterns w2))).
  { rewrite Hi. unfold w1. tables. rewrite map_map.
    rewrite (map_ext _ p_id prune_row_id). exact Hnd. }
  destruct (prune_weak_returns w2 Hnd2) as (pruned2 & Eprune2).
  pose proof (prune_weak_count w2 pruned2 _ Eprune2) as Hpruned2.
  rewrite count_none in Hpruned2.
  2:{ intros p Hp. destruct (p_active p) eqn:Hact; [|reflexivity].
      rewrite (Hcalm2 p Hp Hact). reflexivity. }
  rewrite (prune_rows_calm _ Hcalm2) in Eprune2.
  assert (Ew2 : with_patterns (patterns w2) w2 = w2) by (destruct w2; reflexivity).
  rewrite Ew2 in Eprune2. subst pruned2.
  assert (Hlen' : List.length E' = List.length E).
  { apply Permutation_length. eapply Permutation_trans; [exact HP'|].
    apply Permutation_sym, HP. }
  exists (count d_resolved (decisions w)), (Z.of_nat (List.length E)), pruned.
  eexists. eexists. exists (map e_description E), (map e_description E'), w1, w2.
  split; [exact Emine|]. split.
  { assert (Estats : exists stats,
               get_stats w1 = (Return stats, w1)
               /\ resolved_decisions stats = count d_resolved (decisions w)
               /\ active_patterns stats = count p_active (patterns w1)).
    { eexists. split; [reflexivity|]. split; [|reflexivity].
      cbn [resolved_decisions]. rewrite Hdec1. reflexivity. }
    destruct Estats as (stats & Estats & Hr & Hact).
    assert (Erec : get_recent_decisions 500 true w1 = (Return (resolved_recent w1), w1))
      by reflexivity.
    unfold mine_agent_in, bind. rewrite Estats, Hr, Hact.
    replace (count d_resolved (decisions w) <? MIN_EVIDENCE) with false
      by (symmetry; apply Z.ltb_ge; exact Hres).
    rewrite Erec, Erecent, run_strategies_in_listing. fold E'.
    rewrite Erun2, Eprune2, length_map, Hlen'. reflexivity. }
  split; [apply Permutation_map, HP|].
  split.
  { apply Permutation_map. eapply Permutation_trans; [exact HP'|].
    apply Permutation_sym, HP. }
  split; [intros Hsame; unfold E', E; rewrite Hsame; reflexivity|].
  repeat split; try assumption. congruence.
Qed.

End SecondPass.

(** ** The passes of the miner on sample data *)

Section PassSamples.
Import AgentMemory PatternMiner.

(** X28 on the breakout store, the set visited backwards. *)
Lemma mine_agent_collects_witness :
  exists n pruned reported w',
    mine_agent_in sample_clock sample_hex backwards "hawk" breakout_store
    = (Return (Mined "hawk" n
                     (Z.of_nat (List.length (emissions (resolved_recent breakout_store))))
                     pruned reported
                     (map e_description
                          (emissions_in (backwards (resolved_recent breakout_store))
                                        (resolved_recent breakout_store)))),
       w').
Proof.
  destruct (mine_agent_collects_the_listing sample_clock sample_hex backwards "hawk"
              breakout_store)
    as (n & pruned & reported & w' & E & _ & _ & _ & Hlen & _).
  - intros resolved. apply Permutation_sym, Permutation_rev.
  - unfold ids_distinct. apply distinct_NoDup. vm_compute. reflexivity.
  - apply Z.leb_le. vm_compute. reflexivity.
  - exists n, pruned, reported, w'. rewrite <- Hlen. exact E.
Defined.

(** X29 on the breakout store: the second pass visits the set backwards,
    draws the ids of the first and inserts nothing. *)
Lemma mine_agent_twice_witness :
  exists result1 w1 result2 w2,
    mine_agent sample_clock sample_hex "hawk" breakout_store = (Return result1, w1)
    /\ mine_agent_in sample_clock sample_hex backwards "hawk" w1 = (Return result2, w2)
    /\ map p_id (patterns w2) = map p_id (patterns w1).
Proof.
  destruct (mine_agent_twice_inserts_nothing sample_clock sample_clock
              sample_hex sample_hex model_visit backwards "hawk" breakout_store)
    as (r & e & p & t & t' & np & np' & w1 & w2 & E1 & E2 & _ & _ & _ & Hids & _).
  - intros resolved. apply Permutation_refl.
  - intros resolved. apply Permutation_sym, Permutation_rev.
  - unfold ids_distinct. apply distinct_NoDup. vm_compute. reflexivity.
  - apply Z.leb_le. vm_compute. reflexivity.
  - intros q Hq. vm_compute in Hq. destruct Hq.
  - intros x Hx. vm_compute in Hx.
    repeat (destruct Hx as [<-|Hx]; [vm_compute; lia|]). destruct Hx.
  - do 4 eexists. split; [exact E1|]. split; [exact E2 | exact Hids].
Defined.

End PassSamples.
